(** * lvmcache: the in-memory PV/VG metadata cache of LVM2

    A shallow embedding of [lib/cache/lvmcache.c] and the properties of it
    that the specification states.

    Conventions of the embedding.
    - The file-scope variables of lvmcache.c ([_pvid_hash], [_lock_hash],
      [_found_duplicates], ...) and the records they point to form one
      explicit state, [lvmcache], passed through every operation.
    - A pointer to a [struct lvmcache_info], [struct lvmcache_vginfo] or
      [struct volume_group] is a key ([ptr]) into a store of records; a NULL
      pointer is [None].  Dereferencing a key that is absent from its store
      has no counterpart in a run of the C program that keeps its pointers
      alive; the model leaves the store as it is there.
    - A [dm_hash_table] is a finite map; a table pointer that may be NULL is
      an [option] of a map.  The intrusive member list [vginfo->infos] and
      the list [_vginfos] are lists of keys; the same-name chain that starts
      at the record stored in [_vgname_hash] and follows [next] is the list
      of the records on it, primary first.
    - The fields of [struct lvmcache_info] and [struct lvmcache_vginfo]
      carry the prefixes [info_] and [vginfo_].
    - C integers used as truth values are [bool]; counters and bit sets
      are [Z], unsigned ones reduced modulo [2^32].
    - [log_warn] and [log_error] append to [log]; debug and verbose
      messages and [stack] traces are not recorded.
    - Memory allocation can fail: [heap_script] lists the outcomes of the
      allocation requests still to come. *)

From stdpp Require Import gmap strings list fin_maps.
From Stdlib Require Import ZArith Sorted.

#[local] Open Scope Z_scope.

Abbreviation ptr := nat (only parsing).
Abbreviation device := nat (only parsing).
Abbreviation dm_config_tree := nat (only parsing).
Abbreviation metadata_area := nat (only parsing).
Abbreviation data_area := nat (only parsing).

(** ** Data model *)

Definition CACHE_INVALID : Z := 0x00000001.
Definition CACHE_LOCKED : Z := 0x00000002.

(** [struct format_type], reduced to what lvmcache.c reads from it:
    [fmt->name], [fmt->orphan_vg_name] and [fmt->cmd->hostname]. *)
Record format_type := {
  fmt_name : string;
  orphan_vg_name : string;
  cmd_hostname : string
}.

(** [struct labeller]: its identity and [labeller->fmt]. *)
Record labeller := {
  labeller_id : nat;
  labeller_fmt : option format_type
}.

(** [struct label]: the labeller that made it. *)
Record label := {
  label_labeller : nat
}.

(** [struct format_instance], as made by [fmt->ops->create_instance]. *)
Record format_instance := {
  fid_vg_name : string;
  fid_vg_id : string
}.

(** One per device. *)
Record lvmcache_info := {
  info_mdas : list metadata_area;        (* list head for metadata areas *)
  info_das : list data_area;             (* list head for data areas *)
  info_bas : list data_area;             (* list head for bootloader areas *)
  info_vginfo : option ptr;         (* NULL == unknown *)
  info_label : option label;
  info_fmt : option format_type;
  info_dev : device;
  info_device_size : Z;                  (* Bytes *)
  info_status : Z
}.

(** One per VG.  The field [next] is kept in [_vgname_hash] (see the
    conventions). *)
Record lvmcache_vginfo := {
  vginfo_infos : list ptr;          (* List head for lvmcache_infos *)
  vginfo_fmt : option format_type;
  vginfo_vgname : string;                  (* "" == orphan *)
  vginfo_status : Z;
  vginfo_vgid : string;
  vginfo_creation_host : option string;
  vginfo_lock_type : option string;
  vginfo_mda_checksum : Z;
  vginfo_mda_size : Z;
  vginfo_vgmetadata_size : Z;
  vginfo_vgmetadata : option string;       (* Copy of VG metadata as format_text string *)
  vginfo_cft : option dm_config_tree;      (* Config tree created from vgmetadata *)
  vginfo_cached_vg : option ptr;
  vginfo_holders : Z;
  vginfo_vg_use_count : Z;                 (* Counter of vg reusage *)
  vginfo_precommitted : bool;              (* Is vgmetadata live or precommitted? *)
  vginfo_cached_vg_invalidated : bool      (* Signal to regenerate cached_vg *)
}.

(** [struct volume_group], reduced to what lvmcache.c reads and writes. *)
Record volume_group := {
  vg_name : string;
  vg_id : string;
  vg_status : Z;
  vg_lock_type : option string;
  vg_pvs : list string;             (* the ids of the PVs on vg->pvs *)
  vg_cache_vgmetadata : bool;       (* vg->cmd->current_settings.cache_vgmetadata *)
  vg_vginfo : option ptr            (* vg->vginfo *)
}.

(** [struct lvmcache_vgsummary]. *)
Record lvmcache_vgsummary := {
  vgs_vgname : option string;
  vgs_vgid : string;
  vgs_vgstatus : Z;
  vgs_creation_host : option string;
  vgs_lock_type : option string;
  vgs_mda_checksum : Z;
  vgs_mda_size : Z
}.

Inductive log_level := LOG_WARN | LOG_ERROR | LOG_INTERNAL_ERROR.

(** A logged message: its class, the format string of the source and the
    arguments printed into it. *)
Record log_msg := {
  msg_level : log_level;
  msg_text : string;
  msg_args : list string
}.

(** The state of the cache: the file-scope variables of lvmcache.c, the
    records they reach, the [pvid] field of every [struct device], and the
    allocator and the log the code runs against. *)
Record lvmcache := {
  _pvid_hash : option (gmap string ptr);
  _vgid_hash : option (gmap string ptr);
  _vgname_hash : option (gmap string (list ptr));
  _lock_hash : option (gmap string unit);
  _vginfos : list ptr;
  _scanning_in_progress : bool;
  _has_scanned : bool;
  _vgs_locked : Z;
  _vg_global_lock_held : bool;      (* Global lock held when cache wiped? *)
  _found_duplicates : bool;
  info_store : gmap ptr lvmcache_info;
  vginfo_store : gmap ptr lvmcache_vginfo;
  vg_store : gmap ptr volume_group;
  dev_pvid : gmap device string;
  next_ptr : ptr;
  heap_script : list bool;
  log : list log_msg
}.

(** Field updates. *)
Definition set_info_vginfo (v : _) (r : lvmcache_info) : lvmcache_info :=
  {| info_mdas := info_mdas r; info_das := info_das r;
     info_bas := info_bas r; info_vginfo := v; info_label := info_label r;
     info_fmt := info_fmt r; info_dev := info_dev r;
     info_device_size := info_device_size r; info_status := info_status r |}.

Definition set_info_label (v : _) (r : lvmcache_info) : lvmcache_info :=
  {| info_mdas := info_mdas r; info_das := info_das r;
     info_bas := info_bas r; info_vginfo := info_vginfo r; info_label := v;
     info_fmt := info_fmt r; info_dev := info_dev r;
     info_device_size := info_device_size r; info_status := info_status r |}.

Definition set_info_fmt (v : _) (r : lvmcache_info) : lvmcache_info :=
  {| info_mdas := info_mdas r; info_das := info_das r;
     info_bas := info_bas r; info_vginfo := info_vginfo r;
     info_label := info_label r; info_fmt := v; info_dev := info_dev r;
     info_device_size := info_device_size r; info_status := info_status r |}.

Definition set_info_dev (v : _) (r : lvmcache_info) : lvmcache_info :=
  {| info_mdas := info_mdas r; info_das := info_das r;
     info_bas := info_bas r; info_vginfo := info_vginfo r;
     info_label := info_label r; info_fmt := info_fmt r; info_dev := v;
     info_device_size := info_device_size r; info_status := info_status r |}.

Definition set_info_status (v : _) (r : lvmcache_info) : lvmcache_info :=
  {| info_mdas := info_mdas r; info_das := info_das r;
     info_bas := info_bas r; info_vginfo := info_vginfo r;
     info_label := info_label r; info_fmt := info_fmt r;
     info_dev := info_dev r; info_device_size := info_device_size r;
     info_status := v |}.

Definition set_vginfo_infos (v : _) (r : lvmcache_vginfo) : lvmcache_vginfo :=
  {| vginfo_infos := v; vginfo_fmt := vginfo_fmt r;
     vginfo_vgname := vginfo_vgname r; vginfo_status := vginfo_status r;
     vginfo_vgid := vginfo_vgid r;
     vginfo_creation_host := vginfo_creation_host r;
     vginfo_lock_type := vginfo_lock_type r;
     vginfo_mda_checksum := vginfo_mda_checksum r;
     vginfo_mda_size := vginfo_mda_size r;
     vginfo_vgmetadata_size := vginfo_vgmetadata_size r;
     vginfo_vgmetadata := vginfo_vgmetadata r; vginfo_cft := vginfo_cft r;
     vginfo_cached_vg := vginfo_cached_vg r;
     vginfo_holders := vginfo_holders r;
     vginfo_vg_use_count := vginfo_vg_use_count r;
     vginfo_precommitted := vginfo_precommitted r;
     vginfo_cached_vg_invalidated := vginfo_cached_vg_invalidated r |}.

Definition set_vginfo_fmt (v : _) (r : lvmcache_vginfo) : lvmcache_vginfo :=
  {| vginfo_infos := vginfo_infos r; vginfo_fmt := v;
     vginfo_vgname := vginfo_vgname r; vginfo_status := vginfo_status r;
     vginfo_vgid := vginfo_vgid r;
     vginfo_creation_host := vginfo_creation_host r;
     vginfo_lock_type := vginfo_lock_type r;
     vginfo_mda_checksum := vginfo_mda_checksum r;
     vginfo_mda_size := vginfo_mda_size r;
     vginfo_vgmetadata_size := vginfo_vgmetadata_size r;
     vginfo_vgmetadata := vginfo_vgmetadata r; vginfo_cft := vginfo_cft r;
     vginfo_cached_vg := vginfo_cached_vg r;
     vginfo_holders := vginfo_holders r;
     vginfo_vg_use_count := vginfo_vg_use_count r;
     vginfo_precommitted := vginfo_precommitted r;
     vginfo_cached_vg_invalidated := vginfo_cached_vg_invalidated r |}.

Definition set_vginfo_status (v : _) (r : lvmcache_vginfo) : lvmcache_vginfo :=
  {| vginfo_infos := vginfo_infos r; vginfo_fmt := vginfo_fmt r;
     vginfo_vgname := vginfo_vgname r; vginfo_status := v;
     vginfo_vgid := vginfo_vgid r;
     vginfo_creation_host := vginfo_creation_host r;
     vginfo_lock_type := vginfo_lock_type r;
     vginfo_mda_checksum := vginfo_mda_checksum r;
     vginfo_mda_size := vginfo_mda_size r;
     vginfo_vgmetadata_size := vginfo_vgmetadata_size r;
     vginfo_vgmetadata := vginfo_vgmetadata r; vginfo_cft := vginfo_cft r;
     vginfo_cached_vg := vginfo_cached_vg r;
     vginfo_holders := vginfo_holders r;
     vginfo_vg_use_count := vginfo_vg_use_count r;
     vginfo_precommitted := vginfo_precommitted r;
     vginfo_cached_vg_invalidated := vginfo_cached_vg_invalidated r |}.

Definition set_vginfo_vgid (v : _) (r : lvmcache_vginfo) : lvmcache_vginfo :=
  {| vginfo_infos := vginfo_infos r; vginfo_fmt := vginfo_fmt r;
     vginfo_vgname := vginfo_vgname r; vginfo_status := vginfo_status r;
     vginfo_vgid := v; vginfo_creation_host := vginfo_creation_host r;
     vginfo_lock_type := vginfo_lock_type r;
     vginfo_mda_checksum := vginfo_mda_checksum r;
     vginfo_mda_size := vginfo_mda_size r;
     vginfo_vgmetadata_size := vginfo_vgmetadata_size r;
     vginfo_vgmetadata := vginfo_vgmetadata r; vginfo_cft := vginfo_cft r;
     vginfo_cached_vg := vginfo_cached_vg r;
     vginfo_holders := vginfo_holders r;
     vginfo_vg_use_count := vginfo_vg_use_count r;
     vginfo_precommitted := vginfo_precommitted r;
     vginfo_cached_vg_invalidated := vginfo_cached_vg_invalidated r |}.

Definition set_vginfo_creation_host (v : _) (r : lvmcache_vginfo) : lvmcache_vginfo :=
  {| vginfo_infos := vginfo_infos r; vginfo_fmt := vginfo_fmt r;
     vginfo_vgname := vginfo_vgname r; vginfo_status := vginfo_status r;
     vginfo_vgid := vginfo_vgid r; vginfo_creation_host := v;
     vginfo_lock_type := vginfo_lock_type r;
     vginfo_mda_checksum := vginfo_mda_checksum r;
     vginfo_mda_size := vginfo_mda_size r;
     vginfo_vgmetadata_size := vginfo_vgmetadata_size r;
     vginfo_vgmetadata := vginfo_vgmetadata r; vginfo_cft := vginfo_cft r;
     vginfo_cached_vg := vginfo_cached_vg r;
     vginfo_holders := vginfo_holders r;
     vginfo_vg_use_count := vginfo_vg_use_count r;
     vginfo_precommitted := vginfo_precommitted r;
     vginfo_cached_vg_invalidated := vginfo_cached_vg_invalidated r |}.

Definition set_vginfo_lock_type (v : _) (r : lvmcache_vginfo) : lvmcache_vginfo :=
  {| vginfo_infos := vginfo_infos r; vginfo_fmt := vginfo_fmt r;
     vginfo_vgname := vginfo_vgname r; vginfo_status := vginfo_status r;
     vginfo_vgid := vginfo_vgid r;
     vginfo_creation_host := vginfo_creation_host r; vginfo_lock_type := v;
     vginfo_mda_checksum := vginfo_mda_checksum r;
     vginfo_mda_size := vginfo_mda_size r;
     vginfo_vgmetadata_size := vginfo_vgmetadata_size r;
     vginfo_vgmetadata := vginfo_vgmetadata r; vginfo_cft := vginfo_cft r;
     vginfo_cached_vg := vginfo_cached_vg r;
     vginfo_holders := vginfo_holders r;
     vginfo_vg_use_count := vginfo_vg_use_count r;
     vginfo_precommitted := vginfo_precommitted r;
     vginfo_cached_vg_invalidated := vginfo_cached_vg_invalidated r |}.

Definition set_vginfo_mda_checksum (v : _) (r : lvmcache_vginfo) : lvmcache_vginfo :=
  {| vginfo_infos := vginfo_infos r; vginfo_fmt := vginfo_fmt r;
     vginfo_vgname := vginfo_vgname r; vginfo_status := vginfo_status r;
     vginfo_vgid := vginfo_vgid r;
     vginfo_creation_host := vginfo_creation_host r;
     vginfo_lock_type := vginfo_lock_type r; vginfo_mda_checksum := v;
     vginfo_mda_size := vginfo_mda_size r;
     vginfo_vgmetadata_size := vginfo_vgmetadata_size r;
     vginfo_vgmetadata := vginfo_vgmetadata r; vginfo_cft := vginfo_cft r;
     vginfo_cached_vg := vginfo_cached_vg r;
     vginfo_holders := vginfo_holders r;
     vginfo_vg_use_count := vginfo_vg_use_count r;
     vginfo_precommitted := vginfo_precommitted r;
     vginfo_cached_vg_invalidated := vginfo_cached_vg_invalidated r |}.

Definition set_vginfo_mda_size (v : _) (r : lvmcache_vginfo) : lvmcache_vginfo :=
  {| vginfo_infos := vginfo_infos r; vginfo_fmt := vginfo_fmt r;
     vginfo_vgname := vginfo_vgname r; vginfo_status := vginfo_status r;
     vginfo_vgid := vginfo_vgid r;
     vginfo_creation_host := vginfo_creation_host r;
     vginfo_lock_type := vginfo_lock_type r;
     vginfo_mda_checksum := vginfo_mda_checksum r; vginfo_mda_size := v;
     vginfo_vgmetadata_size := vginfo_vgmetadata_size r;
     vginfo_vgmetadata := vginfo_vgmetadata r; vginfo_cft := vginfo_cft r;
     vginfo_cached_vg := vginfo_cached_vg r;
     vginfo_holders := vginfo_holders r;
     vginfo_vg_use_count := vginfo_vg_use_count r;
     vginfo_precommitted := vginfo_precommitted r;
     vginfo_cached_vg_invalidated := vginfo_cached_vg_invalidated r |}.

Definition set_vginfo_vgmetadata_size (v : _) (r : lvmcache_vginfo) : lvmcache_vginfo :=
  {| vginfo_infos := vginfo_infos r; vginfo_fmt := vginfo_fmt r;
     vginfo_vgname := vginfo_vgname r; vginfo_status := vginfo_status r;
     vginfo_vgid := vginfo_vgid r;
     vginfo_creation_host := vginfo_creation_host r;
     vginfo_lock_type := vginfo_lock_type r;
     vginfo_mda_checksum := vginfo_mda_checksum r;
     vginfo_mda_size := vginfo_mda_size r; vginfo_vgmetadata_size := v;
     vginfo_vgmetadata := vginfo_vgmetadata r; vginfo_cft := vginfo_cft r;
     vginfo_cached_vg := vginfo_cached_vg r;
     vginfo_holders := vginfo_holders r;
     vginfo_vg_use_count := vginfo_vg_use_count r;
     vginfo_precommitted := vginfo_precommitted r;
     vginfo_cached_vg_invalidated := vginfo_cached_vg_invalidated r |}.

Definition set_vginfo_vgmetadata (v : _) (r : lvmcache_vginfo) : lvmcache_vginfo :=
  {| vginfo_infos := vginfo_infos r; vginfo_fmt := vginfo_fmt r;
     vginfo_vgname := vginfo_vgname r; vginfo_status := vginfo_status r;
     vginfo_vgid := vginfo_vgid r;
     vginfo_creation_host := vginfo_creation_host r;
     vginfo_lock_type := vginfo_lock_type r;
     vginfo_mda_checksum := vginfo_mda_checksum r;
     vginfo_mda_size := vginfo_mda_size r;
     vginfo_vgmetadata_size := vginfo_vgmetadata_size r;
     vginfo_vgmetadata := v; vginfo_cft := vginfo_cft r;
     vginfo_cached_vg := vginfo_cached_vg r;
     vginfo_holders := vginfo_holders r;
     vginfo_vg_use_count := vginfo_vg_use_count r;
     vginfo_precommitted := vginfo_precommitted r;
     vginfo_cached_vg_invalidated := vginfo_cached_vg_invalidated r |}.

Definition set_vginfo_cft (v : _) (r : lvmcache_vginfo) : lvmcache_vginfo :=
  {| vginfo_infos := vginfo_infos r; vginfo_fmt := vginfo_fmt r;
     vginfo_vgname := vginfo_vgname r; vginfo_status := vginfo_status r;
     vginfo_vgid := vginfo_vgid r;
     vginfo_creation_host := vginfo_creation_host r;
     vginfo_lock_type := vginfo_lock_type r;
     vginfo_mda_checksum := vginfo_mda_checksum r;
     vginfo_mda_size := vginfo_mda_size r;
     vginfo_vgmetadata_size := vginfo_vgmetadata_size r;
     vginfo_vgmetadata := vginfo_vgmetadata r; vginfo_cft := v;
     vginfo_cached_vg := vginfo_cached_vg r;
     vginfo_holders := vginfo_holders r;
     vginfo_vg_use_count := vginfo_vg_use_count r;
     vginfo_precommitted := vginfo_precommitted r;
     vginfo_cached_vg_invalidated := vginfo_cached_vg_invalidated r |}.

Definition set_vginfo_cached_vg (v : _) (r : lvmcache_vginfo) : lvmcache_vginfo :=
  {| vginfo_infos := vginfo_infos r; vginfo_fmt := vginfo_fmt r;
     vginfo_vgname := vginfo_vgname r; vginfo_status := vginfo_status r;
     vginfo_vgid := vginfo_vgid r;
     vginfo_creation_host := vginfo_creation_host r;
     vginfo_lock_type := vginfo_lock_type r;
     vginfo_mda_checksum := vginfo_mda_checksum r;
     vginfo_mda_size := vginfo_mda_size r;
     vginfo_vgmetadata_size := vginfo_vgmetadata_size r;
     vginfo_vgmetadata := vginfo_vgmetadata r; vginfo_cft := vginfo_cft r;
     vginfo_cached_vg := v; vginfo_holders := vginfo_holders r;
     vginfo_vg_use_count := vginfo_vg_use_count r;
     vginfo_precommitted := vginfo_precommitted r;
     vginfo_cached_vg_invalidated := vginfo_cached_vg_invalidated r |}.

Definition set_vginfo_holders (v : _) (r : lvmcache_vginfo) : lvmcache_vginfo :=
  {| vginfo_infos := vginfo_infos r; vginfo_fmt := vginfo_fmt r;
     vginfo_vgname := vginfo_vgname r; vginfo_status := vginfo_status r;
     vginfo_vgid := vginfo_vgid r;
     vginfo_creation_host := vginfo_creation_host r;
     vginfo_lock_type := vginfo_lock_type r;
     vginfo_mda_checksum := vginfo_mda_checksum r;
     vginfo_mda_size := vginfo_mda_size r;
     vginfo_vgmetadata_size := vginfo_vgmetadata_size r;
     vginfo_vgmetadata := vginfo_vgmetadata r; vginfo_cft := vginfo_cft r;
     vginfo_cached_vg := vginfo_cached_vg r; vginfo_holders := v;
     vginfo_vg_use_count := vginfo_vg_use_count r;
     vginfo_precommitted := vginfo_precommitted r;
     vginfo_cached_vg_invalidated := vginfo_cached_vg_invalidated r |}.

Definition set_vginfo_vg_use_count (v : _) (r : lvmcache_vginfo) : lvmcache_vginfo :=
  {| vginfo_infos := vginfo_infos r; vginfo_fmt := vginfo_fmt r;
     vginfo_vgname := vginfo_vgname r; vginfo_status := vginfo_status r;
     vginfo_vgid := vginfo_vgid r;
     vginfo_creation_host := vginfo_creation_host r;
     vginfo_lock_type := vginfo_lock_type r;
     vginfo_mda_checksum := vginfo_mda_checksum r;
     vginfo_mda_size := vginfo_mda_size r;
     vginfo_vgmetadata_size := vginfo_vgmetadata_size r;
     vginfo_vgmetadata := vginfo_vgmetadata r; vginfo_cft := vginfo_cft r;
     vginfo_cached_vg := vginfo_cached_vg r;
     vginfo_holders := vginfo_holders r; vginfo_vg_use_count := v;
     vginfo_precommitted := vginfo_precommitted r;
     vginfo_cached_vg_invalidated := vginfo_cached_vg_invalidated r |}.

Definition set_vginfo_precommitted (v : _) (r : lvmcache_vginfo) : lvmcache_vginfo :=
  {| vginfo_infos := vginfo_infos r; vginfo_fmt := vginfo_fmt r;
     vginfo_vgname := vginfo_vgname r; vginfo_status := vginfo_status r;
     vginfo_vgid := vginfo_vgid r;
     vginfo_creation_host := vginfo_creation_host r;
     vginfo_lock_type := vginfo_lock_type r;
     vginfo_mda_checksum := vginfo_mda_checksum r;
     vginfo_mda_size := vginfo_mda_size r;
     vginfo_vgmetadata_size := vginfo_vgmetadata_size r;
     vginfo_vgmetadata := vginfo_vgmetadata r; vginfo_cft := vginfo_cft r;
     vginfo_cached_vg := vginfo_cached_vg r;
     vginfo_holders := vginfo_holders r;
     vginfo_vg_use_count := vginfo_vg_use_count r; vginfo_precommitted := v;
     vginfo_cached_vg_invalidated := vginfo_cached_vg_invalidated r |}.

Definition set_vginfo_cached_vg_invalidated (v : _) (r : lvmcache_vginfo) : lvmcache_vginfo :=
  {| vginfo_infos := vginfo_infos r; vginfo_fmt := vginfo_fmt r;
     vginfo_vgname := vginfo_vgname r; vginfo_status := vginfo_status r;
     vginfo_vgid := vginfo_vgid r;
     vginfo_creation_host := vginfo_creation_host r;
     vginfo_lock_type := vginfo_lock_type r;
     vginfo_mda_checksum := vginfo_mda_checksum r;
     vginfo_mda_size := vginfo_mda_size r;
     vginfo_vgmetadata_size := vginfo_vgmetadata_size r;
     vginfo_vgmetadata := vginfo_vgmetadata r; vginfo_cft := vginfo_cft r;
     vginfo_cached_vg := vginfo_cached_vg r;
     vginfo_holders := vginfo_holders r;
     vginfo_vg_use_count := vginfo_vg_use_count r;
     vginfo_precommitted := vginfo_precommitted r;
     vginfo_cached_vg_invalidated := v |}.

Definition set__pvid_hash (v : _) (r : lvmcache) : lvmcache :=
  {| _pvid_hash := v; _vgid_hash := _vgid_hash r;
     _vgname_hash := _vgname_hash r; _lock_hash := _lock_hash r;
     _vginfos := _vginfos r;
     _scanning_in_progress := _scanning_in_progress r;
     _has_scanned := _has_scanned r; _vgs_locked := _vgs_locked r;
     _vg_global_lock_held := _vg_global_lock_held r;
     _found_duplicates := _found_duplicates r; info_store := info_store r;
     vginfo_store := vginfo_store r; vg_store := vg_store r;
     dev_pvid := dev_pvid r; next_ptr := next_ptr r;
     heap_script := heap_script r; log := log r |}.

Definition set__vgid_hash (v : _) (r : lvmcache) : lvmcache :=
  {| _pvid_hash := _pvid_hash r; _vgid_hash := v;
     _vgname_hash := _vgname_hash r; _lock_hash := _lock_hash r;
     _vginfos := _vginfos r;
     _scanning_in_progress := _scanning_in_progress r;
     _has_scanned := _has_scanned r; _vgs_locked := _vgs_locked r;
     _vg_global_lock_held := _vg_global_lock_held r;
     _found_duplicates := _found_duplicates r; info_store := info_store r;
     vginfo_store := vginfo_store r; vg_store := vg_store r;
     dev_pvid := dev_pvid r; next_ptr := next_ptr r;
     heap_script := heap_script r; log := log r |}.

Definition set__vgname_hash (v : _) (r : lvmcache) : lvmcache :=
  {| _pvid_hash := _pvid_hash r; _vgid_hash := _vgid_hash r;
     _vgname_hash := v; _lock_hash := _lock_hash r; _vginfos := _vginfos r;
     _scanning_in_progress := _scanning_in_progress r;
     _has_scanned := _has_scanned r; _vgs_locked := _vgs_locked r;
     _vg_global_lock_held := _vg_global_lock_held r;
     _found_duplicates := _found_duplicates r; info_store := info_store r;
     vginfo_store := vginfo_store r; vg_store := vg_store r;
     dev_pvid := dev_pvid r; next_ptr := next_ptr r;
     heap_script := heap_script r; log := log r |}.

Definition set__lock_hash (v : _) (r : lvmcache) : lvmcache :=
  {| _pvid_hash := _pvid_hash r; _vgid_hash := _vgid_hash r;
     _vgname_hash := _vgname_hash r; _lock_hash := v; _vginfos := _vginfos r;
     _scanning_in_progress := _scanning_in_progress r;
     _has_scanned := _has_scanned r; _vgs_locked := _vgs_locked r;
     _vg_global_lock_held := _vg_global_lock_held r;
     _found_duplicates := _found_duplicates r; info_store := info_store r;
     vginfo_store := vginfo_store r; vg_store := vg_store r;
     dev_pvid := dev_pvid r; next_ptr := next_ptr r;
     heap_script := heap_script r; log := log r |}.

Definition set__vginfos (v : _) (r : lvmcache) : lvmcache :=
  {| _pvid_hash := _pvid_hash r; _vgid_hash := _vgid_hash r;
     _vgname_hash := _vgname_hash r; _lock_hash := _lock_hash r;
     _vginfos := v; _scanning_in_progress := _scanning_in_progress r;
     _has_scanned := _has_scanned r; _vgs_locked := _vgs_locked r;
     _vg_global_lock_held := _vg_global_lock_held r;
     _found_duplicates := _found_duplicates r; info_store := info_store r;
     vginfo_store := vginfo_store r; vg_store := vg_store r;
     dev_pvid := dev_pvid r; next_ptr := next_ptr r;
     heap_script := heap_script r; log := log r |}.


Definition set__has_scanned (v : _) (r : lvmcache) : lvmcache :=
  {| _pvid_hash := _pvid_hash r; _vgid_hash := _vgid_hash r;
     _vgname_hash := _vgname_hash r; _lock_hash := _lock_hash r;
     _vginfos := _vginfos r;
     _scanning_in_progress := _scanning_in_progress r; _has_scanned := v;
     _vgs_locked := _vgs_locked r;
     _vg_global_lock_held := _vg_global_lock_held r;
     _found_duplicates := _found_duplicates r; info_store := info_store r;
     vginfo_store := vginfo_store r; vg_store := vg_store r;
     dev_pvid := dev_pvid r; next_ptr := next_ptr r;
     heap_script := heap_script r; log := log r |}.

Definition set__vgs_locked (v : _) (r : lvmcache) : lvmcache :=
  {| _pvid_hash := _pvid_hash r; _vgid_hash := _vgid_hash r;
     _vgname_hash := _vgname_hash r; _lock_hash := _lock_hash r;
     _vginfos := _vginfos r;
     _scanning_in_progress := _scanning_in_progress r;
     _has_scanned := _has_scanned r; _vgs_locked := v;
     _vg_global_lock_held := _vg_global_lock_held r;
     _found_duplicates := _found_duplicates r; info_store := info_store r;
     vginfo_store := vginfo_store r; vg_store := vg_store r;
     dev_pvid := dev_pvid r; next_ptr := next_ptr r;
     heap_script := heap_script r; log := log r |}.

Definition set__vg_global_lock_held (v : _) (r : lvmcache) : lvmcache :=
  {| _pvid_hash := _pvid_hash r; _vgid_hash := _vgid_hash r;
     _vgname_hash := _vgname_hash r; _lock_hash := _lock_hash r;
     _vginfos := _vginfos r;
     _scanning_in_progress := _scanning_in_progress r;
     _has_scanned := _has_scanned r; _vgs_locked := _vgs_locked r;
     _vg_global_lock_held := v; _found_duplicates := _found_duplicates r;
     info_store := info_store r; vginfo_store := vginfo_store r;
     vg_store := vg_store r; dev_pvid := dev_pvid r; next_ptr := next_ptr r;
     heap_script := heap_script r; log := log r |}.

Definition set__found_duplicates (v : _) (r : lvmcache) : lvmcache :=
  {| _pvid_hash := _pvid_hash r; _vgid_hash := _vgid_hash r;
     _vgname_hash := _vgname_hash r; _lock_hash := _lock_hash r;
     _vginfos := _vginfos r;
     _scanning_in_progress := _scanning_in_progress r;
     _has_scanned := _has_scanned r; _vgs_locked := _vgs_locked r;
     _vg_global_lock_held := _vg_global_lock_held r; _found_duplicates := v;
     info_store := info_store r; vginfo_store := vginfo_store r;
     vg_store := vg_store r; dev_pvid := dev_pvid r; next_ptr := next_ptr r;
     heap_script := heap_script r; log := log r |}.

Definition set_info_store (v : _) (r : lvmcache) : lvmcache :=
  {| _pvid_hash := _pvid_hash r; _vgid_hash := _vgid_hash r;
     _vgname_hash := _vgname_hash r; _lock_hash := _lock_hash r;
     _vginfos := _vginfos r;
     _scanning_in_progress := _scanning_in_progress r;
     _has_scanned := _has_scanned r; _vgs_locked := _vgs_locked r;
     _vg_global_lock_held := _vg_global_lock_held r;
     _found_duplicates := _found_duplicates r; info_store := v;
     vginfo_store := vginfo_store r; vg_store := vg_store r;
     dev_pvid := dev_pvid r; next_ptr := next_ptr r;
     heap_script := heap_script r; log := log r |}.

Definition set_vginfo_store (v : _) (r : lvmcache) : lvmcache :=
  {| _pvid_hash := _pvid_hash r; _vgid_hash := _vgid_hash r;
     _vgname_hash := _vgname_hash r; _lock_hash := _lock_hash r;
     _vginfos := _vginfos r;
     _scanning_in_progress := _scanning_in_progress r;
     _has_scanned := _has_scanned r; _vgs_locked := _vgs_locked r;
     _vg_global_lock_held := _vg_global_lock_held r;
     _found_duplicates := _found_duplicates r; info_store := info_store r;
     vginfo_store := v; vg_store := vg_store r; dev_pvid := dev_pvid r;
     next_ptr := next_ptr r; heap_script := heap_script r; log := log r |}.

Definition set_vg_store (v : _) (r : lvmcache) : lvmcache :=
  {| _pvid_hash := _pvid_hash r; _vgid_hash := _vgid_hash r;
     _vgname_hash := _vgname_hash r; _lock_hash := _lock_hash r;
     _vginfos := _vginfos r;
     _scanning_in_progress := _scanning_in_progress r;
     _has_scanned := _has_scanned r; _vgs_locked := _vgs_locked r;
     _vg_global_lock_held := _vg_global_lock_held r;
     _found_duplicates := _found_duplicates r; info_store := info_store r;
     vginfo_store := vginfo_store r; vg_store := v; dev_pvid := dev_pvid r;
     next_ptr := next_ptr r; heap_script := heap_script r; log := log r |}.

Definition set_dev_pvid (v : _) (r : lvmcache) : lvmcache :=
  {| _pvid_hash := _pvid_hash r; _vgid_hash := _vgid_hash r;
     _vgname_hash := _vgname_hash r; _lock_hash := _lock_hash r;
     _vginfos := _vginfos r;
     _scanning_in_progress := _scanning_in_progress r;
     _has_scanned := _has_scanned r; _vgs_locked := _vgs_locked r;
     _vg_global_lock_held := _vg_global_lock_held r;
     _found_duplicates := _found_duplicates r; info_store := info_store r;
     vginfo_store := vginfo_store r; vg_store := vg_store r; dev_pvid := v;
     next_ptr := next_ptr r; heap_script := heap_script r; log := log r |}.

Definition set_next_ptr (v : _) (r : lvmcache) : lvmcache :=
  {| _pvid_hash := _pvid_hash r; _vgid_hash := _vgid_hash r;
     _vgname_hash := _vgname_hash r; _lock_hash := _lock_hash r;
     _vginfos := _vginfos r;
     _scanning_in_progress := _scanning_in_progress r;
     _has_scanned := _has_scanned r; _vgs_locked := _vgs_locked r;
     _vg_global_lock_held := _vg_global_lock_held r;
     _found_duplicates := _found_duplicates r; info_store := info_store r;
     vginfo_store := vginfo_store r; vg_store := vg_store r;
     dev_pvid := dev_pvid r; next_ptr := v; heap_script := heap_script r;
     log := log r |}.

Definition set_heap_script (v : _) (r : lvmcache) : lvmcache :=
  {| _pvid_hash := _pvid_hash r; _vgid_hash := _vgid_hash r;
     _vgname_hash := _vgname_hash r; _lock_hash := _lock_hash r;
     _vginfos := _vginfos r;
     _scanning_in_progress := _scanning_in_progress r;
     _has_scanned := _has_scanned r; _vgs_locked := _vgs_locked r;
     _vg_global_lock_held := _vg_global_lock_held r;
     _found_duplicates := _found_duplicates r; info_store := info_store r;
     vginfo_store := vginfo_store r; vg_store := vg_store r;
     dev_pvid := dev_pvid r; next_ptr := next_ptr r; heap_script := v;
     log := log r |}.

Definition set_log (v : _) (r : lvmcache) : lvmcache :=
  {| _pvid_hash := _pvid_hash r; _vgid_hash := _vgid_hash r;
     _vgname_hash := _vgname_hash r; _lock_hash := _lock_hash r;
     _vginfos := _vginfos r;
     _scanning_in_progress := _scanning_in_progress r;
     _has_scanned := _has_scanned r; _vgs_locked := _vgs_locked r;
     _vg_global_lock_held := _vg_global_lock_held r;
     _found_duplicates := _found_duplicates r; info_store := info_store r;
     vginfo_store := vginfo_store r; vg_store := vg_store r;
     dev_pvid := dev_pvid r; next_ptr := next_ptr r;
     heap_script := heap_script r; log := v |}.

Definition set_vg_vginfo (v : _) (r : volume_group) : volume_group :=
  {| vg_name := vg_name r; vg_id := vg_id r; vg_status := vg_status r;
     vg_lock_type := vg_lock_type r; vg_pvs := vg_pvs r;
     vg_cache_vgmetadata := vg_cache_vgmetadata r; vg_vginfo := v |}.

(** ** Collaborators

    The device layer, the label and format backends, the metadata daemon
    and the cluster state are outside lvmcache.c.  What the code obtains
    from them is collected here; every operation is parameterised by it. *)

(** [struct dev_filter]: its [use_count]. *)
Record dev_filter := {
  use_count : Z
}.

(** [struct cmd_context], reduced to what [lvmcache_label_scan] reads. *)
Record cmd_context := {
  full_filter : option dev_filter;
  independent_metadata_areas : bool;
  formats : list format_type
}.

Record collaborators := {
  lvmetad_active : bool;
  critical_section : bool;
  lvmetad_vg_lookup : cmd_context -> option string -> option string -> option ptr;
  export_vg_to_buffer : volume_group -> Z * string;
  id_write_format : string -> option string;
  create_instance : format_type -> string -> string -> option format_instance;
  dm_config_from_string : string -> option dm_config_tree;
  import_vg_from_config_tree :
    dm_config_tree -> format_instance -> option volume_group;
  dm_pool_lock : volume_group -> bool;
  label_read : device -> lvmcache -> lvmcache;
  dev_name : device -> string;
  mdas_empty_or_ignored : list metadata_area -> bool;
  refresh_filters : cmd_context -> option cmd_context;
  dev_iter_create : dev_filter -> bool -> option (list device);
  fmt_scan : format_type -> option (lvmcache -> bool * lvmcache)
}.

(** ** Sample data

    Concrete values for the header constants, a set of collaborators and a
    few cache states, on which the operations are run. *)
Module Sample.

Definition id_len : nat := 32.
Definition exported_vg : Z := 2.
Definition vg_global : string := "#global".
Definition vg_orphans : string := "#orphans".
Definition global_vg (vgname : string) : bool := String.eqb vgname vg_global.
Definition orphan_vg (vgname : string) : bool := String.prefix vg_orphans vgname.

Definition text_format : format_type :=
  {| fmt_name := "lvm2"; orphan_vg_name := "#orphans_lvm2";
     cmd_hostname := "here" |}.

Definition text_labeller : labeller :=
  {| labeller_id := 0; labeller_fmt := Some text_format |}.

Definition parsed (name id : string) : volume_group :=
  {| vg_name := name; vg_id := id; vg_status := 0; vg_lock_type := None;
     vg_pvs := []; vg_cache_vgmetadata := true; vg_vginfo := None |}.

(** No daemon, no critical section; every collaborator succeeds, the text
    of a VG is its name, and reading a label changes nothing. *)
Definition env : collaborators :=
  {| lvmetad_active := false;
     critical_section := false;
     lvmetad_vg_lookup := fun _ _ _ => None;
     export_vg_to_buffer :=
       fun vg => (Z.of_nat (String.length (vg_name vg)) + 1, vg_name vg);
     id_write_format := fun id => Some id;
     create_instance :=
       fun _ name id => Some {| fid_vg_name := name; fid_vg_id := id |};
     dm_config_from_string := fun text => Some (String.length text);
     import_vg_from_config_tree :=
       fun _ fid => Some (parsed (fid_vg_name fid) (fid_vg_id fid));
     dm_pool_lock := fun _ => true;
     label_read := fun _ st => st;
     dev_name := fun dev => if Nat.eqb dev 1 then "/dev/sda" else "/dev/sdb";
     mdas_empty_or_ignored := fun mdas => bool_decide (mdas = []);
     refresh_filters := fun cmd => Some cmd;
     dev_iter_create := fun _ _ => Some [];
     fmt_scan := fun _ => None |}.

(** The same with the metadata daemon active, holding a VG of its own. *)
Definition daemon_env : collaborators :=
  {| lvmetad_active := true;
     critical_section := critical_section env;
     lvmetad_vg_lookup := fun _ _ _ => Some 7%nat;
     export_vg_to_buffer := export_vg_to_buffer env;
     id_write_format := id_write_format env;
     create_instance := create_instance env;
     dm_config_from_string := dm_config_from_string env;
     import_vg_from_config_tree := import_vg_from_config_tree env;
     dm_pool_lock := dm_pool_lock env;
     label_read := label_read env;
     dev_name := dev_name env;
     mdas_empty_or_ignored := mdas_empty_or_ignored env;
     refresh_filters := refresh_filters env;
     dev_iter_create := dev_iter_create env;
     fmt_scan := fmt_scan env |}.

(** The same with a format backend that fails to import a VG. *)
Definition broken_env : collaborators :=
  {| lvmetad_active := false;
     critical_section := critical_section env;
     lvmetad_vg_lookup := lvmetad_vg_lookup env;
     export_vg_to_buffer := export_vg_to_buffer env;
     id_write_format := id_write_format env;
     create_instance := create_instance env;
     dm_config_from_string := dm_config_from_string env;
     import_vg_from_config_tree := fun _ _ => None;
     dm_pool_lock := dm_pool_lock env;
     label_read := label_read env;
     dev_name := dev_name env;
     mdas_empty_or_ignored := mdas_empty_or_ignored env;
     refresh_filters := refresh_filters env;
     dev_iter_create := dev_iter_create env;
     fmt_scan := fmt_scan env |}.

Definition cmd : cmd_context :=
  {| full_filter := Some {| use_count := 1 |};
     independent_metadata_areas := false;
     formats := [text_format] |}.

(** The PV "pvA" on device 1, member of the VG record 2. *)
Definition pv_a (status : Z) : lvmcache_info :=
  {| info_mdas := []; info_das := []; info_bas := [];
     info_vginfo := Some 2%nat;
     info_label := Some {| label_labeller := 0 |};
     info_fmt := Some text_format; info_dev := 1%nat;
     info_device_size := 0; info_status := status |}.

(** The VG "vg1" with the PV record 1 as its only member. *)
Definition vg1 (blob : option string) (pre : bool) : lvmcache_vginfo :=
  {| vginfo_infos := [1%nat]; vginfo_fmt := Some text_format;
     vginfo_vgname := "vg1"; vginfo_status := 0; vginfo_vgid := "idvg1";
     vginfo_creation_host := None; vginfo_lock_type := None;
     vginfo_mda_checksum := 0; vginfo_mda_size := 0;
     vginfo_vgmetadata_size :=
       match blob with
       | Some text => Z.of_nat (String.length text) + 1
       | None => 0
       end;
     vginfo_vgmetadata := blob; vginfo_cft := None;
     vginfo_cached_vg := None; vginfo_holders := 0; vginfo_vg_use_count := 0;
     vginfo_precommitted := pre; vginfo_cached_vg_invalidated := false |}.

(** An initialised cache that knows "pvA" on device 1 in "vg1", with the
    given locks held, PV status, cached blob and precommitted flag. *)
Definition cache (locks : list string) (status : Z) (blob : option string)
    (pre : bool) : lvmcache :=
  {| _pvid_hash := Some {[ "pvA" := 1%nat ]};
     _vgid_hash := Some {[ "idvg1" := 2%nat ]};
     _vgname_hash := Some {[ "vg1" := [2%nat] ]};
     _lock_hash := Some (list_to_map (map (fun vgname => (vgname, ())) locks));
     _vginfos := [2%nat];
     _scanning_in_progress := false;
     _has_scanned := true;
     _vgs_locked := 0;
     _vg_global_lock_held := false;
     _found_duplicates := false;
     info_store := {[ 1%nat := pv_a status ]};
     vginfo_store := {[ 2%nat := vg1 blob pre ]};
     vg_store := ∅;
     dev_pvid := {[ 1%nat := "pvA" ]};
     next_ptr := 3%nat;
     heap_script := [];
     log := [] |}.

(** A cache that was never initialised. *)
Definition uninitialised : lvmcache :=
  {| _pvid_hash := None; _vgid_hash := None; _vgname_hash := None;
     _lock_hash := None; _vginfos := []; _scanning_in_progress := false;
     _has_scanned := false; _vgs_locked := 0;
     _vg_global_lock_held := false; _found_duplicates := false;
     info_store := ∅; vginfo_store := ∅; vg_store := ∅; dev_pvid := ∅;
     next_ptr := 0%nat; heap_script := []; log := [] |}.

(** A second PV, on device 2, that is on the member list of no VG. *)
Definition pv_b : lvmcache_info :=
  {| info_mdas := []; info_das := []; info_bas := [];
     info_vginfo := None;
     info_label := Some {| label_labeller := 0 |};
     info_fmt := Some text_format; info_dev := 2%nat;
     info_device_size := 0; info_status := 0 |}.

(** The cache [cache] with [pv_b] as its PV record 4. *)
Definition cache_with_pv_b : lvmcache :=
  set_info_store (<[4%nat := pv_b]> (info_store (cache [] 0 None false)))
    (cache [] 0 None false).

(** A second VG of the name "vg1", created on another host. *)
Definition vg1_elsewhere : lvmcache_vginfo :=
  {| vginfo_infos := []; vginfo_fmt := Some text_format;
     vginfo_vgname := "vg1"; vginfo_status := 0; vginfo_vgid := "idvg2";
     vginfo_creation_host := Some "elsewhere"; vginfo_lock_type := None;
     vginfo_mda_checksum := 7; vginfo_mda_size := 512;
     vginfo_vgmetadata_size := 0;
     vginfo_vgmetadata := None; vginfo_cft := None;
     vginfo_cached_vg := None; vginfo_holders := 0; vginfo_vg_use_count := 0;
     vginfo_precommitted := false; vginfo_cached_vg_invalidated := false |}.

(** The cache [cache] with [vg1_elsewhere] as its VG record 5, before that
    record is entered under its name. *)
Definition cache_second_vg1 : lvmcache :=
  set__vgid_hash (Some {[ "idvg1" := 2%nat; "idvg2" := 5%nat ]})
    (set_vginfo_store
       (<[5%nat := vg1_elsewhere]> (vginfo_store (cache [] 0 None false)))
       (cache [] 0 None false)).

(** The cache [cache] with [vg1_elsewhere] as its VG record 5, behind the
    record 2 on the chain of the name "vg1". *)
Definition cache_two_vg1 : lvmcache :=
  set__vginfos [5%nat; 2%nat]
    (set__vgname_hash (Some {[ "vg1" := [2%nat; 5%nat] ]})
       (set__vgid_hash (Some {[ "idvg1" := 2%nat; "idvg2" := 5%nat ]})
          (set_vginfo_store
             (<[5%nat := vg1_elsewhere]>
                (vginfo_store (cache [] 0 None false)))
             (cache [] 0 None false)))).

End Sample.
Section Lvmcache.

(** Constants and predicates that lvmcache.c takes from headers outside it:
    the length of a PV or VG identifier, the exported bit of a VG status,
    the reserved lock names and the tests for them. *)
Variable ID_LEN : nat.
Variable EXPORTED_VG : Z.
Variables VG_GLOBAL VG_ORPHANS : string.
Variables is_global_vg is_orphan_vg : string -> bool.

Variable E : collaborators.

(** ** Primitives *)

Definition u32 (z : Z) : Z := z mod 2 ^ 32.

(** [status & flag] as a truth value. *)
Definition flag_set (status flag : Z) : bool := negb (Z.land status flag =? 0).

(** [strncpy(id, s, ID_LEN); id[ID_LEN] = '\0'], and the part of an
    identifier that [strncmp(_, _, ID_LEN)] compares. *)
Definition id_of (s : string) : string := String.substring 0 ID_LEN s.

(** [is_orphan_vg] on a pointer that may be NULL. *)
Definition is_orphan_vg_opt (v : option string) : bool :=
  match v with Some s => is_orphan_vg s | None => false end.

Definition print_log (lvl : log_level) (text : string) (args : list string)
    (st : lvmcache) : lvmcache :=
  set_log (log st ++ [{| msg_level := lvl; msg_text := text; msg_args := args |}]) st.

Definition log_warn := print_log LOG_WARN.
Definition log_error := print_log LOG_ERROR.
Definition log_internal_error := print_log LOG_INTERNAL_ERROR.

(** One allocation request: served unless the script says otherwise. *)
Definition dm_alloc (st : lvmcache) : bool * lvmcache :=
  match heap_script st with
  | [] => (true, st)
  | b :: rest => (b, set_heap_script rest st)
  end.

(** [dm_zalloc] of a record: a key not in use, or NULL. *)
Definition dm_zalloc (st : lvmcache) : option ptr * lvmcache :=
  let '(ok, st) := dm_alloc st in
  if ok then (Some (next_ptr st), set_next_ptr (S (next_ptr st)) st)
  else (None, st).

(** Modelled from the spec: the hash table of libdevmapper (dm_hash_create,
    dm_hash_lookup, dm_hash_insert, dm_hash_remove), which is not under src/.
    Lookups are exact-match on the key, insertion overwrites any prior
    mapping for the same key, removal is a no-op if the key is absent.
    Creating a table and inserting a key that is not yet mapped allocate. *)
Definition dm_hash_create {V : Type} (st : lvmcache)
    : option (gmap string V) * lvmcache :=
  let '(ok, st) := dm_alloc st in
  (if ok then Some ∅ else None, st).

Definition dm_hash_lookup {V : Type} (t : option (gmap string V)) (k : string)
    : option V :=
  match t with Some h => h !! k | None => None end.

Definition dm_hash_insert {V : Type} (t : option (gmap string V)) (k : string)
    (v : V) (st : lvmcache) : bool * option (gmap string V) * lvmcache :=
  match t with
  | None => (false, None, st)
  | Some h =>
    match h !! k with
    | Some _ => (true, Some (<[k := v]> h), st)
    | None =>
      let '(ok, st) := dm_alloc st in
      if ok then (true, Some (<[k := v]> h), st) else (false, Some h, st)
    end
  end.

Definition dm_hash_remove {V : Type} (t : option (gmap string V)) (k : string)
    : option (gmap string V) :=
  match t with Some h => Some (delete k h) | None => None end.

(** Updates of a record in its store. *)
Definition upd_info (p : ptr) (f : lvmcache_info -> lvmcache_info)
    (st : lvmcache) : lvmcache :=
  set_info_store (alter f p (info_store st)) st.

Definition upd_vginfo (p : ptr) (f : lvmcache_vginfo -> lvmcache_vginfo)
    (st : lvmcache) : lvmcache :=
  set_vginfo_store (alter f p (vginfo_store st)) st.

Definition upd_vg (p : ptr) (f : volume_group -> volume_group)
    (st : lvmcache) : lvmcache :=
  set_vg_store (alter f p (vg_store st)) st.

(** [dev->pvid]; a device never written to has the empty identifier. *)
Definition pvid_of_dev (d : device) (st : lvmcache) : string :=
  default EmptyString (dev_pvid st !! d).

(** ** Lookups *)

Definition lvmcache_vginfo_from_vgid (vgid : option string) (st : lvmcache)
    : option ptr :=
  match _vgid_hash st, vgid with
  | Some h, Some vgid =>
    (* vgid not necessarily NULL-terminated *)
    h !! id_of vgid
  | _, _ => None
  end.

(** [!strncmp(vgid, vginfo->vgid, ID_LEN)] *)
Definition vgid_matches (vgid : string) (st : lvmcache) (p : ptr) : bool :=
  match vginfo_store st !! p with
  | Some r => String.eqb (id_of vgid) (id_of (vginfo_vgid r))
  | None => false
  end.

(* If vgid supplied, require a match. *)
Definition lvmcache_vginfo_from_vgname (vgname vgid : option string)
    (st : lvmcache) : option ptr :=
  match vgname with
  | None => lvmcache_vginfo_from_vgid vgid st
  | Some vgname =>
    match dm_hash_lookup (_vgname_hash st) vgname with
    | None | Some [] => None
    | Some (primary :: chain) =>
      match vgid with
      | Some vgid => List.find (vgid_matches vgid st) (primary :: chain)
      | None => Some primary
      end
    end
  end.

Definition lvmcache_vgname_is_locked (vgname : string) (st : lvmcache) : bool :=
  match _lock_hash st with
  | None => false
  | Some h =>
    match h !! (if is_orphan_vg vgname then VG_ORPHANS else vgname) with
    | Some _ => true
    | None => false
    end
  end.

Definition _info_is_valid (info : lvmcache_info) (st : lvmcache) : bool :=
  if flag_set (info_status info) CACHE_INVALID then false
  else if
    match info_vginfo info with
    | Some p =>
      match vginfo_store st !! p with
      | Some vi => negb (lvmcache_vgname_is_locked (vginfo_vgname vi) st)
      | None => false
      end
    | None => false
    end
  then true
  else if negb (flag_set (info_status info) CACHE_LOCKED) then false
  else true.

(** The records on [vginfo->infos]. *)
Definition member_infos (vi : lvmcache_vginfo) (st : lvmcache)
    : list lvmcache_info :=
  omap (fun p => info_store st !! p) (vginfo_infos vi).

(* Invalid if any info is invalid *)
Definition _vginfo_is_valid (vi : lvmcache_vginfo) (st : lvmcache) : bool :=
  forallb (fun info => _info_is_valid info st) (member_infos vi st).

(* vginfo is invalid if it does not contain at least one valid info *)
Definition _vginfo_is_invalid (vi : lvmcache_vginfo) (st : lvmcache) : bool :=
  forallb (fun info => negb (_info_is_valid info st)) (member_infos vi st).

(*
 * If valid_only is set, data will only be returned if the cached data is
 * known still to be valid.
 *)
Definition lvmcache_info_from_pvid (pvid : option string) (valid_only : bool)
    (st : lvmcache) : option ptr :=
  match _pvid_hash st, pvid with
  | Some h, Some pvid =>
    match h !! id_of pvid with
    | None => None
    | Some p =>
      if valid_only
         && negb (match info_store st !! p with
                  | Some info => _info_is_valid info st
                  | None => false
                  end)
      then None else Some p
    end
  | _, _ => None
  end.

(** ** The shared parsed VG object *)

Definition lvmcache_vginfo_holders_dec_and_test_for_zero (vginfo : ptr)
    (st : lvmcache) : bool * lvmcache :=
  match vginfo_store st !! vginfo with
  | None => (false, st)
  | Some r =>
    let holders := u32 (vginfo_holders r - 1) in
    let st := upd_vginfo vginfo (set_vginfo_holders holders) st in
    if negb (holders =? 0) then (false, st)
    else
      (* Debug perform crc check only when it's been used more then once *)
      let st :=
        match vginfo_cached_vg r with
        | Some vg => upd_vg vg (set_vg_vginfo None) st
        | None => st
        end in
      (true, upd_vginfo vginfo (set_vginfo_cached_vg None) st)
  end.

(** Modelled from the spec: [release_vg] of the metadata layer, which is
    not under src/.  Releasing decrements the holder count; reaching zero
    tears down the parsed object.  An object that no VG record holds is torn
    down at once; releasing NULL does nothing. *)
Definition release_vg (vg : option ptr) (st : lvmcache) : lvmcache :=
  match vg with
  | None => st
  | Some v =>
    match vg_store st !! v with
    | None => st
    | Some obj =>
      match vg_vginfo obj with
      | Some vginfo =>
        (* Check if there are any vginfo holders *)
        let '(zero, st) :=
          lvmcache_vginfo_holders_dec_and_test_for_zero vginfo st in
        if zero then set_vg_store (delete v (vg_store st)) st else st
      | None => set_vg_store (delete v (vg_store st)) st
      end
    end
  end.

(** ** Volume Group metadata cache functions *)

Definition _free_cached_vgmetadata (vginfo : option ptr) (st : lvmcache)
    : lvmcache :=
  match vginfo with
  | None => st
  | Some p =>
    match vginfo_store st !! p with
    | None => st
    | Some r =>
      match vginfo_vgmetadata r with
      | None => st
      | Some _ =>
        let st := upd_vginfo p (set_vginfo_vgmetadata None) st in
        (* Release also cached config tree *)
        let st := upd_vginfo p (set_vginfo_cft None) st in
        release_vg (vginfo_cached_vg r) st
      end
    end
  end.

(*
 * Cache VG metadata against the vginfo with matching vgid.
 *)
Definition _store_metadata (vg : volume_group) (precommitted : bool)
    (st : lvmcache) : lvmcache :=
  match lvmcache_vginfo_from_vgid (Some (vg_id vg)) st with
  | None => st
  | Some vginfo =>
    let '(size, data) := export_vg_to_buffer E vg in
    if size =? 0 then _free_cached_vgmetadata (Some vginfo) st
    else
      let same :=
        match vginfo_store st !! vginfo with
        | Some r =>
          match vginfo_vgmetadata r with
          | Some old => (vginfo_vgmetadata_size r =? size) && String.eqb old data
          | None => false
          end
        | None => false
        end in
      (* Avoid reparsing of the same data string *)
      let st :=
        if same then st
        else
          let st := _free_cached_vgmetadata (Some vginfo) st in
          let st := upd_vginfo vginfo (set_vginfo_vgmetadata_size size) st in
          upd_vginfo vginfo (set_vginfo_vgmetadata (Some data)) st in
      upd_vginfo vginfo (set_vginfo_precommitted precommitted) st
  end.

Definition _update_cache_info_lock_state (info : ptr) (locked : bool)
    (cached_vgmetadata_valid : bool) (st : lvmcache) : bool * lvmcache :=
  match info_store st !! info with
  | None => (cached_vgmetadata_valid, st)
  | Some r =>
    let was_locked := flag_set (info_status r) CACHE_LOCKED in
    (*
     * Cache becomes invalid whenever lock state changes unless
     * exclusive VG_GLOBAL is held (i.e. while scanning).
     *)
    let changed :=
      negb (lvmcache_vgname_is_locked VG_GLOBAL st)
      && negb (Bool.eqb was_locked locked) in
    let status := info_status r in
    let status := if changed then Z.lor status CACHE_INVALID else status in
    let status :=
      if locked then Z.lor status CACHE_LOCKED
      else Z.land status (Z.lnot CACHE_LOCKED) in
    (if changed then false else cached_vgmetadata_valid,
     upd_info info (set_info_status status) st)
  end.

Fixpoint _update_cache_infos_lock_state (members : list ptr) (locked : bool)
    (cached_vgmetadata_valid : bool) (st : lvmcache) : bool * lvmcache :=
  match members with
  | [] => (cached_vgmetadata_valid, st)
  | info :: rest =>
    let '(valid, st) :=
      _update_cache_info_lock_state info locked cached_vgmetadata_valid st in
    _update_cache_infos_lock_state rest locked valid st
  end.

Definition _update_cache_vginfo_lock_state (vginfo : ptr) (locked : bool)
    (st : lvmcache) : lvmcache :=
  match vginfo_store st !! vginfo with
  | None => st
  | Some r =>
    let '(cached_vgmetadata_valid, st) :=
      _update_cache_infos_lock_state (vginfo_infos r) locked true st in
    if negb cached_vgmetadata_valid
    then _free_cached_vgmetadata (Some vginfo) st
    else st
  end.

Definition _update_cache_lock_state (vgname : string) (locked : bool)
    (st : lvmcache) : lvmcache :=
  match lvmcache_vginfo_from_vgname (Some vgname) None st with
  | None => st
  | Some vginfo => _update_cache_vginfo_lock_state vginfo locked st
  end.

(** [info->status |= CACHE_INVALID] for every record on a member list. *)
Definition invalidate_infos (members : list ptr) (st : lvmcache) : lvmcache :=
  fold_left
    (fun st info =>
       upd_info info
         (fun r => set_info_status (Z.lor (info_status r) CACHE_INVALID) r) st)
    members st.

Definition _drop_metadata (vgname : string) (drop_precommitted : bool)
    (st : lvmcache) : lvmcache :=
  match lvmcache_vginfo_from_vgname (Some vgname) None st with
  | None => st
  | Some vginfo =>
    match vginfo_store st !! vginfo with
    | None => st
    | Some r =>
      (*
       * Invalidate cached PV labels.
       * If cached precommitted metadata exists that means we
       * already invalidated the PV labels (before caching it)
       * and we must not do it again.
       *)
      let st :=
        if negb drop_precommitted && vginfo_precommitted r
           && negb (bool_decide (is_Some (vginfo_vgmetadata r)))
        then log_internal_error
               "metadata commit (or revert) missing before dropping metadata from cache."
               [] st
        else st in
      let st :=
        if drop_precommitted || negb (vginfo_precommitted r)
        then invalidate_infos (vginfo_infos r) st
        else st in
      let st := _free_cached_vgmetadata (Some vginfo) st in
      (* VG revert *)
      if drop_precommitted
      then upd_vginfo vginfo (set_vginfo_precommitted false) st
      else st
    end
  end.

(*
 * Remote node uses this to upgrade precommitted metadata to commited state
 * when receives vg_commit notification.
 * (Note that devices can be suspended here, if so, precommitted metadata are already read.)
 *)
Definition lvmcache_commit_metadata (vgname : string) (st : lvmcache)
    : lvmcache :=
  match lvmcache_vginfo_from_vgname (Some vgname) None st with
  | None => st
  | Some vginfo =>
    match vginfo_store st !! vginfo with
    | None => st
    | Some r =>
      if vginfo_precommitted r
      then upd_vginfo vginfo (set_vginfo_precommitted false) st
      else st
    end
  end.

(** ** Lock-state tracker *)

(*
 * Ensure vgname2 comes after vgname1 alphabetically.
 * Orphan locks come last.
 * VG_GLOBAL comes first.
 *)
Definition _vgname_order_correct (vgname1 vgname2 : string) : bool :=
  if is_global_vg vgname1 then true
  else if is_global_vg vgname2 then false
  else if is_orphan_vg vgname1 then false
  else if is_orphan_vg vgname2 then true
  else if String.ltb vgname1 vgname2 then true
  else false.

(** The loop of [lvmcache_verify_lock_order] over the held names.  The
    datum stored with every name is the marker [(void * ) 1] and a key is
    never NULL, so only the order test can leave the loop. *)
Fixpoint verify_lock_order_loop (held : list string) (vgname : string)
    (st : lvmcache) : bool * lvmcache :=
  match held with
  | [] => (true, st)
  | vgname2 :: rest =>
    if negb (_vgname_order_correct vgname2 vgname)
    then (false,
          log_internal_error
            "VG lock %s must be requested before %s, not after."
            [vgname; vgname2] st)
    else verify_lock_order_loop rest vgname st
  end.

(*
 * Ensure VG locks are acquired in alphabetical order.
 *)
Definition lvmcache_verify_lock_order (vgname : string) (st : lvmcache)
    : bool * lvmcache :=
  match _lock_hash st with
  | None => (false, st)
  | Some h => verify_lock_order_loop (map fst (map_to_list h)) vgname st
  end.

(** [lvmcache_lock_vgname] past its initialisation test. *)
Definition lock_vgname_initialised (vgname : string) (st : lvmcache)
    : lvmcache :=
  let st :=
    if bool_decide (is_Some (dm_hash_lookup (_lock_hash st) vgname))
    then log_internal_error "Nested locking attempted on VG %s." [vgname] st
    else st in
  let '(ok, h, st) := dm_hash_insert (_lock_hash st) vgname () st in
  let st := set__lock_hash h st in
  let st :=
    if ok then st else log_error "Cache locking failure for %s" [vgname] st in
  if negb (String.eqb vgname VG_GLOBAL)
  then
    let st := _update_cache_lock_state vgname true st in
    set__vgs_locked (_vgs_locked st + 1) st
  else st.

(** [lvmcache_init] calls [lvmcache_lock_vgname] only after it has created
    [_lock_hash], so that call is past the initialisation test. *)
Definition lvmcache_init (st : lvmcache) : bool * lvmcache :=
  (*
   * FIXME add a proper lvmcache_locking_reset() that
   * resets the cache so no previous locks are locked
   *)
  let st := set__vgs_locked 0 st in
  let st := set__vginfos [] st in
  let '(h, st) := dm_hash_create st in
  let st := set__vgname_hash h st in
  if negb (bool_decide (is_Some h)) then (false, st)
  else
    let '(h, st) := dm_hash_create st in
    let st := set__vgid_hash h st in
    if negb (bool_decide (is_Some h)) then (false, st)
    else
      let '(h, st) := dm_hash_create st in
      let st := set__pvid_hash h st in
      if negb (bool_decide (is_Some h)) then (false, st)
      else
        let '(h, st) := dm_hash_create st in
        let st := set__lock_hash h st in
        if negb (bool_decide (is_Some h)) then (false, st)
        else
          (*
           * Reinitialising the cache clears the internal record of
           * which locks are held.  The global lock can be held during
           * this operation so its state must be restored afterwards.
           *)
          if _vg_global_lock_held st
          then
            let st := lock_vgname_initialised VG_GLOBAL st in
            (true, set__vg_global_lock_held false st)
          else (true, st).

Definition lvmcache_lock_vgname (vgname : string) (st : lvmcache) : lvmcache :=
  let '(ready, st) :=
    if bool_decide (is_Some (_lock_hash st)) then (true, st)
    else lvmcache_init st in
  if negb ready
  then log_error "Internal cache initialisation failed" [] st
  else lock_vgname_initialised vgname st.

(** Closing every open device handle is left to the device layer; the
    request is the result. *)
Definition lvmcache_unlock_vgname (vgname : string) (st : lvmcache)
    : bool * lvmcache :=
  let st :=
    if negb (bool_decide (is_Some (dm_hash_lookup (_lock_hash st) vgname)))
    then log_internal_error "Attempt to unlock unlocked VG %s." [vgname] st
    else st in
  let st :=
    if negb (String.eqb vgname VG_GLOBAL)
    then _update_cache_lock_state vgname false st
    else st in
  let st := set__lock_hash (dm_hash_remove (_lock_hash st) vgname) st in
  (* FIXME Do this per-VG *)
  if negb (String.eqb vgname VG_GLOBAL)
  then
    let st := set__vgs_locked (_vgs_locked st - 1) st in
    (_vgs_locked st =? 0, st)
  else (false, st).

Definition lvmcache_vgs_locked (st : lvmcache) : Z := _vgs_locked st.

(** ** Scan orchestrator

    Reading a device's label is the work of the label layer, which
    registers what it finds through the operations of this file;
    [label_read E dev] is the cache after that.  Every scan returns, with
    its result and the cache, the devices it handed to [label_read]. *)









(** ** Serving the parsed VG *)

(** The label [out] of [lvmcache_get_vg]. *)
Definition get_vg_out (vginfo : ptr) (vg : ptr) (st : lvmcache)
    : option ptr * lvmcache :=
  let st :=
    upd_vginfo vginfo
      (fun r => set_vginfo_holders (u32 (vginfo_holders r + 1)) r) st in
  let st :=
    upd_vginfo vginfo
      (fun r => set_vginfo_vg_use_count (u32 (vginfo_vg_use_count r + 1)) r) st in
  (Some vg, st).

(** The label [bad] of [lvmcache_get_vg]. *)
Definition get_vg_bad (vginfo : ptr) (st : lvmcache) : option ptr * lvmcache :=
  (None, _free_cached_vgmetadata (Some vginfo) st).

(** [lvmcache_get_vg] from [release_vg(vginfo->cached_vg)] on: the parsed
    VG is built from the cached blob.  A record without a format cannot
    create a format instance. *)
Definition get_vg_build (vginfo : ptr) (vgid : string) (st : lvmcache)
    : option ptr * lvmcache :=
  match vginfo_store st !! vginfo with
  | None => (None, st)
  | Some r =>
    let st := release_vg (vginfo_cached_vg r) st in
    match
      match vginfo_fmt r with
      | Some fmt => create_instance E fmt (vginfo_vgname r) vgid
      | None => None
      end
    with
    | None => (None, st)
    | Some fid =>
      (* Build config tree from vgmetadata, if not yet cached *)
      let cft :=
        match vginfo_cft r with
        | Some c => Some c
        | None => dm_config_from_string E (default EmptyString (vginfo_vgmetadata r))
        end in
      let st := upd_vginfo vginfo (set_vginfo_cft cft) st in
      match cft with
      | None => get_vg_bad vginfo st
      | Some c =>
        match import_vg_from_config_tree E c fid with
        | None => get_vg_bad vginfo st
        | Some obj =>
          let vg := next_ptr st in
          let st := set_next_ptr (S vg) st in
          let st :=
            set_vg_store (<[vg := set_vg_vginfo (Some vginfo) obj]> (vg_store st)) st in
          (* Cache VG struct for reuse *)
          let st := upd_vginfo vginfo (set_vginfo_cached_vg (Some vg)) st in
          let st := upd_vginfo vginfo (set_vginfo_holders 1) st in
          let st := upd_vginfo vginfo (set_vginfo_vg_use_count 0) st in
          let st := upd_vginfo vginfo (set_vginfo_cached_vg_invalidated false) st in
          if negb (dm_pool_lock E obj) then get_vg_bad vginfo st
          else get_vg_out vginfo vg st
        end
      end
    end
  end.

Definition lvmcache_get_vg (cmd : cmd_context) (vgname vgid : option string)
    (precommitted : bool) (st : lvmcache) : option ptr * lvmcache :=
  (*
   * We currently do not store precommitted metadata in lvmetad at
   * all. This means that any request for precommitted metadata is served
   * using the classic scanning mechanics, and read from disk or from
   * lvmcache.
   *)
  if lvmetad_active E && negb precommitted
  then
    (* Still serve the locally cached VG if available *)
    match
      match lvmcache_vginfo_from_vgid vgid st with
      | Some vginfo =>
        match vginfo_store st !! vginfo with
        | Some r =>
          if bool_decide (is_Some (vginfo_vgmetadata r))
          then
            match vginfo_cached_vg r with
            | Some vg => Some (vginfo, vg)
            | None => None
            end
          else None
        | None => None
        end
      | None => None
      end
    with
    | Some (vginfo, vg) => get_vg_out vginfo vg st
    | None => (lvmetad_vg_lookup E cmd vgname vgid, st)
    end
  else
    match vgid, lvmcache_vginfo_from_vgid vgid st with
    | Some id, Some vginfo =>
      match vginfo_store st !! vginfo with
      | None => (None, st)
      | Some r =>
        if negb (bool_decide (is_Some (vginfo_vgmetadata r))) then (None, st)
        else if negb (_vginfo_is_valid r st) then (None, st)
        (*
         * Don't return cached data if either:
         * (i)  precommitted metadata is requested but we don't have it cached
         *      - caller should read it off disk;
         * (ii) live metadata is requested but we have precommitted metadata cached
         *      and no devices are suspended so caller may read it off disk.
         *)
        else if (precommitted && negb (vginfo_precommitted r))
                || (negb precommitted && vginfo_precommitted r
                    && negb (critical_section E))
        then (None, st)
        else
          (* Use already-cached VG struct when available *)
          match vginfo_cached_vg r with
          | Some vg =>
            if negb (vginfo_cached_vg_invalidated r)
            then get_vg_out vginfo vg st
            else get_vg_build vginfo id st
          | None => get_vg_build vginfo id st
          end
      end
    | _, _ => (None, st)
    end.

(** ** Index maintenance *)

Definition _vginfo_attach_info (vginfo : option ptr) (info : ptr)
    (st : lvmcache) : lvmcache :=
  match vginfo with
  | None => st
  | Some v =>
    let st := upd_info info (set_info_vginfo (Some v)) st in
    upd_vginfo v (fun r => set_vginfo_infos (vginfo_infos r ++ [info]) r) st
  end.

(** [dm_list_del(&info->list)] takes the record off the member list that
    holds it. *)
Definition _vginfo_detach_info (info : ptr) (st : lvmcache) : lvmcache :=
  let unlink r :=
    set_vginfo_infos
      (List.filter (fun q => negb (Nat.eqb q info)) (vginfo_infos r)) r in
  let st := set_vginfo_store (unlink <$> vginfo_store st) st in
  upd_info info (set_info_vginfo None) st.

(** The chain without the record [vginfo]:
    [vginfo2->next = vginfo->next] at the record before it. *)
Fixpoint chain_unlink (vginfo : ptr) (chain : list ptr) : list ptr :=
  match chain with
  | [] => []
  | p :: rest =>
    if Nat.eqb p vginfo then rest else p :: chain_unlink vginfo rest
  end.

Definition _free_vginfo (vginfo : ptr) (st : lvmcache) : bool * lvmcache :=
  let st := _free_cached_vgmetadata (Some vginfo) st in
  match vginfo_store st !! vginfo with
  | None => (true, st)
  | Some r =>
    let name := vginfo_vgname r in
    let '(ok, st) :=
      match dm_hash_lookup (_vgname_hash st) name with
      | None | Some [] => (true, st)
      | Some (primary_vginfo :: chain) =>
        if Nat.eqb vginfo primary_vginfo
        then
          let st :=
            set__vgname_hash (dm_hash_remove (_vgname_hash st) name) st in
          match chain with
          | [] => (true, st)
          | _ :: _ =>
            let '(ok, h, st) :=
              dm_hash_insert (_vgname_hash st) name chain st in
            let st := set__vgname_hash h st in
            if ok then (true, st)
            else
              (false,
               log_error "_vgname_hash re-insertion for %s failed" [name] st)
          end
        else
          (true,
           set__vgname_hash
             (<[name := primary_vginfo :: chain_unlink vginfo chain]>
                <$> _vgname_hash st) st)
      end in
    let st :=
      if negb (String.eqb (vginfo_vgid r) EmptyString)
         && bool_decide (is_Some (_vgid_hash st))
         && bool_decide
              (lvmcache_vginfo_from_vgid (Some (vginfo_vgid r)) st = Some vginfo)
      then set__vgid_hash (dm_hash_remove (_vgid_hash st) (vginfo_vgid r)) st
      else st in
    let st :=
      set__vginfos
        (List.filter (fun q => negb (Nat.eqb q vginfo)) (_vginfos st)) st in
    (ok, set_vginfo_store (delete vginfo (vginfo_store st)) st)
  end.

(*
 * vginfo must be info->vginfo unless info is NULL
 *)
Definition _drop_vginfo (info : option ptr) (vginfo : option ptr)
    (st : lvmcache) : bool * lvmcache :=
  let st :=
    match info with
    | Some i => _vginfo_detach_info i st
    | None => st
    end in
  (* vginfo still referenced? *)
  match vginfo with
  | None => (true, st)
  | Some v =>
    match vginfo_store st !! v with
    | None => (true, st)
    | Some r =>
      if is_orphan_vg (vginfo_vgname r)
         || negb (bool_decide (vginfo_infos r = []))
      then (true, st)
      else _free_vginfo v st
    end
  end.

Definition lvmcache_del (info : ptr) (st : lvmcache) : lvmcache :=
  match info_store st !! info with
  | None => st
  | Some r =>
    let pvid := pvid_of_dev (info_dev r) st in
    let st :=
      if negb (String.eqb pvid EmptyString)
         && bool_decide (is_Some (_pvid_hash st))
      then set__pvid_hash (dm_hash_remove (_pvid_hash st) pvid) st
      else st in
    let '(_, st) := _drop_vginfo (Some info) (info_vginfo r) st in
    set_info_store (delete info (info_store st)) st
  end.

Definition _lvmcache_update_pvid (info : ptr) (pvid : string) (st : lvmcache)
    : bool * lvmcache :=
  match info_store st !! info with
  | None => (true, st)
  | Some r =>
    let dev := info_dev r in
    (*
     * Nothing to do if already stored with same pvid.
     *)
    if bool_decide (dm_hash_lookup (_pvid_hash st) pvid = Some info)
       && String.eqb (pvid_of_dev dev st) pvid
    then (true, st)
    else
      let st :=
        if negb (String.eqb (pvid_of_dev dev st) EmptyString)
        then set__pvid_hash
               (dm_hash_remove (_pvid_hash st) (pvid_of_dev dev st)) st
        else st in
      let st :=
        set_dev_pvid
          (<[dev := String.substring 0 (S ID_LEN) pvid]> (dev_pvid st)) st in
      let '(ok, h, st) := dm_hash_insert (_pvid_hash st) pvid info st in
      let st := set__pvid_hash h st in
      if ok then (true, st)
      else (false,
            log_error "_lvmcache_update: pvid insertion failed: %s" [pvid] st)
  end.

(*
 * vginfo must be info->vginfo unless info is NULL (orphans)
 *)
(** Every caller passes the address of an identifier as [vgid], so the
    tests of the source for a NULL [vgid] are never taken. *)
Definition _lvmcache_update_vgid (info : option ptr) (vginfo : option ptr)
    (vgid : string) (st : lvmcache) : bool * lvmcache :=
  match vginfo with
  | None => (true, st)
  | Some v =>
    match vginfo_store st !! v with
    | None => (true, st)
    | Some r =>
      if String.eqb (id_of (vginfo_vgid r)) (id_of vgid) then (true, st)
      else
        let st :=
          if negb (String.eqb (vginfo_vgid r) EmptyString)
          then set__vgid_hash (dm_hash_remove (_vgid_hash st) (vginfo_vgid r)) st
          else st in
        let st := upd_vginfo v (set_vginfo_vgid (id_of vgid)) st in
        let '(ok, h, st) := dm_hash_insert (_vgid_hash st) (id_of vgid) v st in
        let st := set__vgid_hash h st in
        if ok then (true, st)
        else
          (false,
           log_error "_lvmcache_update: vgid hash insertion failed: %s"
             [id_of vgid] st)
    end
  end.

(** The outcome of the precedence test of [_insert_vginfo] between the
    record that is primary for the name and a new one: the value given to
    [use_new], and the warning printed. *)
Definition duplicate_vgname_precedence (primary : lvmcache_vginfo)
    (vgname : string) (vgstatus : Z) (creation_host : option string)
    (uuid_primary uuid_new : string) : bool * option log_msg :=
  let warn text args :=
    Some {| msg_level := LOG_WARN; msg_text := text; msg_args := args |} in
  let hostname :=
    match vginfo_fmt primary with
    | Some fmt => Some (cmd_hostname fmt)
    | None => None
    end in
  (*
   * If   Primary not exported, new exported => keep
   * Else Primary exported, new not exported => change
   * Else Primary has hostname for this machine => keep
   * Else Primary has no hostname, new has one => change
   * Else New has hostname for this machine => change
   * Else Keep primary.
   *)
  if negb (flag_set (vginfo_status primary) EXPORTED_VG)
     && flag_set vgstatus EXPORTED_VG
  then (false,
        warn "WARNING: Duplicate VG name %s: Existing %s takes precedence over exported %s"
          [vgname; uuid_primary; uuid_new])
  else if flag_set (vginfo_status primary) EXPORTED_VG
          && negb (flag_set vgstatus EXPORTED_VG)
  then (true,
        warn "WARNING: Duplicate VG name %s: %s takes precedence over exported %s"
          [vgname; uuid_new; uuid_primary])
  else if match vginfo_creation_host primary with
          | Some host => bool_decide (hostname = Some host)
          | None => false
          end
  then (false,
        warn "WARNING: Duplicate VG name %s: Existing %s (created here) takes precedence over %s"
          [vgname; uuid_primary; uuid_new])
  else if negb (bool_decide (is_Some (vginfo_creation_host primary)))
          && bool_decide (is_Some creation_host)
  then (true,
        warn "WARNING: Duplicate VG name %s: %s (with creation_host) takes precedence over %s"
          [vgname; uuid_new; uuid_primary])
  else if match creation_host with
          | Some host => bool_decide (hostname = Some host)
          | None => false
          end
  then (true,
        warn "WARNING: Duplicate VG name %s: %s (created here) takes precedence over %s"
          [vgname; uuid_new; uuid_primary])
  else (false, None).

(** [primary_vginfo] is the record stored in [_vgname_hash] under the name
    of [new_vginfo], as the one caller passes it. *)
Definition _insert_vginfo (new_vginfo : ptr) (vgid : string) (vgstatus : Z)
    (creation_host : option string) (primary_vginfo : option ptr)
    (st : lvmcache) : bool * lvmcache :=
  match vginfo_store st !! new_vginfo with
  | None => (false, st)
  | Some new_r =>
    let name := vginfo_vgname new_r in
    let insert_new (old_chain : list ptr) (st : lvmcache) :=
      let '(ok, h, st) :=
        dm_hash_insert (_vgname_hash st) name (new_vginfo :: old_chain) st in
      let st := set__vgname_hash h st in
      if ok then (true, st)
      else (false,
            log_error "cache_update: vg hash insertion failed: %s" [name] st) in
    (* Pre-existing VG takes precedence. Unexported VG takes precedence. *)
    match
      match primary_vginfo with
      | Some p => vginfo_store st !! p
      | None => None
      end
    with
    | None => insert_new [] st
    | Some primary_r =>
      match id_write_format E vgid, id_write_format E (vginfo_vgid primary_r) with
      | Some uuid_new, Some uuid_primary =>
        let chain :=
          default [] (dm_hash_lookup (_vgname_hash st) (vginfo_vgname primary_r)) in
        let '(use_new, warning) :=
          duplicate_vgname_precedence primary_r name vgstatus creation_host
            uuid_primary uuid_new in
        let st :=
          match warning with
          | Some w => set_log (log st ++ [w]) st
          | None => st
          end in
        if negb use_new
        then
          (true,
           set__vgname_hash
             (<[vginfo_vgname primary_r := chain ++ [new_vginfo]]>
                <$> _vgname_hash st) st)
        else
          let st :=
            set__vgname_hash
              (dm_hash_remove (_vgname_hash st) (vginfo_vgname primary_r)) st in
          insert_new chain st
      | _, _ => (false, st)
      end
    end
  end.

(** The outcome of the loop of [_lvmcache_update_vgname] that removes
    invalidated entries: the record that is primary for the name when the
    loop is left, or the failure that returns from the function, with
    whether the new record is freed on the way. *)
Inductive primary_scan :=
  | PrimaryIs (primary_vginfo : option ptr) (st : lvmcache)
  | PrimaryFailed (free_new : bool) (st : lvmcache).

(** [dm_list_iterate_items_safe(info2, info3, &primary_vginfo->infos)] *)
Definition move_infos_to (orphan_vginfo : ptr) (members : list ptr)
    (st : lvmcache) : lvmcache :=
  fold_left
    (fun st info2 =>
       _vginfo_attach_info (Some orphan_vginfo) info2
         (_vginfo_detach_info info2 st))
    members st.

(*
 * If we're scanning and there's an invalidated entry, remove it.
 * Otherwise we risk bogus warnings of duplicate VGs.
 *)
(** [None] when the loop has not ended after [fuel] rounds. *)
Fixpoint drop_invalid_primaries (fuel : nat) (vgname : string) (st : lvmcache)
    : option primary_scan :=
  match lvmcache_vginfo_from_vgname (Some vgname) None st with
  | None => Some (PrimaryIs None st)
  | Some primary_vginfo =>
    match vginfo_store st !! primary_vginfo with
    | None => Some (PrimaryIs (Some primary_vginfo) st)
    | Some r =>
      if negb (_scanning_in_progress st && _vginfo_is_invalid r st)
      then Some (PrimaryIs (Some primary_vginfo) st)
      else
        match fuel with
        | O => None
        | S fuel =>
          match
            match vginfo_fmt r with
            | Some fmt =>
              match
                lvmcache_vginfo_from_vgname (Some (orphan_vg_name fmt)) None st
              with
              | Some o => inl o
              | None => inr (orphan_vg_name fmt)
              end
            | None => inr EmptyString
            end
          with
          | inr lost =>
            Some (PrimaryFailed true
                    (log_internal_error "Orphan vginfo %s lost from cache."
                       [lost] st))
          | inl orphan_vginfo =>
            let st := move_infos_to orphan_vginfo (vginfo_infos r) st in
            let '(ok, st) := _drop_vginfo None (Some primary_vginfo) st in
            if ok then drop_invalid_primaries fuel vgname st
            else Some (PrimaryFailed false st)
          end
        end
    end
  end.

(** The rounds the loop can take while every round frees the primary. *)
Definition chain_length (vgname : string) (st : lvmcache) : nat :=
  length (default [] (dm_hash_lookup (_vgname_hash st) vgname)).

(** [None] when the C function does not return. *)
Definition _lvmcache_update_vgname (info : option ptr) (vgname : option string)
    (vgid : string) (vgstatus : Z) (creation_host : option string)
    (fmt : option format_type) (st : lvmcache) : option (bool * lvmcache) :=
  match vgname with
  | None => Some (true, st)
  | Some name =>
    let info_r :=
      match info with Some i => info_store st !! i | None => None end in
    let current :=
      match info_r with
      | Some r =>
        match info_vginfo r with
        | Some v => vginfo_store st !! v
        | None => None
        end
      | None => None
      end in
    if match current with
       | Some v => String.eqb (vginfo_vgname v) name
       | None => false
       end
    then Some (true, st)
    else
      (* Remove existing vginfo entry *)
      let st :=
        match info, info_r with
        | Some i, Some r => snd (_drop_vginfo (Some i) (info_vginfo r) st)
        | _, _ => st
        end in
      let finish (vginfo : ptr) (st : lvmcache) : bool * lvmcache :=
        let '(ok, st) :=
          match info with
          | Some i => (true, _vginfo_attach_info (Some vginfo) i st)
          | None => _lvmcache_update_vgid None (Some vginfo) vgid st (* Orphans *)
          end in
        if negb ok then (false, st)
        else
          let st :=
            _update_cache_vginfo_lock_state vginfo
              (lvmcache_vgname_is_locked name st) st in
          (* FIXME Check consistency of list! *)
          (true, upd_vginfo vginfo (set_vginfo_fmt fmt) st) in
      (* Get existing vginfo or create new one *)
      match lvmcache_vginfo_from_vgname (Some name) (Some vgid) st with
      | Some vginfo => Some (finish vginfo st)
      | None =>
        match dm_zalloc st with
        | (None, st) =>
          Some (false, log_error "lvmcache_update_vgname: list alloc failed" [] st)
        | (Some vginfo, st) =>
          let '(ok, st) := dm_alloc st in
          if negb ok
          then Some (false, log_error "cache vgname alloc failed for %s" [name] st)
          else
            let st :=
              set_vginfo_store
                (<[vginfo :=
                     {| vginfo_infos := []; vginfo_fmt := None;
                        vginfo_vgname := name; vginfo_status := 0;
                        vginfo_vgid := EmptyString;
                        vginfo_creation_host := None;
                        vginfo_lock_type := None; vginfo_mda_checksum := 0;
                        vginfo_mda_size := 0; vginfo_vgmetadata_size := 0;
                        vginfo_vgmetadata := None; vginfo_cft := None;
                        vginfo_cached_vg := None; vginfo_holders := 0;
                        vginfo_vg_use_count := 0;
                        vginfo_precommitted := false;
                        vginfo_cached_vg_invalidated := false |}]>
                   (vginfo_store st)) st in
            let free_new st :=
              set_vginfo_store (delete vginfo (vginfo_store st)) st in
            match drop_invalid_primaries (S (chain_length name st)) name st with
            | None => None
            | Some (PrimaryFailed freed st) =>
              Some (false, if freed then free_new st else st)
            | Some (PrimaryIs primary_vginfo st) =>
              let '(ok, st) :=
                _insert_vginfo vginfo vgid vgstatus creation_host
                  primary_vginfo st in
              if negb ok then Some (false, free_new st)
              else
                (* Ensure orphans appear last on list_iterate *)
                let st :=
                  if is_orphan_vg name
                  then set__vginfos (_vginfos st ++ [vginfo]) st
                  else set__vginfos (vginfo :: _vginfos st) st in
                Some (finish vginfo st)
            end
        end
      end
  end.

Definition _lvmcache_update_vgstatus (info : option ptr) (vgstatus : Z)
    (creation_host lock_type : option string) (st : lvmcache)
    : bool * lvmcache :=
  match
    match info with
    | Some i =>
      match info_store st !! i with
      | Some r => info_vginfo r
      | None => None
      end
    | None => None
    end
  with
  | None => (true, st)
  | Some v =>
    let st := upd_vginfo v (set_vginfo_status vgstatus) st in
    let current f := match vginfo_store st !! v with Some r => f r | None => None end in
    let set_lock_type (st : lvmcache) : bool * lvmcache :=
      match lock_type with
      | None => (true, st)
      | Some lt =>
        if bool_decide (current vginfo_lock_type = Some lt) then (true, st)
        else
          let '(ok, st) := dm_alloc st in
          let st :=
            upd_vginfo v (set_vginfo_lock_type (if ok then Some lt else None)) st in
          if ok then (true, st)
          else (false,
                log_error "cache creation host alloc failed for %s" [lt] st)
      end in
    match creation_host with
    | None => set_lock_type st
    | Some host =>
      if bool_decide (current vginfo_creation_host = Some host)
      then set_lock_type st
      else
        let '(ok, st) := dm_alloc st in
        let st :=
          upd_vginfo v
            (set_vginfo_creation_host (if ok then Some host else None)) st in
        if ok then set_lock_type st
        else (false,
              log_error "cache creation host alloc failed for %s" [host] st)
    end
  end.

Definition _lvmcache_update_vg_mda_info (info : option ptr) (mda_checksum : Z)
    (mda_size : Z) (st : lvmcache) : bool * lvmcache :=
  match
    match info with
    | Some i =>
      match info_store st !! i with
      | Some r => info_vginfo r
      | None => None
      end
    | None => None
    end
  with
  | None => (true, st)
  | Some v =>
    match vginfo_store st !! v with
    | None => (true, st)
    | Some r =>
      if (mda_size =? 0)
         || (vginfo_mda_checksum r =? mda_checksum)
         || (vginfo_mda_size r =? mda_size)
      then (true, st)
      else
        let st := upd_vginfo v (set_vginfo_mda_checksum mda_checksum) st in
        (* FIXME Add checksum index *)
        (true, upd_vginfo v (set_vginfo_mda_size mda_size) st)
    end
  end.

Definition lvmcache_add_orphan_vginfo (vgname : string) (fmt : format_type)
    (st : lvmcache) : option (bool * lvmcache) :=
  let '(ready, st) :=
    if bool_decide (is_Some (_lock_hash st)) then (true, st)
    else lvmcache_init st in
  if negb ready
  then Some (false, log_error "Internal cache initialisation failed" [] st)
  else
    _lvmcache_update_vgname None (Some vgname) vgname 0 (Some EmptyString)
      (Some fmt) st.

Definition lvmcache_update_vgname_and_id (info : ptr)
    (vgsummary : lvmcache_vgsummary) (st : lvmcache)
    : option (bool * lvmcache) :=
  match info_store st !! info with
  | None => Some (false, st)
  | Some r =>
    let current_vgname (st : lvmcache) : option string :=
      match info_store st !! info with
      | Some r =>
        match info_vginfo r with
        | Some v =>
          match vginfo_store st !! v with
          | Some vr => Some (vginfo_vgname vr)
          | None => None
          end
        | None => None
        end
      | None => None
      end in
    let in_vg := bool_decide (is_Some (info_vginfo r)) in
    let '(vgname, vgid, st) :=
      if negb (bool_decide (is_Some (vgs_vgname vgsummary))) && negb in_vg
      then
        (* FIXME Remove this *)
        let orphan :=
          match info_fmt r with
          | Some fmt => Some (orphan_vg_name fmt)
          | None => None
          end in
        (orphan, default EmptyString orphan,
         log_internal_error "NULL vgname handed to cache" [] st)
      else (vgs_vgname vgsummary, vgs_vgid vgsummary, st) in
    (* If PV without mdas is already in a real VG, don't make it orphan *)
    if is_orphan_vg_opt vgname && in_vg
       && mdas_empty_or_ignored E (info_mdas r)
       && negb (is_orphan_vg_opt (current_vgname st))
       && critical_section E
    then Some (true, st)
    else
      (* If making a PV into an orphan, any cached VG metadata may become
       * invalid, incorrectly still referencing device structs.
       * (Example: pvcreate -ff) *)
      let st :=
        if is_orphan_vg_opt vgname && in_vg
           && negb (is_orphan_vg_opt (current_vgname st))
        then
          match info_vginfo r with
          | Some v => upd_vginfo v (set_vginfo_cached_vg_invalidated true) st
          | None => st
          end
        else st in
      (* If moving PV from orphan to real VG, always mark it valid *)
      let st :=
        if negb (is_orphan_vg_opt vgname)
        then
          upd_info info
            (fun r =>
               set_info_status
                 (Z.land (info_status r) (Z.lnot CACHE_INVALID)) r) st
        else st in
      match
        _lvmcache_update_vgname (Some info) vgname vgid
          (vgs_vgstatus vgsummary) (vgs_creation_host vgsummary)
          (info_fmt r) st
      with
      | None => None
      | Some (false, st) => Some (false, st)
      | Some (true, st) =>
        let vginfo :=
          match info_store st !! info with
          | Some r => info_vginfo r
          | None => None
          end in
        let '(ok, st) := _lvmcache_update_vgid (Some info) vginfo vgid st in
        if negb ok then Some (false, st)
        else
          let '(ok, st) :=
            _lvmcache_update_vgstatus (Some info) (vgs_vgstatus vgsummary)
              (vgs_creation_host vgsummary) (vgs_lock_type vgsummary) st in
          if negb ok then Some (false, st)
          else
            Some
              (_lvmcache_update_vg_mda_info (Some info)
                 (vgs_mda_checksum vgsummary) (vgs_mda_size vgsummary) st)
      end
  end.

(** The loop of [lvmcache_update_vg] over [vg->pvs]. *)
Fixpoint update_vg_pvs (pvs : list string) (vgsummary : lvmcache_vgsummary)
    (st : lvmcache) : option (bool * lvmcache) :=
  match pvs with
  | [] => Some (true, st)
  | pvid :: rest =>
    (* FIXME Could pvl->pv->dev->pvid ever be different? *)
    match lvmcache_info_from_pvid (Some (id_of pvid)) false st with
    | None => update_vg_pvs rest vgsummary st
    | Some info =>
      match lvmcache_update_vgname_and_id info vgsummary st with
      | None => None
      | Some (false, st) => Some (false, st)
      | Some (true, st) => update_vg_pvs rest vgsummary st
      end
    end
  end.

Definition lvmcache_update_vg (vg : volume_group) (precommitted : bool)
    (st : lvmcache) : option (bool * lvmcache) :=
  let vgsummary :=
    {| vgs_vgname := Some (vg_name vg); vgs_vgid := id_of (vg_id vg);
       vgs_vgstatus := vg_status vg; vgs_creation_host := None;
       vgs_lock_type := vg_lock_type vg; vgs_mda_checksum := 0;
       vgs_mda_size := 0 |} in
  match update_vg_pvs (vg_pvs vg) vgsummary st with
  | None => None
  | Some (false, st) => Some (false, st)
  | Some (true, st) =>
    (* store text representation of vg to cache *)
    Some (true,
          if vg_cache_vgmetadata vg then _store_metadata vg precommitted st
          else st)
  end.

(** ** Duplicate PVs *)

(*
 * When scanning all devices, lvmcache detects duplicate PVs exist if it sees
 * two different devices with the same pvid.  When it sees this, it ignores the
 * duplicate device, and sets _found_duplicates.
 *)
Definition lvmcache_found_duplicates (st : lvmcache) : bool :=
  _found_duplicates st.

Definition lvmcache_clear_found_duplicates (st : lvmcache) : lvmcache :=
  set__found_duplicates false st.

(** [label_create] of the label layer: one allocation. *)
Definition label_create (l : labeller) (st : lvmcache) : option label * lvmcache :=
  let '(ok, st) := dm_alloc st in
  (if ok then Some {| label_labeller := labeller_id l |} else None, st).

(** [lvmcache_add] once a record [info] for the device is at hand:
    [existing] tells whether it was in the cache before. *)
Definition lvmcache_add_finish (l : labeller) (pvid_s : string)
    (vgsummary : lvmcache_vgsummary) (existing : bool) (info : ptr)
    (st : lvmcache) : option (option ptr * lvmcache) :=
  let st := upd_info info (set_info_fmt (labeller_fmt l)) st in
  let st :=
    upd_info info
      (fun r => set_info_status (Z.lor (info_status r) CACHE_INVALID) r) st in
  let free_info st := set_info_store (delete info (info_store st)) st in
  let '(ok, st) := _lvmcache_update_pvid info pvid_s st in
  if negb ok then Some (None, if existing then st else free_info st)
  else
    match lvmcache_update_vgname_and_id info vgsummary st with
    | None => None
    | Some (true, st) => Some (Some info, st)
    | Some (false, st) =>
      if existing then Some (None, st)
      else
        let dev :=
          match info_store st !! info with
          | Some r => Some (info_dev r)
          | None => None
          end in
        let st := set__pvid_hash (dm_hash_remove (_pvid_hash st) pvid_s) st in
        let st :=
          match dev with
          | Some d => set_dev_pvid (<[d := EmptyString]> (dev_pvid st)) st
          | None => st
          end in
        Some (None, free_info st)
    end.

Definition lvmcache_add (l : labeller) (pvid : string) (dev : device)
    (vgname vgid : option string) (vgstatus : Z) (st : lvmcache)
    : option (option ptr * lvmcache) :=
  let vgsummary :=
    {| vgs_vgname := vgname;
       (* N.B. vgid is not NUL-terminated when called from _text_pv_write *)
       vgs_vgid := match vgid with Some id => id_of id | None => EmptyString end;
       vgs_vgstatus := vgstatus; vgs_creation_host := None;
       vgs_lock_type := None; vgs_mda_checksum := 0; vgs_mda_size := 0 |} in
  let '(ready, st) :=
    if bool_decide (is_Some (_vgname_hash st)) then (true, st)
    else lvmcache_init st in
  if negb ready
  then Some (None, log_error "Internal cache initialisation failed" [] st)
  else
    let pvid_s := id_of pvid in
    match
      match lvmcache_info_from_pvid (Some pvid_s) false st with
      | Some existing => Some existing
      | None => lvmcache_info_from_pvid (Some (pvid_of_dev dev st)) false st
      end
    with
    | None =>
      match label_create l st with
      | (None, st) => Some (None, st)
      | (Some lbl, st) =>
        match dm_zalloc st with
        | (None, st) =>
          Some (None, log_error "lvmcache_info allocation failed" [] st)
        | (Some info, st) =>
          let st :=
            set_info_store
              (<[info :=
                   {| info_mdas := []; info_das := []; info_bas := [];
                      info_vginfo := None; info_label := Some lbl;
                      info_fmt := None; info_dev := dev;
                      info_device_size := 0; info_status := 0 |}]>
                 (info_store st)) st in
          lvmcache_add_finish l pvid_s vgsummary false info st
        end
      end
    | Some existing =>
      match info_store st !! existing with
      | None => Some (None, st)
      | Some r =>
        if negb (Nat.eqb (info_dev r) dev)
        then
          let st :=
            log_warn
              "Ignore duplicate PV on device %s. Already using PV from device %s. (%s)"
              [dev_name E dev; dev_name E (info_dev r); pvid_s] st in
          let st :=
            log_warn "Use the global_filter to select a different device." [] st in
          Some (None, set__found_duplicates true st)
        else
          (*
           * The new dev is the same as the existing dev.
           *
           * FIXME: Why can't we just return NULL here if the
           * device already exists?  Things don't seem to work
           * if we do that for some reason.
           *)
          (*
           * Switch over to new preferred device.
           *)
          let st := upd_info existing (set_info_dev dev) st in
          (* Has labeller changed? *)
          if match info_label r with
             | Some lbl => Nat.eqb (label_labeller lbl) (labeller_id l)
             | None => false
             end
          then lvmcache_add_finish l pvid_s vgsummary true existing st
          else
            let '(lbl, st) := label_create l st in
            let st := upd_info existing (set_info_label lbl) st in
            match lbl with
            | None => Some (None, st) (* FIXME leaves info without label! *)
            | Some _ => lvmcache_add_finish l pvid_s vgsummary true existing st
            end
      end
    end.

(** ** Teardown *)

Definition _lvmcache_destroy_entry (info : ptr) (st : lvmcache) : lvmcache :=
  match info_store st !! info with
  | None => st
  | Some r =>
    let st := _vginfo_detach_info info st in
    let st := set_dev_pvid (<[info_dev r := EmptyString]> (dev_pvid st)) st in
    set_info_store (delete info (info_store st)) st
  end.

(** [do { next = vginfo->next; _free_vginfo(vginfo); } while ((vginfo = next))]
    over the chain that starts at a record of [_vgname_hash]. *)
Definition _lvmcache_destroy_vgnamelist (chain : list ptr) (st : lvmcache)
    : lvmcache :=
  fold_left (fun st vginfo => snd (_free_vginfo vginfo st)) chain st.

Definition _lvmcache_destroy_lockname (vgname : string) (st : lvmcache)
    : lvmcache :=
  if String.eqb vgname VG_GLOBAL
  then set__vg_global_lock_held true st
  else log_internal_error "Volume Group %s was not unlocked" [vgname] st.

(** Modelled from the spec: [init_lvmcache_orphans] of the command layer,
    which is not under src/: the option of the teardown to reseed the
    orphan pseudo-VGs at once, one per on-disk format, each by explicit
    orphan registration. *)
Fixpoint init_lvmcache_orphans (fmts : list format_type) (st : lvmcache)
    : option (bool * lvmcache) :=
  match fmts with
  | [] => Some (true, st)
  | fmt :: rest =>
    match lvmcache_add_orphan_vginfo (orphan_vg_name fmt) fmt st with
    | None => None
    | Some (false, st) => Some (false, st)
    | Some (true, st) => init_lvmcache_orphans rest st
    end
  end.

Definition lvmcache_destroy (cmd : cmd_context) (retain_orphans reset : bool)
    (st : lvmcache) : option lvmcache :=
  let st := set__has_scanned false st in
  let st := set__vgid_hash None st in
  let st :=
    match _pvid_hash st with
    | Some h =>
      let st :=
        fold_left (fun st info => _lvmcache_destroy_entry info st)
          (map snd (map_to_list h)) st in
      set__pvid_hash None st
    | None => st
    end in
  let st :=
    match _vgname_hash st with
    | Some h =>
      let st :=
        fold_left (fun st chain => _lvmcache_destroy_vgnamelist chain st)
          (map snd (map_to_list h)) st in
      set__vgname_hash None st
    | None => st
    end in
  let st :=
    match _lock_hash st with
    | Some h =>
      let st :=
        if reset then set__vg_global_lock_held false st
        else
          fold_left (fun st vgname => _lvmcache_destroy_lockname vgname st)
            (map fst (map_to_list h)) st in
      set__lock_hash None st
    | None => st
    end in
  let st :=
    if negb (bool_decide (_vginfos st = []))
    then log_internal_error "_vginfos list should be empty" [] st
    else st in
  let st := set__vginfos [] st in
  if retain_orphans
  then
    match init_lvmcache_orphans (formats cmd) st with
    | None => None
    | Some (_, st) => Some st
    end
  else Some st.

(** ** Queries on the records *)

(** In the queries below a pointer to a record that is not in its store
    is not followed: the query answers as for a NULL pointer. *)

Definition lvmcache_vgname_from_vgid (mem : bool) (vgid : option string)
    (st : lvmcache) : option string * lvmcache :=
  let vgname :=
    match lvmcache_vginfo_from_vgid vgid st with
    | Some vginfo => vginfo_vgname <$> vginfo_store st !! vginfo
    | None => None
    end in
  match mem, vgname with
  | true, Some name =>
    (* dm_pool_strdup(mem, vgname) *)
    let '(ok, st) := dm_alloc st in
    (if ok then Some name else None, st)
  | _, _ => (vgname, st)
  end.

Definition lvmcache_vgname_from_info (info : lvmcache_info) (st : lvmcache)
    : option string :=
  match info_vginfo info with
  | Some vginfo => vginfo_vgname <$> vginfo_store st !! vginfo
  | None => None
  end.

Definition lvmcache_pvid_is_locked (pvid : option string) (st : lvmcache)
    : bool :=
  match lvmcache_info_from_pvid pvid false st with
  | None => false
  | Some info =>
    match info_store st !! info with
    | None => false
    | Some r =>
      match lvmcache_vgname_from_info r st with
      | None => false
      | Some vgname => lvmcache_vgname_is_locked vgname st
      end
    end
  end.

(** [info->status &= ~CACHE_INVALID] *)
Definition lvmcache_make_valid (info : ptr) (st : lvmcache) : lvmcache :=
  upd_info info
    (fun r => set_info_status (Z.land (info_status r) (Z.lnot CACHE_INVALID)) r)
    st.

Definition lvmcache_is_orphan (info : lvmcache_info) (st : lvmcache) : bool :=
  match info_vginfo info with
  | None => true (* FIXME? *)
  | Some vginfo =>
    match vginfo_store st !! vginfo with
    | Some r => is_orphan_vg (vginfo_vgname r)
    | None => true
    end
  end.

Definition lvmcache_vgid_is_cached (vgid : option string) (st : lvmcache)
    : bool :=
  if lvmetad_active E then true
  else
    match lvmcache_vginfo_from_vgid vgid st with
    | None => false
    | Some vginfo =>
      match vginfo_store st !! vginfo with
      | None => false
      | Some r => negb (is_orphan_vg (vginfo_vgname r))
      end
    end.

(*
 * Return true iff it is impossible to find out from this info alone whether the
 * PV in question is or is not an orphan.
 *)
Definition lvmcache_uncertain_ownership (info : lvmcache_info) : bool :=
  mdas_empty_or_ignored E (info_mdas info).

(** The records on [_vginfos], in the order of the list. *)
Definition listed_vginfos (st : lvmcache) : list lvmcache_vginfo :=
  omap (fun p => vginfo_store st !! p) (_vginfos st).

(** The test of [lvmcache_lookup_mda] on one VG record. *)
Definition mda_matches (vgsummary : lvmcache_vgsummary)
    (vginfo : lvmcache_vginfo) : bool :=
  (vgs_mda_checksum vgsummary =? vginfo_mda_checksum vginfo)
  && (vgs_mda_size vgsummary =? vginfo_mda_size vginfo)
  && negb (is_orphan_vg (vginfo_vgname vginfo)).

Definition lvmcache_lookup_mda (vgsummary : lvmcache_vgsummary)
    (st : lvmcache) : bool * lvmcache_vgsummary :=
  if vgs_mda_size vgsummary =? 0 then (false, vgsummary)
  else
    (* FIXME Index the checksums *)
    match List.find (mda_matches vgsummary) (listed_vginfos st) with
    | Some vginfo =>
      (true,
       {| vgs_vgname := Some (vginfo_vgname vginfo);
          (* vginfo->vgid has 1 extra byte then vgsummary->vgid *)
          vgs_vgid := id_of (vginfo_vgid vginfo);
          vgs_vgstatus := vginfo_status vginfo;
          vgs_creation_host := vginfo_creation_host vginfo;
          vgs_lock_type := vgs_lock_type vgsummary;
          vgs_mda_checksum := vgs_mda_checksum vgsummary;
          vgs_mda_size := vgs_mda_size vgsummary |})
    | None => (false, vgsummary)
    end.

Definition lvmcache_contains_lock_type_sanlock (st : lvmcache) : bool :=
  existsb
    (fun vginfo =>
       match vginfo_lock_type vginfo with
       | Some lock_type => String.eqb lock_type "sanlock"
       | None => false
       end)
    (listed_vginfos st).

(** The update of a running maximum by one length. *)
Definition raise_to (len max : nat) : nat :=
  if (max <? len)%nat then len else max.

(** The result is the pair of the two lengths written through the
    pointers, the one for the PVs first. *)
Definition lvmcache_get_max_name_lengths (st : lvmcache) : nat * nat :=
  fold_left
    (fun '(pv_max_name_len, vg_max_name_len) vginfo =>
       (fold_left
          (fun pv_max_name_len info =>
             raise_to (String.length (dev_name E (info_dev info)))
               pv_max_name_len)
          (member_infos vginfo st) pv_max_name_len,
        raise_to (String.length (vginfo_vgname vginfo)) vg_max_name_len))
    (listed_vginfos st) (0%nat, 0%nat).

(** * Vocabulary of the properties *)

(** The state [lvmcache_add] leaves when it rejects a duplicate device. *)
Definition duplicate_rejected (dev existing_dev : device) (pvid_s : string)
    (st : lvmcache) : lvmcache :=
  set__found_duplicates true
    (log_warn "Use the global_filter to select a different device." []
       (log_warn
          "Ignore duplicate PV on device %s. Already using PV from device %s. (%s)"
          [dev_name E dev; dev_name E existing_dev; pvid_s] st)).

(** [st'] differs from [st] at most in the VG records and the parsed VG
    objects. *)
Definition stores_only (st st' : lvmcache) : Prop :=
  st' = set_vg_store (vg_store st') (set_vginfo_store (vginfo_store st') st).

(** [r'] differs from [r] at most in the handle on the parsed VG: the
    fields [cached_vg] and [holders]. *)
Definition vg_handle_only (r r' : lvmcache_vginfo) : Prop :=
  r' = set_vginfo_holders (vginfo_holders r')
         (set_vginfo_cached_vg (vginfo_cached_vg r') r).

(** The VG records of [m'] are those of [m], up to [R]. *)
Definition records_related (R : lvmcache_vginfo -> lvmcache_vginfo -> Prop)
    (m m' : gmap ptr lvmcache_vginfo) : Prop :=
  forall q, option_Forall2 R (m !! q) (m' !! q).

(** [r'] differs from [r] at most in the cached metadata: the blob, the
    tree parsed from it and the handle on the parsed VG. *)
Definition blob_only (r r' : lvmcache_vginfo) : Prop :=
  r' = set_vginfo_holders (vginfo_holders r')
         (set_vginfo_cached_vg (vginfo_cached_vg r')
            (set_vginfo_cft (vginfo_cft r')
               (set_vginfo_vgmetadata (vginfo_vgmetadata r') r))).

Definition commit_missing : log_msg :=
  {| msg_level := LOG_INTERNAL_ERROR;
     msg_text :=
       "metadata commit (or revert) missing before dropping metadata from cache.";
     msg_args := [] |}.

(** [st'] differs from [st] at most in the PV records. *)
Definition infos_only (st st' : lvmcache) : Prop :=
  st' = set_info_store (info_store st') st.

(** [st'] differs from [st] at most in the PV records, the VG records and
    the parsed VG objects. *)
Definition records_only (st st' : lvmcache) : Prop :=
  st' = set_vg_store (vg_store st')
          (set_vginfo_store (vginfo_store st')
             (set_info_store (info_store st') st)).

(** The class of a name in the locking order: the reserved global name
    (0), an ordinary name (1), an orphan name (2). *)
Definition lock_rank (vgname : string) : nat :=
  if is_global_vg vgname then 0 else if is_orphan_vg vgname then 2 else 1.

(** The total order in which the specification wants names locked: [a]
    comes before [b] when [a] is the global name and [b] is not, when [b]
    is an orphan name and [a] is not, or when both are ordinary names or
    both orphan names and [a] is the smaller one lexicographically.  The
    specification does not say how the orphan names are ordered among
    themselves; they are ordered like the ordinary ones here. *)
Definition spec_lock_before (a b : string) : Prop :=
  (lock_rank a < lock_rank b)%nat
  \/ (lock_rank a = lock_rank b /\ lock_rank a <> 0%nat
      /\ String.ltb a b = true).

(** The names that have a lock recorded. *)
Definition held_names (st : lvmcache) : list string :=
  match _lock_hash st with
  | Some h => map fst (map_to_list h)
  | None => []
  end.

(** One acquisition as the locking layer makes it: the order is verified,
    and the lock is recorded when the verification succeeds. *)
Definition acquire (vgname : string) (st : lvmcache) : bool * lvmcache :=
  let '(ok, st) := lvmcache_verify_lock_order vgname st in
  if ok then (true, lvmcache_lock_vgname vgname st) else (false, st).

Fixpoint acquire_all (names : list string) (st : lvmcache)
    : list bool * lvmcache :=
  match names with
  | [] => ([], st)
  | vgname :: rest =>
    let '(ok, st) := acquire vgname st in
    let '(oks, st) := acquire_all rest st in
    (ok :: oks, st)
  end.

(** The bits of the status of the PV record [i]; a key without a record has
    none. *)
Definition invalid_bit (st : lvmcache) (i : ptr) : bool :=
  match info_store st !! i with
  | Some r => flag_set (info_status r) CACHE_INVALID
  | None => false
  end.

Definition locked_bit (st : lvmcache) (i : ptr) : bool :=
  match info_store st !! i with
  | Some r => flag_set (info_status r) CACHE_LOCKED
  | None => false
  end.

(** The held/not-held status recorded for the PV record [i] is not
    [locked]: setting it to [locked] flips it. *)
Definition flips (st : lvmcache) (locked : bool) (i : ptr) : bool :=
  bool_decide (is_Some (info_store st !! i)) && xorb (locked_bit st i) locked.

(** [st'] differs from [st] at most in the lock table, the lock counter,
    the allocator and the log. *)
Definition lock_table_only (st st' : lvmcache) : Prop :=
  st' = set_log (log st')
          (set_heap_script (heap_script st')
             (set__vgs_locked (_vgs_locked st')
                (set__lock_hash (_lock_hash st') st))).



(** The cached blob of [r] answers a request for committed
    ([precommitted = false]) or precommitted metadata. *)
Definition blob_answers (r : lvmcache_vginfo) (precommitted : bool) : Prop :=
  is_Some (vginfo_vgmetadata r)
  /\ (precommitted = true -> vginfo_precommitted r = true)
  /\ (precommitted = false ->
      vginfo_precommitted r = false \/ critical_section E = true).

(** The VG record [p], found under [vgid], shares the parsed VG [vg] with
    [h] holders and can serve it to a request for [precommitted]. *)
Definition shares (st : lvmcache) (vgid : string) (precommitted : bool)
    (p vg : ptr) (h : Z) : Prop :=
  lvmcache_vginfo_from_vgid (Some vgid) st = Some p
  /\ exists r obj,
       vginfo_store st !! p = Some r
       /\ vginfo_cached_vg r = Some vg
       /\ vginfo_holders r = h
       /\ vginfo_cached_vg_invalidated r = false
       /\ vg_store st !! vg = Some obj
       /\ vg_vginfo obj = Some p
       /\ blob_answers r precommitted
       /\ _vginfo_is_valid r st = true.

(** [st'] differs from [st] at most in the VG records, the parsed VG
    objects and the next free key. *)
Definition objects_only (st st' : lvmcache) : Prop :=
  st' = set_next_ptr (next_ptr st')
          (set_vg_store (vg_store st')
             (set_vginfo_store (vginfo_store st') st)).

(** The collaborators build a parsed VG for the record [r] and the
    identifier [vgid]: the format makes an instance, the blob parses (or
    its tree is cached), the import gives [obj], the pool locks. *)
Definition builds (r : lvmcache_vginfo) (vgid : string) (obj : volume_group)
    : Prop :=
  exists fmt fid c,
    vginfo_fmt r = Some fmt
    /\ create_instance E fmt (vginfo_vgname r) vgid = Some fid
    /\ match vginfo_cft r with
       | Some c => Some c
       | None =>
         dm_config_from_string E (default EmptyString (vginfo_vgmetadata r))
       end = Some c
    /\ import_vg_from_config_tree E c fid = Some obj
    /\ dm_pool_lock E obj = true.

(** The precedence between the record that is primary for a VG name and a
    new record of the same name, as the rules of the specification give
    it: the first rule that applies decides, and without one the existing
    primary is kept. *)
Inductive precedence := KeepExisting | NewBecomesPrimary.

Definition spec_precedence_rules (existing_exported new_exported : bool)
    (existing_host new_host : option string) (local_host : string)
    : list (bool * precedence) :=
  [ (negb existing_exported && new_exported, KeepExisting);
    (existing_exported && negb new_exported, NewBecomesPrimary);
    (bool_decide (existing_host = Some local_host), KeepExisting);
    (bool_decide (existing_host = None) && bool_decide (is_Some new_host),
     NewBecomesPrimary);
    (bool_decide (new_host = Some local_host), NewBecomesPrimary) ].

Fixpoint first_match (rules : list (bool * precedence)) : precedence :=
  match rules with
  | [] => KeepExisting
  | (true, verdict) :: _ => verdict
  | (false, _) :: rest => first_match rest
  end.

Definition spec_precedence (existing_exported new_exported : bool)
    (existing_host new_host : option string) (local_host : string)
    : precedence :=
  first_match
    (spec_precedence_rules existing_exported new_exported existing_host
       new_host local_host).


(** The cache once [lvmcache_init] has created its four tables, with
    [script] left for the allocator. *)
Definition tables_created (script : list bool) (st : lvmcache) : lvmcache :=
  set__lock_hash (Some ∅)
    (set__pvid_hash (Some ∅)
       (set__vgid_hash (Some ∅)
          (set__vgname_hash (Some ∅)
             (set_heap_script script
                (set__vginfos [] (set__vgs_locked 0 st)))))).

(** From [st] to [st'] the lock table and the record of a held global
    lock are kept, the log has only grown, and the allocator has only
    moved on in its script. *)
Definition lock_state_kept (st st' : lvmcache) : Prop :=
  _lock_hash st' = _lock_hash st
  /\ _vg_global_lock_held st' = _vg_global_lock_held st
  /\ (exists more, log st' = log st ++ more)
  /\ (exists used, heap_script st = used ++ heap_script st').

(** The internal error of the teardown for a lock that is still held. *)
Definition not_unlocked (vgname : string) : log_msg :=
  {| msg_level := LOG_INTERNAL_ERROR;
     msg_text := "Volume Group %s was not unlocked";
     msg_args := [vgname] |}.

(** The cache a scan for the primary record ends with. *)
Definition primary_scan_state (res : primary_scan) : lvmcache :=
  match res with
  | PrimaryIs _ st => st
  | PrimaryFailed _ st => st
  end.


(** From [st] to [st'] every PV record and every VG record is kept, the PV
    records with their VG and their device, the VG records with their name
    and their member list. *)
Definition links_kept (st st' : lvmcache) : Prop :=
  (forall i r, info_store st !! i = Some r ->
     exists r', info_store st' !! i = Some r'
       /\ info_vginfo r' = info_vginfo r /\ info_dev r' = info_dev r)
  /\ (forall v vr, vginfo_store st !! v = Some vr ->
        exists vr', vginfo_store st' !! v = Some vr'
          /\ vginfo_vgname vr' = vginfo_vgname vr
          /\ vginfo_infos vr' = vginfo_infos vr).

(** From [st] to [st'] the PV table and the identifiers of the devices
    are kept, and every PV record is kept with its device. *)
Definition pv_index_kept (st st' : lvmcache) : Prop :=
  _pvid_hash st' = _pvid_hash st
  /\ dev_pvid st' = dev_pvid st
  /\ (forall i r, info_store st !! i = Some r ->
        exists r', info_store st' !! i = Some r'
          /\ info_dev r' = info_dev r).

(** From [st] to [st'] the record of a scan is kept, and a VG identifier
    table that is gone stays gone. *)
Definition teardown_kept (st st' : lvmcache) : Prop :=
  _has_scanned st' = _has_scanned st
  /\ (_vgid_hash st = None -> _vgid_hash st' = None).

(** * Properties *)

#[local] Arguments _free_cached_vgmetadata : simpl never.
#[local] Arguments release_vg : simpl never.
#[local] Arguments upd_info : simpl never.
#[local] Arguments upd_vginfo : simpl never.
#[local] Arguments upd_vg : simpl never.
#[local] Arguments print_log : simpl never.
#[local] Arguments invalidate_infos : simpl never.
#[local] Arguments _update_cache_lock_state : simpl never.
#[local] Arguments _update_cache_vginfo_lock_state : simpl never.
#[local] Arguments lvmcache_vginfo_from_vgname : simpl never.
#[local] Arguments lvmcache_vginfo_from_vgid : simpl never.
#[local] Arguments lvmcache_vgname_is_locked : simpl never.
#[local] Arguments lvmcache_init : simpl never.
#[local] Arguments get_vg_out : simpl never.
#[local] Arguments get_vg_build : simpl never.

(** ** Identifiers and status bits *)

Lemma id_of_idemp (s : string) : id_of (id_of s) = id_of s.
Proof.
  unfold id_of. generalize ID_LEN. intros n. revert s.
  induction n as [|n IH]; intros [|c s]; simpl; try reflexivity.
  f_equal. apply IH.
Qed.

Lemma flag_set_testbit_invalid (s : Z) :
  flag_set s CACHE_INVALID = Z.testbit s 0.
Proof.
  unfold flag_set, CACHE_INVALID.
  replace (Z.land s 1) with (Z.b2z (Z.testbit s 0)).
  - destruct (Z.testbit s 0); reflexivity.
  - symmetry. change 1 with (Z.ones 1). rewrite Z.land_ones by lia.
    rewrite <- Z.bit0_mod. reflexivity.
Qed.

Lemma flag_set_lor_invalid (s : Z) :
  flag_set (Z.lor s CACHE_INVALID) CACHE_INVALID = true.
Proof.
  rewrite flag_set_testbit_invalid, Z.lor_spec.
  unfold CACHE_INVALID. simpl. apply orb_true_r.
Qed.

Lemma flag_set_invalid_lor_locked (s : Z) :
  flag_set (Z.lor s CACHE_LOCKED) CACHE_INVALID = flag_set s CACHE_INVALID.
Proof.
  rewrite !flag_set_testbit_invalid, Z.lor_spec.
  unfold CACHE_LOCKED. simpl. apply orb_false_r.
Qed.

Lemma flag_set_invalid_clear_locked (s : Z) :
  flag_set (Z.land s (Z.lnot CACHE_LOCKED)) CACHE_INVALID
  = flag_set s CACHE_INVALID.
Proof.
  rewrite !flag_set_testbit_invalid, Z.land_spec.
  unfold CACHE_LOCKED. simpl. apply andb_true_r.
Qed.

(** ** Duplicate suppression *)

(** C1.  When the PV identifier [pvid] is registered for a record of device
    A, registering [pvid] from a device B other than A produces no record
    (the call returns NULL), leaves the record found by PV-id lookup, and
    the record itself, as they were, emits a warning and sets the
    duplicate-found flag; nothing else of the cache changes. *)
Theorem lvmcache_add_duplicate_device
    (l : labeller) (pvid : string) (dev : device) (vgname vgid : option string)
    (vgstatus : Z) (st : lvmcache) (h : gmap string ptr) (info : ptr)
    (r : lvmcache_info) :
  is_Some (_vgname_hash st) ->
  _pvid_hash st = Some h ->
  h !! id_of pvid = Some info ->
  info_store st !! info = Some r ->
  info_dev r <> dev ->
  let st' := duplicate_rejected dev (info_dev r) (id_of pvid) st in
  lvmcache_add l pvid dev vgname vgid vgstatus st = Some (None, st')
  /\ lvmcache_info_from_pvid (Some pvid) false st = Some info
  /\ lvmcache_info_from_pvid (Some pvid) false st' = Some info
  /\ info_store st' !! info = Some r
  /\ lvmcache_found_duplicates st' = true
  /\ (exists w1 w2, log st' = log st ++ [w1; w2]
                    /\ msg_level w1 = LOG_WARN /\ msg_level w2 = LOG_WARN).
Proof.
  intros Hinit Hh Hreg Hrec Hdev st'.
  assert (Hlook : forall s, _pvid_hash s = Some h ->
            lvmcache_info_from_pvid (Some pvid) false s = Some info).
  { intros s Hs. unfold lvmcache_info_from_pvid. rewrite Hs, Hreg. reflexivity. }
  split_and!.
  - unfold lvmcache_add.
    rewrite (bool_decide_eq_true_2 _ Hinit). simpl.
    unfold lvmcache_info_from_pvid at 1.
    rewrite Hh, id_of_idemp, Hreg. simpl. rewrite Hrec.
    destruct (Nat.eqb_spec (info_dev r) dev) as [Heq|_]; [contradiction|].
    reflexivity.
  - apply Hlook, Hh.
  - apply Hlook. exact Hh.
  - exact Hrec.
  - reflexivity.
  - eexists _, _. unfold st', duplicate_rejected, log_warn, print_log. simpl.
    split; [rewrite <- app_assoc; reflexivity | split; reflexivity].
Qed.

(** ** What releasing the parsed VG can change *)

Lemma stores_only_refl (st : lvmcache) : stores_only st st.
Proof. destruct st; reflexivity. Qed.

Lemma stores_only_trans (st1 st2 st3 : lvmcache) :
  stores_only st1 st2 -> stores_only st2 st3 -> stores_only st1 st3.
Proof.
  unfold stores_only. intros H12 H23. rewrite H23 at 1. rewrite H12 at 1.
  destruct st1; reflexivity.
Qed.

Lemma stores_only_upd_vginfo p f (st : lvmcache) :
  stores_only st (upd_vginfo p f st).
Proof. destruct st; reflexivity. Qed.

Lemma stores_only_upd_vg p f (st : lvmcache) : stores_only st (upd_vg p f st).
Proof. destruct st; reflexivity. Qed.

Lemma stores_only_set_vg_store m (st : lvmcache) :
  stores_only st (set_vg_store m st).
Proof. destruct st; reflexivity. Qed.

Create HintDb frame.

#[local] Hint Resolve stores_only_refl stores_only_upd_vginfo
  stores_only_upd_vg stores_only_set_vg_store : frame.

Lemma vg_handle_only_refl (r : lvmcache_vginfo) : vg_handle_only r r.
Proof. destruct r; reflexivity. Qed.

Lemma vg_handle_only_trans (r1 r2 r3 : lvmcache_vginfo) :
  vg_handle_only r1 r2 -> vg_handle_only r2 r3 -> vg_handle_only r1 r3.
Proof.
  unfold vg_handle_only. intros H12 H23. rewrite H23 at 1. rewrite H12 at 1.
  destruct r1; reflexivity.
Qed.

Lemma vg_handle_only_holders (r : lvmcache_vginfo) h :
  vg_handle_only r (set_vginfo_holders h r).
Proof. destruct r; reflexivity. Qed.

Lemma vg_handle_only_cached_vg (r : lvmcache_vginfo) v :
  vg_handle_only r (set_vginfo_cached_vg v r).
Proof. destruct r; reflexivity. Qed.

Lemma records_related_refl R (m : gmap ptr lvmcache_vginfo) :
  (forall r, R r r) -> records_related R m m.
Proof.
  intros HR q. destruct (m !! q); constructor. apply HR.
Qed.

Lemma records_related_trans R (m1 m2 m3 : gmap ptr lvmcache_vginfo) :
  (forall r1 r2 r3, R r1 r2 -> R r2 r3 -> R r1 r3) ->
  records_related R m1 m2 -> records_related R m2 m3 -> records_related R m1 m3.
Proof.
  intros HR H12 H23 q. specialize (H12 q). specialize (H23 q).
  destruct H12; inversion H23; subst; constructor. eapply HR; eassumption.
Qed.

Lemma records_related_alter R (m : gmap ptr lvmcache_vginfo) p f :
  (forall r, R r r) -> (forall r, R r (f r)) ->
  records_related R m (alter f p m).
Proof.
  intros Hrefl Hf q. rewrite lookup_alter.
  destruct (decide (p = q)) as [->|_]; destruct (m !! q); simpl;
    constructor; auto.
Qed.

Lemma holders_dec_effect (vginfo : ptr) (st : lvmcache) :
  let st' := snd (lvmcache_vginfo_holders_dec_and_test_for_zero vginfo st) in
  stores_only st st'
  /\ records_related vg_handle_only (vginfo_store st) (vginfo_store st').
Proof.
  unfold lvmcache_vginfo_holders_dec_and_test_for_zero.
  destruct (vginfo_store st !! vginfo) as [r|] eqn:Hr; simpl.
  2:{ split; [apply stores_only_refl|].
      apply records_related_refl, vg_handle_only_refl. }
  set (st1 := upd_vginfo vginfo _ st).
  assert (H1 : records_related vg_handle_only (vginfo_store st)
                 (vginfo_store st1)).
  { apply records_related_alter;
      auto using vg_handle_only_refl, vg_handle_only_holders. }
  destruct (negb _); simpl.
  - split; [apply stores_only_upd_vginfo | exact H1].
  - split.
    + apply (stores_only_trans st st1); [apply stores_only_upd_vginfo|].
      eapply stores_only_trans; [|apply stores_only_upd_vginfo].
      destruct (vginfo_cached_vg r); auto with frame.
    + eapply records_related_trans;
        [apply vg_handle_only_trans | exact H1 |].
      eapply records_related_trans; [apply vg_handle_only_trans | |].
      2:{ apply records_related_alter;
            auto using vg_handle_only_refl, vg_handle_only_cached_vg. }
      destruct (vginfo_cached_vg r); simpl;
        apply records_related_refl, vg_handle_only_refl.
Qed.

Lemma release_vg_effect (vg : option ptr) (st : lvmcache) :
  stores_only st (release_vg vg st)
  /\ records_related vg_handle_only (vginfo_store st)
       (vginfo_store (release_vg vg st)).
Proof.
  assert (Hsame : stores_only st st
            /\ records_related vg_handle_only (vginfo_store st) (vginfo_store st)).
  { split; [apply stores_only_refl|].
    apply records_related_refl, vg_handle_only_refl. }
  unfold release_vg. destruct vg as [v|]; [|exact Hsame].
  destruct (vg_store st !! v) as [obj|]; [|exact Hsame].
  destruct (vg_vginfo obj) as [vginfo|].
  - pose proof (holders_dec_effect vginfo st) as [Hs Hr].
    destruct (lvmcache_vginfo_holders_dec_and_test_for_zero vginfo st)
      as [zero st1]. simpl in Hs, Hr.
    destruct zero; [|split; assumption].
    split; [|exact Hr].
    eapply stores_only_trans; [exact Hs | apply stores_only_set_vg_store].
  - split; [apply stores_only_set_vg_store|].
    apply records_related_refl, vg_handle_only_refl.
Qed.

(** ** What dropping the cached blob can change *)

Lemma blob_only_refl (r : lvmcache_vginfo) : blob_only r r.
Proof. destruct r; reflexivity. Qed.

Lemma blob_only_trans (r1 r2 r3 : lvmcache_vginfo) :
  blob_only r1 r2 -> blob_only r2 r3 -> blob_only r1 r3.
Proof.
  unfold blob_only. intros H12 H23. rewrite H23 at 1. rewrite H12 at 1.
  destruct r1; reflexivity.
Qed.

Lemma vg_handle_only_blob_only (r r' : lvmcache_vginfo) :
  vg_handle_only r r' -> blob_only r r'.
Proof.
  unfold vg_handle_only, blob_only. intros H. destruct r, r'.
  cbv [set_vginfo_holders set_vginfo_cached_vg set_vginfo_cft
       set_vginfo_vgmetadata] in *.
  simpl in *. injection H as -> -> -> -> -> -> -> -> -> -> -> -> -> -> ->.
  reflexivity.
Qed.

Lemma blob_only_vgmetadata (r : lvmcache_vginfo) v :
  blob_only r (set_vginfo_vgmetadata v r).
Proof. destruct r; reflexivity. Qed.

Lemma blob_only_cft (r : lvmcache_vginfo) v : blob_only r (set_vginfo_cft v r).
Proof. destruct r; reflexivity. Qed.

Lemma records_related_weaken (R R' : lvmcache_vginfo -> lvmcache_vginfo -> Prop)
    (m m' : gmap ptr lvmcache_vginfo) :
  (forall r r', R r r' -> R' r r') ->
  records_related R m m' -> records_related R' m m'.
Proof.
  intros HR H q. destruct (H q); constructor. apply HR. assumption.
Qed.

Lemma free_cached_vgmetadata_effect (vginfo : option ptr) (st : lvmcache) :
  stores_only st (_free_cached_vgmetadata vginfo st)
  /\ records_related blob_only (vginfo_store st)
       (vginfo_store (_free_cached_vgmetadata vginfo st)).
Proof.
  assert (Hsame : stores_only st st
            /\ records_related blob_only (vginfo_store st) (vginfo_store st)).
  { split; [apply stores_only_refl|].
    apply records_related_refl, blob_only_refl. }
  unfold _free_cached_vgmetadata. destruct vginfo as [p|]; [|exact Hsame].
  destruct (vginfo_store st !! p) as [r|]; [|exact Hsame].
  destruct (vginfo_vgmetadata r); [|exact Hsame].
  set (st1 := upd_vginfo p (set_vginfo_vgmetadata None) st).
  set (st2 := upd_vginfo p (set_vginfo_cft None) st1).
  destruct (release_vg_effect (vginfo_cached_vg r) st2) as [Hs Hr].
  split.
  - apply (stores_only_trans st st1); [apply stores_only_upd_vginfo|].
    apply (stores_only_trans st1 st2); [apply stores_only_upd_vginfo|exact Hs].
  - apply (records_related_trans _ _ (vginfo_store st1)); [apply blob_only_trans | |].
    { apply records_related_alter;
        auto using blob_only_refl, blob_only_vgmetadata. }
    apply (records_related_trans _ _ (vginfo_store st2)); [apply blob_only_trans | |].
    { apply records_related_alter; auto using blob_only_refl, blob_only_cft. }
    eapply records_related_weaken; [apply vg_handle_only_blob_only | exact Hr].
Qed.

(** A record without a cached blob is left alone. *)
Lemma free_cached_vgmetadata_none (p : ptr) (st : lvmcache) r :
  vginfo_store st !! p = Some r -> vginfo_vgmetadata r = None ->
  _free_cached_vgmetadata (Some p) st = st.
Proof.
  intros Hr Hnone. unfold _free_cached_vgmetadata. rewrite Hr, Hnone.
  reflexivity.
Qed.

(** A cached blob and the tree parsed from it are discarded together. *)
Lemma free_cached_vgmetadata_at (p : ptr) (st : lvmcache) r :
  vginfo_store st !! p = Some r ->
  exists r', vginfo_store (_free_cached_vgmetadata (Some p) st) !! p = Some r'
    /\ blob_only r r'
    /\ vginfo_vgmetadata r' = None
    /\ (is_Some (vginfo_vgmetadata r) -> vginfo_cft r' = None).
Proof.
  intros Hr. unfold _free_cached_vgmetadata. rewrite Hr.
  destruct (vginfo_vgmetadata r) as [blob|] eqn:Hblob.
  2:{ exists r. split_and!; auto using blob_only_refl.
      intros [? ?]; discriminate. }
  set (st1 := upd_vginfo p (set_vginfo_vgmetadata None) st).
  set (st2 := upd_vginfo p (set_vginfo_cft None) st1).
  assert (H2 : vginfo_store st2 !! p
               = Some (set_vginfo_cft None (set_vginfo_vgmetadata None r))).
  { unfold st2, st1, upd_vginfo. simpl. rewrite !lookup_alter_eq, Hr.
    reflexivity. }
  destruct (release_vg_effect (vginfo_cached_vg r) st2) as [_ Hrel].
  specialize (Hrel p). rewrite H2 in Hrel. inversion Hrel as [x r' Hh|]; subst.
  exists r'. split_and!; try reflexivity.
  - apply (blob_only_trans r (set_vginfo_cft None (set_vginfo_vgmetadata None r))).
    + destruct r; reflexivity.
    + apply vg_handle_only_blob_only. assumption.
  - rewrite Hh. reflexivity.
  - intros _. rewrite Hh. reflexivity.
Qed.

Lemma blob_only_precommitted (r r' : lvmcache_vginfo) :
  blob_only r r' -> vginfo_precommitted r' = vginfo_precommitted r.
Proof. intros H. rewrite H. reflexivity. Qed.

Lemma blob_only_infos (r r' : lvmcache_vginfo) :
  blob_only r r' -> vginfo_infos r' = vginfo_infos r.
Proof. intros H. rewrite H. reflexivity. Qed.

Lemma blob_only_vgname (r r' : lvmcache_vginfo) :
  blob_only r r' -> vginfo_vgname r' = vginfo_vgname r.
Proof. intros H. rewrite H. reflexivity. Qed.

(** The name index is read the same after a change to the stores only. *)
Lemma stores_only_from_vgname (st st' : lvmcache) vgname :
  stores_only st st' ->
  lvmcache_vginfo_from_vgname (Some vgname) None st'
  = lvmcache_vginfo_from_vgname (Some vgname) None st.
Proof.
  intros H. unfold lvmcache_vginfo_from_vgname. rewrite H. reflexivity.
Qed.

Lemma stores_only_info_store (st st' : lvmcache) :
  stores_only st st' -> info_store st' = info_store st.
Proof. intros H. rewrite H. reflexivity. Qed.

Lemma stores_only_log (st st' : lvmcache) :
  stores_only st st' -> log st' = log st.
Proof. intros H. rewrite H. reflexivity. Qed.

Lemma stores_only_lock_hash (st st' : lvmcache) :
  stores_only st st' -> _lock_hash st' = _lock_hash st.
Proof. intros H. rewrite H. reflexivity. Qed.

(** ** Precommit, commit, drop *)

(** C7, as the code has it.  For a VG record whose precommitted flag is set,
    [_drop_metadata] with [drop_precommitted = 0] logs the internal error
    exactly when the blob is no longer cached: then nothing else happens.
    While the precommitted blob is still cached, nothing is logged, the
    blob and its tree are discarded, the member PVs are not invalidated
    again and the flag stays set. *)
Theorem drop_metadata_keeping_precommitted
    (vgname : string) (p : ptr) (r : lvmcache_vginfo) (st : lvmcache) :
  lvmcache_vginfo_from_vgname (Some vgname) None st = Some p ->
  vginfo_store st !! p = Some r ->
  vginfo_precommitted r = true ->
  let st' := _drop_metadata vgname false st in
  (vginfo_vgmetadata r = None ->
     st' = set_log (log st ++ [commit_missing]) st)
  /\ (is_Some (vginfo_vgmetadata r) ->
        log st' = log st
        /\ info_store st' = info_store st
        /\ exists r', vginfo_store st' !! p = Some r'
             /\ vginfo_vgmetadata r' = None /\ vginfo_cft r' = None
             /\ vginfo_precommitted r' = true).
Proof.
  intros Hp Hr Hpre st'. unfold st', _drop_metadata. rewrite Hp, Hr, Hpre.
  simpl. split.
  - intros Hnone. rewrite Hnone. simpl.
    erewrite free_cached_vgmetadata_none; [reflexivity| |exact Hnone].
    exact Hr.
  - intros Hsome. rewrite (bool_decide_eq_true_2 _ Hsome). simpl.
    destruct (free_cached_vgmetadata_effect (Some p) st) as [Hs _].
    destruct (free_cached_vgmetadata_at p st r Hr) as (r' & Hr' & Hb & Hm & Hc).
    split_and!.
    + apply stores_only_log, Hs.
    + apply stores_only_info_store, Hs.
    + exists r'. split_and!; auto.
      rewrite (blob_only_precommitted _ _ Hb). exact Hpre.
Qed.


Lemma vginfo_store_upd_vginfo_eq p f (st : lvmcache) :
  vginfo_store (upd_vginfo p f st) !! p = f <$> vginfo_store st !! p.
Proof. unfold upd_vginfo. simpl. apply lookup_alter_eq. Qed.

Lemma vginfo_store_upd_vginfo_ne p q f (st : lvmcache) :
  p <> q -> vginfo_store (upd_vginfo p f st) !! q = vginfo_store st !! q.
Proof. intros H. unfold upd_vginfo. simpl. apply lookup_alter_ne, H. Qed.

Lemma infos_only_refl (st : lvmcache) : infos_only st st.
Proof. destruct st; reflexivity. Qed.

Lemma infos_only_trans (st1 st2 st3 : lvmcache) :
  infos_only st1 st2 -> infos_only st2 st3 -> infos_only st1 st3.
Proof.
  unfold infos_only. intros H12 H23. rewrite H23 at 1. rewrite H12 at 1.
  destruct st1; reflexivity.
Qed.

Lemma infos_only_upd_info p f (st : lvmcache) : infos_only st (upd_info p f st).
Proof. destruct st; reflexivity. Qed.

Lemma invalidate_infos_infos_only (members : list ptr) (st : lvmcache) :
  infos_only st (invalidate_infos members st).
Proof.
  unfold invalidate_infos. revert st.
  induction members as [|i l IH]; intros st; simpl.
  - apply infos_only_refl.
  - eapply infos_only_trans; [apply infos_only_upd_info | apply IH].
Qed.

Lemma infos_only_vginfo_store (st st' : lvmcache) :
  infos_only st st' -> vginfo_store st' = vginfo_store st.
Proof. intros H. rewrite H. reflexivity. Qed.

(** Storing a blob against the record [p] leaves [p] holding that blob with
    the given flag, and touches the stores only. *)
Lemma store_metadata_effect (vg : volume_group) (pre : bool) (st : lvmcache)
    (p : ptr) (r : lvmcache_vginfo) (size : Z) (blob : string) :
  lvmcache_vginfo_from_vgid (Some (vg_id vg)) st = Some p ->
  vginfo_store st !! p = Some r ->
  export_vg_to_buffer E vg = (size, blob) ->
  size <> 0 ->
  let st1 := _store_metadata vg pre st in
  stores_only st st1
  /\ exists r1, vginfo_store st1 !! p = Some r1
       /\ vginfo_vgmetadata r1 = Some blob
       /\ vginfo_precommitted r1 = pre
       /\ vginfo_infos r1 = vginfo_infos r.
Proof.
  intros Hp Hr Hexp Hsize st1. unfold st1, _store_metadata.
  rewrite Hp, Hexp. destruct (Z.eqb_spec size 0) as [|_]; [contradiction|].
  rewrite Hr.
  destruct (match vginfo_vgmetadata r with
            | Some old => (vginfo_vgmetadata_size r =? size) && String.eqb old blob
            | None => false
            end) eqn:Hsame.
  - split; [apply stores_only_upd_vginfo|].
    exists (set_vginfo_precommitted pre r).
    rewrite vginfo_store_upd_vginfo_eq, Hr. split_and!; try reflexivity.
    destruct (vginfo_vgmetadata r) as [old|] eqn:Hold; [|discriminate].
    apply andb_true_iff in Hsame as [_ Heq]. apply String.eqb_eq in Heq.
    subst old. simpl. exact Hold.
  - destruct (free_cached_vgmetadata_effect (Some p) st) as [Hs _].
    destruct (free_cached_vgmetadata_at p st r Hr) as (r' & Hr' & Hb & _ & _).
    split.
    + eapply stores_only_trans; [exact Hs|].
      eapply stores_only_trans; [apply stores_only_upd_vginfo|].
      eapply stores_only_trans; apply stores_only_upd_vginfo.
    + eexists. rewrite !vginfo_store_upd_vginfo_eq, Hr'. simpl.
      split_and!; try reflexivity.
      simpl. apply blob_only_infos, Hb.
Qed.

(** Dropping the cached blob of the record [q] changes of another record
    at most its handle on the parsed VG. *)
Lemma free_cached_vgmetadata_other (q p : ptr) (st : lvmcache) r :
  p <> q ->
  vginfo_store st !! p = Some r ->
  exists r', vginfo_store (_free_cached_vgmetadata (Some q) st) !! p = Some r'
    /\ vg_handle_only r r'.
Proof.
  intros Hne Hr. unfold _free_cached_vgmetadata.
  assert (Hsame : exists r', vginfo_store st !! p = Some r'
                    /\ vg_handle_only r r').
  { exists r. split; [exact Hr|]. destruct r; reflexivity. }
  destruct (vginfo_store st !! q) as [rq|] eqn:Hq; [|exact Hsame].
  destruct (vginfo_vgmetadata rq); [|exact Hsame].
  set (st1 := upd_vginfo q (set_vginfo_vgmetadata None) st).
  set (st2 := upd_vginfo q (set_vginfo_cft None) st1).
  assert (H2 : vginfo_store st2 !! p = Some r).
  { unfold st2, st1.
    rewrite !vginfo_store_upd_vginfo_ne by (intros ->; apply Hne; reflexivity).
    exact Hr. }
  destruct (release_vg_effect (vginfo_cached_vg rq) st2) as [_ Hrel].
  specialize (Hrel p). rewrite H2 in Hrel. inversion Hrel as [x r' Hh|]; subst.
  exists r'. split; [reflexivity|exact Hh].
Qed.

Lemma vg_handle_only_vgmetadata (r r' : lvmcache_vginfo) :
  vg_handle_only r r' -> vginfo_vgmetadata r' = vginfo_vgmetadata r.
Proof. intros H. rewrite H. reflexivity. Qed.

Lemma vg_handle_only_precommitted (r r' : lvmcache_vginfo) :
  vg_handle_only r r' -> vginfo_precommitted r' = vginfo_precommitted r.
Proof. intros H. rewrite H. reflexivity. Qed.

(** C3, as the code has it.  [_store_metadata] finds the VG record by the
    identifier of [vg]; [lvmcache_commit_metadata] and [_drop_metadata]
    find it by name.  Let [p] be the record the identifier leads to.
    - When the name [vgname] leads to [p] as well ([p] is the primary
      record of its name): storing a blob as precommitted and then
      committing leaves [p] holding the same blob with the precommitted
      flag cleared, and the commit changes nothing but that flag; storing a
      blob (with either flag) and then dropping with [drop_precommitted]
      set leaves [p] empty: no cached blob, no parsed tree, flag cleared.
    - When the name leads elsewhere ([p] is behind another record on the
      chain of its name): the commit leaves [p] as the store left it, and
      after the drop [p] still holds the blob and the flag that the store
      gave it. *)
Theorem precommit_round_trip (vg : volume_group) (vgname : string)
    (st : lvmcache) (p : ptr) (r : lvmcache_vginfo) (size : Z) (blob : string) :
  lvmcache_vginfo_from_vgid (Some (vg_id vg)) st = Some p ->
  vginfo_store st !! p = Some r ->
  export_vg_to_buffer E vg = (size, blob) ->
  size <> 0 ->
  (lvmcache_vginfo_from_vgname (Some vgname) None st = Some p ->
   (let st1 := _store_metadata vg true st in
    let st2 := lvmcache_commit_metadata vgname st1 in
    st2 = upd_vginfo p (set_vginfo_precommitted false) st1
    /\ exists r1 r2,
         vginfo_store st1 !! p = Some r1
         /\ vginfo_vgmetadata r1 = Some blob
         /\ vginfo_precommitted r1 = true
         /\ vginfo_store st2 !! p = Some r2
         /\ r2 = set_vginfo_precommitted false r1
         /\ vginfo_vgmetadata r2 = Some blob
         /\ vginfo_precommitted r2 = false)
   /\ (forall pre : bool,
         let st3 := _drop_metadata vgname true (_store_metadata vg pre st) in
         exists r3,
           vginfo_store st3 !! p = Some r3
           /\ vginfo_vgmetadata r3 = None
           /\ vginfo_cft r3 = None
           /\ vginfo_precommitted r3 = false))
  /\ (lvmcache_vginfo_from_vgname (Some vgname) None st <> Some p ->
      forall pre : bool,
        let st1 := _store_metadata vg pre st in
        vginfo_store (lvmcache_commit_metadata vgname st1) !! p
        = vginfo_store st1 !! p
        /\ exists r1 r3,
             vginfo_store st1 !! p = Some r1
             /\ vginfo_vgmetadata r1 = Some blob
             /\ vginfo_precommitted r1 = pre
             /\ vginfo_store (_drop_metadata vgname true st1) !! p = Some r3
             /\ vginfo_vgmetadata r3 = Some blob
             /\ vginfo_precommitted r3 = pre).
Proof.
  intros Hid Hr Hexp Hsize. split; [intros Hname; split|intros Hname].
  - intros st1 st2.
    destruct (store_metadata_effect vg true st p r size blob Hid Hr Hexp Hsize)
      as (Hs & r1 & Hr1 & Hblob & Hpre & _).
    fold st1 in Hs, Hr1.
    assert (Hst2 : st2 = upd_vginfo p (set_vginfo_precommitted false) st1).
    { unfold st2, lvmcache_commit_metadata.
      rewrite (stores_only_from_vgname _ _ vgname Hs), Hname, Hr1, Hpre.
      reflexivity. }
    split; [exact Hst2|].
    exists r1, (set_vginfo_precommitted false r1).
    rewrite Hst2, vginfo_store_upd_vginfo_eq, Hr1. simpl.
    split_and!; try reflexivity; assumption.
  - intros pre st3.
    destruct (store_metadata_effect vg pre st p r size blob Hid Hr Hexp Hsize)
      as (Hs & r1 & Hr1 & Hblob & _ & _).
    set (st1 := _store_metadata vg pre st) in *.
    unfold st3, _drop_metadata.
    rewrite (stores_only_from_vgname _ _ vgname Hs), Hname, Hr1. simpl.
    set (st1' := invalidate_infos (vginfo_infos r1) st1).
    assert (Hr1' : vginfo_store st1' !! p = Some r1).
    { unfold st1'.
      rewrite (infos_only_vginfo_store _ _ (invalidate_infos_infos_only _ _)).
      exact Hr1. }
    destruct (free_cached_vgmetadata_at p st1' r1 Hr1')
      as (r' & Hr' & Hb & Hm & Hc).
    eexists. rewrite lookup_alter_eq, Hr'. simpl.
    split_and!; try reflexivity.
    + exact Hm.
    + apply Hc. rewrite Hblob. eexists; reflexivity.
  - intros pre st1.
    destruct (store_metadata_effect vg pre st p r size blob Hid Hr Hexp Hsize)
      as (Hs & r1 & Hr1 & Hblob & Hpre & _).
    fold st1 in Hs, Hr1.
    pose proof (stores_only_from_vgname _ _ vgname Hs) as Hlook.
    split.
    + unfold lvmcache_commit_metadata. rewrite Hlook.
      destruct (lvmcache_vginfo_from_vgname (Some vgname) None st) as [q|];
        [|reflexivity].
      destruct (vginfo_store st1 !! q) as [rq|]; [|reflexivity].
      destruct (vginfo_precommitted rq); [|reflexivity].
      apply vginfo_store_upd_vginfo_ne. congruence.
    + exists r1. unfold _drop_metadata. rewrite Hlook.
      destruct (lvmcache_vginfo_from_vgname (Some vgname) None st) as [q|];
        [|exists r1; split_and!; auto].
      assert (Hne : p <> q) by congruence.
      destruct (vginfo_store st1 !! q) as [rq|];
        [|exists r1; split_and!; auto].
      simpl.
      set (st1' := invalidate_infos (vginfo_infos rq) st1).
      assert (Hr1' : vginfo_store st1' !! p = Some r1).
      { unfold st1'.
        rewrite (infos_only_vginfo_store _ _ (invalidate_infos_infos_only _ _)).
        exact Hr1. }
      destruct (free_cached_vgmetadata_other q p st1' r1 Hne Hr1')
        as (r3 & Hr3 & Hh).
      exists r3. rewrite lookup_alter_ne by congruence.
      split_and!; auto.
      * rewrite (vg_handle_only_vgmetadata _ _ Hh). exact Hblob.
      * rewrite (vg_handle_only_precommitted _ _ Hh). exact Hpre.
Qed.

(** ** Lock order *)

Lemma records_only_refl (st : lvmcache) : records_only st st.
Proof. destruct st; reflexivity. Qed.

Lemma records_only_trans (st1 st2 st3 : lvmcache) :
  records_only st1 st2 -> records_only st2 st3 -> records_only st1 st3.
Proof.
  unfold records_only. intros H12 H23. rewrite H23 at 1. rewrite H12 at 1.
  destruct st1; reflexivity.
Qed.

Lemma stores_only_records_only (st st' : lvmcache) :
  stores_only st st' -> records_only st st'.
Proof.
  unfold stores_only, records_only. intros H. rewrite H at 1. rewrite H.
  destruct st; reflexivity.
Qed.

Lemma infos_only_records_only (st st' : lvmcache) :
  infos_only st st' -> records_only st st'.
Proof.
  unfold infos_only, records_only. intros H. rewrite H at 1. rewrite H.
  destruct st; reflexivity.
Qed.

Lemma update_cache_infos_lock_state_infos_only (members : list ptr)
    (locked valid : bool) (st : lvmcache) :
  infos_only st (snd (_update_cache_infos_lock_state members locked valid st)).
Proof.
  revert valid st. induction members as [|i l IH]; intros valid st; simpl.
  - apply infos_only_refl.
  - unfold _update_cache_info_lock_state.
    destruct (info_store st !! i); [|apply IH].
    eapply infos_only_trans; [apply infos_only_upd_info | apply IH].
Qed.

Lemma update_cache_vginfo_lock_state_records_only (vginfo : ptr)
    (locked : bool) (st : lvmcache) :
  records_only st (_update_cache_vginfo_lock_state vginfo locked st).
Proof.
  unfold _update_cache_vginfo_lock_state.
  destruct (vginfo_store st !! vginfo) as [r|]; [|apply records_only_refl].
  pose proof (update_cache_infos_lock_state_infos_only (vginfo_infos r)
                locked true st) as Hi.
  destruct (_update_cache_infos_lock_state (vginfo_infos r) locked true st)
    as [valid st1]. simpl in Hi.
  apply infos_only_records_only in Hi.
  destruct valid; simpl; [exact Hi|].
  eapply records_only_trans; [exact Hi|].
  apply stores_only_records_only, free_cached_vgmetadata_effect.
Qed.

Lemma update_cache_lock_state_records_only (vgname : string) (locked : bool)
    (st : lvmcache) :
  records_only st (_update_cache_lock_state vgname locked st).
Proof.
  unfold _update_cache_lock_state.
  destruct (lvmcache_vginfo_from_vgname _ _ _); [|apply records_only_refl].
  apply update_cache_vginfo_lock_state_records_only.
Qed.

Lemma records_only_pvid_hash (st st' : lvmcache) :
  records_only st st' -> _pvid_hash st' = _pvid_hash st.
Proof. intros H. rewrite H. reflexivity. Qed.

Lemma records_only_lock_hash (st st' : lvmcache) :
  records_only st st' -> _lock_hash st' = _lock_hash st.
Proof. intros H. rewrite H. reflexivity. Qed.

(** Recording a lock adds at most the name to the table. *)
Lemma lock_vgname_initialised_lock_hash (vgname : string) (st : lvmcache)
    (h : gmap string unit) :
  _lock_hash st = Some h ->
  exists h', _lock_hash (lock_vgname_initialised vgname st) = Some h'
    /\ (h' = <[vgname := ()]> h \/ h' = h).
Proof.
  intros Hh. unfold lock_vgname_initialised.
  set (st0 := if bool_decide _ then _ else st).
  assert (H0 : _lock_hash st0 = Some h).
  { unfold st0. destruct (bool_decide _); [|exact Hh]. exact Hh. }
  clearbody st0. unfold dm_hash_insert. rewrite H0.
  assert (Hfin : forall h' ok s,
            _lock_hash s = Some h' ->
            _lock_hash
              (if negb (String.eqb vgname VG_GLOBAL)
               then set__vgs_locked
                      (_vgs_locked (_update_cache_lock_state vgname true
                         (if ok : bool then s
                          else log_error "Cache locking failure for %s" [vgname] s)) + 1)
                      (_update_cache_lock_state vgname true
                         (if ok then s
                          else log_error "Cache locking failure for %s" [vgname] s))
               else if ok then s
                    else log_error "Cache locking failure for %s" [vgname] s)
            = Some h').
  { intros h' ok s Hs. destruct (negb _); simpl.
    - rewrite (records_only_lock_hash _ _
                 (update_cache_lock_state_records_only _ _ _)).
      destruct ok; exact Hs.
    - destruct ok; exact Hs. }
  destruct (h !! vgname).
  - exists (<[vgname := ()]> h). split; [|left; reflexivity].
    apply (Hfin _ true). reflexivity.
  - unfold dm_alloc. destruct (heap_script st0) as [|[] rest]; simpl.
    + exists (<[vgname := ()]> h). split; [|left; reflexivity].
      apply (Hfin _ true). reflexivity.
    + exists (<[vgname := ()]> h). split; [|left; reflexivity].
      apply (Hfin _ true). reflexivity.
    + exists h. split; [|right; reflexivity].
      apply (Hfin _ false). reflexivity.
Qed.

Lemma held_names_lock_vgname (vgname held : string) (st : lvmcache) :
  is_Some (_lock_hash st) ->
  is_Some (_lock_hash (lvmcache_lock_vgname vgname st))
  /\ (held ∈ held_names (lvmcache_lock_vgname vgname st) ->
      held = vgname \/ held ∈ held_names st).
Proof.
  intros [h Hh]. unfold lvmcache_lock_vgname.
  rewrite bool_decide_eq_true_2 by (rewrite Hh; eexists; reflexivity).
  simpl.
  destruct (lock_vgname_initialised_lock_hash vgname st h Hh)
    as (h' & Hh' & Hcase).
  split; [rewrite Hh'; eexists; reflexivity|].
  unfold held_names. rewrite Hh', Hh. intros Hin.
  apply list_elem_of_fmap in Hin as ([k []] & -> & Hin).
  apply elem_of_map_to_list in Hin. simpl.
  destruct Hcase as [-> | ->].
  - apply lookup_insert_Some in Hin as [[-> _] | [_ Hin]]; [left; reflexivity|].
    right. apply list_elem_of_fmap. exists (k, ()). split; [reflexivity|].
    apply elem_of_map_to_list. exact Hin.
  - right. apply list_elem_of_fmap. exists (k, ()). split; [reflexivity|].
    apply elem_of_map_to_list. exact Hin.
Qed.

Lemma ltb_irrefl (a : string) : String.ltb a a = false.
Proof.
  unfold String.ltb.
  destruct (String.compare a a) eqn:Hc; try reflexivity.
  pose proof (String.compare_antisym a a) as Ha. rewrite Hc in Ha.
  discriminate.
Qed.

(** The test of the code against the order of the specification: a held
    name lets a request pass when it is the global name, or when it is an
    ordinary name that the order places before the requested one.  A held
    orphan name lets no request pass. *)
Lemma order_correct_spec (held vgname : string) :
  _vgname_order_correct held vgname = true
  <-> lock_rank held = 0%nat
      \/ (lock_rank held = 1%nat /\ spec_lock_before held vgname).
Proof.
  unfold spec_lock_before, lock_rank, _vgname_order_correct.
  destruct (is_global_vg held), (is_global_vg vgname), (is_orphan_vg held),
    (is_orphan_vg vgname); simpl;
    (split; [intros H | intros [H | [H [H' | (H1 & H2 & H3)]]]]);
    try discriminate; try lia; try reflexivity; auto;
    try (right; split; [reflexivity|left; lia]).
  - right. split; [reflexivity|]. right. split_and!; auto.
    destruct (String.ltb held vgname); [reflexivity|discriminate].
  - rewrite H3. reflexivity.
Qed.

Lemma order_incorrect_of_spec_lock_before (held vgname : string) :
  spec_lock_before vgname held \/ lock_rank held = 2%nat ->
  _vgname_order_correct held vgname = false.
Proof.
  intros H. destruct (_vgname_order_correct held vgname) eqn:Hc; [|reflexivity].
  apply order_correct_spec in Hc.
  destruct H as [[Hlt | (Heq & Hne & Hltb)] | H2], Hc as [H0 | [H1 Hb]];
    try lia; destruct Hb as [Hlt' | (Heq' & Hne' & Hltb')]; try lia.
  unfold String.ltb in *. rewrite String.compare_antisym in Hltb'.
  destruct (String.compare vgname held); cbn in Hltb, Hltb'; congruence.
Qed.

Lemma verify_lock_order_loop_ok (held : list string) (vgname : string)
    (st : lvmcache) :
  Forall (fun vgname2 => _vgname_order_correct vgname2 vgname = true) held ->
  verify_lock_order_loop held vgname st = (true, st).
Proof.
  induction 1 as [|vgname2 rest Hok _ IH]; simpl; [reflexivity|].
  rewrite Hok. simpl. exact IH.
Qed.

Lemma verify_lock_order_loop_violation (held : list string) (vgname : string)
    (st : lvmcache) :
  Exists (fun vgname2 => _vgname_order_correct vgname2 vgname = false) held ->
  exists vgname2,
    vgname2 ∈ held
    /\ _vgname_order_correct vgname2 vgname = false
    /\ verify_lock_order_loop held vgname st
       = (false,
          log_internal_error
            "VG lock %s must be requested before %s, not after."
            [vgname; vgname2] st).
Proof.
  induction held as [|first rest IH]; intros Hex; [inversion Hex|]. simpl.
  destruct (_vgname_order_correct first vgname) eqn:Hfirst; simpl.
  - inversion Hex as [? ? Hbad | ? ? Hrest]; subst; [congruence|].
    destruct (IH Hrest) as (vgname2 & Hin & Hbad & Hloop).
    exists vgname2. split_and!; auto. right. exact Hin.
  - exists first. split_and!; auto. left.
Qed.

Lemma verify_lock_order_loop_result (held : list string) (vgname : string)
    (st : lvmcache) :
  fst (verify_lock_order_loop held vgname st) = true
  <-> Forall (fun vgname2 => _vgname_order_correct vgname2 vgname = true) held.
Proof.
  split.
  - induction held as [|first rest IH]; simpl; [constructor|].
    destruct (_vgname_order_correct first vgname) eqn:Hfirst; simpl.
    + intros H. constructor; [exact Hfirst|apply IH, H].
    + discriminate.
  - intros H. rewrite (verify_lock_order_loop_ok _ _ _ H). reflexivity.
Qed.

(** C4, as the code has it.  For a cache whose lock table exists.
    - When every name of a sequence of acquisitions comes, in the order of
      the specification, after the names already held and after the names
      before it in the sequence, and no two different orphan names occur
      among the names held and requested, [lvmcache_verify_lock_order]
      reports success for each of them.
    - For a name that the order places before the name of a lock that is
      held, it reports a violation: it returns 0, logs the internal error
      and records nothing.  It does the same for every name requested
      while an orphan name is held, an orphan name that the order places
      later included.
    - Exactly: the request passes when every held name is the global name
      or an ordinary name that the order places before the requested
      one. *)
Theorem verify_lock_order_total_order :
  (forall (names : list string) (st : lvmcache),
     is_Some (_lock_hash st) ->
     (forall held, held ∈ held_names st ->
        Forall (spec_lock_before held) names) ->
     StronglySorted spec_lock_before names ->
     (forall a b, a ∈ held_names st ++ names -> b ∈ names ->
        lock_rank a = 2%nat -> lock_rank b = 2%nat -> a = b) ->
     Forall (fun ok => ok = true) (fst (acquire_all names st)))
  /\ (forall (vgname held : string) (st : lvmcache),
        held ∈ held_names st ->
        spec_lock_before vgname held \/ lock_rank held = 2%nat ->
        exists vgname2,
          vgname2 ∈ held_names st
          /\ _vgname_order_correct vgname2 vgname = false
          /\ lvmcache_verify_lock_order vgname st
             = (false,
                log_internal_error
                  "VG lock %s must be requested before %s, not after."
                  [vgname; vgname2] st))
  /\ (forall (vgname : string) (st : lvmcache),
        is_Some (_lock_hash st) ->
        fst (lvmcache_verify_lock_order vgname st) = true
        <-> forall held, held ∈ held_names st ->
              lock_rank held = 0%nat
              \/ (lock_rank held = 1%nat /\ spec_lock_before held vgname)).
Proof.
  split_and!.
  - intros names. induction names as [|vgname rest IH];
      intros st Hinit Hheld Hsorted Hone; simpl; [constructor|].
    apply StronglySorted_inv in Hsorted as [Hrest Hfirst].
    assert (Hpass : forall held, held ∈ held_names st ++ [vgname] ->
              spec_lock_before held vgname ->
              _vgname_order_correct held vgname = true).
    { intros held Hin Hbefore. apply order_correct_spec.
      destruct (lock_rank held) as [|[|[|n]]] eqn:Hrank.
      - left. reflexivity.
      - right. split; [reflexivity|exact Hbefore].
      - exfalso. destruct Hbefore as [Hlt | (Heq & _ & Hltb)].
        + unfold lock_rank in *.
          destruct (is_global_vg vgname), (is_orphan_vg vgname),
            (is_global_vg held), (is_orphan_vg held); simpl in *; lia.
        + assert (held = vgname) as ->.
          { apply Hone; [|left|exact Hrank|congruence].
            apply elem_of_app in Hin as [Hin | Hin]; apply elem_of_app.
            - left. exact Hin.
            - right. apply list_elem_of_singleton in Hin as ->. left. }
          rewrite ltb_irrefl in Hltb. discriminate.
      - exfalso. unfold lock_rank in Hrank.
        destruct (is_global_vg held), (is_orphan_vg held); discriminate. }
    unfold acquire.
    assert (Hverify : lvmcache_verify_lock_order vgname st = (true, st)).
    { unfold lvmcache_verify_lock_order. destruct Hinit as [h Hh].
      pose proof Hheld as Hheld'. unfold held_names in Hheld', Hpass.
      rewrite Hh in *. apply verify_lock_order_loop_ok.
      apply Forall_forall. intros held Hin.
      apply Hpass; [apply elem_of_app; left; exact Hin|].
      specialize (Hheld' held Hin). inversion Hheld'; assumption. }
    rewrite Hverify.
    destruct (acquire_all rest (lvmcache_lock_vgname vgname st))
      as [oks st'] eqn:Hall.
    simpl. constructor; [reflexivity|].
    change oks with (fst (oks, st')). rewrite <- Hall.
    destruct (held_names_lock_vgname vgname vgname st Hinit) as [Hinit' _].
    assert (Hfrom : forall held,
              held ∈ held_names (lvmcache_lock_vgname vgname st) ->
              held = vgname \/ held ∈ held_names st).
    { intros held. apply (held_names_lock_vgname vgname held st Hinit). }
    apply IH; [exact Hinit' | | exact Hrest |].
    + intros held Hin.
      destruct (Hfrom held Hin) as [-> | Hold]; [exact Hfirst|].
      specialize (Hheld held Hold). inversion Hheld; assumption.
    + intros a b Ha Hb. apply Hone; [|right; exact Hb].
      apply elem_of_app in Ha as [Ha | Ha]; apply elem_of_app.
      * destruct (Hfrom a Ha) as [-> | Hold]; [right; left|left; exact Hold].
      * right. right. exact Ha.
  - intros vgname held st Hin Hbefore.
    unfold lvmcache_verify_lock_order. unfold held_names in *.
    destruct (_lock_hash st) as [h|]; [|inversion Hin].
    apply verify_lock_order_loop_violation.
    apply Exists_exists. exists held. split; [exact Hin|].
    apply order_incorrect_of_spec_lock_before, Hbefore.
  - intros vgname st [h Hh].
    unfold lvmcache_verify_lock_order, held_names. rewrite Hh.
    rewrite verify_lock_order_loop_result, Forall_forall.
    split; intros H held Hin; apply order_correct_spec, H, Hin.
Qed.

(** ** Invalidation on lock transitions *)

Lemma flag_set_testbit_locked (s : Z) :
  flag_set s CACHE_LOCKED = Z.testbit s 1.
Proof.
  unfold flag_set, CACHE_LOCKED.
  destruct (Z.testbit s 1) eqn:Hbit.
  - apply negb_true_iff, Z.eqb_neq. intros H0.
    assert (Hb : Z.testbit (Z.land s 2) 1 = true).
    { rewrite Z.land_spec, Hbit. reflexivity. }
    rewrite H0 in Hb. discriminate.
  - apply negb_false_iff, Z.eqb_eq. apply Z.bits_inj'. intros n Hn.
    rewrite Z.land_spec, Z.bits_0.
    destruct (Z.eq_dec n 1) as [->|Hne].
    + rewrite Hbit. reflexivity.
    + replace (Z.testbit 2 n) with false; [apply andb_false_r|].
      symmetry. change 2 with (2 ^ 1). apply Z.pow2_bits_false. lia.
Qed.

Lemma flag_set_locked_lor_locked (s : Z) :
  flag_set (Z.lor s CACHE_LOCKED) CACHE_LOCKED = true.
Proof.
  rewrite flag_set_testbit_locked, Z.lor_spec. unfold CACHE_LOCKED.
  apply orb_true_r.
Qed.

Lemma flag_set_locked_clear_locked (s : Z) :
  flag_set (Z.land s (Z.lnot CACHE_LOCKED)) CACHE_LOCKED = false.
Proof.
  rewrite flag_set_testbit_locked, Z.land_spec. unfold CACHE_LOCKED.
  apply andb_false_r.
Qed.

Lemma flag_set_locked_lor_invalid (s : Z) :
  flag_set (Z.lor s CACHE_INVALID) CACHE_LOCKED = flag_set s CACHE_LOCKED.
Proof.
  rewrite !flag_set_testbit_locked, Z.lor_spec. unfold CACHE_INVALID.
  apply orb_false_r.
Qed.

Lemma infos_only_is_locked (st st' : lvmcache) vgname :
  infos_only st st' ->
  lvmcache_vgname_is_locked vgname st' = lvmcache_vgname_is_locked vgname st.
Proof.
  intros H. unfold lvmcache_vgname_is_locked. rewrite H. reflexivity.
Qed.

Lemma info_store_upd_info p f (st : lvmcache) q :
  info_store (upd_info p f st) !! q
  = if decide (p = q) then f <$> info_store st !! p else info_store st !! q.
Proof. unfold upd_info. simpl. apply lookup_alter. Qed.

(** One member: the invalid bit is raised when the status flips and the
    global lock is not held, and the locked bit is set to [locked]. *)
Lemma update_cache_info_lock_state_bits (i : ptr) (locked valid : bool)
    (st : lvmcache) :
  let res := _update_cache_info_lock_state i locked valid st in
  let changed :=
    negb (lvmcache_vgname_is_locked VG_GLOBAL st) && flips st locked i in
  fst res = valid && negb changed
  /\ infos_only st (snd res)
  /\ (forall j, is_Some (info_store (snd res) !! j)
                <-> is_Some (info_store st !! j))
  /\ (forall j, invalid_bit (snd res) j
                = if decide (i = j) then invalid_bit st j || changed
                  else invalid_bit st j)
  /\ (forall j, locked_bit (snd res) j
                = if decide (i = j)
                  then (if bool_decide (is_Some (info_store st !! j))
                        then locked else false)
                  else locked_bit st j).
Proof.
  unfold _update_cache_info_lock_state, flips, invalid_bit, locked_bit.
  destruct (info_store st !! i) as [r|] eqn:Hr; simpl.
  2:{ rewrite andb_false_r, andb_true_r. split_and!; auto.
      - apply infos_only_refl.
      - intros j. destruct (decide (i = j)) as [<-|]; [|reflexivity].
        rewrite Hr. reflexivity.
      - intros j. destruct (decide (i = j)) as [<-|]; [|reflexivity].
        rewrite Hr. reflexivity. }
  set (global := lvmcache_vgname_is_locked VG_GLOBAL st).
  set (was := flag_set (info_status r) CACHE_LOCKED).
  assert (Hx : negb (Bool.eqb was locked) = xorb was locked)
    by (destruct was, locked; reflexivity).
  rewrite Hx.
  split_and!.
  - destruct (negb global && xorb was locked), valid; reflexivity.
  - apply infos_only_upd_info.
  - intros j. rewrite lookup_alter.
    destruct (decide (i = j)) as [<-|]; [|reflexivity].
    rewrite Hr. simpl. split; intros _; eexists; reflexivity.
  - intros j. rewrite lookup_alter.
    destruct (decide (i = j)) as [<-|]; [|reflexivity].
    rewrite Hr. simpl.
    destruct locked;
      rewrite ?flag_set_invalid_lor_locked, ?flag_set_invalid_clear_locked;
      destruct (negb global && _);
      rewrite ?flag_set_lor_invalid, ?orb_true_r, ?orb_false_r; reflexivity.
  - intros j. rewrite lookup_alter.
    destruct (decide (i = j)) as [<-|]; [|reflexivity].
    rewrite Hr. simpl.
    destruct locked;
      rewrite ?flag_set_locked_lor_locked, ?flag_set_locked_clear_locked;
      reflexivity.
Qed.

(** The member list: every member that flips is marked invalid and the
    cached metadata is declared stale, unless the global lock is held. *)
Lemma update_cache_infos_lock_state_bits (members : list ptr)
    (locked valid : bool) (st : lvmcache) :
  let res := _update_cache_infos_lock_state members locked valid st in
  let global := lvmcache_vgname_is_locked VG_GLOBAL st in
  infos_only st (snd res)
  /\ (forall j, is_Some (info_store (snd res) !! j)
                <-> is_Some (info_store st !! j))
  /\ (forall j, invalid_bit st j = true -> invalid_bit (snd res) j = true)
  /\ (global = false ->
      forall j, j ∈ members -> flips st locked j = true ->
                invalid_bit (snd res) j = true)
  /\ (global = false ->
      (exists j, j ∈ members /\ flips st locked j = true) -> fst res = false)
  /\ (valid = false -> fst res = false)
  /\ (global = true ->
      fst res = valid /\ forall j, invalid_bit (snd res) j = invalid_bit st j).
Proof.
  revert valid st. induction members as [|i l IH]; intros valid st; simpl.
  { split_and!; auto.
    - apply infos_only_refl.
    - intros _ j Hin. inversion Hin.
    - intros _ (j & Hin & _). inversion Hin. }
  pose proof (update_cache_info_lock_state_bits i locked valid st)
    as (Hv & Hi & Hpres & Hinv & Hlock).
  destruct (_update_cache_info_lock_state i locked valid st) as [v1 st1].
  simpl in Hv, Hi, Hpres, Hinv, Hlock.
  specialize (IH v1 st1). simpl in IH.
  destruct IH as (Hi' & Hpres' & Hmono & Hflip & Hstale & Hkeep & Hglobal).
  rewrite (infos_only_is_locked _ _ VG_GLOBAL Hi) in Hflip, Hstale, Hglobal.
  assert (Hflips1 : forall j, i <> j -> flips st1 locked j = flips st locked j).
  { intros j Hne. unfold flips. rewrite Hlock.
    destruct (decide (i = j)); [contradiction|]. f_equal.
    apply bool_decide_ext, Hpres. }
  split_and!.
  - eapply infos_only_trans; eassumption.
  - intros j. rewrite Hpres'. apply Hpres.
  - intros j Hj. apply Hmono. rewrite Hinv.
    destruct (decide (i = j)); [rewrite Hj; reflexivity | exact Hj].
  - intros Hg j Hin Hf. apply elem_of_cons in Hin.
    destruct (decide (i = j)) as [->|Hne].
    + apply Hmono. rewrite Hinv, decide_True by reflexivity.
      rewrite Hg, Hf. apply orb_true_r.
    + destruct Hin as [->|Hin]; [contradiction|].
      apply Hflip; [exact Hg | exact Hin |]. rewrite Hflips1; assumption.
  - intros Hg (j & Hin & Hf). apply elem_of_cons in Hin.
    destruct (decide (i = j)) as [->|Hne].
    + apply Hkeep. rewrite Hv, Hg, Hf. apply andb_false_r.
    + destruct Hin as [->|Hin]; [contradiction|].
      apply Hstale; [exact Hg|]. exists j. split; [exact Hin|].
      rewrite Hflips1; assumption.
  - intros ->. apply Hkeep. rewrite Hv. reflexivity.
  - intros Hg. destruct (Hglobal Hg) as [Hv' Hsame]. rewrite Hg in *.
    simpl in *. split.
    + rewrite Hv', Hv. apply andb_true_r.
    + intros j. rewrite Hsame, Hinv.
      destruct (decide (i = j)); [apply orb_false_r | reflexivity].
Qed.

Lemma lock_table_only_fields (st st' : lvmcache) :
  lock_table_only st st' ->
  _vgname_hash st' = _vgname_hash st
  /\ vginfo_store st' = vginfo_store st
  /\ info_store st' = info_store st
  /\ vg_store st' = vg_store st.
Proof. intros H. rewrite H. split_and!; reflexivity. Qed.

Lemma lock_table_only_from_vgname (st st' : lvmcache) vgname :
  lock_table_only st st' ->
  lvmcache_vginfo_from_vgname (Some vgname) None st'
  = lvmcache_vginfo_from_vgname (Some vgname) None st.
Proof.
  intros H. unfold lvmcache_vginfo_from_vgname. rewrite H. reflexivity.
Qed.

(** Whether the global lock is held is read off the entry of [VG_GLOBAL]. *)
Lemma global_held_lookup (st : lvmcache) (h : gmap string unit) :
  is_orphan_vg VG_GLOBAL = false ->
  _lock_hash st = Some h ->
  lvmcache_vgname_is_locked VG_GLOBAL st
  = bool_decide (is_Some (h !! VG_GLOBAL)).
Proof.
  intros Horphan Hh. unfold lvmcache_vgname_is_locked. rewrite Hh, Horphan.
  destruct (h !! VG_GLOBAL) as [[]|]; symmetry.
  - apply bool_decide_eq_true_2. eexists; reflexivity.
  - apply bool_decide_eq_false_2. intros [? ?]; discriminate.
Qed.

(** Recording a lock on a name other than [VG_GLOBAL]: the table gains at
    most that name, then the lock state of the cache is updated. *)
Lemma lock_vgname_initialised_shape (vgname : string) (st : lvmcache)
    (h : gmap string unit) :
  _lock_hash st = Some h ->
  vgname <> VG_GLOBAL ->
  exists st_a h',
    lock_table_only st st_a
    /\ _lock_hash st_a = Some h'
    /\ h' !! VG_GLOBAL = h !! VG_GLOBAL
    /\ exists n,
         lock_vgname_initialised vgname st
         = set__vgs_locked n (_update_cache_lock_state vgname true st_a).
Proof.
  intros Hh Hne. unfold lock_vgname_initialised.
  apply String.eqb_neq in Hne as Heqb. rewrite Heqb. simpl.
  set (st0 := if bool_decide _ then _ else st).
  assert (H0 : lock_table_only st st0 /\ _lock_hash st0 = Some h).
  { unfold st0. destruct (bool_decide _); split; try exact Hh;
      destruct st; reflexivity. }
  destruct H0 as [H0 Hh0]. clearbody st0.
  unfold dm_hash_insert. rewrite Hh0.
  assert (Hins : (<[vgname := ()]> h) !! VG_GLOBAL = h !! VG_GLOBAL).
  { apply lookup_insert_ne. exact Hne. }
  assert (Hstep : forall s, lock_table_only st0 s -> lock_table_only st s).
  { intros s Hs. unfold lock_table_only in *. rewrite Hs at 1.
    rewrite H0 at 1. rewrite Hs. destruct st; reflexivity. }
  destruct (h !! vgname).
  - eexists _, _. split_and!; [| |exact Hins|eexists; reflexivity];
      [apply Hstep; destruct st0; reflexivity | reflexivity].
  - unfold dm_alloc. destruct (heap_script st0) as [|[] rest] eqn:Hscript.
    + eexists _, _. split_and!; [| |exact Hins|eexists; reflexivity];
        [apply Hstep; destruct st0; reflexivity | reflexivity].
    + eexists _, _. split_and!; [| |exact Hins|eexists; reflexivity];
        [apply Hstep; destruct st0; reflexivity | reflexivity].
    + eexists _, _. split_and!; [| |reflexivity|eexists; reflexivity];
        [apply Hstep; destruct st0; reflexivity | reflexivity].
Qed.

(** The effect of [_update_cache_lock_state] on the VG that is primary for
    the name. *)
Lemma update_cache_lock_state_effect (vgname : string) (locked : bool)
    (st : lvmcache) (p : ptr) (r : lvmcache_vginfo) :
  lvmcache_vginfo_from_vgname (Some vgname) None st = Some p ->
  vginfo_store st !! p = Some r ->
  let st' := _update_cache_lock_state vgname locked st in
  (lvmcache_vgname_is_locked VG_GLOBAL st = false ->
     (forall i, i ∈ vginfo_infos r -> flips st locked i = true ->
                invalid_bit st' i = true)
     /\ ((exists i, i ∈ vginfo_infos r /\ flips st locked i = true) ->
         exists r', vginfo_store st' !! p = Some r'
           /\ vginfo_vgmetadata r' = None
           /\ (is_Some (vginfo_vgmetadata r) -> vginfo_cft r' = None)))
  /\ (lvmcache_vgname_is_locked VG_GLOBAL st = true ->
        (forall i, invalid_bit st' i = invalid_bit st i)
        /\ vginfo_store st' = vginfo_store st).
Proof.
  intros Hp Hr st'. unfold st', _update_cache_lock_state.
  rewrite Hp. unfold _update_cache_vginfo_lock_state. rewrite Hr.
  pose proof (update_cache_infos_lock_state_bits (vginfo_infos r) locked true st)
    as (Hi & _ & _ & Hflip & Hstale & _ & Hglobal).
  destruct (_update_cache_infos_lock_state (vginfo_infos r) locked true st)
    as [valid st1]. simpl in Hi, Hflip, Hstale, Hglobal.
  assert (Hstore1 : vginfo_store st1 = vginfo_store st)
    by (apply infos_only_vginfo_store, Hi).
  assert (Hinv : forall s i,
            stores_only st1 s -> invalid_bit s i = invalid_bit st1 i).
  { intros s i Hs. unfold invalid_bit.
    rewrite (stores_only_info_store _ _ Hs). reflexivity. }
  split.
  - intros Hg. split.
    + intros i Hin Hf. specialize (Hflip Hg i Hin Hf).
      destruct valid; simpl; [exact Hflip|].
      rewrite Hinv; [exact Hflip|]. apply free_cached_vgmetadata_effect.
    + intros Hex. rewrite (Hstale Hg Hex). simpl.
      assert (Hr1 : vginfo_store st1 !! p = Some r) by (rewrite Hstore1; exact Hr).
      destruct (free_cached_vgmetadata_at p st1 r Hr1)
        as (r' & Hr' & _ & Hm & Hc).
      exists r'. split_and!; assumption.
  - intros Hg. destruct (Hglobal Hg) as [-> Hsame]. simpl.
    split; [exact Hsame | exact Hstore1].
Qed.

(** C5.  For a name other than [VG_GLOBAL] and the VG record that is
    primary for it, in a cache whose lock table exists: locking or
    unlocking the name marks every member PV record whose held/not-held
    status flips CACHE_INVALID, and discards the cached blob of the VG
    (with the tree parsed from it) as soon as one member flips; while the
    global lock is held nothing is invalidated and the VG records stay as
    they are. *)
Theorem lock_transition_invalidates (vgname : string) (lock : bool)
    (st : lvmcache) (p : ptr) (r : lvmcache_vginfo) :
  vgname <> VG_GLOBAL ->
  is_orphan_vg VG_GLOBAL = false ->
  is_Some (_lock_hash st) ->
  lvmcache_vginfo_from_vgname (Some vgname) None st = Some p ->
  vginfo_store st !! p = Some r ->
  let st' :=
    if lock then lvmcache_lock_vgname vgname st
    else snd (lvmcache_unlock_vgname vgname st) in
  (lvmcache_vgname_is_locked VG_GLOBAL st = false ->
     (forall i, i ∈ vginfo_infos r -> flips st lock i = true ->
                invalid_bit st' i = true)
     /\ ((exists i, i ∈ vginfo_infos r /\ flips st lock i = true) ->
         exists r', vginfo_store st' !! p = Some r'
           /\ vginfo_vgmetadata r' = None
           /\ (is_Some (vginfo_vgmetadata r) -> vginfo_cft r' = None)))
  /\ (lvmcache_vgname_is_locked VG_GLOBAL st = true ->
        (forall i, invalid_bit st' i = invalid_bit st i)
        /\ vginfo_store st' = vginfo_store st).
Proof.
  intros Hne Horphan [h Hh] Hp Hr st'.
  assert (Hcore : exists st_a n (upd : lvmcache -> lvmcache),
            lock_table_only st st_a
            /\ lvmcache_vgname_is_locked VG_GLOBAL st_a
               = lvmcache_vgname_is_locked VG_GLOBAL st
            /\ st' = set__vgs_locked n
                       (upd (_update_cache_lock_state vgname lock st_a))
            /\ (forall s, info_store (upd s) = info_store s
                          /\ vginfo_store (upd s) = vginfo_store s)).
  { unfold st'. destruct lock.
    - unfold lvmcache_lock_vgname.
      rewrite bool_decide_eq_true_2 by (rewrite Hh; eexists; reflexivity).
      simpl.
      destruct (lock_vgname_initialised_shape vgname st h Hh Hne)
        as (st_a & h' & Hlt & Hh' & Hglob & n & Heq).
      exists st_a, n, (fun s => s). split_and!; auto.
      rewrite (global_held_lookup st_a h' Horphan Hh').
      rewrite (global_held_lookup st h Horphan Hh).
      rewrite Hglob. reflexivity.
    - unfold lvmcache_unlock_vgname.
      apply String.eqb_neq in Hne as Heqb. rewrite Heqb. simpl.
      set (st0 := if negb (bool_decide _) then _ else st).
      assert (H0 : lock_table_only st st0 /\ _lock_hash st0 = Some h).
      { unfold st0. destruct (negb (bool_decide _)); split; try exact Hh;
          destruct st; reflexivity. }
      destruct H0 as [H0 Hh0].
      eexists st0, _, (fun s => set__lock_hash (dm_hash_remove (_lock_hash s) vgname) s).
      split_and!; [exact H0 | | reflexivity | intros s; split; reflexivity].
      rewrite (global_held_lookup st0 h Horphan Hh0).
      rewrite (global_held_lookup st h Horphan Hh). reflexivity. }
  destruct Hcore as (st_a & n & upd & Hlt & Hglob & Hst' & Hupd).
  destruct (lock_table_only_fields _ _ Hlt) as (_ & Hvs & Hinfo & _).
  assert (Hp_a : lvmcache_vginfo_from_vgname (Some vgname) None st_a = Some p)
    by (rewrite (lock_table_only_from_vgname _ _ vgname Hlt); exact Hp).
  assert (Hr_a : vginfo_store st_a !! p = Some r) by (rewrite Hvs; exact Hr).
  destruct (update_cache_lock_state_effect vgname lock st_a p r Hp_a Hr_a)
    as [Hfree Hheld].
  set (st_b := _update_cache_lock_state vgname lock st_a) in *.
  rewrite Hglob in Hfree, Hheld.
  assert (Hinv' : forall i, invalid_bit st' i = invalid_bit st_b i).
  { intros i. unfold invalid_bit. rewrite Hst'. simpl.
    destruct (Hupd st_b) as [-> _]. reflexivity. }
  assert (Hvs' : vginfo_store st' = vginfo_store st_b).
  { rewrite Hst'. simpl. apply Hupd. }
  assert (Hflips : forall i, flips st_a lock i = flips st lock i).
  { intros i. unfold flips, locked_bit. rewrite Hinfo. reflexivity. }
  assert (Hinv_a : forall i, invalid_bit st_a i = invalid_bit st i).
  { intros i. unfold invalid_bit. rewrite Hinfo. reflexivity. }
  split.
  - intros Hg. destruct (Hfree Hg) as [Hmark Hdrop]. split.
    + intros i Hin Hf. rewrite Hinv'. apply Hmark; [exact Hin|].
      rewrite Hflips. exact Hf.
    + intros (i & Hin & Hf). rewrite Hvs'. apply Hdrop.
      exists i. split; [exact Hin|]. rewrite Hflips. exact Hf.
  - intros Hg. destruct (Hheld Hg) as [Hsame Hstore]. split.
    + intros i. rewrite Hinv', Hsame. apply Hinv_a.
    + rewrite Hvs', Hstore. exact Hvs.
Qed.

(** ** Serving and releasing the parsed VG *)

(** Validity reads the PV records, the lock table and the names of the VG
    records. *)
Lemma info_is_valid_ext (info : lvmcache_info) (st st' : lvmcache) :
  _lock_hash st' = _lock_hash st ->
  records_related (fun r r' => vginfo_vgname r' = vginfo_vgname r)
    (vginfo_store st) (vginfo_store st') ->
  _info_is_valid info st' = _info_is_valid info st.
Proof.
  intros Hlock Hrel. unfold _info_is_valid.
  destruct (flag_set (info_status info) CACHE_INVALID); [reflexivity|].
  destruct (info_vginfo info) as [p|]; [|reflexivity].
  specialize (Hrel p).
  destruct Hrel as [r r' Hname|]; [|reflexivity].
  unfold lvmcache_vgname_is_locked. rewrite Hlock, Hname. reflexivity.
Qed.

Lemma vginfo_is_valid_ext (r r' : lvmcache_vginfo) (st st' : lvmcache) :
  vginfo_infos r' = vginfo_infos r ->
  info_store st' = info_store st ->
  _lock_hash st' = _lock_hash st ->
  records_related (fun r r' => vginfo_vgname r' = vginfo_vgname r)
    (vginfo_store st) (vginfo_store st') ->
  _vginfo_is_valid r' st' = _vginfo_is_valid r st.
Proof.
  intros Hinfos Hstore Hlock Hrel. unfold _vginfo_is_valid, member_infos.
  rewrite Hinfos, Hstore.
  induction (omap _ (vginfo_infos r)) as [|i l IH]; simpl; [reflexivity|].
  rewrite IH. f_equal. apply info_is_valid_ext; assumption.
Qed.

Lemma vg_handle_only_vgname (r r' : lvmcache_vginfo) :
  vg_handle_only r r' -> vginfo_vgname r' = vginfo_vgname r.
Proof. intros H. rewrite H. reflexivity. Qed.

Lemma stores_only_vgid_hash (st st' : lvmcache) :
  stores_only st st' -> _vgid_hash st' = _vgid_hash st.
Proof. intros H. rewrite H. reflexivity. Qed.

Lemma same_name_trans (m1 m2 m3 : gmap ptr lvmcache_vginfo) :
  records_related (fun r r' => vginfo_vgname r' = vginfo_vgname r) m1 m2 ->
  records_related (fun r r' => vginfo_vgname r' = vginfo_vgname r) m2 m3 ->
  records_related (fun r r' => vginfo_vgname r' = vginfo_vgname r) m1 m3.
Proof.
  apply records_related_trans. intros r1 r2 r3 H12 H23. rewrite H23. exact H12.
Qed.

Lemma same_name_upd_vginfo (p : ptr) f (st : lvmcache) :
  (forall r, vginfo_vgname (f r) = vginfo_vgname r) ->
  records_related (fun r r' => vginfo_vgname r' = vginfo_vgname r)
    (vginfo_store st) (vginfo_store (upd_vginfo p f st)).
Proof.
  intros Hf. unfold upd_vginfo. simpl.
  apply records_related_alter; [reflexivity | exact Hf].
Qed.

Lemma same_name_of_handle_only (m m' : gmap ptr lvmcache_vginfo) :
  records_related vg_handle_only m m' ->
  records_related (fun r r' => vginfo_vgname r' = vginfo_vgname r) m m'.
Proof. apply records_related_weaken. apply vg_handle_only_vgname. Qed.



Lemma blob_answers_flags (r : lvmcache_vginfo) (precommitted : bool) :
  blob_answers r precommitted ->
  (precommitted && negb (vginfo_precommitted r))
  || (negb precommitted && vginfo_precommitted r && negb (critical_section E))
  = false.
Proof.
  intros (_ & Hpre & Hlive). destruct precommitted; simpl.
  - rewrite Hpre by reflexivity. reflexivity.
  - destruct (Hlive eq_refl) as [-> | ->]; [reflexivity|].
    apply andb_false_r.
Qed.




Lemma objects_only_fields (st st' : lvmcache) :
  objects_only st st' ->
  info_store st' = info_store st
  /\ _lock_hash st' = _lock_hash st
  /\ _vgid_hash st' = _vgid_hash st
  /\ log st' = log st.
Proof. intros H. rewrite H. split_and!; reflexivity. Qed.

Lemma objects_only_trans (st1 st2 st3 : lvmcache) :
  objects_only st1 st2 -> objects_only st2 st3 -> objects_only st1 st3.
Proof.
  unfold objects_only. intros H12 H23. rewrite H23 at 1. rewrite H12 at 1.
  destruct st1; reflexivity.
Qed.

Lemma stores_only_objects_only (st st' : lvmcache) :
  stores_only st st' -> objects_only st st'.
Proof.
  unfold stores_only, objects_only. intros H. rewrite H at 1. rewrite H.
  destruct st; reflexivity.
Qed.

(** Building the parsed VG, when the collaborators succeed: the object is
    new, the record holds it with two holders (the cache and the caller),
    and nothing but the VG records and the objects changes. *)
Lemma get_vg_build_succeeds (p : ptr) (vgid : string) (st : lvmcache)
    (r : lvmcache_vginfo) (obj : volume_group) :
  vginfo_store st !! p = Some r ->
  builds r vgid obj ->
  let vg := next_ptr st in
  let st' := snd (get_vg_build p vgid st) in
  fst (get_vg_build p vgid st) = Some vg
  /\ objects_only st st'
  /\ records_related (fun r r' => vginfo_vgname r' = vginfo_vgname r)
       (vginfo_store st) (vginfo_store st')
  /\ vg_store st' !! vg = Some (set_vg_vginfo (Some p) obj)
  /\ exists r', vginfo_store st' !! p = Some r'
       /\ vginfo_cached_vg r' = Some vg
       /\ vginfo_holders r' = 2
       /\ vginfo_cached_vg_invalidated r' = false
       /\ vginfo_vgmetadata r' = vginfo_vgmetadata r
       /\ vginfo_precommitted r' = vginfo_precommitted r
       /\ vginfo_infos r' = vginfo_infos r.
Proof.
  intros Hr (fmt & fid & c & Hfmt & Hfid & Hcft & Himp & Hlock) vg st'.
  unfold st', get_vg_build. rewrite Hr, Hfmt, Hfid, Hcft, Himp, Hlock.
  destruct (release_vg_effect (vginfo_cached_vg r) st) as [Hs Hrel].
  set (st1 := release_vg (vginfo_cached_vg r) st) in *.
  assert (Hnext : next_ptr st1 = next_ptr st) by (rewrite Hs; reflexivity).
  specialize (Hrel p) as Hrel_p. rewrite Hr in Hrel_p.
  inversion Hrel_p as [x r1 Hh1 Hx Hr1|]; subst x. symmetry in Hr1.
  simpl negb. cbv iota. unfold get_vg_out. cbn [fst snd].
  change (next_ptr (upd_vginfo p (set_vginfo_cft (Some c)) st1))
    with (next_ptr st1).
  rewrite Hnext. fold vg.
  split_and!.
  - reflexivity.
  - apply (objects_only_trans st st1); [apply stores_only_objects_only, Hs|].
    destruct st1; reflexivity.
  - eapply same_name_trans; [apply same_name_of_handle_only, Hrel|].
    repeat (eapply same_name_trans;
            [|apply same_name_upd_vginfo; intros []; reflexivity]).
    simpl. apply records_related_refl. reflexivity.
  - unfold upd_vginfo. simpl. apply lookup_insert_eq.
  - eexists. unfold upd_vginfo. simpl. rewrite !lookup_alter_eq, Hr1. simpl.
    split_and!; try reflexivity.
    + rewrite Hh1. reflexivity.
    + rewrite Hh1. reflexivity.
    + rewrite Hh1. reflexivity.
Qed.




(** The first request builds the object: the cache holds it, and so does
    the caller. *)
Lemma get_vg_first (cmd : cmd_context) (vgname : option string)
    (vgid : string) (precommitted : bool) (st : lvmcache) (p : ptr)
    (r : lvmcache_vginfo) (obj : volume_group) :
  lvmetad_active E = false \/ precommitted = true ->
  lvmcache_vginfo_from_vgid (Some vgid) st = Some p ->
  vginfo_store st !! p = Some r ->
  vginfo_cached_vg r = None \/ vginfo_cached_vg_invalidated r = true ->
  blob_answers r precommitted ->
  _vginfo_is_valid r st = true ->
  builds r vgid obj ->
  let res := lvmcache_get_vg cmd vgname (Some vgid) precommitted st in
  fst res = Some (next_ptr st)
  /\ shares (snd res) vgid precommitted p (next_ptr st) 2.
Proof.
  intros Hpath Hp Hr Hfresh Hblob Hvalid Hbuilds res.
  assert (Hres : res = get_vg_build p vgid st).
  { unfold res, lvmcache_get_vg.
    assert (Hgate : lvmetad_active E && negb precommitted = false).
    { destruct Hpath as [-> | ->]; [reflexivity | apply andb_false_r]. }
    rewrite Hgate, Hp, Hr.
    rewrite (bool_decide_eq_true_2 _ (proj1 Hblob)), Hvalid.
    rewrite (blob_answers_flags r precommitted Hblob). simpl.
    destruct Hfresh as [-> | Hinv]; [reflexivity|].
    rewrite Hinv. destruct (vginfo_cached_vg r); reflexivity. }
  rewrite Hres.
  destruct (get_vg_build_succeeds p vgid st r obj Hr Hbuilds)
    as (Hfst & Hobjs & Hnames & Hobj
        & r' & Hr' & Hvg & Hh & Hinv & Hmeta & Hpre & Hinfos).
  destruct (objects_only_fields _ _ Hobjs) as (Hinfo & Hlock & Hvgid & _).
  split; [exact Hfst|]. split.
  - unfold lvmcache_vginfo_from_vgid in *. rewrite Hvgid. exact Hp.
  - exists r', (set_vg_vginfo (Some p) obj).
    split_and!; try assumption; try reflexivity.
    + destruct Hblob as (Hsome & Hflags). unfold blob_answers.
      rewrite Hmeta, Hpre. split; assumption.
    + rewrite <- Hvalid. apply vginfo_is_valid_ext; assumption.
Qed.


(** When the collaborators build no parsed VG, none is returned. *)
Lemma get_vg_build_fails (p : ptr) (vgid : string) (st : lvmcache)
    (r : lvmcache_vginfo) :
  vginfo_store st !! p = Some r ->
  (forall obj, ~ builds r vgid obj) ->
  fst (get_vg_build p vgid st) = None.
Proof.
  intros Hr Hno. unfold get_vg_build. rewrite Hr.
  destruct (vginfo_fmt r) as [fmt|] eqn:Hfmt; [|reflexivity].
  destruct (create_instance E fmt (vginfo_vgname r) vgid) as [fid|] eqn:Hfid;
    [|reflexivity].
  destruct (match vginfo_cft r with
            | Some c => Some c
            | None =>
              dm_config_from_string E
                (default EmptyString (vginfo_vgmetadata r))
            end) as [c|] eqn:Hcft; [|reflexivity].
  destruct (import_vg_from_config_tree E c fid) as [obj|] eqn:Himp;
    [|reflexivity].
  destruct (dm_pool_lock E obj) eqn:Hlock; [|reflexivity].
  exfalso. apply (Hno obj). exists fmt, fid, c. split_and!; assumption.
Qed.

(** C2, as the code has it.
    - Unless the metadata daemon is active and live metadata is requested,
      [lvmcache_get_vg] returns no VG and leaves the cache as it is when
      no VG record exists for the id, when no blob is cached, when a
      member PV record is not valid, when precommitted metadata is
      requested and the blob is not precommitted, and when live metadata
      is requested while the blob is precommitted and no critical section
      is active.  Otherwise it returns the parsed VG the record shares,
      when the record has one that is not invalidated; else it builds one
      from the blob, and returns it when the collaborators succeed, and no
      VG when they do not.
    - With the daemon active and live metadata requested, the parsed VG
      of a record that has a blob is returned whatever the state of the
      record; without such an object the answer is the daemon's. *)
Theorem get_vg_contract (cmd : cmd_context) (vgname vgid : option string)
    (precommitted : bool) (st : lvmcache) :
  let res := lvmcache_get_vg cmd vgname vgid precommitted st in
  (lvmetad_active E = false \/ precommitted = true ->
   (lvmcache_vginfo_from_vgid vgid st = None -> res = (None, st))
   /\ (forall id p r,
         vgid = Some id ->
         lvmcache_vginfo_from_vgid vgid st = Some p ->
         vginfo_store st !! p = Some r ->
         (vginfo_vgmetadata r = None -> res = (None, st))
         /\ ((exists info, info ∈ member_infos r st
                           /\ _info_is_valid info st = false) ->
             res = (None, st))
         /\ (precommitted = true -> vginfo_precommitted r = false ->
             res = (None, st))
         /\ (precommitted = false -> vginfo_precommitted r = true ->
             critical_section E = false -> res = (None, st))
         /\ (blob_answers r precommitted -> _vginfo_is_valid r st = true ->
             (forall vg, vginfo_cached_vg r = Some vg ->
                         vginfo_cached_vg_invalidated r = false ->
                         fst res = Some vg)
             /\ (vginfo_cached_vg r = None
                 \/ vginfo_cached_vg_invalidated r = true ->
                 (forall obj,
                    builds r id obj ->
                    fst res = Some (next_ptr st)
                    /\ shares (snd res) id precommitted p (next_ptr st) 2)
                 /\ ((forall obj, ~ builds r id obj) -> fst res = None)))))
  /\ (lvmetad_active E = true -> precommitted = false ->
      (lvmcache_vginfo_from_vgid vgid st = None ->
       res = (lvmetad_vg_lookup E cmd vgname vgid, st))
      /\ (forall p r,
            lvmcache_vginfo_from_vgid vgid st = Some p ->
            vginfo_store st !! p = Some r ->
            (vginfo_vgmetadata r = None \/ vginfo_cached_vg r = None ->
             res = (lvmetad_vg_lookup E cmd vgname vgid, st))
            /\ (forall vg,
                  is_Some (vginfo_vgmetadata r) ->
                  vginfo_cached_vg r = Some vg ->
                  fst res = Some vg))).
Proof.
  intros res. split.
  - intros Hpath.
  assert (Hgate : lvmetad_active E && negb precommitted = false).
  { destruct Hpath as [-> | ->]; [reflexivity | apply andb_false_r]. }
  split.
  + intros Hnone. unfold res, lvmcache_get_vg. rewrite Hgate.
    destruct vgid; [rewrite Hnone|]; reflexivity.
  + intros id p r -> Hp Hr.
    assert (Hshape : forall b1 b2 b3,
              negb (bool_decide (is_Some (vginfo_vgmetadata r))) = b1 ->
              negb (_vginfo_is_valid r st) = b2 ->
              (precommitted && negb (vginfo_precommitted r))
              || (negb precommitted && vginfo_precommitted r
                  && negb (critical_section E)) = b3 ->
              b1 || b2 || b3 = true -> res = (None, st)).
    { intros b1 b2 b3 H1 H2 H3 Hany. unfold res, lvmcache_get_vg.
      rewrite Hgate, Hp, Hr, H1, H2, H3.
      destruct b1; [reflexivity|]. destruct b2; [reflexivity|].
      destruct b3; [reflexivity|discriminate]. }
    split_and!.
    * intros Hnone. eapply Hshape; try reflexivity. rewrite Hnone.
      rewrite bool_decide_eq_false_2 by (intros [? ?]; discriminate).
      reflexivity.
    * intros (info & Hin & Hbad). eapply Hshape; try reflexivity.
      assert (Hv : _vginfo_is_valid r st = false).
      { unfold _vginfo_is_valid. apply not_true_is_false. intros Hall.
        rewrite forallb_forall in Hall.
        apply list_elem_of_In in Hin. rewrite (Hall info Hin) in Hbad.
        discriminate. }
      rewrite Hv. apply orb_true_iff. left. apply orb_true_r.
    * intros -> Hpre. eapply Hshape; try reflexivity. rewrite Hpre.
      apply orb_true_r.
    * intros -> Hpre Hcrit. eapply Hshape; try reflexivity.
      rewrite Hpre, Hcrit. apply orb_true_r.
    * intros Hblob Hvalid. split.
      -- intros vg Hvg Hinv. unfold res, lvmcache_get_vg.
         rewrite Hgate, Hp, Hr.
         rewrite (bool_decide_eq_true_2 _ (proj1 Hblob)), Hvalid.
         rewrite (blob_answers_flags r precommitted Hblob), Hvg, Hinv.
         reflexivity.
      -- intros Hfresh. split.
         ++ intros obj Hbuilds.
            apply (get_vg_first cmd vgname id precommitted st p r obj);
              assumption.
         ++ intros Hno.
            assert (Hres : res = get_vg_build p id st).
            { unfold res, lvmcache_get_vg. rewrite Hgate, Hp, Hr.
              rewrite (bool_decide_eq_true_2 _ (proj1 Hblob)), Hvalid.
              rewrite (blob_answers_flags r precommitted Hblob). simpl.
              destruct Hfresh as [-> | Hinv]; [reflexivity|].
              rewrite Hinv. destruct (vginfo_cached_vg r); reflexivity. }
            rewrite Hres. apply (get_vg_build_fails p id st r Hr Hno).
  - intros Hd ->. unfold res, lvmcache_get_vg. rewrite Hd. cbn [negb andb].
    split.
    + intros ->. reflexivity.
    + intros p r -> ->. split.
      * intros [-> | Hnone].
        -- rewrite bool_decide_eq_false_2 by (intros [? ?]; discriminate).
           reflexivity.
        -- rewrite Hnone. destruct (bool_decide _); reflexivity.
      * intros vg Hsome ->. rewrite (bool_decide_eq_true_2 _ Hsome).
        reflexivity.
Qed.

(** ** Duplicate VG names *)

Ltac decide_props :=
  repeat match goal with
  | |- context [bool_decide ?P] =>
    first
      [ rewrite (bool_decide_eq_true_2 P)
          by (first [congruence | eexists; reflexivity])
      | rewrite (bool_decide_eq_false_2 P)
          by (first [congruence | intros [? ?]; congruence]) ]
  end.

(** The test of [_insert_vginfo] decides as the rules do. *)
Lemma duplicate_vgname_precedence_rules (primary : lvmcache_vginfo)
    (fmt : format_type) (vgname : string) (vgstatus : Z)
    (creation_host : option string) (uuid_primary uuid_new : string) :
  vginfo_fmt primary = Some fmt ->
  fst (duplicate_vgname_precedence primary vgname vgstatus creation_host
         uuid_primary uuid_new)
  = match spec_precedence
            (flag_set (vginfo_status primary) EXPORTED_VG)
            (flag_set vgstatus EXPORTED_VG)
            (vginfo_creation_host primary) creation_host (cmd_hostname fmt)
    with
    | KeepExisting => false
    | NewBecomesPrimary => true
    end.
Proof.
  intros Hfmt.
  unfold duplicate_vgname_precedence, spec_precedence,
    spec_precedence_rules. rewrite Hfmt.
  destruct (flag_set (vginfo_status primary) EXPORTED_VG),
    (flag_set vgstatus EXPORTED_VG); simpl; try reflexivity;
    destruct (vginfo_creation_host primary) as [host|],
      creation_host as [new_host|]; simpl;
    try destruct (decide (host = cmd_hostname fmt)) as [->|Hhost];
    try destruct (decide (new_host = cmd_hostname fmt)) as [->|Hnew];
    decide_props; reflexivity.
Qed.

Lemma dm_alloc_served (st : lvmcache) :
  hd true (heap_script st) = true ->
  exists script, dm_alloc st = (true, set_heap_script script st).
Proof.
  unfold dm_alloc. destruct (heap_script st) as [|b rest] eqn:Hs; simpl.
  - intros _. exists []. rewrite <- Hs. destruct st; reflexivity.
  - intros ->. exists rest. reflexivity.
Qed.

(** C8.  When a record [new_vginfo] is inserted under a VG name that has a
    primary record already, the record that direct name lookup yields
    afterwards is chosen by the precedence rules, first match first: the
    existing primary is kept when it is not exported and the new one is;
    the new one wins when the existing primary is exported and the new one
    is not; the existing primary is kept when its creation host is the
    local host; the new one wins when the existing primary has no creation
    host and the new one has; the new one wins when its creation host is
    the local host; otherwise the existing primary is kept.  The loser
    stays on the chain of the winner, and no record is discarded. *)
Theorem insert_vginfo_duplicate_name (new_vginfo primary : ptr) (vgid : string)
    (vgstatus : Z) (creation_host : option string) (st : lvmcache)
    (new_r primary_r : lvmcache_vginfo) (fmt : format_type)
    (h : gmap string (list ptr)) (rest : list ptr) :
  vginfo_store st !! new_vginfo = Some new_r ->
  vginfo_store st !! primary = Some primary_r ->
  vginfo_vgname new_r = vginfo_vgname primary_r ->
  vginfo_fmt primary_r = Some fmt ->
  _vgname_hash st = Some h ->
  h !! vginfo_vgname primary_r = Some (primary :: rest) ->
  is_Some (id_write_format E vgid) ->
  is_Some (id_write_format E (vginfo_vgid primary_r)) ->
  hd true (heap_script st) = true ->
  let name := vginfo_vgname primary_r in
  let verdict :=
    spec_precedence
      (flag_set (vginfo_status primary_r) EXPORTED_VG)
      (flag_set vgstatus EXPORTED_VG)
      (vginfo_creation_host primary_r) creation_host (cmd_hostname fmt) in
  let chain :=
    match verdict with
    | KeepExisting => primary :: rest ++ [new_vginfo]
    | NewBecomesPrimary => new_vginfo :: primary :: rest
    end in
  exists st',
    _insert_vginfo new_vginfo vgid vgstatus creation_host (Some primary) st
    = (true, st')
    /\ dm_hash_lookup (_vgname_hash st') name = Some chain
    /\ lvmcache_vginfo_from_vgname (Some name) None st'
       = Some match verdict with
              | KeepExisting => primary
              | NewBecomesPrimary => new_vginfo
              end
    /\ primary ∈ chain
    /\ new_vginfo ∈ chain
    /\ vginfo_store st' = vginfo_store st.
Proof.
  intros Hnew Hprimary Hname Hfmt Hh Hchain [uuid_new Hun] [uuid_primary Hup]
    Hserved name verdict chain.
  assert (Hlookup : forall s c,
            dm_hash_lookup (_vgname_hash s) name = Some c ->
            lvmcache_vginfo_from_vgname (Some name) None s = head c).
  { intros s c Hs. unfold lvmcache_vginfo_from_vgname. rewrite Hs.
    destruct c; reflexivity. }
  unfold _insert_vginfo. rewrite Hnew, Hprimary, Hun, Hup, Hname.
  fold name. rewrite Hh. simpl dm_hash_lookup. fold name in Hchain.
  rewrite Hchain. simpl default.
  pose proof (duplicate_vgname_precedence_rules primary_r fmt name vgstatus
                creation_host uuid_primary uuid_new Hfmt) as Hrule.
  fold verdict in Hrule.
  destruct (duplicate_vgname_precedence primary_r name vgstatus creation_host
              uuid_primary uuid_new) as [use_new warning].
  simpl in Hrule. subst use_new.
  set (st0 := match warning with Some w => _ | None => st end).
  assert (H0 : _vgname_hash st0 = Some h /\ vginfo_store st0 = vginfo_store st
               /\ heap_script st0 = heap_script st).
  { unfold st0. destruct warning; split_and!; try reflexivity; exact Hh. }
  destruct H0 as (Hh0 & Hstore0 & Hscript0). clearbody st0.
  unfold chain. destruct verdict; simpl.
  - eexists. split; [reflexivity|].
    assert (Hl : dm_hash_lookup
                   (_vgname_hash
                      (set__vgname_hash
                         (<[name := (primary :: rest) ++ [new_vginfo]]>
                            <$> _vgname_hash st0) st0)) name
                 = Some (primary :: rest ++ [new_vginfo])).
    { rewrite Hh0. simpl. apply lookup_insert_eq. }
    split_and!.
    + exact Hl.
    + exact (Hlookup _ _ Hl).
    + left.
    + right. apply elem_of_app. right. left.
    + exact Hstore0.
  - rewrite Hh0. simpl. rewrite lookup_delete_eq.
    destruct (dm_alloc_served (set__vgname_hash (Some (delete name h)) st0))
      as [script Halloc]; [simpl; rewrite Hscript0; exact Hserved|].
    rewrite Halloc. simpl.
    eexists. split; [reflexivity|].
    split_and!.
    + simpl. apply lookup_insert_eq.
    + apply (Hlookup _ (new_vginfo :: primary :: rest)). simpl.
      apply lookup_insert_eq.
    + right. left.
    + left.
    + exact Hstore0.
Qed.

(** ** Scanning *)




(** A successful initialisation: the four tables are created, and the
    global lock is recorded again when it was held at the last teardown. *)
Lemma dm_hash_create_ok {V : Type} (st st' : lvmcache)
    (h : option (gmap string V)) :
  dm_hash_create st = (h, st') ->
  bool_decide (is_Some h) = true ->
  h = Some ∅ /\ exists script, st' = set_heap_script script st.
Proof.
  unfold dm_hash_create, dm_alloc. intros Hc Hh.
  destruct (heap_script st) as [|b rest] eqn:Hs; cbn in Hc.
  - injection Hc as <- <-. split; [reflexivity|].
    exists []. destruct st. cbn in Hs. subst. reflexivity.
  - injection Hc as <- <-. destruct b.
    + split; [reflexivity|]. exists rest. reflexivity.
    + apply bool_decide_eq_true_1 in Hh. destruct Hh as [x Hx]. discriminate.
Qed.

Lemma lvmcache_init_success (st : lvmcache) :
  fst (lvmcache_init st) = true ->
  exists script,
    snd (lvmcache_init st)
    = if _vg_global_lock_held st
      then set__vg_global_lock_held false
             (lock_vgname_initialised VG_GLOBAL (tables_created script st))
      else tables_created script st.
Proof.
  unfold lvmcache_init.
  do 4 (let Hc := fresh "Hc" in
        let Hb := fresh "Hb" in
        match goal with
        | |- context [dm_hash_create (V := ?V) ?s] =>
          destruct (dm_hash_create (V := V) s) as [? ?] eqn:Hc
        end;
        match goal with
        | |- context [bool_decide (is_Some ?h)] =>
          destruct (bool_decide (is_Some h)) eqn:Hb
        end; cbn [negb]; [|discriminate];
        destruct (dm_hash_create_ok _ _ _ Hc Hb) as [-> [? ->]];
        clear Hc Hb).
  intros _.
  match goal with
  | |- context [set__lock_hash _ (set_heap_script ?k _)] => rename k into k4
  end.
  exists k4.
  match goal with
  | |- snd (if _vg_global_lock_held ?s then _ else _) = _ =>
    assert (Hs : s = tables_created k4 st) by (destruct st; reflexivity);
    assert (Hg : _vg_global_lock_held s = _vg_global_lock_held st)
      by (rewrite Hs; destruct st; reflexivity)
  end.
  rewrite Hg, Hs. destruct (_vg_global_lock_held st); reflexivity.
Qed.



Lemma dm_hash_insert_lock_table_only {V : Type} (t : option (gmap string V))
    (k : string) (v : V) (st : lvmcache) :
  lock_table_only st (snd (dm_hash_insert t k v st)).
Proof.
  unfold dm_hash_insert, dm_alloc.
  destruct t as [h|]; [destruct (h !! k)|];
    [ | destruct (heap_script st) as [|[] rest] eqn:Hs | ];
    destruct st; reflexivity.
Qed.






(** ** Teardown and initialisation *)

Lemma lock_state_kept_refl (st : lvmcache) : lock_state_kept st st.
Proof.
  split_and!; try reflexivity; exists []; [rewrite app_nil_r|]; reflexivity.
Qed.

Lemma lock_state_kept_trans (st1 st2 st3 : lvmcache) :
  lock_state_kept st1 st2 -> lock_state_kept st2 st3 ->
  lock_state_kept st1 st3.
Proof.
  intros (Hl & Hg & [m Hm] & [u Hu]) (Hl' & Hg' & [m' Hm'] & [u' Hu']).
  split_and!.
  - rewrite Hl'. exact Hl.
  - rewrite Hg'. exact Hg.
  - exists (m ++ m'). rewrite Hm', Hm, app_assoc. reflexivity.
  - exists (u ++ u'). rewrite Hu, Hu', app_assoc. reflexivity.
Qed.

(** A step that leaves the four fields as they are. *)
Lemma lock_state_kept_same (st st' : lvmcache) :
  _lock_hash st' = _lock_hash st ->
  _vg_global_lock_held st' = _vg_global_lock_held st ->
  log st' = log st ->
  heap_script st' = heap_script st ->
  lock_state_kept st st'.
Proof.
  intros Hl Hg Hlog Hs. split_and!; try assumption; exists [].
  - rewrite app_nil_r. exact Hlog.
  - rewrite Hs. reflexivity.
Qed.

Lemma lock_state_kept_records_only (st st' : lvmcache) :
  records_only st st' -> lock_state_kept st st'.
Proof. intros H. apply lock_state_kept_same; rewrite H; reflexivity. Qed.

Lemma lock_state_kept_print_log lvl text args (st : lvmcache) :
  lock_state_kept st (print_log lvl text args st).
Proof.
  split_and!; try reflexivity; [eexists; reflexivity | exists []; reflexivity].
Qed.

Lemma lock_state_kept_dm_alloc (st : lvmcache) :
  lock_state_kept st (snd (dm_alloc st)).
Proof.
  unfold dm_alloc. destruct (heap_script st) as [|b rest] eqn:Hs; simpl.
  - apply lock_state_kept_refl.
  - split_and!; try reflexivity; [exists []; rewrite app_nil_r; reflexivity|].
    exists [b]. simpl. exact Hs.
Qed.

Lemma lock_state_kept_dm_hash_insert {V : Type} (t : option (gmap string V))
    (k : string) (v : V) (st : lvmcache) :
  lock_state_kept st (snd (dm_hash_insert t k v st)).
Proof.
  unfold dm_hash_insert. destruct t as [h|]; [|apply lock_state_kept_refl].
  destruct (h !! k); [apply lock_state_kept_refl|].
  pose proof (lock_state_kept_dm_alloc st) as H.
  destruct (dm_alloc st) as [[] st']; exact H.
Qed.

Lemma lock_state_kept_free_cached (vginfo : option ptr) (st : lvmcache) :
  lock_state_kept st (_free_cached_vgmetadata vginfo st).
Proof.
  apply lock_state_kept_records_only, stores_only_records_only,
    free_cached_vgmetadata_effect.
Qed.

Lemma lock_state_kept_detach (info : ptr) (st : lvmcache) :
  lock_state_kept st (_vginfo_detach_info info st).
Proof. apply lock_state_kept_same; reflexivity. Qed.

Lemma lock_state_kept_free_vginfo (vginfo : ptr) (st : lvmcache) :
  lock_state_kept st (snd (_free_vginfo vginfo st)).
Proof.
  unfold _free_vginfo.
  pose proof (lock_state_kept_free_cached (Some vginfo) st) as H0.
  set (st0 := _free_cached_vgmetadata (Some vginfo) st) in *. clearbody st0.
  destruct (vginfo_store st0 !! vginfo) as [r|]; [|exact H0].
  eapply lock_state_kept_trans; [exact H0|]. clear H0.
  match goal with
  | |- lock_state_kept _ (snd (let '(ok, s) := ?e in _)) =>
    assert (H1 : lock_state_kept st0 (snd e)); [|destruct e as [ok st1]]
  end.
  { destruct (dm_hash_lookup (_vgname_hash st0) (vginfo_vgname r))
      as [[|primary chain]|]; try apply lock_state_kept_refl.
    destruct (Nat.eqb vginfo primary).
    - destruct chain as [|c chain]; [apply lock_state_kept_same; reflexivity|].
      set (st1 := set__vgname_hash _ st0).
      pose proof (lock_state_kept_dm_hash_insert (_vgname_hash st1)
                    (vginfo_vgname r) (c :: chain) st1) as Hins.
      destruct (dm_hash_insert (_vgname_hash st1) (vginfo_vgname r)
                  (c :: chain) st1) as [[ok h'] st2]. simpl in Hins.
      assert (H01 : lock_state_kept st0 st2).
      { eapply lock_state_kept_trans; [|exact Hins].
        apply lock_state_kept_same; reflexivity. }
      destruct ok; simpl.
      + eapply lock_state_kept_trans; [exact H01|].
        apply lock_state_kept_same; reflexivity.
      + eapply lock_state_kept_trans; [exact H01|].
        eapply lock_state_kept_trans;
          [|apply lock_state_kept_print_log].
        apply lock_state_kept_same; reflexivity.
    - apply lock_state_kept_same; reflexivity. }
  simpl in H1. simpl.
  eapply lock_state_kept_trans; [exact H1|].
  destruct (negb _ && _ && _); apply lock_state_kept_same; reflexivity.
Qed.

Lemma lock_state_kept_attach (vginfo : option ptr) (info : ptr)
    (st : lvmcache) :
  lock_state_kept st (_vginfo_attach_info vginfo info st).
Proof.
  destruct vginfo; [apply lock_state_kept_same; reflexivity|].
  apply lock_state_kept_refl.
Qed.

Lemma lock_state_kept_drop_vginfo (info vginfo : option ptr) (st : lvmcache) :
  lock_state_kept st (snd (_drop_vginfo info vginfo st)).
Proof.
  unfold _drop_vginfo.
  set (st0 := match info with Some i => _ | None => st end).
  assert (H0 : lock_state_kept st st0).
  { unfold st0. destruct info; [apply lock_state_kept_detach|].
    apply lock_state_kept_refl. }
  clearbody st0. destruct vginfo as [v|]; [|exact H0].
  destruct (vginfo_store st0 !! v) as [r|]; [|exact H0].
  destruct (is_orphan_vg _ || _); [exact H0|].
  eapply lock_state_kept_trans; [exact H0|].
  apply lock_state_kept_free_vginfo.
Qed.

Lemma lock_state_kept_fold {A : Type} (f : lvmcache -> A -> lvmcache)
    (l : list A) (st : lvmcache) :
  (forall s a, lock_state_kept s (f s a)) ->
  lock_state_kept st (fold_left f l st).
Proof.
  intros Hf. revert st. induction l as [|a l IH]; intros st; simpl.
  - apply lock_state_kept_refl.
  - eapply lock_state_kept_trans; [apply Hf | apply IH].
Qed.

Lemma lock_state_kept_update_vgid (info vginfo : option ptr) (vgid : string)
    (st : lvmcache) :
  lock_state_kept st (snd (_lvmcache_update_vgid info vginfo vgid st)).
Proof.
  unfold _lvmcache_update_vgid.
  destruct vginfo as [v|]; [|apply lock_state_kept_refl].
  destruct (vginfo_store st !! v) as [r|]; [|apply lock_state_kept_refl].
  destruct (String.eqb _ _); [apply lock_state_kept_refl|].
  set (st1 := upd_vginfo v _ _).
  assert (H1 : lock_state_kept st st1).
  { unfold st1. destruct (negb _); apply lock_state_kept_same; reflexivity. }
  clearbody st1.
  pose proof (lock_state_kept_dm_hash_insert (_vgid_hash st1) (id_of vgid) v st1)
    as Hins.
  destruct (dm_hash_insert (_vgid_hash st1) (id_of vgid) v st1)
    as [[ok h'] st2]. simpl in Hins.
  assert (H2 : lock_state_kept st (set__vgid_hash h' st2)).
  { eapply lock_state_kept_trans; [exact H1|].
    eapply lock_state_kept_trans; [exact Hins|].
    apply lock_state_kept_same; reflexivity. }
  destruct ok; simpl; [exact H2|].
  eapply lock_state_kept_trans; [exact H2 | apply lock_state_kept_print_log].
Qed.

Lemma lock_state_kept_insert_vginfo (new_vginfo : ptr) (vgid : string)
    (vgstatus : Z) (creation_host : option string)
    (primary_vginfo : option ptr) (st : lvmcache) :
  lock_state_kept st
    (snd (_insert_vginfo new_vginfo vgid vgstatus creation_host
            primary_vginfo st)).
Proof.
  unfold _insert_vginfo.
  destruct (vginfo_store st !! new_vginfo) as [new_r|];
    [|apply lock_state_kept_refl].
  assert (Hins : forall chain s,
            lock_state_kept s
              (snd (let '(ok, h, s') :=
                      dm_hash_insert (_vgname_hash s) (vginfo_vgname new_r)
                        (new_vginfo :: chain) s in
                    if ok then (true, set__vgname_hash h s')
                    else (false,
                          log_error "cache_update: vg hash insertion failed: %s"
                            [vginfo_vgname new_r] (set__vgname_hash h s'))))).
  { intros chain s.
    pose proof (lock_state_kept_dm_hash_insert (_vgname_hash s)
                  (vginfo_vgname new_r) (new_vginfo :: chain) s) as H.
    destruct (dm_hash_insert (_vgname_hash s) (vginfo_vgname new_r)
                (new_vginfo :: chain) s) as [[ok h'] s']. simpl in H.
    assert (H' : lock_state_kept s (set__vgname_hash h' s')).
    { eapply lock_state_kept_trans; [exact H|].
      apply lock_state_kept_same; reflexivity. }
    destruct ok; simpl; [exact H'|].
    eapply lock_state_kept_trans; [exact H' | apply lock_state_kept_print_log]. }
  destruct (match primary_vginfo with
            | Some p => vginfo_store st !! p
            | None => None
            end) as [primary_r|]; [|apply Hins].
  destruct (id_write_format E vgid); [|apply lock_state_kept_refl].
  destruct (id_write_format E (vginfo_vgid primary_r));
    [|apply lock_state_kept_refl].
  destruct (duplicate_vgname_precedence _ _ _ _ _ _) as [use_new warning].
  set (st0 := match warning with Some w => _ | None => st end).
  assert (H0 : lock_state_kept st st0).
  { unfold st0. destruct warning; [|apply lock_state_kept_refl].
    split_and!; try reflexivity; [eexists; reflexivity | exists []; reflexivity]. }
  clearbody st0. destruct use_new; simpl.
  - apply (lock_state_kept_trans st st0); [exact H0|].
    apply (lock_state_kept_trans st0
             (set__vgname_hash
                (dm_hash_remove (_vgname_hash st0) (vginfo_vgname primary_r))
                st0));
      [apply lock_state_kept_same; reflexivity|].
    exact (Hins (default [] (dm_hash_lookup (_vgname_hash st)
                               (vginfo_vgname primary_r)))
             (set__vgname_hash
                (dm_hash_remove (_vgname_hash st0) (vginfo_vgname primary_r))
                st0)).
  - eapply lock_state_kept_trans; [exact H0|].
    apply lock_state_kept_same; reflexivity.
Qed.

#[local] Arguments _drop_vginfo : simpl never.
#[local] Arguments move_infos_to : simpl never.

Lemma lock_state_kept_drop_invalid_primaries (fuel : nat) (vgname : string)
    (st : lvmcache) (res : primary_scan) :
  drop_invalid_primaries fuel vgname st = Some res ->
  lock_state_kept st (primary_scan_state res).
Proof.
  revert st. induction fuel as [|fuel IH]; intros st; simpl;
    destruct (lvmcache_vginfo_from_vgname (Some vgname) None st) as [primary|];
    try (intros [= <-]; apply lock_state_kept_refl);
    destruct (vginfo_store st !! primary) as [r|];
    try (intros [= <-]; apply lock_state_kept_refl);
    destruct (negb _);
    try (intros [= <-]; apply lock_state_kept_refl);
    try discriminate.
  destruct (match vginfo_fmt r with Some fmt => _ | None => _ end)
    as [orphan_vginfo|lost].
  - set (st1 := move_infos_to orphan_vginfo (vginfo_infos r) st).
    assert (H1 : lock_state_kept st st1).
    { unfold st1, move_infos_to. apply lock_state_kept_fold. intros s a.
      eapply lock_state_kept_trans;
        [apply lock_state_kept_detach | apply lock_state_kept_attach]. }
    clearbody st1.
    pose proof (lock_state_kept_drop_vginfo None (Some primary) st1) as H2.
    destruct (_drop_vginfo None (Some primary) st1) as [ok st2]. simpl in H2.
    destruct ok.
    + intros Hres. eapply lock_state_kept_trans; [exact H1|].
      eapply lock_state_kept_trans; [exact H2|]. apply IH. exact Hres.
    + intros [= <-]. simpl.
      eapply lock_state_kept_trans; [exact H1 | exact H2].
  - intros [= <-]. simpl. apply lock_state_kept_print_log.
Qed.

Lemma lock_state_kept_dm_zalloc (st : lvmcache) :
  lock_state_kept st (snd (dm_zalloc st)).
Proof.
  unfold dm_zalloc. pose proof (lock_state_kept_dm_alloc st) as H.
  destruct (dm_alloc st) as [[] st1]; simpl in *; [|exact H].
  eapply lock_state_kept_trans; [exact H|].
  apply lock_state_kept_same; reflexivity.
Qed.

Lemma lock_state_kept_update_vgname (info : option ptr)
    (vgname : option string) (vgid : string) (vgstatus : Z)
    (creation_host : option string) (fmt : option format_type)
    (st : lvmcache) (ok : bool) (st' : lvmcache) :
  _lvmcache_update_vgname info vgname vgid vgstatus creation_host fmt st
  = Some (ok, st') ->
  lock_state_kept st st'.
Proof.
  unfold _lvmcache_update_vgname.
  destruct vgname as [name|]; [|intros [= _ <-]; apply lock_state_kept_refl].
  destruct (match match match info with Some i => _ | None => _ end with
                  | Some r => _ | None => _ end with
            | Some v => _ | None => false end);
    [intros [= _ <-]; apply lock_state_kept_refl|].
  set (st0 := match info with Some i => _ | None => st end).
  assert (H0 : lock_state_kept st st0).
  { unfold st0. destruct info as [i|]; [|apply lock_state_kept_refl].
    destruct (info_store st !! i); [|apply lock_state_kept_refl].
    apply lock_state_kept_drop_vginfo. }
  clearbody st0.
  assert (Hfinish : forall vginfo s,
            lock_state_kept s
              (snd (let '(ok, s1) :=
                      match info with
                      | Some i => (true, _vginfo_attach_info (Some vginfo) i s)
                      | None => _lvmcache_update_vgid None (Some vginfo) vgid s
                      end in
                    if negb ok then (false, s1)
                    else
                      (true,
                       upd_vginfo vginfo (set_vginfo_fmt fmt)
                         (_update_cache_vginfo_lock_state vginfo
                            (lvmcache_vgname_is_locked name s1) s1))))).
  { intros vginfo s.
    match goal with
    | |- lock_state_kept _ (snd (let '(ok, s1) := ?e in _)) =>
      assert (H1 : lock_state_kept s (snd e)); [|destruct e as [ok1 s1]]
    end.
    { destruct info; [apply lock_state_kept_attach|].
      apply lock_state_kept_update_vgid. }
    simpl in H1. destruct ok1; simpl; [|exact H1].
    eapply lock_state_kept_trans; [exact H1|].
    eapply lock_state_kept_trans;
      [apply lock_state_kept_records_only,
         update_cache_vginfo_lock_state_records_only|].
    apply lock_state_kept_same; reflexivity. }
  destruct (lvmcache_vginfo_from_vgname (Some name) (Some vgid) st0)
    as [vginfo|].
  { intros [= Hres]. apply (lock_state_kept_trans st st0); [exact H0|].
    change st' with (snd (ok, st')). rewrite <- Hres.
    exact (Hfinish vginfo st0). }
  pose proof (lock_state_kept_dm_zalloc st0) as Hz.
  destruct (dm_zalloc st0) as [[vginfo|] st1]; simpl in Hz.
  2:{ intros [= _ <-]. eapply lock_state_kept_trans; [exact H0|].
      eapply lock_state_kept_trans; [exact Hz|].
      apply lock_state_kept_print_log. }
  pose proof (lock_state_kept_dm_alloc st1) as Ha.
  destruct (dm_alloc st1) as [[] st2]; simpl in Ha.
  2:{ intros [= _ <-]. eapply lock_state_kept_trans; [exact H0|].
      eapply lock_state_kept_trans; [exact Hz|].
      eapply lock_state_kept_trans; [exact Ha|].
      apply lock_state_kept_print_log. }
  cbn [negb].
  set (st3 := set_vginfo_store _ st2).
  assert (H3 : lock_state_kept st st3).
  { eapply lock_state_kept_trans; [exact H0|].
    eapply lock_state_kept_trans; [exact Hz|].
    eapply lock_state_kept_trans; [exact Ha|].
    apply lock_state_kept_same; reflexivity. }
  clearbody st3.
  destruct (drop_invalid_primaries (S (chain_length name st3)) name st3)
    as [[primary st4|freed st4]|] eqn:Hscan; [| |discriminate].
  - apply lock_state_kept_drop_invalid_primaries in Hscan. simpl in Hscan.
    pose proof (lock_state_kept_insert_vginfo vginfo vgid vgstatus
                  creation_host primary st4) as Hins.
    destruct (_insert_vginfo vginfo vgid vgstatus creation_host primary st4)
      as [[] st5]; simpl in Hins |- *.
    + intros [= Hres].
      set (st6 := if is_orphan_vg name then _ else _) in *.
      assert (H6 : lock_state_kept st st6).
      { eapply lock_state_kept_trans; [exact H3|].
        eapply lock_state_kept_trans; [exact Hscan|].
        eapply lock_state_kept_trans; [exact Hins|].
        unfold st6. destruct (is_orphan_vg name);
          apply lock_state_kept_same; reflexivity. }
      apply (lock_state_kept_trans st st6); [exact H6|].
      change st' with (snd (ok, st')). rewrite <- Hres.
      exact (Hfinish vginfo st6).
    + intros [= _ <-].
      eapply lock_state_kept_trans; [exact H3|].
      eapply lock_state_kept_trans; [exact Hscan|].
      eapply lock_state_kept_trans; [exact Hins|].
      apply lock_state_kept_same; reflexivity.
  - apply lock_state_kept_drop_invalid_primaries in Hscan. simpl in Hscan.
    intros [= _ <-].
    eapply lock_state_kept_trans; [exact H3|].
    eapply lock_state_kept_trans; [exact Hscan|].
    destruct freed; [apply lock_state_kept_same; reflexivity|].
    apply lock_state_kept_refl.
Qed.

(** ** Further properties: the lock table *)

Lemma records_only_globals (st st' : lvmcache) :
  records_only st st' ->
  _lock_hash st' = _lock_hash st
  /\ _vgs_locked st' = _vgs_locked st
  /\ log st' = log st
  /\ heap_script st' = heap_script st
  /\ _vgname_hash st' = _vgname_hash st
  /\ _vgid_hash st' = _vgid_hash st
  /\ _vginfos st' = _vginfos st
  /\ dev_pvid st' = dev_pvid st.
Proof. intros H. rewrite H. split_and!; reflexivity. Qed.

(** Recording a lock: the name is in the table afterwards when it was
    there before or the allocation of its node is served, and the counter
    counts every name but the global one. *)
Lemma lock_vgname_initialised_table (vgname : string) (st : lvmcache)
    (h : gmap string unit) :
  _lock_hash st = Some h ->
  let st' := lock_vgname_initialised vgname st in
  _lock_hash st'
  = Some (if bool_decide (is_Some (h !! vgname)) || hd true (heap_script st)
          then <[vgname := ()]> h else h)
  /\ _vgs_locked st'
     = (if String.eqb vgname VG_GLOBAL then _vgs_locked st
        else _vgs_locked st + 1).
Proof.
  intros Hh. cbv zeta. unfold lock_vgname_initialised.
  set (st0 := if bool_decide _ then _ else st).
  assert (H0 : _lock_hash st0 = Some h /\ _vgs_locked st0 = _vgs_locked st
               /\ heap_script st0 = heap_script st).
  { unfold st0. destruct (bool_decide _); split_and!; try exact Hh;
      reflexivity. }
  destruct H0 as (Hh0 & Hc0 & Hs0). clearbody st0.
  assert (Hins : exists st1,
             dm_hash_insert (_lock_hash st0) vgname () st0
             = (bool_decide (is_Some (h !! vgname)) || hd true (heap_script st),
                Some (if bool_decide (is_Some (h !! vgname))
                         || hd true (heap_script st)
                      then <[vgname := ()]> h else h), st1)
             /\ _vgs_locked st1 = _vgs_locked st).
  { unfold dm_hash_insert, dm_alloc. rewrite Hh0, <- Hs0.
    destruct (h !! vgname) as [[]|] eqn:Hl.
    - rewrite bool_decide_eq_true_2 by (eexists; reflexivity).
      exists st0. split; [reflexivity | exact Hc0].
    - rewrite bool_decide_eq_false_2 by (intros [? ?]; discriminate).
      destruct (heap_script st0) as [|[] rest]; cbn [orb hd].
      + exists st0. split; [reflexivity | exact Hc0].
      + exists (set_heap_script rest st0). split; [reflexivity | exact Hc0].
      + exists (set_heap_script rest st0). split; [reflexivity | exact Hc0]. }
  destruct Hins as (st1 & -> & Hc1).
  set (ok := bool_decide _ || _).
  set (st2 := if ok then _ else _).
  assert (H2 : _lock_hash st2 = Some (if ok then <[vgname := ()]> h else h)
               /\ _vgs_locked st2 = _vgs_locked st).
  { unfold st2. destruct ok; split; try reflexivity; exact Hc1. }
  destruct H2 as (Hh2 & Hc2). clearbody st2.
  destruct (String.eqb vgname VG_GLOBAL); cbn [negb]; [split; assumption|].
  destruct (records_only_globals _ _
              (update_cache_lock_state_records_only vgname true st2))
    as (Hh3 & Hc3 & _).
  split; [|cbn; rewrite Hc3, Hc2; reflexivity].
  cbn. rewrite Hh3. exact Hh2.
Qed.

(** Releasing a lock: the name leaves the table, and the counter counts
    every name but the global one. *)
Lemma unlock_vgname_table (vgname : string) (st : lvmcache) :
  let st' := snd (lvmcache_unlock_vgname vgname st) in
  _lock_hash st' = dm_hash_remove (_lock_hash st) vgname
  /\ _vgs_locked st'
     = (if String.eqb vgname VG_GLOBAL then _vgs_locked st
        else _vgs_locked st - 1)
  /\ fst (lvmcache_unlock_vgname vgname st)
     = negb (String.eqb vgname VG_GLOBAL) && (_vgs_locked st - 1 =? 0).
Proof.
  cbv zeta. unfold lvmcache_unlock_vgname.
  set (st0 := if negb _ then _ else st).
  assert (H0 : _lock_hash st0 = _lock_hash st
               /\ _vgs_locked st0 = _vgs_locked st).
  { unfold st0. destruct (bool_decide _); split; reflexivity. }
  destruct H0 as (Hh0 & Hc0). clearbody st0.
  set (st1 := if negb _ then _ else st0).
  assert (H1 : _lock_hash st1 = _lock_hash st0
               /\ _vgs_locked st1 = _vgs_locked st0).
  { unfold st1. destruct (negb _); [|split; reflexivity].
    destruct (records_only_globals _ _
                (update_cache_lock_state_records_only vgname false st0))
      as (? & ? & _). split; assumption. }
  destruct H1 as (Hh1 & Hc1). clearbody st1.
  destruct (String.eqb vgname VG_GLOBAL); cbn [negb fst snd andb].
  - split_and!; cbn; congruence.
  - split_and!; cbn; congruence.
Qed.

(** X1.  [lvmcache_unlock_vgname] logs the internal error "Attempt to
    unlock unlocked VG" exactly when the name has no entry in the lock
    table, and logs nothing else. *)
Theorem unlock_vgname_log (vgname : string) (st : lvmcache) :
  log (snd (lvmcache_unlock_vgname vgname st))
  = (if bool_decide (is_Some (dm_hash_lookup (_lock_hash st) vgname))
     then log st
     else log st
          ++ [{| msg_level := LOG_INTERNAL_ERROR;
                 msg_text := "Attempt to unlock unlocked VG %s.";
                 msg_args := [vgname] |}]).
Proof.
  unfold lvmcache_unlock_vgname.
  set (st0 := if negb _ then _ else st).
  assert (H0 : log st0
               = (if bool_decide
                       (is_Some (dm_hash_lookup (_lock_hash st) vgname))
                  then log st
                  else log st
                       ++ [{| msg_level := LOG_INTERNAL_ERROR;
                              msg_text := "Attempt to unlock unlocked VG %s.";
                              msg_args := [vgname] |}])).
  { unfold st0. destruct (bool_decide _); reflexivity. }
  clearbody st0.
  set (st1 := if negb _ then _ else st0).
  assert (H1 : log st1 = log st0).
  { unfold st1. destruct (negb _); [|reflexivity].
    destruct (records_only_globals _ _
                (update_cache_lock_state_records_only vgname false st0))
      as (_ & _ & Hlog & _). exact Hlog. }
  clearbody st1.
  destruct (negb (String.eqb vgname VG_GLOBAL)); cbn; congruence.
Qed.

(** X2.  In an initialised cache, [lvmcache_lock_vgname] of a name that is
    not held followed by [lvmcache_unlock_vgname] of the same name gives
    back the lock table and the count of locked VGs, whether or not the
    allocation of the table node was served. *)
Theorem lock_unlock_round_trip (vgname : string) (st : lvmcache)
    (h : gmap string unit) :
  _lock_hash st = Some h ->
  h !! vgname = None ->
  let st' :=
    snd (lvmcache_unlock_vgname vgname (lvmcache_lock_vgname vgname st)) in
  _lock_hash st' = _lock_hash st
  /\ lvmcache_vgs_locked st' = lvmcache_vgs_locked st.
Proof.
  intros Hh Hnone. cbv zeta. unfold lvmcache_lock_vgname, lvmcache_vgs_locked.
  rewrite Hh. rewrite bool_decide_eq_true_2 by (eexists; reflexivity).
  cbn [negb].
  destruct (lock_vgname_initialised_table vgname st h Hh) as (Ht & Hc).
  destruct (unlock_vgname_table vgname (lock_vgname_initialised vgname st))
    as (Ht' & Hc' & _).
  split.
  - rewrite Ht', Ht. cbn. f_equal.
    destruct (_ || _); [apply delete_insert_id | apply delete_id]; exact Hnone.
  - rewrite Hc', Hc. destruct (String.eqb vgname VG_GLOBAL); lia.
Qed.

(** X3.  Once [VG_ORPHANS] is locked in an initialised cache, with the
    allocation of the table node served, every orphan VG name is reported
    as locked by [lvmcache_vgname_is_locked]. *)
Theorem orphan_names_share_the_orphan_lock (vgname : string) (st : lvmcache) :
  is_orphan_vg vgname = true ->
  is_Some (_lock_hash st) ->
  hd true (heap_script st) = true ->
  lvmcache_vgname_is_locked vgname (lvmcache_lock_vgname VG_ORPHANS st) = true.
Proof.
  intros Horphan [h Hh] Hserved. unfold lvmcache_lock_vgname.
  rewrite Hh. rewrite bool_decide_eq_true_2 by (eexists; reflexivity).
  cbn [negb].
  destruct (lock_vgname_initialised_table VG_ORPHANS st h Hh) as (Ht & _).
  unfold lvmcache_vgname_is_locked. rewrite Ht, Horphan, Hserved.
  rewrite orb_true_r. rewrite lookup_insert_eq. reflexivity.
Qed.

(** X4.  [lvmcache_lock_vgname] records the name it is given, while
    [lvmcache_vgname_is_locked] looks an orphan name up under
    [VG_ORPHANS]: locking an orphan name other than [VG_ORPHANS] while
    [VG_ORPHANS] is not held leaves that name reported as not locked. *)
Theorem orphan_name_locked_under_its_own_name (vgname : string)
    (st : lvmcache) (h : gmap string unit) :
  is_orphan_vg vgname = true ->
  vgname <> VG_ORPHANS ->
  _lock_hash st = Some h ->
  h !! VG_ORPHANS = None ->
  lvmcache_vgname_is_locked vgname (lvmcache_lock_vgname vgname st) = false.
Proof.
  intros Horphan Hne Hh Hnone. unfold lvmcache_lock_vgname.
  rewrite Hh. rewrite bool_decide_eq_true_2 by (eexists; reflexivity).
  cbn [negb].
  destruct (lock_vgname_initialised_table vgname st h Hh) as (Ht & _).
  unfold lvmcache_vgname_is_locked. rewrite Ht, Horphan.
  destruct (_ || _).
  - rewrite lookup_insert_ne by exact Hne. rewrite Hnone. reflexivity.
  - rewrite Hnone. reflexivity.
Qed.

(** X5.  The global lock is outside the count of locked VGs: in an
    initialised cache neither taking nor releasing [VG_GLOBAL] changes
    [lvmcache_vgs_locked], and releasing it never asks for the devices to
    be closed. *)
Theorem global_lock_not_counted (st : lvmcache) :
  is_Some (_lock_hash st) ->
  lvmcache_vgs_locked (lvmcache_lock_vgname VG_GLOBAL st)
  = lvmcache_vgs_locked st
  /\ lvmcache_vgs_locked (snd (lvmcache_unlock_vgname VG_GLOBAL st))
     = lvmcache_vgs_locked st
  /\ fst (lvmcache_unlock_vgname VG_GLOBAL st) = false.
Proof.
  intros [h Hh]. unfold lvmcache_vgs_locked.
  destruct (unlock_vgname_table VG_GLOBAL st) as (_ & Hc' & Hr).
  rewrite String.eqb_refl in Hc', Hr.
  split_and!; [|exact Hc'|exact Hr].
  unfold lvmcache_lock_vgname.
  rewrite Hh. rewrite bool_decide_eq_true_2 by (eexists; reflexivity).
  cbn [negb].
  destruct (lock_vgname_initialised_table VG_GLOBAL st h Hh) as (_ & Hc).
  rewrite String.eqb_refl in Hc. exact Hc.
Qed.

(** X6.  Releasing a VG name other than [VG_GLOBAL] asks for the devices
    to be closed exactly when the count of locked VGs reaches zero. *)
Theorem unlock_vgname_closes_devices (vgname : string) (st : lvmcache) :
  vgname <> VG_GLOBAL ->
  fst (lvmcache_unlock_vgname vgname st)
  = (lvmcache_vgs_locked (snd (lvmcache_unlock_vgname vgname st)) =? 0)
  /\ lvmcache_vgs_locked (snd (lvmcache_unlock_vgname vgname st))
     = lvmcache_vgs_locked st - 1.
Proof.
  intros Hne. apply String.eqb_neq in Hne. unfold lvmcache_vgs_locked.
  destruct (unlock_vgname_table vgname st) as (_ & Hc & Hr).
  rewrite Hne in Hc, Hr. rewrite Hr, Hc. split; reflexivity.
Qed.

(** ** Further properties: initialisation *)

Lemma set_heap_script_same (st : lvmcache) :
  set_heap_script (heap_script st) st = st.
Proof. destruct st. reflexivity. Qed.

Lemma dm_hash_create_eq {V : Type} (st : lvmcache) :
  dm_hash_create (V := V) st
  = (if hd true (heap_script st) then Some ∅ else None,
     set_heap_script (tl (heap_script st)) st).
Proof.
  unfold dm_hash_create, dm_alloc.
  destruct (heap_script st) as [|b rest] eqn:Hs; cbn [hd tl].
  - rewrite <- Hs, set_heap_script_same. reflexivity.
  - reflexivity.
Qed.

(** The four tables are created in the order name, VG id, PV id, lock;
    the first allocation that is not served ends [lvmcache_init], with the
    tables after it left as they were. *)
Lemma lvmcache_init_unfold (st : lvmcache) :
  let s := heap_script st in
  let b1 := hd true s in
  let b2 := hd true (tl s) in
  let b3 := hd true (tl (tl s)) in
  let b4 := hd true (tl (tl (tl s))) in
  fst (lvmcache_init st) = b1 && b2 && b3 && b4
  /\ log (snd (lvmcache_init st))
     = (if b1 && b2 && b3 && b4 && _vg_global_lock_held st
        then log (lock_vgname_initialised VG_GLOBAL
                    (tables_created (tl (tl (tl (tl s)))) st))
        else log st)
  /\ (b1 && b2 && b3 && b4 = false ->
      _lock_hash (snd (lvmcache_init st))
      = (if b1 && b2 && b3 then None else _lock_hash st)).
Proof.
  cbv zeta. unfold lvmcache_init.
  do 4 (rewrite dm_hash_create_eq;
        cbn [heap_script set__vgname_hash set__vgid_hash set__pvid_hash
             set__lock_hash set_heap_script set__vginfos set__vgs_locked];
        match goal with
        | |- context [if hd true ?l then Some ∅ else None] =>
          destruct (hd true l)
        end;
        cbn [negb andb];
        [rewrite bool_decide_eq_true_2 by (eexists; reflexivity)
        |rewrite bool_decide_eq_false_2 by (intros [? ?]; discriminate)];
        cbn [negb fst snd];
        [|split_and!; try reflexivity; intros _; reflexivity]).
  match goal with
  | |- context [_vg_global_lock_held ?s] =>
    assert (Hs : s = tables_created
                       (tl (tl (tl (tl (heap_script st))))) st)
      by (destruct st; reflexivity);
    assert (Hg : _vg_global_lock_held s = _vg_global_lock_held st)
      by reflexivity
  end.
  rewrite Hg, Hs.
  destruct (_vg_global_lock_held st); cbn [fst snd];
    split_and!; try reflexivity; discriminate.
Qed.

Lemma lock_table_only_tables (st st' : lvmcache) :
  lock_table_only st st' ->
  _vgname_hash st' = _vgname_hash st
  /\ _vgid_hash st' = _vgid_hash st
  /\ _pvid_hash st' = _pvid_hash st
  /\ _vginfos st' = _vginfos st.
Proof. intros H. rewrite H. split_and!; reflexivity. Qed.

(** Recording a lock leaves the three index tables and the list of VG
    records. *)
Lemma lock_vgname_initialised_tables (vgname : string) (st : lvmcache) :
  let st' := lock_vgname_initialised vgname st in
  _vgname_hash st' = _vgname_hash st
  /\ _vgid_hash st' = _vgid_hash st
  /\ _pvid_hash st' = _pvid_hash st
  /\ _vginfos st' = _vginfos st.
Proof.
  cbv zeta. unfold lock_vgname_initialised.
  set (st0 := if bool_decide _ then _ else st).
  assert (H0 : lock_table_only st st0).
  { unfold st0. destruct (bool_decide _); destruct st; reflexivity. }
  apply lock_table_only_tables in H0. clearbody st0.
  pose proof (dm_hash_insert_lock_table_only (_lock_hash st0) vgname () st0)
    as H1.
  destruct (dm_hash_insert (_lock_hash st0) vgname () st0) as [[ok h] st1].
  cbn [snd] in H1. apply lock_table_only_tables in H1.
  set (st2 := if ok then _ else _).
  assert (H2 : lock_table_only st1 st2).
  { unfold st2. destruct ok; destruct st1; reflexivity. }
  apply lock_table_only_tables in H2. clearbody st2.
  destruct (records_only_globals _ _
              (update_cache_lock_state_records_only vgname true st2))
    as (_ & _ & _ & _ & a4 & b4 & d4 & _).
  pose proof (records_only_pvid_hash _ _
                (update_cache_lock_state_records_only vgname true st2)) as c4.
  destruct H0 as (a0 & b0 & c0 & d0), H1 as (a1 & b1 & c1 & d1),
    H2 as (a2 & b2 & c2 & d2).
  destruct (negb (String.eqb vgname VG_GLOBAL)); cbn; split_and!; congruence.
Qed.

(** X7.  [lvmcache_init] returns success exactly when the allocations of
    its four tables are served. *)
Theorem init_succeeds_iff_tables_allocated (st : lvmcache) :
  fst (lvmcache_init st) = forallb (fun ok => ok) (firstn 4 (heap_script st)).
Proof.
  destruct (lvmcache_init_unfold st) as (-> & _).
  destruct (heap_script st) as [|[] [|[] [|[] [|[] rest]]]]; reflexivity.
Qed.

(** X8.  When the lock table does not exist and [lvmcache_init] fails,
    [lvmcache_lock_vgname] logs "Internal cache initialisation failed" and
    records no lock: no name is reported as locked afterwards. *)
Theorem lock_vgname_initialisation_failure (vgname : string) (st : lvmcache) :
  _lock_hash st = None ->
  fst (lvmcache_init st) = false ->
  let st' := lvmcache_lock_vgname vgname st in
  log st'
  = log st ++ [{| msg_level := LOG_ERROR;
                  msg_text := "Internal cache initialisation failed";
                  msg_args := [] |}]
  /\ forall held, lvmcache_vgname_is_locked held st' = false.
Proof.
  intros Hnone Hfail. cbv zeta. unfold lvmcache_lock_vgname.
  rewrite Hnone. rewrite bool_decide_eq_false_2 by (intros [? ?]; discriminate).
  destruct (lvmcache_init_unfold st) as (Hfst & Hlog & Hlock).
  rewrite Hfail in Hfst. symmetry in Hfst. specialize (Hlock Hfst).
  rewrite Hfst in Hlog. cbn [andb] in Hlog.
  destruct (lvmcache_init st) as [ready st1]. cbn [fst snd] in *. subst ready.
  cbn [negb]. unfold log_error, print_log. split.
  - cbn. rewrite Hlog. reflexivity.
  - intros held. unfold lvmcache_vgname_is_locked. cbn.
    rewrite Hlock, Hnone.
    match goal with
    | |- context [if ?c then None else None] => destruct c
    end; reflexivity.
Qed.

(** X9.  A successful [lvmcache_init] forgets every record: afterwards no
    PV identifier, VG name or VG identifier is found, the list of VG
    records is empty and no VG counts as locked. *)
Theorem init_forgets_records (st : lvmcache) :
  fst (lvmcache_init st) = true ->
  let st' := snd (lvmcache_init st) in
  (forall pvid valid_only, lvmcache_info_from_pvid pvid valid_only st' = None)
  /\ (forall vgname vgid, lvmcache_vginfo_from_vgname vgname vgid st' = None)
  /\ _vginfos st' = []
  /\ lvmcache_vgs_locked st' = 0.
Proof.
  intros Hok. cbv zeta.
  destruct (lvmcache_init_success st Hok) as [script ->].
  set (st0 := tables_created script st).
  assert (Hfields : forall s,
            _vgname_hash s = Some ∅ -> _vgid_hash s = Some ∅ ->
            _pvid_hash s = Some ∅ -> _vginfos s = [] -> _vgs_locked s = 0 ->
            (forall pvid valid_only,
               lvmcache_info_from_pvid pvid valid_only s = None)
            /\ (forall vgname vgid,
                  lvmcache_vginfo_from_vgname vgname vgid s = None)
            /\ _vginfos s = []
            /\ lvmcache_vgs_locked s = 0).
  { intros s Hn Hi Hp Hv Hc. split_and!; [| |exact Hv|exact Hc].
    - intros [pvid|] valid_only; unfold lvmcache_info_from_pvid; rewrite Hp;
        [rewrite lookup_empty|]; reflexivity.
    - intros [vgname|] [vgid|];
        unfold lvmcache_vginfo_from_vgname, lvmcache_vginfo_from_vgid,
          dm_hash_lookup;
        rewrite ?Hn, ?Hi, ?lookup_empty; reflexivity. }
  destruct (_vg_global_lock_held st); [|apply Hfields; reflexivity].
  destruct (lock_vgname_initialised_tables VG_GLOBAL st0) as (Hn & Hi & Hp & Hv).
  destruct (lock_vgname_initialised_table VG_GLOBAL st0 ∅ eq_refl) as (_ & Hc).
  rewrite String.eqb_refl in Hc.
  apply Hfields; cbn; [rewrite Hn|rewrite Hi|rewrite Hp|rewrite Hv|rewrite Hc];
    reflexivity.
Qed.

(** ** Further properties: lookups and validity *)

Lemma id_of_append (s t : string) :
  (ID_LEN <= String.length s)%nat -> id_of (String.append s t) = id_of s.
Proof.
  unfold id_of. generalize ID_LEN. intros n. revert n.
  induction s as [|c s IH]; intros [|n] Hn; simpl in *;
    try reflexivity; try lia.
  - destruct t; reflexivity.
  - f_equal. apply IH. lia.
Qed.

(** X10.  With [valid_only] set, [lvmcache_info_from_pvid] answers with a
    record only if the lookup without [valid_only] answers with the same
    record and [_info_is_valid] holds of it. *)
Theorem info_from_pvid_valid_only (pvid : option string) (st : lvmcache)
    (info : ptr) :
  lvmcache_info_from_pvid pvid true st = Some info ->
  lvmcache_info_from_pvid pvid false st = Some info
  /\ exists r, info_store st !! info = Some r /\ _info_is_valid r st = true.
Proof.
  unfold lvmcache_info_from_pvid.
  destruct (_pvid_hash st) as [h|]; [|discriminate].
  destruct pvid as [pvid|]; [|discriminate].
  destruct (h !! id_of pvid) as [p|]; [|discriminate].
  cbn [andb].
  destruct (info_store st !! p) as [r|] eqn:Hr; cbn [negb]; [|discriminate].
  destruct (_info_is_valid r st) eqn:Hvalid; cbn [negb]; [|discriminate].
  intros [= <-]. split; [reflexivity|].
  exists r. split; [exact Hr | exact Hvalid].
Qed.

(** X11.  The lookups by identifier read [ID_LEN] characters of the
    identifier they are given: characters after them do not change the
    answer of [lvmcache_info_from_pvid], of [lvmcache_vginfo_from_vgid] or
    of [lvmcache_vginfo_from_vgname] with a VG identifier. *)
Theorem lookups_read_id_len (id suffix : string) (st : lvmcache) :
  (ID_LEN <= String.length id)%nat ->
  (forall valid_only,
     lvmcache_info_from_pvid (Some (String.append id suffix)) valid_only st
     = lvmcache_info_from_pvid (Some id) valid_only st)
  /\ lvmcache_vginfo_from_vgid (Some (String.append id suffix)) st
     = lvmcache_vginfo_from_vgid (Some id) st
  /\ (forall vgname,
        lvmcache_vginfo_from_vgname vgname (Some (String.append id suffix)) st
        = lvmcache_vginfo_from_vgname vgname (Some id) st).
Proof.
  intros Hlen. pose proof (id_of_append id suffix Hlen) as Hid.
  assert (Hvgid : lvmcache_vginfo_from_vgid (Some (String.append id suffix)) st
                  = lvmcache_vginfo_from_vgid (Some id) st).
  { unfold lvmcache_vginfo_from_vgid. rewrite Hid. reflexivity. }
  split_and!.
  - intros valid_only. unfold lvmcache_info_from_pvid. rewrite Hid.
    reflexivity.
  - exact Hvgid.
  - intros [vgname|]; unfold lvmcache_vginfo_from_vgname; [|exact Hvgid].
    destruct (dm_hash_lookup (_vgname_hash st) vgname) as [[|p chain]|];
      try reflexivity.
    assert (Hm : forall q, vgid_matches (String.append id suffix) st q
                           = vgid_matches id st q).
    { intros q. unfold vgid_matches. rewrite Hid. reflexivity. }
    generalize (p :: chain). intros l.
    induction l as [|q l IH]; cbn [find]; [reflexivity|].
    rewrite Hm, IH. reflexivity.
Qed.

(** X12.  [_vginfo_is_valid] and [_vginfo_is_invalid] both hold of a VG
    record exactly when it has no PV record on its member list. *)
Theorem vginfo_valid_and_invalid (vginfo : lvmcache_vginfo) (st : lvmcache) :
  _vginfo_is_valid vginfo st && _vginfo_is_invalid vginfo st = true
  <-> member_infos vginfo st = [].
Proof.
  unfold _vginfo_is_valid, _vginfo_is_invalid.
  destruct (member_infos vginfo st) as [|info rest]; cbn [forallb].
  - split; reflexivity.
  - split; [|discriminate].
    destruct (_info_is_valid info st); cbn [negb andb].
    + rewrite andb_false_r. discriminate.
    + discriminate.
Qed.

Lemma flag_set_invalid_clear_invalid (s : Z) :
  flag_set (Z.land s (Z.lnot CACHE_INVALID)) CACHE_INVALID = false.
Proof.
  rewrite flag_set_testbit_invalid, Z.land_spec.
  unfold CACHE_INVALID. simpl. apply andb_false_r.
Qed.

Lemma flag_set_locked_clear_invalid (s : Z) :
  flag_set (Z.land s (Z.lnot CACHE_INVALID)) CACHE_LOCKED
  = flag_set s CACHE_LOCKED.
Proof.
  rewrite !flag_set_testbit_locked, Z.land_spec.
  unfold CACHE_INVALID. simpl. apply andb_true_r.
Qed.

(** X13.  [lvmcache_make_valid] clears CACHE_INVALID of the record, keeps
    its CACHE_LOCKED and leaves every other PV record; a record whose
    CACHE_LOCKED is set is valid afterwards, whatever the state of the
    locks. *)
Theorem make_valid_effect (info : ptr) (r : lvmcache_info) (st : lvmcache) :
  info_store st !! info = Some r ->
  let st' := lvmcache_make_valid info st in
  invalid_bit st' info = false
  /\ locked_bit st' info = locked_bit st info
  /\ (forall other, other <> info ->
        info_store st' !! other = info_store st !! other)
  /\ (locked_bit st info = true ->
      exists r', info_store st' !! info = Some r'
        /\ _info_is_valid r' st' = true).
Proof.
  intros Hr. cbv zeta. unfold lvmcache_make_valid.
  set (f := fun r0 => set_info_status _ r0).
  assert (Hat : info_store (upd_info info f st) !! info = Some (f r)).
  { unfold upd_info. cbn. rewrite lookup_alter_eq, Hr. reflexivity. }
  unfold invalid_bit, locked_bit. rewrite Hat, Hr.
  split_and!.
  - apply flag_set_invalid_clear_invalid.
  - apply flag_set_locked_clear_invalid.
  - intros other Hne. unfold upd_info. cbn.
    apply lookup_alter_ne. congruence.
  - intros Hlocked. exists (f r). split; [reflexivity|].
    unfold _info_is_valid, f.
    cbn [info_status info_vginfo set_info_status].
    rewrite flag_set_invalid_clear_invalid, flag_set_locked_clear_invalid,
      Hlocked.
    destruct (match info_vginfo r with Some _ => _ | None => _ end);
      reflexivity.
Qed.

(** ** Further properties: the indexes *)

Lemma set_vginfo_infos_same (r : lvmcache_vginfo) :
  set_vginfo_infos (vginfo_infos r) r = r.
Proof. destruct r. reflexivity. Qed.

Lemma filter_other_id (info : ptr) (l : list ptr) :
  info ∉ l -> List.filter (fun q => negb (Nat.eqb q info)) l = l.
Proof.
  induction l as [|q l IH]; intros Hnot; cbn [List.filter]; [reflexivity|].
  destruct (Nat.eqb q info) eqn:Heq; cbn [negb].
  - apply Nat.eqb_eq in Heq. subst q. exfalso. apply Hnot. left.
  - f_equal. apply IH. intros Hin. apply Hnot. right. exact Hin.
Qed.

Lemma filter_other_app (info : ptr) (l : list ptr) :
  info ∉ l -> List.filter (fun q => negb (Nat.eqb q info)) (l ++ [info]) = l.
Proof.
  intros Hnot. rewrite List.filter_app, filter_other_id by exact Hnot.
  cbn [List.filter]. rewrite Nat.eqb_refl. cbn [negb]. apply app_nil_r.
Qed.

Lemma filter_other_not_in (info : ptr) (l : list ptr) :
  info ∉ List.filter (fun q => negb (Nat.eqb q info)) l.
Proof.
  intros Hin. apply list_elem_of_In, List.filter_In in Hin.
  destruct Hin as [_ Hne]. rewrite Nat.eqb_refl in Hne. discriminate.
Qed.

(** X14.  [_vginfo_attach_info] puts the PV record at the end of the member
    list of the VG record and points it at that record; a following
    [_vginfo_detach_info] gives back every VG record and leaves the PV
    record with no VG, when the PV record was on no member list before. *)
Theorem attach_detach_round_trip (vginfo info : ptr) (r : lvmcache_info)
    (vr : lvmcache_vginfo) (st : lvmcache) :
  info_store st !! info = Some r ->
  vginfo_store st !! vginfo = Some vr ->
  (forall q rq, vginfo_store st !! q = Some rq -> info ∉ vginfo_infos rq) ->
  let st1 := _vginfo_attach_info (Some vginfo) info st in
  let st2 := _vginfo_detach_info info st1 in
  (info_store st1 !! info = Some (set_info_vginfo (Some vginfo) r)
   /\ vginfo_store st1 !! vginfo
      = Some (set_vginfo_infos (vginfo_infos vr ++ [info]) vr))
  /\ (info_store st2 !! info = Some (set_info_vginfo None r)
      /\ vginfo_store st2 = vginfo_store st).
Proof.
  intros Hr Hvr Hfree. cbv zeta.
  unfold _vginfo_attach_info, _vginfo_detach_info, upd_info, upd_vginfo.
  cbn [info_store vginfo_store set_info_store set_vginfo_store].
  split_and!.
  - rewrite lookup_alter_eq, Hr. reflexivity.
  - rewrite lookup_alter_eq, Hvr. reflexivity.
  - rewrite !lookup_alter_eq, Hr. reflexivity.
  - apply map_eq. intros q. rewrite lookup_fmap.
    destruct (decide (q = vginfo)) as [->|Hne].
    + rewrite lookup_alter_eq, Hvr. cbn. f_equal.
      rewrite filter_other_app by (eapply Hfree; exact Hvr).
      destruct vr. reflexivity.
    + rewrite lookup_alter_ne by congruence.
      destruct (vginfo_store st !! q) as [rq|] eqn:Hq; [|reflexivity].
      cbn. f_equal.
      rewrite filter_other_id by (eapply Hfree; exact Hq).
      apply set_vginfo_infos_same.
Qed.

Lemma substring_whole (n : nat) (s : string) :
  (String.length s <= n)%nat -> String.substring 0 n s = s.
Proof.
  revert n. induction s as [|c s IH]; intros [|n] Hn; simpl in *;
    try reflexivity; try lia.
  f_equal. apply IH. lia.
Qed.

Lemma id_of_short (s : string) :
  (String.length s <= ID_LEN)%nat -> id_of s = s.
Proof. apply substring_whole. Qed.

(** The working of [_lvmcache_update_pvid] on a record of the store when
    the PV table exists: the outcome of the test for "already stored with
    the same pvid", and the table and the [pvid] field afterwards. *)
Lemma update_pvid_effect (info : ptr) (r : lvmcache_info) (pvid : string)
    (st : lvmcache) (h : gmap string ptr) :
  info_store st !! info = Some r ->
  _pvid_hash st = Some h ->
  let old := pvid_of_dev (info_dev r) st in
  let res := _lvmcache_update_pvid info pvid st in
  info_store (snd res) = info_store st
  /\ (h !! pvid = Some info /\ old = pvid -> res = (true, st))
  /\ (~ (h !! pvid = Some info /\ old = pvid) ->
      exists h',
        _pvid_hash (snd res) = Some h'
        /\ (fst res = true -> h' !! pvid = Some info)
        /\ (old <> EmptyString -> old <> pvid -> h' !! old = None)
        /\ pvid_of_dev (info_dev r) (snd res)
           = String.substring 0 (S ID_LEN) pvid).
Proof.
  intros Hr Hh. cbv zeta. unfold _lvmcache_update_pvid. rewrite Hr, Hh.
  cbn [dm_hash_lookup].
  destruct (bool_decide (h !! pvid = Some info)
            && String.eqb (pvid_of_dev (info_dev r) st) pvid) eqn:Hsame.
  - split_and!; [reflexivity|reflexivity|].
    intros Hnot. exfalso. apply Hnot.
    apply andb_true_iff in Hsame as [H1 H2].
    apply bool_decide_eq_true in H1. apply String.eqb_eq in H2. auto.
  - assert (Hdiff : ~ (h !! pvid = Some info
                       /\ pvid_of_dev (info_dev r) st = pvid)).
    { intros [H1 H2]. rewrite bool_decide_eq_true_2 in Hsame by exact H1.
      apply String.eqb_eq in H2. rewrite H2 in Hsame. discriminate. }
    set (old := pvid_of_dev (info_dev r) st) in *.
    set (h0 := if negb (String.eqb old EmptyString) then delete old h else h).
    set (st0 := if negb (String.eqb old EmptyString) then _ else st).
    assert (H0 : _pvid_hash st0 = Some h0 /\ info_store st0 = info_store st
                 /\ dev_pvid st0 = dev_pvid st).
    { unfold st0, h0. destruct (negb _); split_and!; try reflexivity.
      exact Hh. }
    destruct H0 as (Hh0 & Hi0 & Hd0). clearbody st0.
    set (st1 := set_dev_pvid _ st0).
    assert (H1 : _pvid_hash st1 = Some h0 /\ info_store st1 = info_store st
                 /\ pvid_of_dev (info_dev r) st1
                    = String.substring 0 (S ID_LEN) pvid).
    { unfold st1, pvid_of_dev. cbn. rewrite lookup_insert_eq.
      split_and!; [exact Hh0 | exact Hi0 | reflexivity]. }
    destruct H1 as (Hh1 & Hi1 & Hd1). clearbody st1.
    assert (Hold : old <> EmptyString -> old <> pvid ->
                   (<[pvid := info]> h0) !! old = None /\ h0 !! old = None).
    { intros He Hne. unfold h0.
      apply String.eqb_neq in He. rewrite He. cbn [negb].
      rewrite lookup_insert_ne by congruence.
      rewrite lookup_delete_eq. split; reflexivity. }
    unfold dm_hash_insert, dm_alloc. rewrite Hh1.
    split_and!; [| intros Hyes; exfalso; exact (Hdiff Hyes) |intros _].
    + destruct (h0 !! pvid); [exact Hi1|].
      destruct (heap_script st1) as [|[] rest]; exact Hi1.
    + destruct (h0 !! pvid) eqn:Hl;
        [|destruct (heap_script st1) as [|[] rest]];
        cbn [fst snd]; eexists; (split; [reflexivity|]); split_and!;
        try (intros _; apply lookup_insert_eq);
        try (intros He Hne; apply (Hold He Hne));
        try exact Hd1; try discriminate.
Qed.

Lemma update_pvid_success (info : ptr) (r : lvmcache_info) (pvid : string)
    (st : lvmcache) (h : gmap string ptr) :
  info_store st !! info = Some r ->
  _pvid_hash st = Some h ->
  (String.length pvid <= ID_LEN)%nat ->
  fst (_lvmcache_update_pvid info pvid st) = true ->
  let st' := snd (_lvmcache_update_pvid info pvid st) in
  info_store st' = info_store st
  /\ exists h',
       _pvid_hash st' = Some h'
       /\ h' !! pvid = Some info
       /\ pvid_of_dev (info_dev r) st' = pvid
       /\ (pvid_of_dev (info_dev r) st <> EmptyString ->
           pvid_of_dev (info_dev r) st <> pvid ->
           h' !! pvid_of_dev (info_dev r) st = None).
Proof.
  intros Hr Hh Hlen Hok. cbv zeta.
  destruct (update_pvid_effect info r pvid st h Hr Hh)
    as (Hstore & Hsame & Hdiff).
  split; [exact Hstore|].
  destruct (decide (h !! pvid = Some info
                    /\ pvid_of_dev (info_dev r) st = pvid)) as [Hyes|Hno].
  - rewrite (Hsame Hyes). cbn [snd]. exists h. destruct Hyes as [H1 H2].
    split_and!; [exact Hh | exact H1 | exact H2 |].
    intros _ Hne. contradiction.
  - destruct (Hdiff Hno) as (h' & Hh' & Hnew & Hold & Hdev).
    exists h'. split_and!; [exact Hh' | exact (Hnew Hok) | | exact Hold].
    rewrite Hdev. apply substring_whole. lia.
Qed.

(** X15.  After a successful [_lvmcache_update_pvid] with an identifier of
    at most [ID_LEN] characters, [lvmcache_info_from_pvid] finds the
    record under the new identifier, the device carries the new
    identifier, and the identifier the device carried before, if it had
    one and it is another one, is no longer in the PV table. *)
Theorem update_pvid_indexes (info : ptr) (r : lvmcache_info) (pvid : string)
    (st : lvmcache) :
  info_store st !! info = Some r ->
  is_Some (_pvid_hash st) ->
  (String.length pvid <= ID_LEN)%nat ->
  fst (_lvmcache_update_pvid info pvid st) = true ->
  let st' := snd (_lvmcache_update_pvid info pvid st) in
  lvmcache_info_from_pvid (Some pvid) false st' = Some info
  /\ pvid_of_dev (info_dev r) st' = pvid
  /\ (pvid_of_dev (info_dev r) st <> EmptyString ->
      pvid_of_dev (info_dev r) st <> pvid ->
      dm_hash_lookup (_pvid_hash st') (pvid_of_dev (info_dev r) st) = None).
Proof.
  intros Hr [h Hh] Hlen Hok. cbv zeta.
  destruct (update_pvid_success info r pvid st h Hr Hh Hlen Hok)
    as (_ & h' & Hh' & Hnew & Hdev & Hold).
  split_and!.
  - unfold lvmcache_info_from_pvid. rewrite Hh', (id_of_short _ Hlen), Hnew.
    reflexivity.
  - exact Hdev.
  - intros He Hne. rewrite Hh'. exact (Hold He Hne).
Qed.

(** X16.  [_lvmcache_update_pvid] is idempotent for an identifier of at
    most [ID_LEN] characters: after a successful call, a second call with
    the same record and identifier finds it "already stored with same
    pvid" and changes nothing. *)
Theorem update_pvid_idempotent (info : ptr) (r : lvmcache_info) (pvid : string)
    (st : lvmcache) :
  info_store st !! info = Some r ->
  is_Some (_pvid_hash st) ->
  (String.length pvid <= ID_LEN)%nat ->
  fst (_lvmcache_update_pvid info pvid st) = true ->
  let st' := snd (_lvmcache_update_pvid info pvid st) in
  _lvmcache_update_pvid info pvid st' = (true, st').
Proof.
  intros Hr [h Hh] Hlen Hok. cbv zeta.
  destruct (update_pvid_success info r pvid st h Hr Hh Hlen Hok)
    as (Hstore & h' & Hh' & Hnew & Hdev & _).
  assert (Hr' : info_store (snd (_lvmcache_update_pvid info pvid st)) !! info
                = Some r) by (rewrite Hstore; exact Hr).
  destruct (update_pvid_effect info r pvid _ h' Hr' Hh') as (_ & Hsame & _).
  apply Hsame. split; [exact Hnew | exact Hdev].
Qed.

(** X17.  After a successful [_lvmcache_update_vgid] that changes the
    identifier of a VG record, [lvmcache_vginfo_from_vgid] finds the record
    under the new identifier, the record carries its first [ID_LEN]
    characters, the identifier it carried before is no longer found, and a
    second call with the same identifier changes nothing. *)
Theorem update_vgid_indexes (info : option ptr) (vginfo : ptr)
    (r : lvmcache_vginfo) (vgid : string) (st : lvmcache) :
  vginfo_store st !! vginfo = Some r ->
  is_Some (_vgid_hash st) ->
  id_of (vginfo_vgid r) <> id_of vgid ->
  fst (_lvmcache_update_vgid info (Some vginfo) vgid st) = true ->
  let st' := snd (_lvmcache_update_vgid info (Some vginfo) vgid st) in
  lvmcache_vginfo_from_vgid (Some vgid) st' = Some vginfo
  /\ vginfo_store st' !! vginfo = Some (set_vginfo_vgid (id_of vgid) r)
  /\ (vginfo_vgid r <> EmptyString ->
      (String.length (vginfo_vgid r) <= ID_LEN)%nat ->
      lvmcache_vginfo_from_vgid (Some (vginfo_vgid r)) st' = None)
  /\ _lvmcache_update_vgid info (Some vginfo) vgid st' = (true, st').
Proof.
  intros Hr [h Hh] Hne. cbv zeta.
  remember (_lvmcache_update_vgid info (Some vginfo) vgid st) as res eqn:Hres.
  revert Hres. unfold _lvmcache_update_vgid.
  rewrite Hr. apply String.eqb_neq in Hne as Hneb. rewrite Hneb.
  set (h0 := if negb (String.eqb (vginfo_vgid r) EmptyString)
             then delete (vginfo_vgid r) h else h).
  set (st0 := if negb (String.eqb (vginfo_vgid r) EmptyString) then _ else st).
  assert (H0 : _vgid_hash st0 = Some h0
               /\ vginfo_store st0 = vginfo_store st).
  { unfold st0, h0. destruct (negb _); split; try reflexivity;
      [cbn; rewrite Hh; reflexivity | exact Hh]. }
  destruct H0 as (Hh0 & Hs0). clearbody st0.
  set (st1 := upd_vginfo vginfo _ st0).
  assert (H1 : _vgid_hash st1 = Some h0
               /\ vginfo_store st1 !! vginfo
                  = Some (set_vginfo_vgid (id_of vgid) r)).
  { unfold st1, upd_vginfo. cbn. split; [exact Hh0|].
    rewrite lookup_alter_eq, Hs0, Hr. reflexivity. }
  destruct H1 as (Hh1 & Hs1). clearbody st1.
  assert (Hold : vginfo_vgid r <> EmptyString ->
                 (String.length (vginfo_vgid r) <= ID_LEN)%nat ->
                 (<[id_of vgid := vginfo]> h0) !! id_of (vginfo_vgid r) = None).
  { intros He Hlen. rewrite lookup_insert_ne by congruence.
    rewrite (id_of_short _ Hlen). unfold h0.
    apply String.eqb_neq in He. rewrite He. cbn [negb].
    apply lookup_delete_eq. }
  assert (Hagain : forall s,
            vginfo_store s !! vginfo = Some (set_vginfo_vgid (id_of vgid) r) ->
            _lvmcache_update_vgid info (Some vginfo) vgid s = (true, s)).
  { intros s Hs. unfold _lvmcache_update_vgid. rewrite Hs.
    cbn [vginfo_vgid set_vginfo_vgid]. rewrite id_of_idemp, String.eqb_refl.
    reflexivity. }
  unfold dm_hash_insert, dm_alloc. rewrite Hh1.
  destruct (h0 !! id_of vgid) eqn:Hl;
    [|destruct (heap_script st1) as [|[] rest]];
    intros ->; cbn [fst snd]; try discriminate; intros _;
    (split_and!;
     [ unfold lvmcache_vginfo_from_vgid; cbn; apply lookup_insert_eq
     | exact Hs1
     | intros He Hlen; unfold lvmcache_vginfo_from_vgid; cbn;
       exact (Hold He Hlen)
     | apply Hagain; exact Hs1 ]).
Qed.

(** ** Further properties: dropping records *)

Lemma stores_only_globals (st st' : lvmcache) :
  stores_only st st' ->
  info_store st' = info_store st
  /\ _vgname_hash st' = _vgname_hash st
  /\ _vgid_hash st' = _vgid_hash st
  /\ _pvid_hash st' = _pvid_hash st
  /\ _vginfos st' = _vginfos st
  /\ heap_script st' = heap_script st
  /\ dev_pvid st' = dev_pvid st.
Proof. intros H. rewrite H. split_and!; reflexivity. Qed.

(** The working of [_free_vginfo] on a record of the store: the record
    leaves the store and the list of VG records, the PV records stay, and
    the chain of its name is relinked. *)
Lemma free_vginfo_effect (vginfo : ptr) (r : lvmcache_vginfo) (st : lvmcache) :
  vginfo_store st !! vginfo = Some r ->
  let name := vginfo_vgname r in
  let res := _free_vginfo vginfo st in
  info_store (snd res) = info_store st
  /\ _pvid_hash (snd res) = _pvid_hash st
  /\ vginfo_store (snd res)
     = delete vginfo (vginfo_store (_free_cached_vgmetadata (Some vginfo) st))
  /\ _vginfos (snd res)
     = List.filter (fun q => negb (Nat.eqb q vginfo)) (_vginfos st)
  /\ (forall next chain,
        dm_hash_lookup (_vgname_hash st) name = Some (vginfo :: next :: chain) ->
        hd true (heap_script st) = true ->
        fst res = true
        /\ dm_hash_lookup (_vgname_hash (snd res)) name = Some (next :: chain))
  /\ (dm_hash_lookup (_vgname_hash st) name = Some [vginfo] ->
      fst res = true
      /\ dm_hash_lookup (_vgname_hash (snd res)) name = None)
  /\ (forall primary chain,
        dm_hash_lookup (_vgname_hash st) name = Some (primary :: chain) ->
        primary <> vginfo ->
        fst res = true
        /\ dm_hash_lookup (_vgname_hash (snd res)) name
           = Some (primary :: chain_unlink vginfo chain)).
Proof.
  intros Hr. cbv zeta. unfold _free_vginfo.
  destruct (free_cached_vgmetadata_effect (Some vginfo) st) as [Hso _].
  destruct (free_cached_vgmetadata_at vginfo st r Hr) as (r1 & Hr1 & Hb & _).
  apply stores_only_globals in Hso.
  destruct Hso as (Hi1 & Hn1 & Hg1 & Hp1 & Hl1 & Hs1 & _).
  set (st1 := _free_cached_vgmetadata (Some vginfo) st) in *.
  rewrite Hr1. rewrite (blob_only_vgname _ _ Hb).
  clearbody st1. rewrite <- Hi1, <- Hp1, <- Hl1, <- Hn1, <- Hs1.
  clear Hi1 Hp1 Hl1 Hn1 Hs1 Hg1 Hr.
  set (name := vginfo_vgname r).
  match goal with
  | |- context [let '(ok, st) := ?step in _] =>
    assert (Hstep : exists ok st2,
              step = (ok, st2)
              /\ info_store st2 = info_store st1
              /\ _pvid_hash st2 = _pvid_hash st1
              /\ vginfo_store st2 = vginfo_store st1
              /\ _vginfos st2 = _vginfos st1
              /\ (forall next chain,
                    dm_hash_lookup (_vgname_hash st1) name
                    = Some (vginfo :: next :: chain) ->
                    hd true (heap_script st1) = true ->
                    ok = true
                    /\ dm_hash_lookup (_vgname_hash st2) name
                       = Some (next :: chain))
              /\ (dm_hash_lookup (_vgname_hash st1) name = Some [vginfo] ->
                  ok = true
                  /\ dm_hash_lookup (_vgname_hash st2) name = None)
              /\ (forall primary chain,
                    dm_hash_lookup (_vgname_hash st1) name
                    = Some (primary :: chain) ->
                    primary <> vginfo ->
                    ok = true
                    /\ dm_hash_lookup (_vgname_hash st2) name
                       = Some (primary :: chain_unlink vginfo chain)))
  end.
  { destruct (_vgname_hash st1) as [h|] eqn:Hh; cbn [dm_hash_lookup].
    2:{ exists true, st1. split_and!; try reflexivity; discriminate. }
    destruct (h !! name) as [[|primary chain]|] eqn:Hchain.
    1,3: exists true, st1; split_and!; try reflexivity; try discriminate;
         intros; discriminate.
    destruct (Nat.eqb vginfo primary) eqn:Heq.
    - apply Nat.eqb_eq in Heq. subst primary.
      destruct chain as [|next chain].
      + eexists _, _. split; [reflexivity|].
        split_and!; try reflexivity; try discriminate.
        * intros _. split; [reflexivity|]. cbn. rewrite ?Hh. cbn.
          apply lookup_delete_eq.
        * intros primary chain [= <- <-] Hne. contradiction.
      + unfold dm_hash_insert, dm_alloc. cbn. rewrite ?Hh. cbn.
        rewrite lookup_delete_eq.
        destruct (heap_script st1) as [|[] rest];
          (eexists _, _; split; [reflexivity|]);
          (split_and!; try reflexivity; try discriminate;
           try (intros next' chain' [= <- <-] Hserved;
                try discriminate Hserved;
                split; [reflexivity|]; cbn; apply lookup_insert_eq);
           try (intros primary chain' [= <- <-] Hne; contradiction)).
    - apply Nat.eqb_neq in Heq.
      eexists _, _. split; [reflexivity|].
      split_and!; try reflexivity.
      + intros next chain' [= Hp _]. congruence.
      + intros [= Hp _]. congruence.
      + intros primary' chain' [= <- <-] _. split; [reflexivity|].
        cbn. rewrite ?Hh. cbn. apply lookup_insert_eq. }
  destruct Hstep as (ok & st2 & -> & Hi2 & Hp2 & Hv2 & Hl2 & Hnext & Hlast & Hother).
  cbn [fst snd].
  set (st3 := if _ && _ && _ then _ else st2).
  assert (H3 : info_store st3 = info_store st2
               /\ _pvid_hash st3 = _pvid_hash st2
               /\ vginfo_store st3 = vginfo_store st2
               /\ _vginfos st3 = _vginfos st2
               /\ _vgname_hash st3 = _vgname_hash st2).
  { unfold st3. destruct (_ && _ && _); split_and!; reflexivity. }
  destruct H3 as (Hi3 & Hp3 & Hv3 & Hl3 & Hn3). clearbody st3.
  cbn. rewrite Hi3, Hp3, Hv3, Hl3, Hn3, Hi2, Hp2, Hv2, Hl2.
  split_and!; try reflexivity; assumption.
Qed.

Lemma free_vginfo_gone (vginfo : ptr) (st : lvmcache) :
  vginfo_store (snd (_free_vginfo vginfo st)) !! vginfo = None.
Proof.
  destruct (vginfo_store st !! vginfo) as [r|] eqn:Hr.
  - destruct (free_vginfo_effect vginfo r st Hr) as (_ & _ & -> & _).
    apply lookup_delete_eq.
  - unfold _free_vginfo, _free_cached_vgmetadata.
    rewrite Hr. cbv beta iota. rewrite Hr. exact Hr.
Qed.

(** [_free_vginfo] leaves the member list of every record it keeps. *)
Lemma free_vginfo_members (vginfo : ptr) (st : lvmcache) (q : ptr)
    (rq : lvmcache_vginfo) :
  vginfo_store (snd (_free_vginfo vginfo st)) !! q = Some rq ->
  exists rq0, vginfo_store st !! q = Some rq0
    /\ vginfo_infos rq = vginfo_infos rq0.
Proof.
  destruct (vginfo_store st !! vginfo) as [r|] eqn:Hr.
  - destruct (free_vginfo_effect vginfo r st Hr) as (_ & _ & -> & _).
    destruct (free_cached_vgmetadata_effect (Some vginfo) st) as [_ Hrel].
    intros Hq. apply lookup_delete_Some in Hq as [_ Hq].
    specialize (Hrel q). rewrite Hq in Hrel. inversion Hrel as [r0 r1 Hb|].
    subst. exists r0. split; [reflexivity|]. apply (blob_only_infos _ _ Hb).
  - unfold _free_vginfo, _free_cached_vgmetadata.
    rewrite Hr. cbv beta iota. rewrite Hr. cbn [snd].
    intros Hq. exists rq. split; [exact Hq | reflexivity].
Qed.

Lemma filter_other_nil (info : ptr) (l : list ptr) :
  List.filter (fun q => negb (Nat.eqb q info)) l = []
  <-> forall q, q ∈ l -> q = info.
Proof.
  induction l as [|p l IH]; cbn [List.filter].
  - split; [intros _ q Hq; inversion Hq | reflexivity].
  - destruct (Nat.eqb p info) eqn:Heq; cbn [negb].
    + apply Nat.eqb_eq in Heq. subst p. rewrite IH. split.
      * intros H q Hq. apply elem_of_cons in Hq as [->|Hq]; auto.
      * intros H q Hq. apply H. right. exact Hq.
    + apply Nat.eqb_neq in Heq. split; [discriminate|].
      intros H. exfalso. apply Heq, H. left.
Qed.

(** X18.  [_free_vginfo] of the record that is primary for its name, with
    another record of the same name behind it and the allocation of the
    table node served, makes that next record the one found by name; the
    freed record leaves the store and the list of VG records. *)
Theorem free_vginfo_promotes_next (vginfo next : ptr) (chain : list ptr)
    (r : lvmcache_vginfo) (st : lvmcache) :
  vginfo_store st !! vginfo = Some r ->
  dm_hash_lookup (_vgname_hash st) (vginfo_vgname r)
  = Some (vginfo :: next :: chain) ->
  hd true (heap_script st) = true ->
  let res := _free_vginfo vginfo st in
  fst res = true
  /\ lvmcache_vginfo_from_vgname (Some (vginfo_vgname r)) None (snd res)
     = Some next
  /\ vginfo_store (snd res) !! vginfo = None
  /\ vginfo ∉ _vginfos (snd res).
Proof.
  intros Hr Hchain Hserved. cbv zeta.
  destruct (free_vginfo_effect vginfo r st Hr)
    as (_ & _ & _ & Hlist & Hnext & _).
  destruct (Hnext next chain Hchain Hserved) as [Hok Hlookup].
  split_and!.
  - exact Hok.
  - unfold lvmcache_vginfo_from_vgname. rewrite Hlookup. reflexivity.
  - apply free_vginfo_gone.
  - rewrite Hlist. apply filter_other_not_in.
Qed.

(** X19.  [_drop_vginfo] keeps a VG record exactly when its name is an
    orphan name or a PV record other than the detached one is on its
    member list; otherwise the record is freed. *)
Theorem drop_vginfo_keeps_iff (info : option ptr) (vginfo : ptr)
    (r : lvmcache_vginfo) (st : lvmcache) :
  vginfo_store st !! vginfo = Some r ->
  is_Some (vginfo_store (snd (_drop_vginfo info (Some vginfo) st)) !! vginfo)
  <-> (is_orphan_vg (vginfo_vgname r) = true
       \/ exists q, q ∈ vginfo_infos r /\ info <> Some q).
Proof.
  intros Hr. unfold _drop_vginfo.
  set (st1 := match info with Some i => _ | None => st end).
  assert (H1 : exists r1,
             vginfo_store st1 !! vginfo = Some r1
             /\ vginfo_vgname r1 = vginfo_vgname r
             /\ (vginfo_infos r1 = []
                 <-> forall q, q ∈ vginfo_infos r -> info = Some q)).
  { unfold st1. destruct info as [i|].
    - unfold _vginfo_detach_info, upd_info. cbn.
      rewrite lookup_fmap, Hr. cbn. eexists. split; [reflexivity|].
      split; [reflexivity|]. cbn. rewrite filter_other_nil.
      split; intros H q Hq; specialize (H q Hq); congruence.
    - exists r. split_and!; [exact Hr | reflexivity |].
      split.
      + intros Hnil q Hq. rewrite Hnil in Hq. inversion Hq.
      + intros H. destruct (vginfo_infos r) as [|q l]; [reflexivity|].
        specialize (H q). discriminate H. left. }
  destruct H1 as (r1 & Hr1 & Hname & Hnil). clearbody st1.
  rewrite Hr1, Hname.
  destruct (is_orphan_vg (vginfo_vgname r)); cbn [orb].
  { cbn [snd]. rewrite Hr1. split; [auto|]. intros _. eexists; reflexivity. }
  destruct (bool_decide (vginfo_infos r1 = [])) eqn:Hempty; cbn [negb].
  - apply bool_decide_eq_true in Hempty. rewrite free_vginfo_gone.
    split; [intros [? ?]; discriminate|].
    intros [Hf|(q & Hq & Hne)]; [discriminate|].
    exfalso. apply Hne. apply Hnil; assumption.
  - apply bool_decide_eq_false in Hempty. cbn [snd]. rewrite Hr1.
    split; [|intros _; eexists; reflexivity].
    intros _. right.
    destruct (decide (Exists (fun q => info <> Some q) (vginfo_infos r)))
      as [Hex|Hno].
    + apply Exists_exists in Hex as (q & Hq & Hne).
      exists q. split; [exact Hq | exact Hne].
    + exfalso. apply Hempty, Hnil. intros q Hq.
      destruct (decide (info = Some q)) as [Heq|Hne]; [exact Heq|].
      exfalso. apply Hno. apply Exists_exists. exists q.
      split; [exact Hq | exact Hne].
Qed.

(** [_drop_vginfo] leaves the PV table, and the detached PV record is on
    no member list afterwards. *)
Lemma drop_vginfo_effect (info : ptr) (vginfo : option ptr) (st : lvmcache) :
  let st' := snd (_drop_vginfo (Some info) vginfo st) in
  _pvid_hash st' = _pvid_hash st
  /\ (forall q rq, vginfo_store st' !! q = Some rq -> info ∉ vginfo_infos rq).
Proof.
  cbv zeta. unfold _drop_vginfo.
  set (st1 := _vginfo_detach_info info st).
  assert (H1 : _pvid_hash st1 = _pvid_hash st
               /\ (forall q rq, vginfo_store st1 !! q = Some rq ->
                                info ∉ vginfo_infos rq)).
  { unfold st1, _vginfo_detach_info, upd_info. cbn. split; [reflexivity|].
    intros q rq. rewrite lookup_fmap.
    destruct (vginfo_store st !! q) as [rq0|]; [|discriminate].
    cbn. intros [= <-]. cbn. apply filter_other_not_in. }
  destruct H1 as (Hp1 & Hm1). clearbody st1.
  destruct vginfo as [v|]; [|split; assumption].
  destruct (vginfo_store st1 !! v) as [r|] eqn:Hr; [|split; assumption].
  destruct (_ || _); [split; assumption|].
  destruct (free_vginfo_effect v r st1 Hr) as (_ & Hp & _).
  split; [rewrite Hp; exact Hp1|].
  intros q rq Hq. apply free_vginfo_members in Hq as (rq0 & Hq0 & ->).
  exact (Hm1 q rq0 Hq0).
Qed.

(** X20.  After [lvmcache_del] the PV record is gone from the store, it
    is on the member list of no VG record, and the identifier of its
    device, when the device has one of at most [ID_LEN] characters, is no
    longer found by [lvmcache_info_from_pvid]. *)
Theorem lvmcache_del_unlinks (info : ptr) (r : lvmcache_info) (st : lvmcache) :
  info_store st !! info = Some r ->
  let st' := lvmcache_del info st in
  info_store st' !! info = None
  /\ (forall q rq, vginfo_store st' !! q = Some rq -> info ∉ vginfo_infos rq)
  /\ (pvid_of_dev (info_dev r) st <> EmptyString ->
      (String.length (pvid_of_dev (info_dev r) st) <= ID_LEN)%nat ->
      forall valid_only,
        lvmcache_info_from_pvid (Some (pvid_of_dev (info_dev r) st))
          valid_only st' = None).
Proof.
  intros Hr. cbv zeta. unfold lvmcache_del. rewrite Hr.
  set (pvid := pvid_of_dev (info_dev r) st).
  set (st0 := if negb (String.eqb pvid EmptyString) && _ then _ else st).
  assert (H0 : pvid <> EmptyString ->
               dm_hash_lookup (_pvid_hash st0) pvid = None).
  { intros Hne. apply String.eqb_neq in Hne. unfold st0. rewrite Hne.
    cbn [negb andb].
    destruct (_pvid_hash st) as [h|] eqn:Hh.
    - rewrite bool_decide_eq_true_2 by (eexists; reflexivity).
      cbn. rewrite ?Hh. cbn. apply lookup_delete_eq.
    - rewrite bool_decide_eq_false_2 by (intros [? ?]; discriminate).
      rewrite ?Hh. reflexivity. }
  clearbody st0.
  destruct (drop_vginfo_effect info (info_vginfo r) st0) as (Hp & Hm).
  destruct (_drop_vginfo (Some info) (info_vginfo r) st0) as [ok st1].
  cbn [snd] in Hp, Hm. cbn.
  split_and!.
  - apply lookup_delete_eq.
  - exact Hm.
  - intros Hne Hlen valid_only. unfold lvmcache_info_from_pvid. cbn.
    rewrite Hp. specialize (H0 Hne). unfold dm_hash_lookup in H0.
    destruct (_pvid_hash st0) as [h|]; [|reflexivity].
    rewrite (id_of_short _ Hlen), H0. reflexivity.
Qed.

(** ** Further properties: the queries *)

(** X21.  [lvmcache_is_orphan] follows the membership of the PV record:
    once attached to a VG record it answers with [is_orphan_vg] of that
    VG's name, and once detached it answers 1. *)
Theorem is_orphan_follows_membership (vginfo info : ptr) (r : lvmcache_info)
    (vr : lvmcache_vginfo) (st : lvmcache) :
  info_store st !! info = Some r ->
  vginfo_store st !! vginfo = Some vr ->
  let st1 := _vginfo_attach_info (Some vginfo) info st in
  let st2 := _vginfo_detach_info info st1 in
  (exists r1, info_store st1 !! info = Some r1
     /\ lvmcache_is_orphan r1 st1 = is_orphan_vg (vginfo_vgname vr))
  /\ (exists r2, info_store st2 !! info = Some r2
        /\ lvmcache_is_orphan r2 st2 = true).
Proof.
  intros Hr Hvr. cbv zeta.
  unfold _vginfo_attach_info, _vginfo_detach_info, upd_info, upd_vginfo.
  cbn [info_store vginfo_store set_info_store set_vginfo_store].
  split.
  - eexists. split; [rewrite lookup_alter_eq, Hr; reflexivity|].
    unfold lvmcache_is_orphan. cbn. rewrite lookup_alter_eq, Hvr. reflexivity.
  - eexists. split; [rewrite !lookup_alter_eq, Hr; reflexivity|].
    reflexivity.
Qed.

(** X22.  [lvmcache_lookup_mda] answers 0 and leaves the summary when the
    size it is asked for is 0; it answers 1 exactly when a VG record on
    [_vginfos] with a name that is not an orphan name has the checksum and
    the size asked for, and the summary is then filled from the first such
    record; otherwise the summary is left as it was. *)
Theorem lookup_mda_finds_matching_vg (vgsummary : lvmcache_vgsummary)
    (st : lvmcache) :
  let res := lvmcache_lookup_mda vgsummary st in
  (vgs_mda_size vgsummary = 0 -> res = (false, vgsummary))
  /\ (fst res = true <->
      vgs_mda_size vgsummary <> 0
      /\ exists vginfo, vginfo ∈ listed_vginfos st
           /\ vgs_mda_checksum vgsummary = vginfo_mda_checksum vginfo
           /\ vgs_mda_size vgsummary = vginfo_mda_size vginfo
           /\ is_orphan_vg (vginfo_vgname vginfo) = false)
  /\ (fst res = true ->
      exists vginfo,
        List.find (mda_matches vgsummary) (listed_vginfos st) = Some vginfo
        /\ vgs_vgname (snd res) = Some (vginfo_vgname vginfo)
        /\ vgs_vgid (snd res) = id_of (vginfo_vgid vginfo)
        /\ vgs_vgstatus (snd res) = vginfo_status vginfo
        /\ vgs_creation_host (snd res) = vginfo_creation_host vginfo)
  /\ (fst res = false -> snd res = vgsummary).
Proof.
  cbv zeta. unfold lvmcache_lookup_mda.
  assert (Hmatch : forall vginfo,
            mda_matches vgsummary vginfo = true
            <-> vgs_mda_checksum vgsummary = vginfo_mda_checksum vginfo
                /\ vgs_mda_size vgsummary = vginfo_mda_size vginfo
                /\ is_orphan_vg (vginfo_vgname vginfo) = false).
  { intros vginfo. unfold mda_matches.
    rewrite !andb_true_iff, !Z.eqb_eq, negb_true_iff. tauto. }
  destruct (vgs_mda_size vgsummary =? 0) eqn:Hsize.
  - apply Z.eqb_eq in Hsize. cbn [fst snd].
    split_and!.
    + intros _. reflexivity.
    + split; [discriminate|]. intros [Hne _]. contradiction.
    + discriminate.
    + intros _. reflexivity.
  - apply Z.eqb_neq in Hsize.
    destruct (List.find (mda_matches vgsummary) (listed_vginfos st))
      as [vginfo|] eqn:Hfind; cbn [fst snd].
    + apply find_some in Hfind as Hfound. destruct Hfound as [Hin Hm].
      split_and!.
      * intros Hz. contradiction.
      * split; [|reflexivity]. intros _. split; [exact Hsize|].
        exists vginfo. split; [apply list_elem_of_In; exact Hin|].
        apply Hmatch. exact Hm.
      * intros _. exists vginfo. split_and!; reflexivity.
      * discriminate.
    + split_and!.
      * intros _. reflexivity.
      * split; [discriminate|]. intros [_ (vginfo & Hin & Hm)].
        apply list_elem_of_In in Hin.
        pose proof (find_none _ _ Hfind vginfo Hin) as Hno.
        apply Hmatch in Hm. congruence.
      * discriminate.
      * intros _. reflexivity.
Qed.

Lemma raise_to_max (len max : nat) : raise_to len max = Nat.max max len.
Proof. unfold raise_to. destruct (Nat.ltb_spec max len); lia. Qed.

Lemma fold_raise_to {A : Type} (f : A -> nat) (l : list A) (acc : nat) :
  let res := fold_left (fun max x => raise_to (f x) max) l acc in
  (acc <= res)%nat
  /\ (forall x, In x l -> (f x <= res)%nat)
  /\ (res = acc \/ exists x, In x l /\ f x = res).
Proof.
  revert acc. induction l as [|y l IH]; intros acc; cbn [fold_left].
  - split_and!; [lia | intros x [] | left; reflexivity].
  - destruct (IH (raise_to (f y) acc)) as (Hle & Hall & Hatt).
    rewrite raise_to_max in Hle, Hall, Hatt |- *.
    split_and!.
    + lia.
    + intros x [<-|Hx]; [lia | apply Hall; exact Hx].
    + destruct Hatt as [Heq|(x & Hx & Hfx)].
      * destruct (Nat.max_spec acc (f y)) as [[_ Hm]|[_ Hm]].
        -- right. exists y. split; [left; reflexivity|].
           rewrite Heq. symmetry. exact Hm.
        -- left. rewrite Heq. exact Hm.
      * right. exists x. split; [right|]; assumption.
Qed.

Lemma max_name_lengths_unfold (st : lvmcache) (l : list lvmcache_vginfo)
    (pv_max vg_max : nat) :
  fold_left
    (fun '(pv_max_name_len, vg_max_name_len) vginfo =>
       (fold_left
          (fun pv_max_name_len info =>
             raise_to (String.length (dev_name E (info_dev info)))
               pv_max_name_len)
          (member_infos vginfo st) pv_max_name_len,
        raise_to (String.length (vginfo_vgname vginfo)) vg_max_name_len))
    l (pv_max, vg_max)
  = (fold_left
       (fun max info =>
          raise_to (String.length (dev_name E (info_dev info))) max)
       (flat_map (fun vginfo => member_infos vginfo st) l) pv_max,
     fold_left
       (fun max vginfo => raise_to (String.length (vginfo_vgname vginfo)) max)
       l vg_max).
Proof.
  revert pv_max vg_max. induction l as [|vginfo l IH]; intros pv_max vg_max;
    cbn [fold_left flat_map]; [reflexivity|].
  rewrite IH, fold_left_app. reflexivity.
Qed.

(** X23.  The lengths [lvmcache_get_max_name_lengths] reports are upper
    bounds, over the VG records on [_vginfos], of the lengths of the VG
    names and of the device names of their member PVs; and each is 0 or
    the length of one of those names. *)
Theorem max_name_lengths_are_maxima (st : lvmcache) :
  let res := lvmcache_get_max_name_lengths st in
  (forall vginfo, vginfo ∈ listed_vginfos st ->
     (String.length (vginfo_vgname vginfo) <= snd res)%nat
     /\ forall info, info ∈ member_infos vginfo st ->
          (String.length (dev_name E (info_dev info)) <= fst res)%nat)
  /\ (snd res = 0%nat
      \/ exists vginfo, vginfo ∈ listed_vginfos st
           /\ String.length (vginfo_vgname vginfo) = snd res)
  /\ (fst res = 0%nat
      \/ exists vginfo info,
           vginfo ∈ listed_vginfos st /\ info ∈ member_infos vginfo st
           /\ String.length (dev_name E (info_dev info)) = fst res).
Proof.
  cbv zeta. unfold lvmcache_get_max_name_lengths.
  rewrite max_name_lengths_unfold. cbn [fst snd].
  destruct (fold_raise_to
              (fun vginfo => String.length (vginfo_vgname vginfo))
              (listed_vginfos st) 0%nat) as (_ & Hvg & Hvg_att).
  destruct (fold_raise_to
              (fun info => String.length (dev_name E (info_dev info)))
              (flat_map (fun vginfo => member_infos vginfo st)
                 (listed_vginfos st)) 0%nat) as (_ & Hpv & Hpv_att).
  split_and!.
  - intros vginfo Hin. apply list_elem_of_In in Hin. split.
    + apply Hvg. exact Hin.
    + intros info Hinfo. apply list_elem_of_In in Hinfo.
      apply Hpv. apply in_flat_map. exists vginfo. split; assumption.
  - destruct Hvg_att as [Heq|(vginfo & Hin & Hlen)]; [left; exact Heq|].
    right. exists vginfo. split; [apply list_elem_of_In|]; assumption.
  - destruct Hpv_att as [Heq|(info & Hin & Hlen)]; [left; exact Heq|].
    right. apply in_flat_map in Hin as (vginfo & Hv & Hi).
    exists vginfo, info. split_and!; [apply list_elem_of_In| apply list_elem_of_In|];
      assumption.
Qed.

(** X25.  With the metadata daemon active [lvmcache_vgid_is_cached]
    answers 1 for every identifier; without it, it answers 1 exactly when
    [lvmcache_vgname_from_vgid] finds a name for the identifier and that
    name is not an orphan name. *)
Theorem vgid_is_cached_iff_named (vgid : option string) (st : lvmcache) :
  (lvmetad_active E = true -> lvmcache_vgid_is_cached vgid st = true)
  /\ (lvmetad_active E = false ->
      (lvmcache_vgid_is_cached vgid st = true
       <-> exists vgname,
             fst (lvmcache_vgname_from_vgid false vgid st) = Some vgname
             /\ is_orphan_vg vgname = false)).
Proof.
  unfold lvmcache_vgid_is_cached, lvmcache_vgname_from_vgid.
  split; intros Hdaemon; rewrite Hdaemon; [reflexivity|].
  destruct (lvmcache_vginfo_from_vgid vgid st) as [vginfo|]; cbn.
  2:{ split; [discriminate | intros (? & ? & _); discriminate]. }
  destruct (vginfo_store st !! vginfo) as [r|]; cbn.
  2:{ split; [discriminate | intros (? & ? & _); discriminate]. }
  rewrite negb_true_iff. split.
  - intros Horphan. exists (vginfo_vgname r). split; [reflexivity|assumption].
  - intros (vgname & [= <-] & Horphan). exact Horphan.
Qed.

(** ** Further properties: locks and the records *)

Lemma links_kept_refl (st : lvmcache) : links_kept st st.
Proof. split; intros ? r Hr; exists r; auto. Qed.

Lemma links_kept_trans (st1 st2 st3 : lvmcache) :
  links_kept st1 st2 -> links_kept st2 st3 -> links_kept st1 st3.
Proof.
  intros [Hi12 Hv12] [Hi23 Hv23]. split.
  - intros i r Hr. destruct (Hi12 i r Hr) as (r2 & Hr2 & Hv & Hd).
    destruct (Hi23 i r2 Hr2) as (r3 & Hr3 & Hv' & Hd').
    exists r3. split_and!; congruence.
  - intros v vr Hr. destruct (Hv12 v vr Hr) as (r2 & Hr2 & Hn & Hm).
    destruct (Hv23 v r2 Hr2) as (r3 & Hr3 & Hn' & Hm').
    exists r3. split_and!; congruence.
Qed.

Lemma links_kept_same (st st' : lvmcache) :
  info_store st' = info_store st -> vginfo_store st' = vginfo_store st ->
  links_kept st st'.
Proof.
  intros Hi Hv. split; intros ? r Hr; exists r; rewrite ?Hi, ?Hv; auto.
Qed.

Lemma links_kept_stores_only (st st' : lvmcache) :
  stores_only st st' ->
  records_related blob_only (vginfo_store st) (vginfo_store st') ->
  links_kept st st'.
Proof.
  intros Hs Hrel. split.
  - intros i r Hr. exists r. rewrite (stores_only_info_store _ _ Hs). auto.
  - intros v vr Hr. specialize (Hrel v). rewrite Hr in Hrel.
    inversion Hrel as [r0 r1 Hb|]. subst. exists r1.
    split_and!; [reflexivity | apply (blob_only_vgname _ _ Hb)
                | apply (blob_only_infos _ _ Hb)].
Qed.

Lemma update_cache_info_lock_state_links (i : ptr) (locked valid : bool)
    (st : lvmcache) :
  links_kept st (snd (_update_cache_info_lock_state i locked valid st)).
Proof.
  unfold _update_cache_info_lock_state.
  destruct (info_store st !! i) as [r|] eqn:Hr; [|apply links_kept_refl].
  cbn [snd]. unfold upd_info. split; cbn.
  - intros j rj Hj. destruct (decide (j = i)) as [->|Hne].
    + rewrite lookup_alter_eq, Hj. cbn. eexists. split; [reflexivity|].
      split; reflexivity.
    + rewrite lookup_alter_ne by congruence. exists rj. auto.
  - intros v vr Hv. exists vr. auto.
Qed.

Lemma update_cache_infos_lock_state_links (members : list ptr)
    (locked valid : bool) (st : lvmcache) :
  links_kept st (snd (_update_cache_infos_lock_state members locked valid st)).
Proof.
  revert valid st. induction members as [|i l IH]; intros valid st;
    cbn [_update_cache_infos_lock_state]; [apply links_kept_refl|].
  pose proof (update_cache_info_lock_state_links i locked valid st) as H1.
  destruct (_update_cache_info_lock_state i locked valid st) as [v1 st1].
  cbn [snd] in H1. apply (links_kept_trans st st1); [exact H1 | apply IH].
Qed.

Lemma update_cache_lock_state_links (vgname : string) (locked : bool)
    (st : lvmcache) :
  links_kept st (_update_cache_lock_state vgname locked st).
Proof.
  unfold _update_cache_lock_state.
  destruct (lvmcache_vginfo_from_vgname _ _ _) as [v|]; [|apply links_kept_refl].
  unfold _update_cache_vginfo_lock_state.
  destruct (vginfo_store st !! v) as [r|]; [|apply links_kept_refl].
  pose proof (update_cache_infos_lock_state_links (vginfo_infos r) locked true st)
    as H1.
  destruct (_update_cache_infos_lock_state (vginfo_infos r) locked true st)
    as [valid st1].
  cbn [snd] in H1. destruct (negb valid); [|exact H1].
  apply (links_kept_trans st st1); [exact H1|].
  destruct (free_cached_vgmetadata_effect (Some v) st1) as [Hs Hrel].
  apply links_kept_stores_only; assumption.
Qed.

Lemma lock_table_only_links (st st' : lvmcache) :
  lock_table_only st st' -> links_kept st st'.
Proof. intros H. apply links_kept_same; rewrite H; reflexivity. Qed.

Lemma lock_vgname_initialised_links (vgname : string) (st : lvmcache) :
  links_kept st (lock_vgname_initialised vgname st).
Proof.
  unfold lock_vgname_initialised.
  set (st0 := if bool_decide _ then _ else st).
  assert (H0 : links_kept st st0).
  { apply lock_table_only_links. unfold st0.
    destruct (bool_decide _); destruct st; reflexivity. }
  clearbody st0.
  pose proof (dm_hash_insert_lock_table_only (_lock_hash st0) vgname () st0)
    as H1.
  destruct (dm_hash_insert (_lock_hash st0) vgname () st0) as [[ok h] st1].
  cbn [snd] in H1. apply lock_table_only_links in H1.
  set (st2 := if ok then _ else _).
  assert (H2 : links_kept st1 st2).
  { apply lock_table_only_links. unfold st2.
    destruct ok; destruct st1; reflexivity. }
  clearbody st2.
  apply (links_kept_trans st st0); [exact H0|].
  apply (links_kept_trans st0 st1); [exact H1|].
  apply (links_kept_trans st1 st2); [exact H2|].
  destruct (negb _); [|apply links_kept_refl].
  apply (links_kept_trans st2 (_update_cache_lock_state vgname true st2));
    [apply update_cache_lock_state_links|].
  apply links_kept_same; reflexivity.
Qed.

Lemma unlock_vgname_links (vgname : string) (st : lvmcache) :
  links_kept st (snd (lvmcache_unlock_vgname vgname st)).
Proof.
  unfold lvmcache_unlock_vgname.
  set (st0 := if negb _ then _ else st).
  assert (H0 : links_kept st st0).
  { unfold st0. destruct (negb _); [|apply links_kept_refl].
    apply links_kept_same; reflexivity. }
  clearbody st0.
  set (st1 := if negb _ then _ else st0).
  assert (H1 : links_kept st0 st1).
  { unfold st1. destruct (negb _); [|apply links_kept_refl].
    apply update_cache_lock_state_links. }
  clearbody st1.
  apply (links_kept_trans st st0); [exact H0|].
  apply (links_kept_trans st0 st1); [exact H1|].
  destruct (negb _); cbn [snd]; apply links_kept_same; reflexivity.
Qed.

Lemma pvid_is_locked_links (pvid : string) (info vginfo : ptr)
    (r : lvmcache_info) (vr : lvmcache_vginfo) (st st' : lvmcache) :
  lvmcache_info_from_pvid (Some pvid) false st = Some info ->
  info_store st !! info = Some r ->
  info_vginfo r = Some vginfo ->
  vginfo_store st !! vginfo = Some vr ->
  links_kept st st' ->
  _pvid_hash st' = _pvid_hash st ->
  lvmcache_pvid_is_locked (Some pvid) st'
  = lvmcache_vgname_is_locked (vginfo_vgname vr) st'.
Proof.
  intros Hfound Hr Hv Hvr [Hinfos Hvgs] Hp.
  destruct (Hinfos info r Hr) as (r' & Hr' & Hv' & _).
  destruct (Hvgs vginfo vr Hvr) as (vr' & Hvr' & Hname & _).
  unfold lvmcache_pvid_is_locked.
  assert (Hfound' : lvmcache_info_from_pvid (Some pvid) false st' = Some info).
  { revert Hfound. unfold lvmcache_info_from_pvid. rewrite Hp.
    destruct (_pvid_hash st) as [h|]; [|discriminate].
    destruct (h !! id_of pvid); [|discriminate].
    cbn [andb]. auto. }
  rewrite Hfound', Hr'. unfold lvmcache_vgname_from_info.
  rewrite Hv', Hv, Hvr'. cbn. rewrite Hname. reflexivity.
Qed.

(** X24.  The PVs of a VG follow the lock of the VG: in a cache whose
    lock table exists, after [lvmcache_lock_vgname] of the name of a VG
    that is not an orphan VG, with the allocation of the table node
    served, [lvmcache_pvid_is_locked] answers 1 for the identifier of a
    member PV, and after [lvmcache_unlock_vgname] it answers 0. *)
Theorem pvs_follow_the_lock_of_their_vg (pvid : string) (info vginfo : ptr)
    (r : lvmcache_info) (vr : lvmcache_vginfo) (st : lvmcache) :
  is_Some (_lock_hash st) ->
  hd true (heap_script st) = true ->
  lvmcache_info_from_pvid (Some pvid) false st = Some info ->
  info_store st !! info = Some r ->
  info_vginfo r = Some vginfo ->
  vginfo_store st !! vginfo = Some vr ->
  is_orphan_vg (vginfo_vgname vr) = false ->
  lvmcache_pvid_is_locked (Some pvid)
    (lvmcache_lock_vgname (vginfo_vgname vr) st) = true
  /\ lvmcache_pvid_is_locked (Some pvid)
       (snd (lvmcache_unlock_vgname (vginfo_vgname vr) st)) = false.
Proof.
  intros [h Hh] Hserved Hfound Hr Hv Hvr Horphan.
  split.
  - unfold lvmcache_lock_vgname. rewrite Hh.
    rewrite bool_decide_eq_true_2 by (eexists; reflexivity). cbn [negb].
    rewrite (pvid_is_locked_links pvid info vginfo r vr st _ Hfound Hr Hv Hvr
               (lock_vgname_initialised_links (vginfo_vgname vr) st)
               (proj1 (proj2 (proj2 (lock_vgname_initialised_tables
                                       (vginfo_vgname vr) st))))).
    destruct (lock_vgname_initialised_table (vginfo_vgname vr) st h Hh)
      as (Ht & _).
    unfold lvmcache_vgname_is_locked. rewrite Ht, Horphan, Hserved.
    rewrite orb_true_r, lookup_insert_eq. reflexivity.
  - destruct (unlock_vgname_table (vginfo_vgname vr) st) as (Ht & _).
    assert (Hp : _pvid_hash
                   (snd (lvmcache_unlock_vgname (vginfo_vgname vr) st))
                 = _pvid_hash st).
    { unfold lvmcache_unlock_vgname.
      set (st0 := if negb _ then _ else st).
      assert (H0 : _pvid_hash st0 = _pvid_hash st)
        by (unfold st0; destruct (negb _); reflexivity).
      clearbody st0.
      set (st1 := if negb _ then _ else st0).
      assert (H1 : _pvid_hash st1 = _pvid_hash st0).
      { unfold st1. destruct (negb _); [|reflexivity].
        apply records_only_pvid_hash, update_cache_lock_state_records_only. }
      clearbody st1. destruct (negb _); cbn; congruence. }
    rewrite (pvid_is_locked_links pvid info vginfo r vr st _ Hfound Hr Hv Hvr
               (unlock_vgname_links (vginfo_vgname vr) st) Hp).
    unfold lvmcache_vgname_is_locked. rewrite Ht, Hh, Horphan.
    cbn. rewrite lookup_delete_eq. reflexivity.
Qed.

(** ** Further properties: registering a PV leaves the locks *)

Lemma lock_state_kept_upd_info (i : ptr) (f : lvmcache_info -> lvmcache_info)
    (st : lvmcache) :
  lock_state_kept st (upd_info i f st).
Proof. apply lock_state_kept_same; reflexivity. Qed.

Lemma lock_state_kept_upd_vginfo (v : ptr)
    (f : lvmcache_vginfo -> lvmcache_vginfo) (st : lvmcache) :
  lock_state_kept st (upd_vginfo v f st).
Proof. apply lock_state_kept_same; reflexivity. Qed.

Lemma lock_state_kept_update_pvid (info : ptr) (pvid : string) (st : lvmcache) :
  lock_state_kept st (snd (_lvmcache_update_pvid info pvid st)).
Proof.
  unfold _lvmcache_update_pvid.
  destruct (info_store st !! info) as [r|]; [|apply lock_state_kept_refl].
  destruct (_ && _); [apply lock_state_kept_refl|].
  set (st1 := set_dev_pvid _ _).
  assert (H1 : lock_state_kept st st1).
  { unfold st1. destruct (negb _); apply lock_state_kept_same; reflexivity. }
  clearbody st1.
  pose proof (lock_state_kept_dm_hash_insert (_pvid_hash st1) pvid info st1)
    as Hins.
  destruct (dm_hash_insert (_pvid_hash st1) pvid info st1) as [[ok h'] st2].
  cbn [snd] in Hins.
  assert (H2 : lock_state_kept st (set__pvid_hash h' st2)).
  { apply (lock_state_kept_trans st st1); [exact H1|].
    apply (lock_state_kept_trans st1 st2); [exact Hins|].
    apply lock_state_kept_same; reflexivity. }
  destruct ok; cbn [snd]; [exact H2|].
  eapply lock_state_kept_trans; [exact H2 | apply lock_state_kept_print_log].
Qed.

Lemma lock_state_kept_update_vgstatus (info : option ptr) (vgstatus : Z)
    (creation_host lock_type : option string) (st : lvmcache) :
  lock_state_kept st
    (snd (_lvmcache_update_vgstatus info vgstatus creation_host lock_type st)).
Proof.
  unfold _lvmcache_update_vgstatus.
  destruct (match info with Some i => _ | None => None end) as [v|];
    [|apply lock_state_kept_refl].
  set (st1 := upd_vginfo v (set_vginfo_status vgstatus) st).
  assert (H1 : lock_state_kept st st1) by apply lock_state_kept_upd_vginfo.
  clearbody st1.
  assert (Hlock : forall s lt,
            lock_state_kept s
              (snd (let '(ok, s') := dm_alloc s in
                    let s' :=
                      upd_vginfo v
                        (set_vginfo_lock_type (if ok then Some lt else None))
                        s' in
                    if ok then (true, s')
                    else (false,
                          log_error "cache creation host alloc failed for %s"
                            [lt] s')))).
  { intros s lt.
    pose proof (lock_state_kept_dm_alloc s) as Ha.
    destruct (dm_alloc s) as [ok s']. cbn [snd] in Ha.
    assert (H' : lock_state_kept s
                   (upd_vginfo v
                      (set_vginfo_lock_type (if ok then Some lt else None)) s')).
    { apply (lock_state_kept_trans s s'); [exact Ha|].
      apply lock_state_kept_upd_vginfo. }
    destruct ok; cbn [snd]; [exact H'|].
    eapply lock_state_kept_trans; [exact H' | apply lock_state_kept_print_log]. }
  apply (lock_state_kept_trans st st1); [exact H1|].
  cbv zeta.
  destruct creation_host as [host|].
  2:{ destruct lock_type as [lt|]; [|apply lock_state_kept_refl].
      destruct (bool_decide _); [apply lock_state_kept_refl|].
      exact (Hlock st1 lt). }
  destruct (bool_decide _).
  { destruct lock_type as [lt|]; [|apply lock_state_kept_refl].
    destruct (bool_decide _); [apply lock_state_kept_refl|].
    exact (Hlock st1 lt). }
  pose proof (lock_state_kept_dm_alloc st1) as Ha.
  destruct (dm_alloc st1) as [ok s']. cbn [snd] in Ha.
  set (s2 := upd_vginfo v _ s').
  assert (H2 : lock_state_kept st1 s2).
  { apply (lock_state_kept_trans st1 s'); [exact Ha|].
    apply lock_state_kept_upd_vginfo. }
  clearbody s2.
  destruct ok.
  - apply (lock_state_kept_trans st1 s2); [exact H2|].
    destruct lock_type as [lt|]; [|apply lock_state_kept_refl].
    destruct (bool_decide _); [apply lock_state_kept_refl|].
    exact (Hlock s2 lt).
  - cbn [snd].
    eapply lock_state_kept_trans; [exact H2 | apply lock_state_kept_print_log].
Qed.

Lemma lock_state_kept_update_vg_mda_info (info : option ptr)
    (mda_checksum mda_size : Z) (st : lvmcache) :
  lock_state_kept st
    (snd (_lvmcache_update_vg_mda_info info mda_checksum mda_size st)).
Proof.
  unfold _lvmcache_update_vg_mda_info.
  destruct (match info with Some i => _ | None => None end) as [v|];
    [|apply lock_state_kept_refl].
  destruct (vginfo_store st !! v) as [r|]; [|apply lock_state_kept_refl].
  destruct (_ || _); [apply lock_state_kept_refl|].
  apply lock_state_kept_same; reflexivity.
Qed.

Lemma lock_state_kept_update_vgname_and_id (info : ptr)
    (vgsummary : lvmcache_vgsummary) (st : lvmcache) (ok : bool)
    (st' : lvmcache) :
  lvmcache_update_vgname_and_id info vgsummary st = Some (ok, st') ->
  lock_state_kept st st'.
Proof.
  unfold lvmcache_update_vgname_and_id.
  destruct (info_store st !! info) as [r|];
    [|intros [= _ <-]; apply lock_state_kept_refl].
  cbv zeta.
  set (pre := if negb _ && negb _ then _ else _).
  assert (H0 : lock_state_kept st (snd pre)).
  { unfold pre. destruct (negb _ && negb _); cbn [snd];
      [apply lock_state_kept_print_log | apply lock_state_kept_refl]. }
  destruct pre as [[vgname vgid] st0]. cbn [snd] in H0.
  destruct (_ && _ && _ && _ && _); [intros [= _ <-]; exact H0|].
  set (st1 := if is_orphan_vg_opt vgname && _ && _ then _ else st0).
  assert (H1 : lock_state_kept st0 st1).
  { unfold st1. destruct (_ && _ && _); [|apply lock_state_kept_refl].
    destruct (info_vginfo r); [|apply lock_state_kept_refl].
    apply lock_state_kept_upd_vginfo. }
  clearbody st1.
  set (st2 := if negb (is_orphan_vg_opt vgname) then _ else st1).
  assert (H2 : lock_state_kept st1 st2).
  { unfold st2. destruct (negb _); [|apply lock_state_kept_refl].
    apply lock_state_kept_upd_info. }
  clearbody st2.
  assert (H02 : lock_state_kept st st2).
  { apply (lock_state_kept_trans st st0); [exact H0|].
    apply (lock_state_kept_trans st0 st1); [exact H1 | exact H2]. }
  destruct (_lvmcache_update_vgname (Some info) vgname vgid
              (vgs_vgstatus vgsummary) (vgs_creation_host vgsummary)
              (info_fmt r) st2) as [[[] st3]|] eqn:Hname; [| |discriminate].
  2:{ intros [= _ <-]. apply (lock_state_kept_trans st st2); [exact H02|].
      exact (lock_state_kept_update_vgname _ _ _ _ _ _ _ _ _ Hname). }
  apply lock_state_kept_update_vgname in Hname.
  set (vginfo := match info_store st3 !! info with
                 | Some r0 => info_vginfo r0 | None => None end).
  pose proof (lock_state_kept_update_vgid (Some info) vginfo vgid st3) as H4.
  destruct (_lvmcache_update_vgid (Some info) vginfo vgid st3) as [ok4 st4].
  cbn [snd] in H4.
  assert (H04 : lock_state_kept st st4).
  { apply (lock_state_kept_trans st st2); [exact H02|].
    apply (lock_state_kept_trans st2 st3); [exact Hname | exact H4]. }
  destruct ok4; cbn [negb]; [|intros [= _ <-]; exact H04].
  pose proof (lock_state_kept_update_vgstatus (Some info)
                (vgs_vgstatus vgsummary) (vgs_creation_host vgsummary)
                (vgs_lock_type vgsummary) st4) as H5.
  destruct (_lvmcache_update_vgstatus (Some info) (vgs_vgstatus vgsummary)
              (vgs_creation_host vgsummary) (vgs_lock_type vgsummary) st4)
    as [ok5 st5].
  cbn [snd] in H5.
  destruct ok5; cbn [negb];
    [|intros [= _ <-]; apply (lock_state_kept_trans st st4); assumption].
  pose proof (lock_state_kept_update_vg_mda_info (Some info)
                (vgs_mda_checksum vgsummary) (vgs_mda_size vgsummary) st5)
    as H6.
  destruct (_lvmcache_update_vg_mda_info (Some info)
              (vgs_mda_checksum vgsummary) (vgs_mda_size vgsummary) st5)
    as [ok6 st6].
  cbn [snd] in H6. intros [= _ <-].
  apply (lock_state_kept_trans st st4); [exact H04|].
  apply (lock_state_kept_trans st4 st5); assumption.
Qed.

Lemma lock_state_kept_add_finish (l : labeller) (pvid_s : string)
    (vgsummary : lvmcache_vgsummary) (existing : bool) (info : ptr)
    (st : lvmcache) (res : option ptr) (st' : lvmcache) :
  lvmcache_add_finish l pvid_s vgsummary existing info st = Some (res, st') ->
  lock_state_kept st st'.
Proof.
  unfold lvmcache_add_finish. cbv zeta.
  set (st1 := upd_info info _ (upd_info info _ st)).
  assert (H1 : lock_state_kept st st1)
    by (apply lock_state_kept_same; reflexivity).
  clearbody st1.
  pose proof (lock_state_kept_update_pvid info pvid_s st1) as H2.
  destruct (_lvmcache_update_pvid info pvid_s st1) as [ok st2].
  cbn [snd] in H2.
  assert (H02 : lock_state_kept st st2)
    by (apply (lock_state_kept_trans st st1); assumption).
  destruct ok; cbn [negb].
  2:{ intros [= _ <-]. apply (lock_state_kept_trans st st2); [exact H02|].
      destruct existing; apply lock_state_kept_same; reflexivity. }
  destruct (lvmcache_update_vgname_and_id info vgsummary st2)
    as [[[] st3]|] eqn:Hname; [| |discriminate];
    apply lock_state_kept_update_vgname_and_id in Hname.
  - intros [= _ <-]. apply (lock_state_kept_trans st st2); assumption.
  - assert (H03 : lock_state_kept st st3)
      by (apply (lock_state_kept_trans st st2); assumption).
    destruct existing; intros [= _ <-]; [exact H03|].
    apply (lock_state_kept_trans st st3); [exact H03|].
    destruct (info_store st3 !! info);
      apply lock_state_kept_same; reflexivity.
Qed.

(** X26.  [lvmcache_add] on a cache whose tables exist takes and releases
    no lock: whatever it returns, the lock table and the record of a held
    global lock are as before, the log has only grown and the allocator
    has only moved on. *)
Theorem lvmcache_add_keeps_locks (l : labeller) (pvid : string) (dev : device)
    (vgname vgid : option string) (vgstatus : Z) (st : lvmcache)
    (res : option ptr) (st' : lvmcache) :
  is_Some (_vgname_hash st) ->
  lvmcache_add l pvid dev vgname vgid vgstatus st = Some (res, st') ->
  _lock_hash st' = _lock_hash st
  /\ _vg_global_lock_held st' = _vg_global_lock_held st
  /\ (exists more, log st' = log st ++ more)
  /\ (exists used, heap_script st = used ++ heap_script st').
Proof.
  intros Hinit. unfold lvmcache_add. cbv zeta.
  rewrite (bool_decide_eq_true_2 _ Hinit). cbn [negb].
  change (_lock_hash st' = _lock_hash st
          /\ _vg_global_lock_held st' = _vg_global_lock_held st
          /\ (exists more, log st' = log st ++ more)
          /\ (exists used, heap_script st = used ++ heap_script st'))
    with (lock_state_kept st st').
  destruct (match lvmcache_info_from_pvid (Some (id_of pvid)) false st with
            | Some existing => Some existing
            | None => _
            end) as [existing|].
  - destruct (info_store st !! existing) as [r|];
      [|intros [= _ <-]; apply lock_state_kept_refl].
    destruct (negb (Nat.eqb (info_dev r) dev)).
    { intros [= _ <-].
      eapply lock_state_kept_trans; [apply lock_state_kept_print_log|].
      eapply lock_state_kept_trans; [apply lock_state_kept_print_log|].
      apply lock_state_kept_same; reflexivity. }
    set (st1 := upd_info existing (set_info_dev dev) st).
    assert (H1 : lock_state_kept st st1) by apply lock_state_kept_upd_info.
    clearbody st1.
    destruct (match info_label r with Some lbl => _ | None => false end).
    { intros Hfin. apply lock_state_kept_add_finish in Hfin.
      apply (lock_state_kept_trans st st1); assumption. }
    unfold label_create.
    pose proof (lock_state_kept_dm_alloc st1) as Ha.
    destruct (dm_alloc st1) as [ok st2]. cbn [snd] in Ha.
    set (st3 := upd_info existing _ st2).
    assert (H3 : lock_state_kept st st3).
    { apply (lock_state_kept_trans st st1); [exact H1|].
      apply (lock_state_kept_trans st1 st2); [exact Ha|].
      apply lock_state_kept_upd_info. }
    clearbody st3.
    destruct ok; [|intros [= _ <-]; exact H3].
    intros Hfin. apply lock_state_kept_add_finish in Hfin.
    apply (lock_state_kept_trans st st3); assumption.
  - unfold label_create.
    pose proof (lock_state_kept_dm_alloc st) as Ha.
    destruct (dm_alloc st) as [ok st1]. cbn [snd] in Ha.
    destruct ok; [|intros [= _ <-]; exact Ha].
    pose proof (lock_state_kept_dm_zalloc st1) as Hz.
    destruct (dm_zalloc st1) as [[info|] st2]; cbn [snd] in Hz.
    2:{ intros [= _ <-]. apply (lock_state_kept_trans st st1); [exact Ha|].
        apply (lock_state_kept_trans st1 st2); [exact Hz|].
        apply lock_state_kept_print_log. }
    intros Hfin. apply lock_state_kept_add_finish in Hfin.
    apply (lock_state_kept_trans st st1); [exact Ha|].
    apply (lock_state_kept_trans st1 st2); [exact Hz|].
    eapply lock_state_kept_trans; [|exact Hfin].
    apply lock_state_kept_same; reflexivity.
Qed.

(** ** Further properties: registering a PV and the PV table *)

Lemma pv_index_kept_refl (st : lvmcache) : pv_index_kept st st.
Proof. split_and!; try reflexivity. intros i r Hr. exists r. auto. Qed.

Lemma pv_index_kept_trans (st1 st2 st3 : lvmcache) :
  pv_index_kept st1 st2 -> pv_index_kept st2 st3 -> pv_index_kept st1 st3.
Proof.
  intros (Hp & Hd & Hi) (Hp' & Hd' & Hi'). split_and!; try congruence.
  intros i r Hr. destruct (Hi i r Hr) as (r2 & Hr2 & Hdev).
  destruct (Hi' i r2 Hr2) as (r3 & Hr3 & Hdev').
  exists r3. split; congruence.
Qed.

Lemma pv_index_kept_same (st st' : lvmcache) :
  _pvid_hash st' = _pvid_hash st ->
  dev_pvid st' = dev_pvid st ->
  info_store st' = info_store st ->
  pv_index_kept st st'.
Proof.
  intros Hp Hd Hi. split_and!; try assumption.
  intros i r Hr. exists r. rewrite Hi. auto.
Qed.

Lemma pv_index_kept_upd_info (i : ptr) (f : lvmcache_info -> lvmcache_info)
    (st : lvmcache) :
  (forall r, info_dev (f r) = info_dev r) ->
  pv_index_kept st (upd_info i f st).
Proof.
  intros Hf. split_and!; try reflexivity.
  intros j r Hr. unfold upd_info. cbn.
  destruct (decide (j = i)) as [->|Hne].
  - rewrite lookup_alter_eq, Hr. cbn. eexists. split; [reflexivity|apply Hf].
  - rewrite lookup_alter_ne by congruence. exists r. auto.
Qed.

Lemma pv_index_kept_print_log lvl text args (st : lvmcache) :
  pv_index_kept st (print_log lvl text args st).
Proof. apply pv_index_kept_same; reflexivity. Qed.

Lemma pv_index_kept_dm_alloc (st : lvmcache) :
  pv_index_kept st (snd (dm_alloc st)).
Proof.
  unfold dm_alloc. destruct (heap_script st) as [|b rest];
    apply pv_index_kept_same; reflexivity.
Qed.

Lemma pv_index_kept_dm_hash_insert {V : Type} (t : option (gmap string V))
    (k : string) (v : V) (st : lvmcache) :
  pv_index_kept st (snd (dm_hash_insert t k v st)).
Proof.
  unfold dm_hash_insert. destruct t as [h|]; [|apply pv_index_kept_refl].
  destruct (h !! k); [apply pv_index_kept_refl|].
  pose proof (pv_index_kept_dm_alloc st) as H.
  destruct (dm_alloc st) as [[] st']; exact H.
Qed.

Lemma pv_index_kept_free_cached (vginfo : option ptr) (st : lvmcache) :
  pv_index_kept st (_free_cached_vgmetadata vginfo st).
Proof.
  destruct (free_cached_vgmetadata_effect vginfo st) as [Hs _].
  apply stores_only_globals in Hs as (Hi & _ & _ & Hp & _ & _ & Hd).
  apply pv_index_kept_same; assumption.
Qed.

Lemma pv_index_kept_detach (info : ptr) (st : lvmcache) :
  pv_index_kept st (_vginfo_detach_info info st).
Proof.
  unfold _vginfo_detach_info. cbv zeta.
  match goal with
  | |- pv_index_kept _ (upd_info _ _ ?s) =>
    apply (pv_index_kept_trans st s);
      [apply pv_index_kept_same; reflexivity
      |apply pv_index_kept_upd_info; reflexivity]
  end.
Qed.

Lemma pv_index_kept_attach (vginfo : option ptr) (info : ptr)
    (st : lvmcache) :
  pv_index_kept st (_vginfo_attach_info vginfo info st).
Proof.
  destruct vginfo as [v|]; [|apply pv_index_kept_refl].
  unfold _vginfo_attach_info. cbv zeta.
  apply (pv_index_kept_trans st (upd_info info (set_info_vginfo (Some v)) st));
    [apply pv_index_kept_upd_info; reflexivity
    |apply pv_index_kept_same; reflexivity].
Qed.

Lemma pv_index_kept_update_cache_vginfo_lock_state (vginfo : ptr)
    (locked : bool) (st : lvmcache) :
  pv_index_kept st (_update_cache_vginfo_lock_state vginfo locked st).
Proof.
  unfold _update_cache_vginfo_lock_state.
  destruct (vginfo_store st !! vginfo) as [r|]; [|apply pv_index_kept_refl].
  pose proof (update_cache_infos_lock_state_links (vginfo_infos r) locked true st)
    as [Hlinks _].
  pose proof (update_cache_infos_lock_state_infos_only (vginfo_infos r) locked
                true st) as Honly.
  destruct (_update_cache_infos_lock_state (vginfo_infos r) locked true st)
    as [valid st1].
  cbn [snd] in Hlinks, Honly.
  assert (H1 : pv_index_kept st st1).
  { split_and!; [rewrite Honly; reflexivity | rewrite Honly; reflexivity|].
    intros i ri Hi. destruct (Hlinks i ri Hi) as (r' & Hr' & _ & Hdev).
    exists r'. auto. }
  destruct (negb valid); [|exact H1].
  eapply pv_index_kept_trans; [exact H1 | apply pv_index_kept_free_cached].
Qed.

Lemma pv_index_kept_free_vginfo (vginfo : ptr) (st : lvmcache) :
  pv_index_kept st (snd (_free_vginfo vginfo st)).
Proof.
  unfold _free_vginfo.
  pose proof (pv_index_kept_free_cached (Some vginfo) st) as H0.
  set (st0 := _free_cached_vgmetadata (Some vginfo) st) in *. clearbody st0.
  destruct (vginfo_store st0 !! vginfo) as [r|]; [|exact H0].
  eapply pv_index_kept_trans; [exact H0|]. clear H0.
  match goal with
  | |- pv_index_kept _ (snd (let '(ok, s) := ?e in _)) =>
    assert (H1 : pv_index_kept st0 (snd e)); [|destruct e as [ok st1]]
  end.
  { destruct (dm_hash_lookup (_vgname_hash st0) (vginfo_vgname r))
      as [[|primary chain]|]; try apply pv_index_kept_refl.
    destruct (Nat.eqb vginfo primary).
    - destruct chain as [|c chain]; [apply pv_index_kept_same; reflexivity|].
      set (st1 := set__vgname_hash _ st0).
      pose proof (pv_index_kept_dm_hash_insert (_vgname_hash st1)
                    (vginfo_vgname r) (c :: chain) st1) as Hins.
      destruct (dm_hash_insert (_vgname_hash st1) (vginfo_vgname r)
                  (c :: chain) st1) as [[ok h'] st2]. simpl in Hins.
      assert (H01 : pv_index_kept st0 st2).
      { eapply pv_index_kept_trans; [|exact Hins].
        apply pv_index_kept_same; reflexivity. }
      destruct ok; simpl.
      + eapply pv_index_kept_trans; [exact H01|].
        apply pv_index_kept_same; reflexivity.
      + eapply pv_index_kept_trans; [exact H01|].
        eapply pv_index_kept_trans;
          [|apply pv_index_kept_print_log].
        apply pv_index_kept_same; reflexivity.
    - apply pv_index_kept_same; reflexivity. }
  simpl in H1. simpl.
  eapply pv_index_kept_trans; [exact H1|].
  destruct (negb _ && _ && _); apply pv_index_kept_same; reflexivity.
Qed.

Lemma pv_index_kept_drop_vginfo (info vginfo : option ptr) (st : lvmcache) :
  pv_index_kept st (snd (_drop_vginfo info vginfo st)).
Proof.
  unfold _drop_vginfo.
  set (st0 := match info with Some i => _ | None => st end).
  assert (H0 : pv_index_kept st st0).
  { unfold st0. destruct info; [apply pv_index_kept_detach|].
    apply pv_index_kept_refl. }
  clearbody st0. destruct vginfo as [v|]; [|exact H0].
  destruct (vginfo_store st0 !! v) as [r|]; [|exact H0].
  destruct (is_orphan_vg _ || _); [exact H0|].
  eapply pv_index_kept_trans; [exact H0|].
  apply pv_index_kept_free_vginfo.
Qed.

Lemma pv_index_kept_fold {A : Type} (f : lvmcache -> A -> lvmcache)
    (l : list A) (st : lvmcache) :
  (forall s a, pv_index_kept s (f s a)) ->
  pv_index_kept st (fold_left f l st).
Proof.
  intros Hf. revert st. induction l as [|a l IH]; intros st; simpl.
  - apply pv_index_kept_refl.
  - eapply pv_index_kept_trans; [apply Hf | apply IH].
Qed.

Lemma pv_index_kept_update_vgid (info vginfo : option ptr) (vgid : string)
    (st : lvmcache) :
  pv_index_kept st (snd (_lvmcache_update_vgid info vginfo vgid st)).
Proof.
  unfold _lvmcache_update_vgid.
  destruct vginfo as [v|]; [|apply pv_index_kept_refl].
  destruct (vginfo_store st !! v) as [r|]; [|apply pv_index_kept_refl].
  destruct (String.eqb _ _); [apply pv_index_kept_refl|].
  set (st1 := upd_vginfo v _ _).
  assert (H1 : pv_index_kept st st1).
  { unfold st1. destruct (negb _); apply pv_index_kept_same; reflexivity. }
  clearbody st1.
  pose proof (pv_index_kept_dm_hash_insert (_vgid_hash st1) (id_of vgid) v st1)
    as Hins.
  destruct (dm_hash_insert (_vgid_hash st1) (id_of vgid) v st1)
    as [[ok h'] st2]. simpl in Hins.
  assert (H2 : pv_index_kept st (set__vgid_hash h' st2)).
  { eapply pv_index_kept_trans; [exact H1|].
    eapply pv_index_kept_trans; [exact Hins|].
    apply pv_index_kept_same; reflexivity. }
  destruct ok; simpl; [exact H2|].
  eapply pv_index_kept_trans; [exact H2 | apply pv_index_kept_print_log].
Qed.

Lemma pv_index_kept_insert_vginfo (new_vginfo : ptr) (vgid : string)
    (vgstatus : Z) (creation_host : option string)
    (primary_vginfo : option ptr) (st : lvmcache) :
  pv_index_kept st
    (snd (_insert_vginfo new_vginfo vgid vgstatus creation_host
            primary_vginfo st)).
Proof.
  unfold _insert_vginfo.
  destruct (vginfo_store st !! new_vginfo) as [new_r|];
    [|apply pv_index_kept_refl].
  assert (Hins : forall chain s,
            pv_index_kept s
              (snd (let '(ok, h, s') :=
                      dm_hash_insert (_vgname_hash s) (vginfo_vgname new_r)
                        (new_vginfo :: chain) s in
                    if ok then (true, set__vgname_hash h s')
                    else (false,
                          log_error "cache_update: vg hash insertion failed: %s"
                            [vginfo_vgname new_r] (set__vgname_hash h s'))))).
  { intros chain s.
    pose proof (pv_index_kept_dm_hash_insert (_vgname_hash s)
                  (vginfo_vgname new_r) (new_vginfo :: chain) s) as H.
    destruct (dm_hash_insert (_vgname_hash s) (vginfo_vgname new_r)
                (new_vginfo :: chain) s) as [[ok h'] s']. simpl in H.
    assert (H' : pv_index_kept s (set__vgname_hash h' s')).
    { eapply pv_index_kept_trans; [exact H|].
      apply pv_index_kept_same; reflexivity. }
    destruct ok; simpl; [exact H'|].
    eapply pv_index_kept_trans; [exact H' | apply pv_index_kept_print_log]. }
  destruct (match primary_vginfo with
            | Some p => vginfo_store st !! p
            | None => None
            end) as [primary_r|]; [|apply Hins].
  destruct (id_write_format E vgid); [|apply pv_index_kept_refl].
  destruct (id_write_format E (vginfo_vgid primary_r));
    [|apply pv_index_kept_refl].
  destruct (duplicate_vgname_precedence _ _ _ _ _ _) as [use_new warning].
  set (st0 := match warning with Some w => _ | None => st end).
  assert (H0 : pv_index_kept st st0).
  { unfold st0. destruct warning; [|apply pv_index_kept_refl].
    apply pv_index_kept_same; reflexivity. }
  clearbody st0. destruct use_new; simpl.
  - apply (pv_index_kept_trans st st0); [exact H0|].
    apply (pv_index_kept_trans st0
             (set__vgname_hash
                (dm_hash_remove (_vgname_hash st0) (vginfo_vgname primary_r))
                st0));
      [apply pv_index_kept_same; reflexivity|].
    exact (Hins (default [] (dm_hash_lookup (_vgname_hash st)
                               (vginfo_vgname primary_r)))
             (set__vgname_hash
                (dm_hash_remove (_vgname_hash st0) (vginfo_vgname primary_r))
                st0)).
  - eapply pv_index_kept_trans; [exact H0|].
    apply pv_index_kept_same; reflexivity.
Qed.

Lemma pv_index_kept_drop_invalid_primaries (fuel : nat) (vgname : string)
    (st : lvmcache) (res : primary_scan) :
  drop_invalid_primaries fuel vgname st = Some res ->
  pv_index_kept st (primary_scan_state res).
Proof.
  revert st. induction fuel as [|fuel IH]; intros st; simpl;
    destruct (lvmcache_vginfo_from_vgname (Some vgname) None st) as [primary|];
    try (intros [= <-]; apply pv_index_kept_refl);
    destruct (vginfo_store st !! primary) as [r|];
    try (intros [= <-]; apply pv_index_kept_refl);
    destruct (negb _);
    try (intros [= <-]; apply pv_index_kept_refl);
    try discriminate.
  destruct (match vginfo_fmt r with Some fmt => _ | None => _ end)
    as [orphan_vginfo|lost].
  - set (st1 := move_infos_to orphan_vginfo (vginfo_infos r) st).
    assert (H1 : pv_index_kept st st1).
    { unfold st1, move_infos_to. apply pv_index_kept_fold. intros s a.
      eapply pv_index_kept_trans;
        [apply pv_index_kept_detach | apply pv_index_kept_attach]. }
    clearbody st1.
    pose proof (pv_index_kept_drop_vginfo None (Some primary) st1) as H2.
    destruct (_drop_vginfo None (Some primary) st1) as [ok st2]. simpl in H2.
    destruct ok.
    + intros Hres. eapply pv_index_kept_trans; [exact H1|].
      eapply pv_index_kept_trans; [exact H2|]. apply IH. exact Hres.
    + intros [= <-]. simpl.
      eapply pv_index_kept_trans; [exact H1 | exact H2].
  - intros [= <-]. simpl. apply pv_index_kept_print_log.
Qed.

Lemma pv_index_kept_dm_zalloc (st : lvmcache) :
  pv_index_kept st (snd (dm_zalloc st)).
Proof.
  unfold dm_zalloc. pose proof (pv_index_kept_dm_alloc st) as H.
  destruct (dm_alloc st) as [[] st1]; simpl in *; [|exact H].
  eapply pv_index_kept_trans; [exact H|].
  apply pv_index_kept_same; reflexivity.
Qed.

Lemma pv_index_kept_update_vgname (info : option ptr)
    (vgname : option string) (vgid : string) (vgstatus : Z)
    (creation_host : option string) (fmt : option format_type)
    (st : lvmcache) (ok : bool) (st' : lvmcache) :
  _lvmcache_update_vgname info vgname vgid vgstatus creation_host fmt st
  = Some (ok, st') ->
  pv_index_kept st st'.
Proof.
  unfold _lvmcache_update_vgname.
  destruct vgname as [name|]; [|intros [= _ <-]; apply pv_index_kept_refl].
  destruct (match match match info with Some i => _ | None => _ end with
                  | Some r => _ | None => _ end with
            | Some v => _ | None => false end);
    [intros [= _ <-]; apply pv_index_kept_refl|].
  set (st0 := match info with Some i => _ | None => st end).
  assert (H0 : pv_index_kept st st0).
  { unfold st0. destruct info as [i|]; [|apply pv_index_kept_refl].
    destruct (info_store st !! i); [|apply pv_index_kept_refl].
    apply pv_index_kept_drop_vginfo. }
  clearbody st0.
  assert (Hfinish : forall vginfo s,
            pv_index_kept s
              (snd (let '(ok, s1) :=
                      match info with
                      | Some i => (true, _vginfo_attach_info (Some vginfo) i s)
                      | None => _lvmcache_update_vgid None (Some vginfo) vgid s
                      end in
                    if negb ok then (false, s1)
                    else
                      (true,
                       upd_vginfo vginfo (set_vginfo_fmt fmt)
                         (_update_cache_vginfo_lock_state vginfo
                            (lvmcache_vgname_is_locked name s1) s1))))).
  { intros vginfo s.
    match goal with
    | |- pv_index_kept _ (snd (let '(ok, s1) := ?e in _)) =>
      assert (H1 : pv_index_kept s (snd e)); [|destruct e as [ok1 s1]]
    end.
    { destruct info; [apply pv_index_kept_attach|].
      apply pv_index_kept_update_vgid. }
    simpl in H1. destruct ok1; simpl; [|exact H1].
    eapply pv_index_kept_trans; [exact H1|].
    eapply pv_index_kept_trans;
      [apply pv_index_kept_update_cache_vginfo_lock_state|].
    apply pv_index_kept_same; reflexivity. }
  destruct (lvmcache_vginfo_from_vgname (Some name) (Some vgid) st0)
    as [vginfo|].
  { intros [= Hres]. apply (pv_index_kept_trans st st0); [exact H0|].
    change st' with (snd (ok, st')). rewrite <- Hres.
    exact (Hfinish vginfo st0). }
  pose proof (pv_index_kept_dm_zalloc st0) as Hz.
  destruct (dm_zalloc st0) as [[vginfo|] st1]; simpl in Hz.
  2:{ intros [= _ <-]. eapply pv_index_kept_trans; [exact H0|].
      eapply pv_index_kept_trans; [exact Hz|].
      apply pv_index_kept_print_log. }
  pose proof (pv_index_kept_dm_alloc st1) as Ha.
  destruct (dm_alloc st1) as [[] st2]; simpl in Ha.
  2:{ intros [= _ <-]. eapply pv_index_kept_trans; [exact H0|].
      eapply pv_index_kept_trans; [exact Hz|].
      eapply pv_index_kept_trans; [exact Ha|].
      apply pv_index_kept_print_log. }
  cbn [negb].
  set (st3 := set_vginfo_store _ st2).
  assert (H3 : pv_index_kept st st3).
  { eapply pv_index_kept_trans; [exact H0|].
    eapply pv_index_kept_trans; [exact Hz|].
    eapply pv_index_kept_trans; [exact Ha|].
    apply pv_index_kept_same; reflexivity. }
  clearbody st3.
  destruct (drop_invalid_primaries (S (chain_length name st3)) name st3)
    as [[primary st4|freed st4]|] eqn:Hscan; [| |discriminate].
  - apply pv_index_kept_drop_invalid_primaries in Hscan. simpl in Hscan.
    pose proof (pv_index_kept_insert_vginfo vginfo vgid vgstatus
                  creation_host primary st4) as Hins.
    destruct (_insert_vginfo vginfo vgid vgstatus creation_host primary st4)
      as [[] st5]; simpl in Hins |- *.
    + intros [= Hres].
      set (st6 := if is_orphan_vg name then _ else _) in *.
      assert (H6 : pv_index_kept st st6).
      { eapply pv_index_kept_trans; [exact H3|].
        eapply pv_index_kept_trans; [exact Hscan|].
        eapply pv_index_kept_trans; [exact Hins|].
        unfold st6. destruct (is_orphan_vg name);
          apply pv_index_kept_same; reflexivity. }
      apply (pv_index_kept_trans st st6); [exact H6|].
      change st' with (snd (ok, st')). rewrite <- Hres.
      exact (Hfinish vginfo st6).
    + intros [= _ <-].
      eapply pv_index_kept_trans; [exact H3|].
      eapply pv_index_kept_trans; [exact Hscan|].
      eapply pv_index_kept_trans; [exact Hins|].
      apply pv_index_kept_same; reflexivity.
  - apply pv_index_kept_drop_invalid_primaries in Hscan. simpl in Hscan.
    intros [= _ <-].
    eapply pv_index_kept_trans; [exact H3|].
    eapply pv_index_kept_trans; [exact Hscan|].
    destruct freed; [apply pv_index_kept_same; reflexivity|].
    apply pv_index_kept_refl.
Qed.

Lemma pv_index_kept_upd_vginfo (v : ptr)
    (f : lvmcache_vginfo -> lvmcache_vginfo) (st : lvmcache) :
  pv_index_kept st (upd_vginfo v f st).
Proof. apply pv_index_kept_same; reflexivity. Qed.

Lemma pv_index_kept_update_vgstatus (info : option ptr) (vgstatus : Z)
    (creation_host lock_type : option string) (st : lvmcache) :
  pv_index_kept st
    (snd (_lvmcache_update_vgstatus info vgstatus creation_host lock_type st)).
Proof.
  unfold _lvmcache_update_vgstatus.
  destruct (match info with Some i => _ | None => None end) as [v|];
    [|apply pv_index_kept_refl].
  set (st1 := upd_vginfo v (set_vginfo_status vgstatus) st).
  assert (H1 : pv_index_kept st st1) by apply pv_index_kept_upd_vginfo.
  clearbody st1.
  assert (Hlock : forall s lt,
            pv_index_kept s
              (snd (let '(ok, s') := dm_alloc s in
                    let s' :=
                      upd_vginfo v
                        (set_vginfo_lock_type (if ok then Some lt else None))
                        s' in
                    if ok then (true, s')
                    else (false,
                          log_error "cache creation host alloc failed for %s"
                            [lt] s')))).
  { intros s lt.
    pose proof (pv_index_kept_dm_alloc s) as Ha.
    destruct (dm_alloc s) as [ok s']. cbn [snd] in Ha.
    assert (H' : pv_index_kept s
                   (upd_vginfo v
                      (set_vginfo_lock_type (if ok then Some lt else None)) s')).
    { apply (pv_index_kept_trans s s'); [exact Ha|].
      apply pv_index_kept_upd_vginfo. }
    destruct ok; cbn [snd]; [exact H'|].
    eapply pv_index_kept_trans; [exact H' | apply pv_index_kept_print_log]. }
  apply (pv_index_kept_trans st st1); [exact H1|].
  cbv zeta.
  destruct creation_host as [host|].
  2:{ destruct lock_type as [lt|]; [|apply pv_index_kept_refl].
      destruct (bool_decide _); [apply pv_index_kept_refl|].
      exact (Hlock st1 lt). }
  destruct (bool_decide _).
  { destruct lock_type as [lt|]; [|apply pv_index_kept_refl].
    destruct (bool_decide _); [apply pv_index_kept_refl|].
    exact (Hlock st1 lt). }
  pose proof (pv_index_kept_dm_alloc st1) as Ha.
  destruct (dm_alloc st1) as [ok s']. cbn [snd] in Ha.
  set (s2 := upd_vginfo v _ s').
  assert (H2 : pv_index_kept st1 s2).
  { apply (pv_index_kept_trans st1 s'); [exact Ha|].
    apply pv_index_kept_upd_vginfo. }
  clearbody s2.
  destruct ok.
  - apply (pv_index_kept_trans st1 s2); [exact H2|].
    destruct lock_type as [lt|]; [|apply pv_index_kept_refl].
    destruct (bool_decide _); [apply pv_index_kept_refl|].
    exact (Hlock s2 lt).
  - cbn [snd].
    eapply pv_index_kept_trans; [exact H2 | apply pv_index_kept_print_log].
Qed.

Lemma pv_index_kept_update_vg_mda_info (info : option ptr)
    (mda_checksum mda_size : Z) (st : lvmcache) :
  pv_index_kept st
    (snd (_lvmcache_update_vg_mda_info info mda_checksum mda_size st)).
Proof.
  unfold _lvmcache_update_vg_mda_info.
  destruct (match info with Some i => _ | None => None end) as [v|];
    [|apply pv_index_kept_refl].
  destruct (vginfo_store st !! v) as [r|]; [|apply pv_index_kept_refl].
  destruct (_ || _); [apply pv_index_kept_refl|].
  apply pv_index_kept_same; reflexivity.
Qed.

Lemma pv_index_kept_update_vgname_and_id (info : ptr)
    (vgsummary : lvmcache_vgsummary) (st : lvmcache) (ok : bool)
    (st' : lvmcache) :
  lvmcache_update_vgname_and_id info vgsummary st = Some (ok, st') ->
  pv_index_kept st st'.
Proof.
  unfold lvmcache_update_vgname_and_id.
  destruct (info_store st !! info) as [r|];
    [|intros [= _ <-]; apply pv_index_kept_refl].
  cbv zeta.
  set (pre := if negb _ && negb _ then _ else _).
  assert (H0 : pv_index_kept st (snd pre)).
  { unfold pre. destruct (negb _ && negb _); cbn [snd];
      [apply pv_index_kept_print_log | apply pv_index_kept_refl]. }
  destruct pre as [[vgname vgid] st0]. cbn [snd] in H0.
  destruct (_ && _ && _ && _ && _); [intros [= _ <-]; exact H0|].
  set (st1 := if is_orphan_vg_opt vgname && _ && _ then _ else st0).
  assert (H1 : pv_index_kept st0 st1).
  { unfold st1. destruct (_ && _ && _); [|apply pv_index_kept_refl].
    destruct (info_vginfo r); [|apply pv_index_kept_refl].
    apply pv_index_kept_upd_vginfo. }
  clearbody st1.
  set (st2 := if negb (is_orphan_vg_opt vgname) then _ else st1).
  assert (H2 : pv_index_kept st1 st2).
  { unfold st2. destruct (negb _); [|apply pv_index_kept_refl].
    apply pv_index_kept_upd_info; reflexivity. }
  clearbody st2.
  assert (H02 : pv_index_kept st st2).
  { apply (pv_index_kept_trans st st0); [exact H0|].
    apply (pv_index_kept_trans st0 st1); [exact H1 | exact H2]. }
  destruct (_lvmcache_update_vgname (Some info) vgname vgid
              (vgs_vgstatus vgsummary) (vgs_creation_host vgsummary)
              (info_fmt r) st2) as [[[] st3]|] eqn:Hname; [| |discriminate].
  2:{ intros [= _ <-]. apply (pv_index_kept_trans st st2); [exact H02|].
      exact (pv_index_kept_update_vgname _ _ _ _ _ _ _ _ _ Hname). }
  apply pv_index_kept_update_vgname in Hname.
  set (vginfo := match info_store st3 !! info with
                 | Some r0 => info_vginfo r0 | None => None end).
  pose proof (pv_index_kept_update_vgid (Some info) vginfo vgid st3) as H4.
  destruct (_lvmcache_update_vgid (Some info) vginfo vgid st3) as [ok4 st4].
  cbn [snd] in H4.
  assert (H04 : pv_index_kept st st4).
  { apply (pv_index_kept_trans st st2); [exact H02|].
    apply (pv_index_kept_trans st2 st3); [exact Hname | exact H4]. }
  destruct ok4; cbn [negb]; [|intros [= _ <-]; exact H04].
  pose proof (pv_index_kept_update_vgstatus (Some info)
                (vgs_vgstatus vgsummary) (vgs_creation_host vgsummary)
                (vgs_lock_type vgsummary) st4) as H5.
  destruct (_lvmcache_update_vgstatus (Some info) (vgs_vgstatus vgsummary)
              (vgs_creation_host vgsummary) (vgs_lock_type vgsummary) st4)
    as [ok5 st5].
  cbn [snd] in H5.
  destruct ok5; cbn [negb];
    [|intros [= _ <-]; apply (pv_index_kept_trans st st4); assumption].
  pose proof (pv_index_kept_update_vg_mda_info (Some info)
                (vgs_mda_checksum vgsummary) (vgs_mda_size vgsummary) st5)
    as H6.
  destruct (_lvmcache_update_vg_mda_info (Some info)
              (vgs_mda_checksum vgsummary) (vgs_mda_size vgsummary) st5)
    as [ok6 st6].
  cbn [snd] in H6. intros [= _ <-].
  apply (pv_index_kept_trans st st4); [exact H04|].
  apply (pv_index_kept_trans st4 st5); assumption.
Qed.

Lemma id_of_length (s : string) : (String.length (id_of s) <= ID_LEN)%nat.
Proof.
  unfold id_of. generalize ID_LEN. intros n. revert s.
  induction n as [|n IH]; intros [|c s]; simpl; try lia.
  specialize (IH s). lia.
Qed.

(** What [lvmcache_add] does once it has the record at hand leaves, when it
    answers with a record, that record in the PV table under the
    identifier, with its device carrying the identifier. *)
Lemma add_finish_indexes (l : labeller) (pvid_s : string)
    (vgsummary : lvmcache_vgsummary) (existing : bool) (info : ptr)
    (r : lvmcache_info) (st : lvmcache) (res : ptr) (st' : lvmcache) :
  info_store st !! info = Some r ->
  is_Some (_pvid_hash st) ->
  (String.length pvid_s <= ID_LEN)%nat ->
  lvmcache_add_finish l pvid_s vgsummary existing info st
  = Some (Some res, st') ->
  res = info
  /\ dm_hash_lookup (_pvid_hash st') pvid_s = Some info
  /\ (exists r', info_store st' !! info = Some r'
        /\ info_dev r' = info_dev r)
  /\ pvid_of_dev (info_dev r) st' = pvid_s.
Proof.
  intros Hr [h Hh] Hlen. unfold lvmcache_add_finish. cbv zeta.
  set (st1 := upd_info info _ (upd_info info _ st)).
  assert (H1 : exists r1, info_store st1 !! info = Some r1
                 /\ info_dev r1 = info_dev r).
  { unfold st1, upd_info. cbn. rewrite !lookup_alter_eq, Hr. cbn.
    eexists. split; reflexivity. }
  destruct H1 as (r1 & Hr1 & Hdev1).
  assert (Hh1 : _pvid_hash st1 = Some h) by exact Hh.
  clearbody st1.
  destruct (_lvmcache_update_pvid info pvid_s st1) as [ok st2] eqn:Hpvid.
  destruct ok; cbn [negb]; [|discriminate].
  pose proof (update_pvid_success info r1 pvid_s st1 h Hr1 Hh1 Hlen) as Hsucc.
  rewrite Hpvid in Hsucc. cbn [fst snd] in Hsucc.
  destruct (Hsucc eq_refl) as (Hstore & h' & Hh' & Hnew & Hdev & _).
  destruct (lvmcache_update_vgname_and_id info vgsummary st2)
    as [[[] st3]|] eqn:Hname; [| |discriminate].
  2:{ destruct existing; discriminate. }
  intros [= <- <-].
  apply pv_index_kept_update_vgname_and_id in Hname
    as (Hp & Hd & Hinfos).
  assert (Hr2 : info_store st2 !! info = Some r1)
    by (rewrite Hstore; exact Hr1).
  destruct (Hinfos info r1 Hr2) as (r3 & Hr3 & Hdev3).
  split_and!.
  - reflexivity.
  - rewrite Hp, Hh'. exact Hnew.
  - exists r3. split; [exact Hr3 | congruence].
  - unfold pvid_of_dev in *. rewrite Hd, <- Hdev1. exact Hdev.
Qed.

(** X27.  When [lvmcache_add], on a cache whose tables exist, answers with
    a record, [lvmcache_info_from_pvid] finds that record under the
    identifier it was given, the record is bound to the device it was
    given, and that device carries the first [ID_LEN] characters of the
    identifier. *)
Theorem lvmcache_add_indexes_the_record (l : labeller) (pvid : string)
    (dev : device) (vgname vgid : option string) (vgstatus : Z)
    (st : lvmcache) (info : ptr) (st' : lvmcache) :
  is_Some (_vgname_hash st) ->
  is_Some (_pvid_hash st) ->
  lvmcache_add l pvid dev vgname vgid vgstatus st = Some (Some info, st') ->
  lvmcache_info_from_pvid (Some pvid) false st' = Some info
  /\ (exists r, info_store st' !! info = Some r /\ info_dev r = dev)
  /\ pvid_of_dev dev st' = id_of pvid.
Proof.
  intros Hinit Hpv. unfold lvmcache_add. cbv zeta.
  rewrite (bool_decide_eq_true_2 _ Hinit). cbn [negb].
  assert (Hfin : forall vgsummary existing i ri s,
            info_store s !! i = Some ri -> info_dev ri = dev ->
            is_Some (_pvid_hash s) ->
            lvmcache_add_finish l (id_of pvid) vgsummary existing i s
            = Some (Some info, st') ->
            lvmcache_info_from_pvid (Some pvid) false st' = Some info
            /\ (exists r, info_store st' !! info = Some r /\ info_dev r = dev)
            /\ pvid_of_dev dev st' = id_of pvid).
  { intros vgsummary existing i ri s Hri Hdev Hs Hadd.
    destruct (add_finish_indexes _ _ _ _ _ ri _ _ _ Hri Hs (id_of_length pvid)
                Hadd) as (-> & Hlook & (r' & Hr' & Hdev') & Hcarry).
    split_and!.
    - unfold lvmcache_info_from_pvid. unfold dm_hash_lookup in Hlook.
      destruct (_pvid_hash st') as [h'|]; [|discriminate].
      rewrite Hlook. reflexivity.
    - exists r'. split; [exact Hr' | congruence].
    - rewrite <- Hdev. exact Hcarry. }
  destruct (match lvmcache_info_from_pvid (Some (id_of pvid)) false st with
            | Some existing => Some existing
            | None => _
            end) as [existing|].
  - destruct (info_store st !! existing) as [r|] eqn:Hr; [|discriminate].
    destruct (negb (Nat.eqb (info_dev r) dev)); [discriminate|].
    set (st1 := upd_info existing (set_info_dev dev) st).
    assert (H1 : info_store st1 !! existing = Some (set_info_dev dev r)
                 /\ is_Some (_pvid_hash st1)).
    { unfold st1, upd_info. cbn. rewrite lookup_alter_eq, Hr.
      split; [reflexivity | exact Hpv]. }
    destruct H1 as (Hr1 & Hpv1). clearbody st1.
    destruct (match info_label r with Some lbl => _ | None => false end).
    { apply (Hfin _ true existing _ st1 Hr1 eq_refl Hpv1). }
    unfold label_create. destruct (dm_alloc st1) as [ok st2] eqn:Ha.
    assert (H2 : info_store st2 = info_store st1
                 /\ _pvid_hash st2 = _pvid_hash st1).
    { revert Ha. unfold dm_alloc.
      destruct (heap_script st1) as [|b rest]; intros [= _ <-];
        split; reflexivity. }
    destruct H2 as (Hi2 & Hp2).
    destruct ok; [|discriminate].
    apply (Hfin _ true existing
             (set_info_label (Some {| label_labeller := labeller_id l |})
                (set_info_dev dev r))).
    + unfold upd_info. cbn. rewrite lookup_alter_eq, Hi2, Hr1. reflexivity.
    + reflexivity.
    + change (is_Some (_pvid_hash st2)). rewrite Hp2. exact Hpv1.
  - unfold label_create. destruct (dm_alloc st) as [ok st1] eqn:Ha.
    assert (H1 : _pvid_hash st1 = _pvid_hash st).
    { revert Ha. unfold dm_alloc.
      destruct (heap_script st) as [|b rest]; intros [= _ <-]; reflexivity. }
    destruct ok; [|discriminate].
    unfold dm_zalloc. destruct (dm_alloc st1) as [ok2 st2] eqn:Ha2.
    assert (H2 : _pvid_hash st2 = _pvid_hash st1).
    { revert Ha2. unfold dm_alloc.
      destruct (heap_script st1) as [|b rest]; intros [= _ <-]; reflexivity. }
    destruct ok2; [|discriminate].
    intros Hadd.
    refine (Hfin _ false _ _ _ _ _ _ Hadd).
    + cbn. apply lookup_insert_eq.
    + reflexivity.
    + change (is_Some (_pvid_hash st2)). rewrite H2, H1. exact Hpv.
Qed.

(** ** Further properties: the teardown *)

Lemma teardown_kept_refl (st : lvmcache) : teardown_kept st st.
Proof. split; auto. Qed.

Lemma teardown_kept_trans (st1 st2 st3 : lvmcache) :
  teardown_kept st1 st2 -> teardown_kept st2 st3 -> teardown_kept st1 st3.
Proof. intros [Hs Hv] [Hs' Hv']. split; [congruence | auto]. Qed.

Lemma teardown_kept_same (st st' : lvmcache) :
  _has_scanned st' = _has_scanned st ->
  _vgid_hash st' = _vgid_hash st ->
  teardown_kept st st'.
Proof. intros Hs Hv. split; [exact Hs | congruence]. Qed.

Lemma teardown_kept_print_log lvl text args (st : lvmcache) :
  teardown_kept st (print_log lvl text args st).
Proof. apply teardown_kept_same; reflexivity. Qed.

Lemma teardown_kept_dm_alloc (st : lvmcache) :
  teardown_kept st (snd (dm_alloc st)).
Proof.
  unfold dm_alloc. destruct (heap_script st) as [|b rest];
    apply teardown_kept_same; reflexivity.
Qed.

Lemma teardown_kept_dm_hash_insert {V : Type} (t : option (gmap string V))
    (k : string) (v : V) (st : lvmcache) :
  teardown_kept st (snd (dm_hash_insert t k v st)).
Proof.
  unfold dm_hash_insert. destruct t as [h|]; [|apply teardown_kept_refl].
  destruct (h !! k); [apply teardown_kept_refl|].
  pose proof (teardown_kept_dm_alloc st) as H.
  destruct (dm_alloc st) as [[] st']; exact H.
Qed.

Lemma teardown_kept_free_cached (vginfo : option ptr) (st : lvmcache) :
  teardown_kept st (_free_cached_vgmetadata vginfo st).
Proof.
  destruct (free_cached_vgmetadata_effect vginfo st) as [Hs _].
  apply teardown_kept_same; rewrite Hs; reflexivity.
Qed.

Lemma teardown_kept_free_vginfo (vginfo : ptr) (st : lvmcache) :
  teardown_kept st (snd (_free_vginfo vginfo st)).
Proof.
  unfold _free_vginfo.
  pose proof (teardown_kept_free_cached (Some vginfo) st) as H0.
  set (st0 := _free_cached_vgmetadata (Some vginfo) st) in *. clearbody st0.
  destruct (vginfo_store st0 !! vginfo) as [r|]; [|exact H0].
  eapply teardown_kept_trans; [exact H0|]. clear H0.
  match goal with
  | |- teardown_kept _ (snd (let '(ok, s) := ?e in _)) =>
    assert (H1 : teardown_kept st0 (snd e)); [|destruct e as [ok st1]]
  end.
  { destruct (dm_hash_lookup (_vgname_hash st0) (vginfo_vgname r))
      as [[|primary chain]|]; try apply teardown_kept_refl.
    destruct (Nat.eqb vginfo primary).
    - destruct chain as [|c chain]; [apply teardown_kept_same; reflexivity|].
      set (st1 := set__vgname_hash _ st0).
      pose proof (teardown_kept_dm_hash_insert (_vgname_hash st1)
                    (vginfo_vgname r) (c :: chain) st1) as Hins.
      destruct (dm_hash_insert (_vgname_hash st1) (vginfo_vgname r)
                  (c :: chain) st1) as [[ok h'] st2]. simpl in Hins.
      assert (H01 : teardown_kept st0 st2).
      { eapply teardown_kept_trans; [|exact Hins].
        apply teardown_kept_same; reflexivity. }
      destruct ok; simpl.
      + eapply teardown_kept_trans; [exact H01|].
        apply teardown_kept_same; reflexivity.
      + eapply teardown_kept_trans; [exact H01|].
        eapply teardown_kept_trans;
          [|apply teardown_kept_print_log].
        apply teardown_kept_same; reflexivity.
    - apply teardown_kept_same; reflexivity. }
  simpl in H1. simpl.
  eapply teardown_kept_trans; [exact H1|].
  destruct (negb _ && _ && _); [|apply teardown_kept_same; reflexivity].
  split; [reflexivity|]. cbn. intros ->. reflexivity.
Qed.

Lemma fold_left_invariant {A : Type} (P : lvmcache -> Prop)
    (f : lvmcache -> A -> lvmcache) (l : list A) (st : lvmcache) :
  P st -> (forall s a, P s -> P (f s a)) -> P (fold_left f l st).
Proof.
  intros H0 Hstep. revert st H0.
  induction l as [|a l IH]; intros st H0; cbn [fold_left]; auto.
Qed.

(** What the teardown has reached before it comes to the lock table: no
    scan is on record, the VG identifier table is gone, and the PV table,
    the lock table and the record of a held global lock are the given
    ones. *)
Lemma destroy_entry_tables (pv : option (gmap string ptr))
    (lk : option (gmap string unit)) (g : bool) (info : ptr) (s : lvmcache) :
  let P s :=
    _has_scanned s = false /\ _vgid_hash s = None /\ _pvid_hash s = pv
    /\ _lock_hash s = lk /\ _vg_global_lock_held s = g in
  P s -> P (_lvmcache_destroy_entry info s).
Proof.
  cbv zeta. unfold _lvmcache_destroy_entry.
  destruct (info_store s !! info); auto.
Qed.

Lemma destroy_vgnamelist_tables (pv : option (gmap string ptr))
    (lk : option (gmap string unit)) (g : bool) (chain : list ptr)
    (s : lvmcache) :
  let P s :=
    _has_scanned s = false /\ _vgid_hash s = None /\ _pvid_hash s = pv
    /\ _lock_hash s = lk /\ _vg_global_lock_held s = g in
  P s -> P (_lvmcache_destroy_vgnamelist chain s).
Proof.
  cbv zeta. unfold _lvmcache_destroy_vgnamelist. intros H0.
  apply fold_left_invariant; [exact H0|]. clear s H0.
  intros s v (Hs & Hv & Hp & Hl & Hg).
  destruct (teardown_kept_free_vginfo v s) as (Hs' & Hv').
  destruct (lock_state_kept_free_vginfo v s) as (Hl' & Hg' & _).
  destruct (pv_index_kept_free_vginfo v s) as (Hp' & _).
  split_and!; [congruence | auto | congruence | congruence | congruence].
Qed.

(** X28.  [lvmcache_destroy] without [retain_orphans] always returns, and
    leaves no table: the four tables are gone, the list of VG records is
    empty, no scan is on record, so no PV identifier, VG name or VG
    identifier is found and no name is reported as locked; with [reset],
    when the lock table existed, no held global lock is on record
    either. *)
Theorem destroy_leaves_no_table (cmd : cmd_context) (reset : bool)
    (st : lvmcache) :
  exists st',
    lvmcache_destroy cmd false reset st = Some st'
    /\ (_pvid_hash st' = None /\ _vgid_hash st' = None
        /\ _vgname_hash st' = None /\ _lock_hash st' = None)
    /\ _vginfos st' = []
    /\ _has_scanned st' = false
    /\ (forall pvid valid_only,
          lvmcache_info_from_pvid pvid valid_only st' = None)
    /\ (forall vgname vgid, lvmcache_vginfo_from_vgname vgname vgid st' = None)
    /\ (forall vgname, lvmcache_vgname_is_locked vgname st' = false)
    /\ (reset = true -> is_Some (_lock_hash st) ->
        _vg_global_lock_held st' = false).
Proof.
  unfold lvmcache_destroy. cbv zeta. eexists. split; [reflexivity|].
  set (P := fun pv lk g s =>
              _has_scanned s = false /\ _vgid_hash s = None
              /\ _pvid_hash s = pv /\ _lock_hash s = lk
              /\ _vg_global_lock_held s = g).
  set (st1 := set__vgid_hash None (set__has_scanned false st)).
  assert (H1 : P (_pvid_hash st) (_lock_hash st) (_vg_global_lock_held st) st1)
    by (unfold P; split_and!; reflexivity).
  clearbody st1.
  set (st2 := match _pvid_hash st1 with Some h => _ | None => st1 end).
  assert (H2 : P None (_lock_hash st) (_vg_global_lock_held st) st2).
  { unfold st2. destruct (_pvid_hash st1) as [h|] eqn:Hh.
    - assert (Hf : P (Some h) (_lock_hash st) (_vg_global_lock_held st)
                     (fold_left
                        (fun s info => _lvmcache_destroy_entry info s)
                        (map snd (map_to_list h)) st1)).
      { apply fold_left_invariant.
        - destruct H1 as (Ha & Hb & _ & Hc & Hd). unfold P.
          split_and!; [exact Ha | exact Hb | exact Hh | exact Hc | exact Hd].
        - intros s a. apply destroy_entry_tables. }
      destruct Hf as (Ha & Hb & _ & Hc & Hd). unfold P.
      split_and!; [exact Ha | exact Hb | reflexivity | exact Hc | exact Hd].
    - destruct H1 as (Ha & Hb & _ & Hc & Hd). unfold P.
      split_and!; [exact Ha | exact Hb | exact Hh | exact Hc | exact Hd]. }
  clearbody st2. clear H1 st1.
  set (st3 := match _vgname_hash st2 with Some h => _ | None => st2 end).
  assert (H3 : P None (_lock_hash st) (_vg_global_lock_held st) st3
               /\ _vgname_hash st3 = None).
  { unfold st3. destruct (_vgname_hash st2) as [h|] eqn:Hh; [|split; auto].
    split; [|reflexivity].
    assert (Hf : P None (_lock_hash st) (_vg_global_lock_held st)
                   (fold_left
                      (fun s chain => _lvmcache_destroy_vgnamelist chain s)
                      (map snd (map_to_list h)) st2)).
    { apply fold_left_invariant; [exact H2|].
      intros s a. apply destroy_vgnamelist_tables. }
    exact Hf. }
  destruct H3 as ((Hs3 & Hv3 & Hp3 & Hl3 & Hg3) & Hn3).
  clearbody st3. clear H2 st2.
  set (st4 := match _lock_hash st3 with Some h => _ | None => st3 end).
  assert (H4 : _has_scanned st4 = false /\ _vgid_hash st4 = None
               /\ _pvid_hash st4 = None /\ _vgname_hash st4 = None
               /\ _lock_hash st4 = None
               /\ (reset = true -> is_Some (_lock_hash st) ->
                   _vg_global_lock_held st4 = false)).
  { unfold st4. destruct (_lock_hash st3) as [h|] eqn:Hh.
    - destruct reset.
      + split_and!; auto.
      + cbn.
        assert (Hf : forall l s,
                  _has_scanned s = false /\ _vgid_hash s = None
                  /\ _pvid_hash s = None /\ _vgname_hash s = None ->
                  let s' :=
                    fold_left
                      (fun s vgname => _lvmcache_destroy_lockname vgname s)
                      l s in
                  _has_scanned s' = false /\ _vgid_hash s' = None
                  /\ _pvid_hash s' = None /\ _vgname_hash s' = None).
        { intros l s Hs. cbv zeta.
          apply (fold_left_invariant
                   (fun s => _has_scanned s = false /\ _vgid_hash s = None
                             /\ _pvid_hash s = None /\ _vgname_hash s = None));
            [exact Hs|].
          intros s0 a H0. unfold _lvmcache_destroy_lockname.
          destruct (String.eqb a VG_GLOBAL); exact H0. }
        destruct (Hf (map fst (map_to_list h)) st3) as (? & ? & ? & ?);
          [split_and!; assumption|].
        split_and!; auto. discriminate.
    - rewrite <- Hl3. split_and!; auto.
      intros _ [? ?]. discriminate. }
  destruct H4 as (Hs4 & Hv4 & Hp4 & Hn4 & Hl4 & Hg4).
  clearbody st4.
  set (st5 := if negb _ then _ else st4).
  assert (H5 : _has_scanned st5 = false /\ _vgid_hash st5 = None
               /\ _pvid_hash st5 = None /\ _vgname_hash st5 = None
               /\ _lock_hash st5 = None
               /\ _vg_global_lock_held st5 = _vg_global_lock_held st4).
  { unfold st5. destruct (negb _); split_and!; auto. }
  destruct H5 as (Hs5 & Hv5 & Hp5 & Hn5 & Hl5 & Hg5). clearbody st5.
  split_and!; cbn; auto.
  - intros pvid valid_only. unfold lvmcache_info_from_pvid. cbn.
    rewrite Hp5. reflexivity.
  - intros vgname vgid.
    unfold lvmcache_vginfo_from_vgname, lvmcache_vginfo_from_vgid. cbn.
    rewrite Hn5, Hv5. destruct vgname; reflexivity.
  - intros vgname. unfold lvmcache_vgname_is_locked. cbn.
    rewrite Hl5. reflexivity.
  - intros Hr Hsome. rewrite Hg5. auto.
Qed.

(** ** Further properties: the status of a VG *)

(** The VG record of the PV after [_lvmcache_update_vgstatus]. *)
Lemma update_vgstatus_record (info vginfo : ptr) (r : lvmcache_info)
    (vr : lvmcache_vginfo) (vgstatus : Z)
    (creation_host lock_type : option string) (st : lvmcache) :
  info_store st !! info = Some r ->
  info_vginfo r = Some vginfo ->
  vginfo_store st !! vginfo = Some vr ->
  let res :=
    _lvmcache_update_vgstatus (Some info) vgstatus creation_host lock_type st in
  exists vr',
    vginfo_store (snd res) !! vginfo = Some vr'
    /\ _vginfos (snd res) = _vginfos st
    /\ vginfo_status vr' = vgstatus
    /\ vginfo_vgname vr' = vginfo_vgname vr
    /\ (fst res = true ->
        (forall host, creation_host = Some host ->
                      vginfo_creation_host vr' = Some host)
        /\ (forall lt, lock_type = Some lt -> vginfo_lock_type vr' = Some lt)).
Proof.
  intros Hr Hv Hvr. cbv zeta. unfold _lvmcache_update_vgstatus.
  rewrite Hr, Hv. cbv zeta.
  set (st1 := upd_vginfo vginfo (set_vginfo_status vgstatus) st).
  assert (H1 : vginfo_store st1 !! vginfo
               = Some (set_vginfo_status vgstatus vr))
    by (unfold st1, upd_vginfo; cbn; rewrite lookup_alter_eq, Hvr; reflexivity).
  assert (Hl1 : _vginfos st1 = _vginfos st) by reflexivity.
  clearbody st1. rewrite H1.
  cbn [vginfo_lock_type vginfo_creation_host set_vginfo_status].
  assert (Hlock : forall s x,
            vginfo_store s !! vginfo = Some x ->
            _vginfos s = _vginfos st ->
            vginfo_status x = vgstatus ->
            vginfo_vgname x = vginfo_vgname vr ->
            vginfo_lock_type x = vginfo_lock_type vr ->
            (forall host, creation_host = Some host ->
                          vginfo_creation_host x = Some host) ->
            let res :=
              match lock_type with
              | None => (true, s)
              | Some lt =>
                if bool_decide (vginfo_lock_type vr = Some lt) then (true, s)
                else
                  let '(ok, s') := dm_alloc s in
                  let s' :=
                    upd_vginfo vginfo
                      (set_vginfo_lock_type (if ok then Some lt else None))
                      s' in
                  if ok then (true, s')
                  else (false,
                        log_error "cache creation host alloc failed for %s"
                          [lt] s')
              end in
            exists vr',
              vginfo_store (snd res) !! vginfo = Some vr'
              /\ _vginfos (snd res) = _vginfos st
              /\ vginfo_status vr' = vgstatus
              /\ vginfo_vgname vr' = vginfo_vgname vr
              /\ (fst res = true ->
                  (forall host, creation_host = Some host ->
                                vginfo_creation_host vr' = Some host)
                  /\ (forall lt, lock_type = Some lt ->
                                 vginfo_lock_type vr' = Some lt))).
  { intros s x Hx Hl Hs Hn Hlt Hhost. cbv zeta.
    destruct lock_type as [lt|].
    2:{ exists x. split_and!; auto. intros _. split; [exact Hhost|].
        intros lt [=]. }
    destruct (bool_decide (vginfo_lock_type vr = Some lt)) eqn:Hsame.
    { apply bool_decide_eq_true in Hsame. exists x. split_and!; auto.
      intros _. split; [exact Hhost|]. intros lt' [= <-]. congruence. }
    unfold dm_alloc.
    destruct (heap_script s) as [|[] rest]; cbn [fst snd];
      unfold upd_vginfo, log_error, print_log; cbn;
      rewrite lookup_alter_eq, Hx; cbn; eexists; (split; [reflexivity|]);
      (split_and!; auto; try discriminate);
      intros _; (split; [exact Hhost|]); intros lt' [= <-]; reflexivity. }
  destruct creation_host as [host|].
  2:{ apply (Hlock st1 _ H1 Hl1); try reflexivity. intros host [=]. }
  destruct (bool_decide (vginfo_creation_host vr = Some host)) eqn:Hsame.
  { apply bool_decide_eq_true in Hsame.
    apply (Hlock st1 _ H1 Hl1); try reflexivity.
    intros host' [= <-]. exact Hsame. }
  unfold dm_alloc.
  destruct (heap_script st1) as [|[] rest].
  - apply (Hlock _ (set_vginfo_creation_host (Some host)
                      (set_vginfo_status vgstatus vr)));
      try reflexivity.
    + unfold upd_vginfo. cbn. rewrite lookup_alter_eq, H1. reflexivity.
    + exact Hl1.
    + intros host' [= <-]. reflexivity.
  - apply (Hlock _ (set_vginfo_creation_host (Some host)
                      (set_vginfo_status vgstatus vr)));
      try reflexivity.
    + unfold upd_vginfo. cbn. rewrite lookup_alter_eq, H1. reflexivity.
    + exact Hl1.
    + intros host' [= <-]. reflexivity.
  - cbn [fst snd]. unfold upd_vginfo, log_error, print_log. cbn.
    rewrite lookup_alter_eq, H1. cbn. eexists. split; [reflexivity|].
    split_and!; auto. discriminate.
Qed.

(** X29.  After a successful [_lvmcache_update_vgstatus] for a PV whose VG
    record is on [_vginfos], the record carries the status, the creation
    host and the lock type it was given; so with the lock type "sanlock"
    [lvmcache_contains_lock_type_sanlock] answers 1 afterwards. *)
Theorem update_vgstatus_records_sanlock (info vginfo : ptr)
    (r : lvmcache_info) (vr : lvmcache_vginfo) (vgstatus : Z)
    (creation_host : option string) (st : lvmcache) :
  info_store st !! info = Some r ->
  info_vginfo r = Some vginfo ->
  vginfo_store st !! vginfo = Some vr ->
  vginfo ∈ _vginfos st ->
  let res :=
    _lvmcache_update_vgstatus (Some info) vgstatus creation_host
      (Some "sanlock"%string) st in
  fst res = true ->
  lvmcache_contains_lock_type_sanlock (snd res) = true
  /\ exists vr',
       vginfo_store (snd res) !! vginfo = Some vr'
       /\ vginfo_status vr' = vgstatus
       /\ vginfo_lock_type vr' = Some "sanlock"%string
       /\ (forall host, creation_host = Some host ->
                        vginfo_creation_host vr' = Some host).
Proof.
  intros Hr Hv Hvr Hin. cbv zeta. intros Hok.
  destruct (update_vgstatus_record info vginfo r vr vgstatus creation_host
              (Some "sanlock"%string) st Hr Hv Hvr)
    as (vr' & Hvr' & Hlist & Hstatus & _ & Hset).
  destruct (Hset Hok) as [Hhost Hlt]. specialize (Hlt _ eq_refl).
  split.
  - unfold lvmcache_contains_lock_type_sanlock, listed_vginfos.
    apply existsb_exists. exists vr'. split.
    + apply list_elem_of_In, list_elem_of_omap. exists vginfo.
      rewrite Hlist. split; [exact Hin | exact Hvr'].
    + rewrite Hlt. reflexivity.
  - exists vr'. split_and!; auto.
Qed.

(** ** Further properties: a PV joins a VG *)

Lemma update_cache_vginfo_lock_state_links (vginfo : ptr) (locked : bool)
    (st : lvmcache) :
  links_kept st (_update_cache_vginfo_lock_state vginfo locked st).
Proof.
  unfold _update_cache_vginfo_lock_state.
  destruct (vginfo_store st !! vginfo) as [r|]; [|apply links_kept_refl].
  pose proof (update_cache_infos_lock_state_links (vginfo_infos r) locked true st)
    as H1.
  destruct (_update_cache_infos_lock_state (vginfo_infos r) locked true st)
    as [valid st1].
  cbn [snd] in H1. destruct (negb valid); [|exact H1].
  apply (links_kept_trans st st1); [exact H1|].
  destruct (free_cached_vgmetadata_effect (Some vginfo) st1) as [Hs Hrel].
  apply links_kept_stores_only; assumption.
Qed.

(** Detaching a PV record leaves what the lookup by name and identifier
    finds. *)
Lemma detach_from_vgname (info : ptr) (vgname vgid : option string)
    (st : lvmcache) :
  lvmcache_vginfo_from_vgname vgname vgid (_vginfo_detach_info info st)
  = lvmcache_vginfo_from_vgname vgname vgid st.
Proof.
  unfold lvmcache_vginfo_from_vgname, lvmcache_vginfo_from_vgid.
  destruct vgname as [vgname|]; [|reflexivity].
  change (_vgname_hash (_vginfo_detach_info info st)) with (_vgname_hash st).
  destruct (dm_hash_lookup (_vgname_hash st) vgname) as [[|p chain]|];
    [reflexivity| |reflexivity].
  destruct vgid as [vgid|]; [|reflexivity].
  assert (Hm : forall q, vgid_matches vgid (_vginfo_detach_info info st) q
                         = vgid_matches vgid st q).
  { intros q. unfold vgid_matches, _vginfo_detach_info, upd_info. cbn.
    rewrite lookup_fmap. destruct (vginfo_store st !! q); reflexivity. }
  generalize (p :: chain). intros l.
  induction l as [|q l IH]; cbn [find]; [reflexivity|].
  rewrite Hm, IH. reflexivity.
Qed.

(** X30.  [_lvmcache_update_vgname] for a PV record that is in no VG yet,
    when a VG record of the given name and identifier is in the cache,
    returns 1 and puts the PV into that VG: the PV record points at the VG
    record and keeps its device, and the VG record has the PV on its
    member list, the format it was given, and its name. *)
Theorem update_vgname_joins_the_vg (info vginfo : ptr) (r : lvmcache_info)
    (vr : lvmcache_vginfo) (vgname vgid : string) (vgstatus : Z)
    (creation_host : option string) (fmt : option format_type)
    (st : lvmcache) :
  info_store st !! info = Some r ->
  info_vginfo r = None ->
  lvmcache_vginfo_from_vgname (Some vgname) (Some vgid) st = Some vginfo ->
  vginfo_store st !! vginfo = Some vr ->
  exists st',
    _lvmcache_update_vgname (Some info) (Some vgname) vgid vgstatus
      creation_host fmt st = Some (true, st')
    /\ exists r' vr',
         info_store st' !! info = Some r'
         /\ info_vginfo r' = Some vginfo
         /\ info_dev r' = info_dev r
         /\ vginfo_store st' !! vginfo = Some vr'
         /\ info ∈ vginfo_infos vr'
         /\ vginfo_fmt vr' = fmt
         /\ vginfo_vgname vr' = vginfo_vgname vr.
Proof.
  intros Hr Hnone Hfound Hvr. unfold _lvmcache_update_vgname.
  rewrite Hr, Hnone. cbv zeta. cbn [snd].
  unfold _drop_vginfo. cbn [snd].
  rewrite detach_from_vgname, Hfound.
  eexists. split; [reflexivity|].
  set (st0 := _vginfo_detach_info info st).
  assert (H0 : exists r0 vr0,
             info_store st0 !! info = Some r0 /\ info_dev r0 = info_dev r
             /\ vginfo_store st0 !! vginfo = Some vr0
             /\ vginfo_vgname vr0 = vginfo_vgname vr).
  { unfold st0, _vginfo_detach_info, upd_info. cbn.
    rewrite lookup_alter_eq, Hr, lookup_fmap, Hvr. cbn.
    eexists _, _. split_and!; reflexivity. }
  destruct H0 as (r0 & vr0 & Hr0 & Hdev0 & Hvr0 & Hname0). clearbody st0.
  set (st1 := _vginfo_attach_info (Some vginfo) info st0).
  assert (H1 : exists r1 vr1,
             info_store st1 !! info = Some r1 /\ info_dev r1 = info_dev r
             /\ info_vginfo r1 = Some vginfo
             /\ vginfo_store st1 !! vginfo = Some vr1
             /\ vginfo_vgname vr1 = vginfo_vgname vr
             /\ info ∈ vginfo_infos vr1).
  { unfold st1, _vginfo_attach_info, upd_info, upd_vginfo. cbn.
    rewrite !lookup_alter_eq, Hr0, Hvr0. cbn.
    eexists _, _. split_and!; try reflexivity; try assumption.
    cbn. apply elem_of_app. right. left. }
  destruct H1 as (r1 & vr1 & Hr1 & Hdev1 & Hv1 & Hvr1 & Hname1 & Hin1).
  clearbody st1.
  set (st2 := _update_cache_vginfo_lock_state vginfo _ st1).
  destruct (update_cache_vginfo_lock_state_links vginfo
              (lvmcache_vgname_is_locked vgname st1) st1) as [Hinfos Hvgs].
  fold st2 in Hinfos, Hvgs.
  destruct (Hinfos info r1 Hr1) as (r2 & Hr2 & Hv2 & Hdev2).
  destruct (Hvgs vginfo vr1 Hvr1) as (vr2 & Hvr2 & Hname2 & Hmem2).
  clearbody st2.
  exists r2, (set_vginfo_fmt fmt vr2).
  unfold upd_vginfo. cbn. rewrite lookup_alter_eq, Hvr2. cbn.
  split_and!; try reflexivity; congruence.
Qed.

(** ** The global lock across teardown and initialisation *)

Lemma served_take (n : nat) (s : list bool) :
  Forall (fun served => served = true) (take (S n) s) ->
  hd true s = true /\ Forall (fun served => served = true) (take n (tl s)).
Proof.
  destruct s as [|b s]; simpl.
  - intros _. split; [reflexivity|]. destruct n; constructor.
  - intros H. inversion H; subst. split; [reflexivity|assumption].
Qed.

(** [lvmcache_init] with its four table allocations served. *)
Lemma lvmcache_init_served (st : lvmcache) :
  let s := heap_script st in
  Forall (fun served => served = true) (take 4 s) ->
  lvmcache_init st
  = (true,
     if _vg_global_lock_held st
     then set__vg_global_lock_held false
            (lock_vgname_initialised VG_GLOBAL
               (tables_created (tl (tl (tl (tl s)))) st))
     else tables_created (tl (tl (tl (tl s)))) st).
Proof.
  cbv zeta. intros H.
  apply served_take in H as [H1 H]. apply served_take in H as [H2 H].
  apply served_take in H as [H3 H]. apply served_take in H as [H4 _].
  unfold lvmcache_init.
  do 4 (rewrite dm_hash_create_eq;
        cbn [heap_script set__vgname_hash set__vgid_hash set__pvid_hash
             set__lock_hash set_heap_script set__vginfos set__vgs_locked];
        rewrite ?H1, ?H2, ?H3, ?H4;
        rewrite bool_decide_eq_true_2 by (eexists; reflexivity);
        cbn [negb fst snd]).
  match goal with
  | |- context [_vg_global_lock_held ?s] =>
    assert (Hs : s = tables_created
                       (tl (tl (tl (tl (heap_script st))))) st)
      by (destruct st; reflexivity);
    assert (Hg : _vg_global_lock_held s = _vg_global_lock_held st)
      by reflexivity
  end.
  rewrite Hg, Hs. destruct (_vg_global_lock_held st); reflexivity.
Qed.

(** The loop of the teardown over the lock table: the global name sets the
    record of a held global lock, every other name is reported. *)
Lemma destroy_locknames_effect (names : list string) (s : lvmcache) :
  fold_left (fun s vgname => _lvmcache_destroy_lockname vgname s) names s
  = set_log
      (log s
       ++ map not_unlocked
            (List.filter (fun n => negb (String.eqb n VG_GLOBAL)) names))
      (set__vg_global_lock_held
         (existsb (fun n => String.eqb n VG_GLOBAL) names
          || _vg_global_lock_held s) s).
Proof.
  revert s. induction names as [|n l IH]; intros s; cbn [fold_left].
  - cbn. rewrite app_nil_r. destruct s; reflexivity.
  - rewrite IH. unfold _lvmcache_destroy_lockname. cbn [existsb List.filter].
    destruct (String.eqb n VG_GLOBAL); cbn [negb orb].
    + rewrite orb_true_r. destruct s; reflexivity.
    + unfold log_internal_error, print_log. cbn [map].
      destruct s; cbn. rewrite <- app_assoc. reflexivity.
Qed.

Lemma held_global_in_table (h : gmap string unit) :
  existsb (fun n => String.eqb n VG_GLOBAL) (map fst (map_to_list h))
  = bool_decide (is_Some (h !! VG_GLOBAL)).
Proof.
  destruct (h !! VG_GLOBAL) as [[]|] eqn:Hg.
  - rewrite bool_decide_eq_true_2 by (eexists; reflexivity).
    apply existsb_exists. exists VG_GLOBAL. split; [|apply String.eqb_refl].
    apply list_elem_of_In, list_elem_of_fmap. exists (VG_GLOBAL, ()).
    split; [reflexivity|]. apply elem_of_map_to_list. exact Hg.
  - rewrite bool_decide_eq_false_2 by (intros [? ?]; discriminate).
    apply not_true_is_false. intros Hex.
    apply existsb_exists in Hex as (n & Hin & Heq).
    apply String.eqb_eq in Heq. subst n.
    apply list_elem_of_In, list_elem_of_fmap in Hin as ([k []] & Hk & Hin).
    cbn in Hk. subst k. apply elem_of_map_to_list in Hin. congruence.
Qed.

(** [lvmcache_destroy] up to the lock table: the state [s] it has reached
    there still has the lock table and the record of a held global lock it
    started with.  With [retain_orphans] the state that the teardown
    leaves is handed to [init_lvmcache_orphans]. *)
Lemma lvmcache_destroy_until_locks (cmd : cmd_context) (reset : bool)
    (st : lvmcache) :
  exists s,
    _lock_hash s = _lock_hash st
    /\ _vg_global_lock_held s = _vg_global_lock_held st
    /\ forall retain_orphans,
       lvmcache_destroy cmd retain_orphans reset st
       = (let s4 :=
            match _lock_hash s with
            | Some h =>
              set__lock_hash None
                (if reset then set__vg_global_lock_held false s
                 else
                   fold_left
                     (fun s vgname => _lvmcache_destroy_lockname vgname s)
                     (map fst (map_to_list h)) s)
            | None => s
            end in
          let s5 :=
            set__vginfos []
              (if negb (bool_decide (_vginfos s4 = []))
               then log_internal_error "_vginfos list should be empty" [] s4
               else s4) in
          if retain_orphans
          then
            match init_lvmcache_orphans (formats cmd) s5 with
            | None => None
            | Some (_, s6) => Some s6
            end
          else Some s5).
Proof.
  unfold lvmcache_destroy. cbv zeta.
  set (P := fun pv lk g s =>
              _has_scanned s = false /\ _vgid_hash s = None
              /\ _pvid_hash s = pv /\ _lock_hash s = lk
              /\ _vg_global_lock_held s = g).
  set (st1 := set__vgid_hash None (set__has_scanned false st)).
  assert (H1 : P (_pvid_hash st) (_lock_hash st) (_vg_global_lock_held st) st1)
    by (unfold P; split_and!; reflexivity).
  clearbody st1.
  set (st2 := match _pvid_hash st1 with Some h => _ | None => st1 end).
  assert (H2 : P None (_lock_hash st) (_vg_global_lock_held st) st2).
  { unfold st2. destruct (_pvid_hash st1) as [h|] eqn:Hh.
    - assert (Hf : P (Some h) (_lock_hash st) (_vg_global_lock_held st)
                     (fold_left
                        (fun s info => _lvmcache_destroy_entry info s)
                        (map snd (map_to_list h)) st1)).
      { apply fold_left_invariant.
        - destruct H1 as (Ha & Hb & _ & Hc & Hd). unfold P.
          split_and!; [exact Ha | exact Hb | exact Hh | exact Hc | exact Hd].
        - intros s a. apply destroy_entry_tables. }
      destruct Hf as (Ha & Hb & _ & Hc & Hd). unfold P.
      split_and!; [exact Ha | exact Hb | reflexivity | exact Hc | exact Hd].
    - destruct H1 as (Ha & Hb & _ & Hc & Hd). unfold P.
      split_and!; [exact Ha | exact Hb | exact Hh | exact Hc | exact Hd]. }
  clearbody st2. clear H1 st1.
  set (st3 := match _vgname_hash st2 with Some h => _ | None => st2 end).
  assert (H3 : P None (_lock_hash st) (_vg_global_lock_held st) st3).
  { unfold st3. destruct (_vgname_hash st2) as [h|] eqn:Hh; [|exact H2].
    assert (Hf : P None (_lock_hash st) (_vg_global_lock_held st)
                   (fold_left
                      (fun s chain => _lvmcache_destroy_vgnamelist chain s)
                      (map snd (map_to_list h)) st2)).
    { apply fold_left_invariant; [exact H2|].
      intros s a. apply destroy_vgnamelist_tables. }
    exact Hf. }
  destruct H3 as (_ & _ & _ & Hl3 & Hg3). clearbody st3.
  exists st3. split_and!; [exact Hl3 | exact Hg3 |].
  intros []; reflexivity.
Qed.

(** Registering the orphan VGs keeps a lock table that exists. *)
Lemma init_lvmcache_orphans_lock_hash (fmts : list format_type)
    (s s' : lvmcache) (t : gmap string unit) (ok : bool) :
  _lock_hash s = Some t ->
  init_lvmcache_orphans fmts s = Some (ok, s') ->
  _lock_hash s' = Some t.
Proof.
  revert s. induction fmts as [|fmt rest IH]; intros s Ht;
    cbn [init_lvmcache_orphans].
  - intros [= _ <-]. exact Ht.
  - unfold lvmcache_add_orphan_vginfo.
    rewrite bool_decide_eq_true_2 by (rewrite Ht; eexists; reflexivity).
    cbn [negb].
    destruct (_lvmcache_update_vgname None (Some (orphan_vg_name fmt))
                (orphan_vg_name fmt) 0 (Some EmptyString) (Some fmt) s)
      as [[[] s1]|] eqn:Hupd; [| |discriminate].
    + apply lock_state_kept_update_vgname in Hupd as (Hl & _).
      apply IH. rewrite Hl. exact Ht.
    + apply lock_state_kept_update_vgname in Hupd as (Hl & _).
      intros [= _ <-]. rewrite Hl. exact Ht.
Qed.

Lemma served_take_5 (s : list bool) :
  Forall (fun served => served = true) (take 5 s) ->
  Forall (fun served => served = true) (take 4 s)
  /\ hd true (tl (tl (tl (tl s)))) = true.
Proof.
  intros H. split.
  - replace (take 4 s) with (take 4 (take 5 s))
      by (rewrite take_take; reflexivity).
    apply Forall_take, H.
  - do 4 (apply served_take in H as [_ H]).
    apply served_take in H as [H _]. exact H.
Qed.

(** The lock table after an initialisation whose allocations are served:
    the global name alone, when a held global lock was on record, and no
    name otherwise. *)
Lemma lvmcache_init_lock_table (st : lvmcache) :
  Forall (fun served => served = true) (take 5 (heap_script st)) ->
  exists st',
    lvmcache_init st = (true, st')
    /\ _lock_hash st'
       = Some (if _vg_global_lock_held st then {[ VG_GLOBAL := () ]} else ∅)
    /\ _vg_global_lock_held st' = false.
Proof.
  intros H. apply served_take_5 in H as [H4 H5].
  rewrite (lvmcache_init_served st H4). eexists. split; [reflexivity|].
  destruct (_vg_global_lock_held st) eqn:Hg; [|split; [reflexivity|exact Hg]].
  split; [|reflexivity].
  set (k := tl (tl (tl (tl (heap_script st))))) in *.
  destruct (lock_vgname_initialised_table VG_GLOBAL (tables_created k st) ∅
              eq_refl) as [Ht _].
  cbn [_lock_hash set__vg_global_lock_held]. rewrite Ht.
  change (heap_script (tables_created k st)) with k. rewrite H5.
  rewrite orb_true_r. reflexivity.
Qed.

(** C10.  Let the lock table exist when the cache is destroyed without
    [reset].  Without [retain_orphans] the teardown returns; after it no
    name is reported as locked, and every name but the global one that was
    in the lock table has been reported with the internal error of a lock
    that was not released.  When the allocations of the next
    [lvmcache_init] are served, it succeeds, and afterwards the global name
    is reported as locked exactly when it was in the lock table at the
    teardown (or a held global lock was on record already); no other name
    is reported as locked.  With [retain_orphans] and a format to register
    an orphan VG for, that initialisation is made by the registration, and
    a cache that the teardown returns reports the same.  With [reset] the
    global name is not reported as locked after the next initialisation
    either. *)
Theorem global_lock_survives_teardown (cmd : cmd_context) (st : lvmcache)
    (h : gmap string unit) :
  _lock_hash st = Some h ->
  is_orphan_vg VG_GLOBAL = false ->
  VG_ORPHANS <> VG_GLOBAL ->
  let held :=
    bool_decide (is_Some (h !! VG_GLOBAL)) || _vg_global_lock_held st in
  (exists st1,
     lvmcache_destroy cmd false false st = Some st1
     /\ (forall vgname, lvmcache_vgname_is_locked vgname st1 = false)
     /\ (forall vgname,
           is_Some (h !! vgname) -> vgname <> VG_GLOBAL ->
           not_unlocked vgname ∈ log st1)
     /\ (Forall (fun served => served = true) (take 5 (heap_script st1)) ->
         (exists st2,
            lvmcache_init st1 = (true, st2)
            /\ lvmcache_vgname_is_locked VG_GLOBAL st2 = held
            /\ (forall vgname,
                  vgname <> VG_GLOBAL ->
                  lvmcache_vgname_is_locked vgname st2 = false))
         /\ (forall fmt rest st',
               formats cmd = fmt :: rest ->
               lvmcache_destroy cmd true false st = Some st' ->
               lvmcache_vgname_is_locked VG_GLOBAL st' = held
               /\ (forall vgname,
                     vgname <> VG_GLOBAL ->
                     lvmcache_vgname_is_locked vgname st' = false))))
  /\ (exists st1,
        lvmcache_destroy cmd false true st = Some st1
        /\ (Forall (fun served => served = true) (take 5 (heap_script st1)) ->
            exists st2,
              lvmcache_init st1 = (true, st2)
              /\ forall vgname, lvmcache_vgname_is_locked vgname st2 = false)).
Proof.
  intros Hh Horphan Hne held.
  assert (Hqueries : forall (s : lvmcache),
            _lock_hash s = Some (if held then {[ VG_GLOBAL := () ]} else ∅) ->
            lvmcache_vgname_is_locked VG_GLOBAL s = held
            /\ (forall vgname,
                  vgname <> VG_GLOBAL ->
                  lvmcache_vgname_is_locked vgname s = false)).
  { intros s Ht. unfold lvmcache_vgname_is_locked. rewrite Ht. split.
    - rewrite Horphan. destruct held.
      + rewrite lookup_singleton_eq. reflexivity.
      + rewrite lookup_empty. reflexivity.
    - intros vgname Hv.
      assert (Hk : (if is_orphan_vg vgname then VG_ORPHANS else vgname)
                   <> VG_GLOBAL)
        by (destruct (is_orphan_vg vgname); assumption).
      destruct held.
      + rewrite lookup_singleton_ne by congruence. reflexivity.
      + rewrite lookup_empty. reflexivity. }
  split.
  - destruct (lvmcache_destroy_until_locks cmd false st) as (s & Hl & Hg & Hd).
    rewrite Hl, Hh in Hd. cbv zeta in Hd.
    rewrite destroy_locknames_effect, held_global_in_table, Hg in Hd.
    fold held in Hd.
    set (names := map fst (map_to_list h)) in *.
    set (s4 := set__lock_hash None _) in Hd.
    assert (H4 : _lock_hash s4 = None
                 /\ _vg_global_lock_held s4 = held
                 /\ log s4
                    = log s
                      ++ map not_unlocked
                           (List.filter
                              (fun n => negb (String.eqb n VG_GLOBAL)) names))
      by (split_and!; reflexivity).
    clearbody s4. destruct H4 as (Hl4 & Hg4 & Hlog4).
    set (s5 := if negb _ then _ else s4) in Hd.
    assert (H5 : _lock_hash s5 = None
                 /\ _vg_global_lock_held s5 = held
                 /\ exists more, log s5 = log s4 ++ more).
    { unfold s5. destruct (negb _).
      - split_and!; [exact Hl4 | exact Hg4 | eexists; reflexivity].
      - split_and!; [exact Hl4 | exact Hg4 |].
        exists []. rewrite app_nil_r. reflexivity. }
    clearbody s5. destruct H5 as (Hl5 & Hg5 & more & Hlog5).
    exists (set__vginfos [] s5). split; [exact (Hd false)|]. split_and!.
    + intros vgname. unfold lvmcache_vgname_is_locked.
      cbn [_lock_hash set__vginfos]. rewrite Hl5. reflexivity.
    + intros vgname Hin Hv. cbn [log set__vginfos]. rewrite Hlog5, Hlog4.
      apply elem_of_app. left. apply elem_of_app. right.
      apply list_elem_of_fmap. exists vgname. split; [reflexivity|].
      apply list_elem_of_In, List.filter_In. split.
      * apply list_elem_of_In. unfold names. apply list_elem_of_fmap.
        destruct Hin as [[] Hin]. exists (vgname, ()).
        split; [reflexivity|]. apply elem_of_map_to_list. exact Hin.
      * apply negb_true_iff, String.eqb_neq. exact Hv.
    + intros Hserved.
      destruct (lvmcache_init_lock_table (set__vginfos [] s5) Hserved)
        as (st2 & Hinit & Ht & _).
      cbn [_vg_global_lock_held set__vginfos] in Ht. rewrite Hg5 in Ht.
      split.
      * exists st2. split; [exact Hinit|]. apply Hqueries, Ht.
      * intros fmt rest st' Hfmts Hret. rewrite (Hd true), Hfmts in Hret.
        cbn [init_lvmcache_orphans] in Hret.
        unfold lvmcache_add_orphan_vginfo in Hret.
        rewrite bool_decide_eq_false_2 in Hret
          by (cbn [_lock_hash set__vginfos]; rewrite Hl5;
              intros [? ?]; discriminate).
        rewrite Hinit in Hret. cbn [negb] in Hret.
        apply Hqueries.
        destruct (_lvmcache_update_vgname None (Some (orphan_vg_name fmt))
                    (orphan_vg_name fmt) 0 (Some EmptyString) (Some fmt) st2)
          as [[[] s6]|] eqn:Hupd; [| |discriminate].
        -- apply lock_state_kept_update_vgname in Hupd as (Hl6 & _).
           destruct (init_lvmcache_orphans rest s6) as [[ok s7]|] eqn:Hrest;
             [|discriminate].
           injection Hret as <-.
           apply (init_lvmcache_orphans_lock_hash rest s6 s7 _ ok);
             [rewrite Hl6; exact Ht | exact Hrest].
        -- apply lock_state_kept_update_vgname in Hupd as (Hl6 & _).
           injection Hret as <-. rewrite Hl6. exact Ht.
  - destruct (lvmcache_destroy_until_locks cmd true st) as (s & Hl & Hg & Hd).
    rewrite Hl, Hh in Hd. cbv zeta in Hd.
    set (s4 := set__lock_hash None _) in Hd.
    assert (H4 : _vg_global_lock_held s4 = false) by reflexivity.
    clearbody s4.
    set (s5 := if negb _ then _ else s4) in Hd.
    assert (H5 : _vg_global_lock_held s5 = false).
    { unfold s5. destruct (negb _); exact H4. }
    clearbody s5.
    exists (set__vginfos [] s5). split; [exact (Hd false)|]. intros Hserved.
    destruct (lvmcache_init_lock_table (set__vginfos [] s5) Hserved)
      as (st2 & Hinit & Ht & _).
    cbn [_vg_global_lock_held set__vginfos] in Ht. rewrite H5 in Ht.
    exists st2. split; [exact Hinit|].
    intros vgname. unfold lvmcache_vgname_is_locked. rewrite Ht.
    rewrite lookup_empty. reflexivity.
Qed.

End Lvmcache.

(** * The properties on sample data *)

Lemma lvmcache_add_duplicate_device_sample :
  lvmcache_add Sample.id_len Sample.exported_vg Sample.vg_global
    Sample.vg_orphans Sample.orphan_vg Sample.env Sample.text_labeller
    "pvA" 2%nat (Some "vg1"%string) (Some "idvg1"%string) 0
    (Sample.cache [] 0 None false)
  = Some (None,
          duplicate_rejected Sample.env 2%nat 1%nat "pvA"
            (Sample.cache [] 0 None false)).
Proof.
  refine (proj1 (lvmcache_add_duplicate_device Sample.id_len Sample.exported_vg
                   Sample.vg_global Sample.vg_orphans Sample.orphan_vg
                   Sample.env Sample.text_labeller "pvA" 2%nat _ _ 0
                   (Sample.cache [] 0 None false) {[ "pvA"%string := 1%nat ]}
                   1%nat (Sample.pv_a 0) _ _ _ _ _)).
  - eexists. reflexivity.
  - reflexivity.
  - reflexivity.
  - reflexivity.
  - simpl. lia.
Defined.

(** The VG a command holds for "vg1". *)
Lemma precommit_round_trip_sample :
  let vg := Sample.parsed "vg1" "idvg1" in
  let st := Sample.cache [] 0 None false in
  let st1 := _store_metadata Sample.id_len Sample.env vg true st in
  let st2 := lvmcache_commit_metadata Sample.id_len "vg1" st1 in
  st2 = upd_vginfo 2%nat (set_vginfo_precommitted false) st1.
Proof.
  intros vg st st1 st2.
  refine (proj1 (proj1 (proj1 (precommit_round_trip Sample.id_len Sample.env
                                 vg "vg1" st 2%nat (Sample.vg1 None false)
                                 4 "vg1" _ _ _ _) _))).
  - reflexivity.
  - reflexivity.
  - reflexivity.
  - lia.
  - reflexivity.
Defined.

(** Two VGs of the name "vg1": the record 2 is the primary one, the record
    5 is behind it on the chain.  A blob stored for the VG of the record 5
    stays precommitted after the commit of "vg1", and stays cached after
    the drop of "vg1". *)
Lemma precommit_round_trip_not_primary :
  let vg := Sample.parsed "vg1" "idvg2" in
  let st := Sample.cache_two_vg1 in
  let st1 := _store_metadata Sample.id_len Sample.env vg true st in
  lvmcache_vginfo_from_vgid Sample.id_len (Some (vg_id vg)) st = Some 5%nat
  /\ vginfo_vgname <$> vginfo_store st !! 5%nat = Some "vg1"%string
  /\ lvmcache_vginfo_from_vgname Sample.id_len (Some "vg1"%string) None st
     = Some 2%nat
  /\ vginfo_vgmetadata <$> vginfo_store st1 !! 5%nat
     = Some (Some "vg1"%string)
  /\ vginfo_precommitted
       <$> vginfo_store (lvmcache_commit_metadata Sample.id_len "vg1" st1)
           !! 5%nat
     = Some true
  /\ vginfo_vgmetadata
       <$> vginfo_store (_drop_metadata Sample.id_len "vg1" true st1) !! 5%nat
     = Some (Some "vg1"%string)
  /\ vginfo_precommitted
       <$> vginfo_store (_drop_metadata Sample.id_len "vg1" true st1) !! 5%nat
     = Some true.
Proof. vm_compute. repeat split. Qed.

(** A record that holds a precommitted blob, neither committed nor
    reverted: dropping with [drop_precommitted = 0] logs nothing. *)
Lemma drop_metadata_precommitted_blob_no_error :
  let st := Sample.cache [] 0 (Some "vg1"%string) true in
  lvmcache_vginfo_from_vgname Sample.id_len (Some "vg1"%string) None st
  = Some 2%nat
  /\ vginfo_precommitted <$> vginfo_store st !! 2%nat = Some true
  /\ vginfo_vgmetadata <$> vginfo_store st !! 2%nat = Some (Some "vg1"%string)
  /\ log (_drop_metadata Sample.id_len "vg1" false st) = [].
Proof. vm_compute. repeat split. Qed.

Lemma drop_metadata_keeping_precommitted_sample :
  let st := Sample.cache [] 0 None true in
  _drop_metadata Sample.id_len "vg1" false st
  = set_log (log st ++ [commit_missing]) st.
Proof.
  intros st.
  refine (proj1 (drop_metadata_keeping_precommitted Sample.id_len "vg1" 2%nat
                   (Sample.vg1 None true) st _ _ _) _); reflexivity.
Defined.

Lemma verify_lock_order_total_order_sample :
  Forall (fun ok => ok = true)
    (fst (acquire_all Sample.id_len Sample.vg_global Sample.vg_orphans
            Sample.global_vg Sample.orphan_vg
            ["#global"; "vg_a"; "vg_b"; "#orphans"]%string
            (Sample.cache [] 0 None false)))
  /\ fst (lvmcache_verify_lock_order Sample.global_vg Sample.orphan_vg "vg_a"
            (Sample.cache ["vg_b"%string] 0 None false)) = false
  /\ fst (lvmcache_verify_lock_order Sample.global_vg Sample.orphan_vg
            "#orphans_lvm2"
            (Sample.cache ["#orphans_lvm1"%string] 0 None false)) = false.
Proof.
  destruct (verify_lock_order_total_order Sample.id_len Sample.vg_global
              Sample.vg_orphans Sample.global_vg Sample.orphan_vg)
    as (Hok & Hviolation & _).
  split_and!.
  - apply Hok.
    + eexists. reflexivity.
    + intros held Hin. vm_compute in Hin. inversion Hin.
    + repeat match goal with
             | |- StronglySorted _ _ => constructor
             | |- Forall _ _ => constructor
             end;
        first [ left; vm_compute; lia
              | right; vm_compute; split_and!; [reflexivity|lia|reflexivity] ].
    + intros a b Ha Hb Ha2 Hb2. vm_compute in Ha.
      repeat (apply elem_of_cons in Ha as [-> | Ha]);
        try (inversion Ha; fail);
        repeat (apply elem_of_cons in Hb as [-> | Hb]);
        try (inversion Hb; fail);
        first [ reflexivity
              | vm_compute in Ha2; discriminate
              | vm_compute in Hb2; discriminate ].
  - destruct (Hviolation "vg_a"%string "vg_b"%string
                (Sample.cache ["vg_b"%string] 0 None false))
      as (vgname2 & _ & _ & Heq).
    + vm_compute. left.
    + left. right. vm_compute. split_and!; [reflexivity|lia|reflexivity].
    + rewrite Heq. reflexivity.
  - destruct (Hviolation "#orphans_lvm2"%string "#orphans_lvm1"%string
                (Sample.cache ["#orphans_lvm1"%string] 0 None false))
      as (vgname2 & _ & _ & Heq).
    + vm_compute. left.
    + right. reflexivity.
    + rewrite Heq. reflexivity.
Defined.

(** A sequence that follows the order of the specification and ends in
    two orphan names: the request for the second orphan name is refused,
    whichever of the two comes first. *)
Lemma verify_lock_order_second_orphan_refused :
  let st := Sample.cache [] 0 None false in
  let run :=
    acquire_all Sample.id_len Sample.vg_global Sample.vg_orphans
      Sample.global_vg Sample.orphan_vg in
  StronglySorted (spec_lock_before Sample.global_vg Sample.orphan_vg)
    ["#global"; "vg_a"; "#orphans_lvm1"; "#orphans_lvm2"]%string
  /\ fst (run ["#global"; "vg_a"; "#orphans_lvm1"; "#orphans_lvm2"]%string st)
     = [true; true; true; false]
  /\ fst (run ["#global"; "vg_a"; "#orphans_lvm2"; "#orphans_lvm1"]%string st)
     = [true; true; true; false].
Proof.
  intros st run. split_and!.
  - repeat match goal with
           | |- StronglySorted _ _ => constructor
           | |- Forall _ _ => constructor
           end;
      first [ left; vm_compute; lia
            | right; vm_compute; split_and!; [reflexivity|lia|reflexivity] ].
  - vm_compute. reflexivity.
  - vm_compute. reflexivity.
Qed.

Lemma lock_transition_invalidates_sample :
  invalid_bit
    (lvmcache_lock_vgname Sample.id_len Sample.vg_global Sample.vg_orphans
       Sample.orphan_vg "vg1" (Sample.cache [] 0 (Some "vg1"%string) false))
    1%nat = true.
Proof.
  refine (proj1 (proj1 (lock_transition_invalidates Sample.id_len
                          Sample.vg_global Sample.vg_orphans Sample.orphan_vg
                          "vg1" true (Sample.cache [] 0 (Some "vg1"%string) false)
                          2%nat (Sample.vg1 (Some "vg1"%string) false)
                          _ _ _ _ _) _) 1%nat _ _).
  - discriminate.
  - reflexivity.
  - eexists. reflexivity.
  - reflexivity.
  - reflexivity.
  - reflexivity.
  - simpl. left.
  - reflexivity.
Defined.

(** With the metadata daemon active and live metadata requested, a VG is
    returned for an identifier that has no VG record; and with every
    listed condition met, a backend that fails to import the VG leaves the
    caller without one. *)
Lemma get_vg_outside_the_listed_cases :
  (let st := Sample.cache [] 0 None false in
   lvmcache_vginfo_from_vgid Sample.id_len (Some "unknown"%string) st = None
   /\ lvmcache_get_vg Sample.id_len Sample.vg_orphans Sample.orphan_vg
        Sample.daemon_env Sample.cmd (Some "vg9"%string)
        (Some "unknown"%string) false st
      = (Some 7%nat, st))
  /\ (let st := Sample.cache [] 0 (Some "vg1"%string) false in
      lvmcache_vginfo_from_vgid Sample.id_len (Some "idvg1"%string) st
      = Some 2%nat
      /\ vginfo_store st !! 2%nat
         = Some (Sample.vg1 (Some "vg1"%string) false)
      /\ vginfo_vgmetadata (Sample.vg1 (Some "vg1"%string) false)
         = Some "vg1"%string
      /\ vginfo_precommitted (Sample.vg1 (Some "vg1"%string) false) = false
      /\ _vginfo_is_valid Sample.vg_orphans Sample.orphan_vg
           (Sample.vg1 (Some "vg1"%string) false) st = true
      /\ fst (lvmcache_get_vg Sample.id_len Sample.vg_orphans Sample.orphan_vg
                Sample.broken_env Sample.cmd (Some "vg1"%string)
                (Some "idvg1"%string) false st)
         = None).
Proof. vm_compute. repeat split. Qed.

Lemma get_vg_contract_sample :
  let st := Sample.cache [] 0 None false in
  lvmcache_get_vg Sample.id_len Sample.vg_orphans Sample.orphan_vg Sample.env
    Sample.cmd (Some "vg1"%string) (Some "idvg1"%string) false st
  = (None, st).
Proof.
  intros st.
  refine (proj1 (proj2 (proj1 (get_vg_contract Sample.id_len Sample.vg_orphans
                                 Sample.orphan_vg Sample.env Sample.cmd
                                 (Some "vg1"%string) (Some "idvg1"%string)
                                 false st) _)
                   "idvg1"%string 2%nat (Sample.vg1 None false) _ _ _) _).
  - left. reflexivity.
  - reflexivity.
  - reflexivity.
  - reflexivity.
  - reflexivity.
Defined.



(** A second VG named "vg1", created elsewhere, while the first has no
    creation host on record: the new record becomes the primary one. *)
Lemma insert_vginfo_duplicate_name_sample :
  exists st',
    _insert_vginfo Sample.exported_vg Sample.env 5%nat "idvg2" 0
      (Some "elsewhere"%string) (Some 2%nat) Sample.cache_second_vg1
    = (true, st')
    /\ dm_hash_lookup (_vgname_hash st') "vg1" = Some [5%nat; 2%nat]
    /\ lvmcache_vginfo_from_vgname Sample.id_len (Some "vg1"%string) None st'
       = Some 5%nat.
Proof.
  destruct (insert_vginfo_duplicate_name Sample.id_len Sample.exported_vg
              Sample.env 5%nat 2%nat "idvg2" 0 (Some "elsewhere"%string)
              Sample.cache_second_vg1 Sample.vg1_elsewhere
              (Sample.vg1 None false) Sample.text_format
              {[ "vg1"%string := [2%nat] ]} [])
    as (st' & Hins & Hchain & Hprimary & _).
  - reflexivity.
  - reflexivity.
  - reflexivity.
  - reflexivity.
  - reflexivity.
  - reflexivity.
  - eexists. reflexivity.
  - eexists. reflexivity.
  - reflexivity.
  - exists st'. split_and!; [exact Hins | exact Hchain | exact Hprimary].
Defined.


(** The cache is destroyed with the locks "#global" and "vg1" held: "vg1"
    is reported, and after the next initialisation "#global" is locked
    again; the same holds of the cache that the teardown with
    [retain_orphans] returns. *)
Lemma global_lock_survives_teardown_sample :
  let st := Sample.cache ["#global"; "vg1"]%string 0 None false in
  let destroy :=
    lvmcache_destroy Sample.id_len Sample.exported_vg Sample.vg_global
      Sample.vg_orphans Sample.orphan_vg Sample.env Sample.cmd in
  let is_locked :=
    lvmcache_vgname_is_locked Sample.vg_orphans Sample.orphan_vg in
  exists st1 st2 st',
    destroy false false st = Some st1
    /\ not_unlocked "vg1" ∈ log st1
    /\ lvmcache_init Sample.id_len Sample.vg_global Sample.vg_orphans
         Sample.orphan_vg st1 = (true, st2)
    /\ is_locked "#global"%string st2 = true
    /\ is_locked "vg1"%string st2 = false
    /\ destroy true false st = Some st'
    /\ is_locked "#global"%string st' = true.
Proof.
  intros st destroy is_locked.
  destruct (proj1 (global_lock_survives_teardown Sample.id_len
                     Sample.exported_vg Sample.vg_global Sample.vg_orphans
                     Sample.orphan_vg Sample.env Sample.cmd st
                     (list_to_map [("#global"%string, ()); ("vg1"%string, ())])
                     eq_refl eq_refl ltac:(discriminate)))
    as (st1 & Hd & _ & Hlog & Hinit).
  assert (Hscript : heap_script st1 = []).
  { vm_compute in Hd. injection Hd as <-. reflexivity. }
  destruct Hinit as ((st2 & Hi & Hg & Hother) & Hretain).
  { rewrite Hscript. constructor. }
  destruct (destroy true false st) as [st'|] eqn:Hret;
    [|vm_compute in Hret; discriminate].
  destruct (Hretain Sample.text_format [] st' eq_refl Hret) as [Hg' _].
  exists st1, st2, st'. split_and!.
  - exact Hd.
  - apply Hlog; [eexists; reflexivity | discriminate].
  - exact Hi.
  - etransitivity; [exact Hg | vm_compute; reflexivity].
  - apply Hother. discriminate.
  - reflexivity.
  - etransitivity; [exact Hg' | vm_compute; reflexivity].
Defined.

Lemma lock_unlock_round_trip_sample :
  let st := Sample.cache ["vg_a"%string] 0 None false in
  let st' :=
    snd (lvmcache_unlock_vgname Sample.id_len Sample.vg_global
           Sample.vg_orphans Sample.orphan_vg "vg1"
           (lvmcache_lock_vgname Sample.id_len Sample.vg_global
              Sample.vg_orphans Sample.orphan_vg "vg1" st)) in
  _lock_hash st' = _lock_hash st
  /\ lvmcache_vgs_locked st' = lvmcache_vgs_locked st.
Proof.
  apply (lock_unlock_round_trip Sample.id_len Sample.vg_global
           Sample.vg_orphans Sample.orphan_vg "vg1"
           (Sample.cache ["vg_a"%string] 0 None false)
           {[ "vg_a"%string := () ]}).
  - reflexivity.
  - reflexivity.
Defined.

Lemma orphan_names_share_the_orphan_lock_sample :
  lvmcache_vgname_is_locked Sample.vg_orphans Sample.orphan_vg "#orphans_lvm2"
    (lvmcache_lock_vgname Sample.id_len Sample.vg_global Sample.vg_orphans
       Sample.orphan_vg Sample.vg_orphans (Sample.cache [] 0 None false))
  = true.
Proof.
  apply (orphan_names_share_the_orphan_lock Sample.id_len Sample.vg_global
           Sample.vg_orphans Sample.orphan_vg "#orphans_lvm2"
           (Sample.cache [] 0 None false)).
  - reflexivity.
  - eexists. reflexivity.
  - reflexivity.
Defined.

Lemma orphan_name_locked_under_its_own_name_sample :
  lvmcache_vgname_is_locked Sample.vg_orphans Sample.orphan_vg "#orphans_lvm2"
    (lvmcache_lock_vgname Sample.id_len Sample.vg_global Sample.vg_orphans
       Sample.orphan_vg "#orphans_lvm2" (Sample.cache [] 0 None false))
  = false.
Proof.
  apply (orphan_name_locked_under_its_own_name Sample.id_len Sample.vg_global
           Sample.vg_orphans Sample.orphan_vg "#orphans_lvm2"
           (Sample.cache [] 0 None false) ∅).
  - reflexivity.
  - discriminate.
  - reflexivity.
  - reflexivity.
Defined.

Lemma global_lock_not_counted_sample :
  let st := Sample.cache ["vg1"%string] 0 None false in
  lvmcache_vgs_locked
    (lvmcache_lock_vgname Sample.id_len Sample.vg_global Sample.vg_orphans
       Sample.orphan_vg Sample.vg_global st)
  = lvmcache_vgs_locked st
  /\ lvmcache_vgs_locked
       (snd (lvmcache_unlock_vgname Sample.id_len Sample.vg_global
               Sample.vg_orphans Sample.orphan_vg Sample.vg_global st))
     = lvmcache_vgs_locked st
  /\ fst (lvmcache_unlock_vgname Sample.id_len Sample.vg_global
            Sample.vg_orphans Sample.orphan_vg Sample.vg_global st) = false.
Proof.
  apply (global_lock_not_counted Sample.id_len Sample.vg_global
           Sample.vg_orphans Sample.orphan_vg
           (Sample.cache ["vg1"%string] 0 None false)).
  eexists. reflexivity.
Defined.

Lemma unlock_vgname_closes_devices_sample :
  let st :=
    lvmcache_lock_vgname Sample.id_len Sample.vg_global Sample.vg_orphans
      Sample.orphan_vg "vg1" (Sample.cache [] 0 None false) in
  let res :=
    lvmcache_unlock_vgname Sample.id_len Sample.vg_global Sample.vg_orphans
      Sample.orphan_vg "vg1" st in
  fst res = (lvmcache_vgs_locked (snd res) =? 0)
  /\ lvmcache_vgs_locked (snd res) = lvmcache_vgs_locked st - 1.
Proof.
  apply (unlock_vgname_closes_devices Sample.id_len Sample.vg_global
           Sample.vg_orphans Sample.orphan_vg "vg1").
  discriminate.
Defined.

Lemma lock_vgname_initialisation_failure_sample :
  let st := set_heap_script [true; false] Sample.uninitialised in
  let st' :=
    lvmcache_lock_vgname Sample.id_len Sample.vg_global Sample.vg_orphans
      Sample.orphan_vg "vg1" st in
  log st'
  = log st ++ [{| msg_level := LOG_ERROR;
                  msg_text := "Internal cache initialisation failed";
                  msg_args := [] |}]
  /\ forall held,
       lvmcache_vgname_is_locked Sample.vg_orphans Sample.orphan_vg held st'
       = false.
Proof.
  apply (lock_vgname_initialisation_failure Sample.id_len Sample.vg_global
           Sample.vg_orphans Sample.orphan_vg "vg1"
           (set_heap_script [true; false] Sample.uninitialised)).
  - reflexivity.
  - reflexivity.
Defined.

Lemma init_forgets_records_sample :
  lvmcache_info_from_pvid Sample.id_len Sample.vg_orphans Sample.orphan_vg
    (Some "pvA"%string) false
    (snd (lvmcache_init Sample.id_len Sample.vg_global Sample.vg_orphans
            Sample.orphan_vg (Sample.cache [] 0 None false)))
  = None.
Proof.
  refine (proj1 (init_forgets_records Sample.id_len Sample.vg_global
                   Sample.vg_orphans Sample.orphan_vg
                   (Sample.cache [] 0 None false) _) _ _).
  reflexivity.
Defined.

Lemma info_from_pvid_valid_only_sample :
  lvmcache_info_from_pvid Sample.id_len Sample.vg_orphans Sample.orphan_vg
    (Some "pvA"%string) false (Sample.cache [] 0 None false) = Some 1%nat
  /\ exists r,
       info_store (Sample.cache [] 0 None false) !! 1%nat = Some r
       /\ _info_is_valid Sample.vg_orphans Sample.orphan_vg r
            (Sample.cache [] 0 None false) = true.
Proof.
  apply (info_from_pvid_valid_only Sample.id_len Sample.vg_orphans
           Sample.orphan_vg (Some "pvA"%string)).
  reflexivity.
Defined.

Lemma lookups_read_id_len_sample :
  lvmcache_info_from_pvid 3 Sample.vg_orphans Sample.orphan_vg
    (Some "pvA-and-more"%string) false (Sample.cache [] 0 None false)
  = lvmcache_info_from_pvid 3 Sample.vg_orphans Sample.orphan_vg
      (Some "pvA"%string) false (Sample.cache [] 0 None false).
Proof.
  refine (proj1 (lookups_read_id_len 3 Sample.vg_orphans Sample.orphan_vg
                   "pvA" "-and-more" (Sample.cache [] 0 None false) _) false).
  simpl. lia.
Defined.

Lemma make_valid_effect_sample :
  let st := Sample.cache ["vg1"%string] 3 None false in
  let st' := lvmcache_make_valid 1%nat st in
  invalid_bit st' 1%nat = false
  /\ locked_bit st' 1%nat = locked_bit st 1%nat
  /\ (forall other, other <> 1%nat ->
        info_store st' !! other = info_store st !! other)
  /\ (locked_bit st 1%nat = true ->
      exists r', info_store st' !! 1%nat = Some r'
        /\ _info_is_valid Sample.vg_orphans Sample.orphan_vg r' st' = true).
Proof.
  apply (make_valid_effect Sample.vg_orphans Sample.orphan_vg 1%nat
           (Sample.pv_a 3)).
  reflexivity.
Defined.

Lemma attach_detach_round_trip_sample :
  let st := Sample.cache_with_pv_b in
  let st1 := _vginfo_attach_info (Some 2%nat) 4%nat st in
  let st2 := _vginfo_detach_info 4%nat st1 in
  (info_store st1 !! 4%nat
   = Some (set_info_vginfo (Some 2%nat) Sample.pv_b)
   /\ vginfo_store st1 !! 2%nat
      = Some (set_vginfo_infos [1%nat; 4%nat] (Sample.vg1 None false)))
  /\ (info_store st2 !! 4%nat = Some (set_info_vginfo None Sample.pv_b)
      /\ vginfo_store st2 = vginfo_store st).
Proof.
  apply (attach_detach_round_trip 2%nat 4%nat Sample.pv_b
           (Sample.vg1 None false) Sample.cache_with_pv_b).
  - reflexivity.
  - reflexivity.
  - intros q rq Hq.
    change (vginfo_store Sample.cache_with_pv_b)
      with ({[ 2%nat := Sample.vg1 None false ]} : gmap nat lvmcache_vginfo)
      in Hq.
    apply lookup_singleton_Some in Hq as [<- <-].
    cbn. intros Hin. apply list_elem_of_singleton in Hin. discriminate.
Defined.

Lemma update_pvid_indexes_sample :
  let st := Sample.cache [] 0 None false in
  let st' := snd (_lvmcache_update_pvid Sample.id_len 1%nat "pvB" st) in
  lvmcache_info_from_pvid Sample.id_len Sample.vg_orphans Sample.orphan_vg
    (Some "pvB"%string) false st' = Some 1%nat
  /\ pvid_of_dev 1%nat st' = "pvB"%string
  /\ (pvid_of_dev 1%nat st <> EmptyString ->
      pvid_of_dev 1%nat st <> "pvB"%string ->
      dm_hash_lookup (_pvid_hash st') (pvid_of_dev 1%nat st) = None).
Proof.
  apply (update_pvid_indexes Sample.id_len Sample.vg_orphans Sample.orphan_vg
           1%nat (Sample.pv_a 0) "pvB" (Sample.cache [] 0 None false)).
  - reflexivity.
  - eexists. reflexivity.
  - vm_compute. lia.
  - reflexivity.
Defined.

Lemma update_pvid_idempotent_sample :
  let st' :=
    snd (_lvmcache_update_pvid Sample.id_len 1%nat "pvB"
           (Sample.cache [] 0 None false)) in
  _lvmcache_update_pvid Sample.id_len 1%nat "pvB" st' = (true, st').
Proof.
  apply (update_pvid_idempotent Sample.id_len 1%nat (Sample.pv_a 0) "pvB"
           (Sample.cache [] 0 None false)).
  - reflexivity.
  - eexists. reflexivity.
  - vm_compute. lia.
  - reflexivity.
Defined.

Lemma update_vgid_indexes_sample :
  let st := Sample.cache [] 0 None false in
  let st' :=
    snd (_lvmcache_update_vgid Sample.id_len (Some 1%nat) (Some 2%nat)
           "idnew" st) in
  lvmcache_vginfo_from_vgid Sample.id_len (Some "idnew"%string) st'
  = Some 2%nat
  /\ lvmcache_vginfo_from_vgid Sample.id_len (Some "idvg1"%string) st' = None.
Proof.
  destruct (update_vgid_indexes Sample.id_len (Some 1%nat) 2%nat
              (Sample.vg1 None false) "idnew" (Sample.cache [] 0 None false))
    as (Hnew & _ & Hold & _).
  - reflexivity.
  - eexists. reflexivity.
  - vm_compute. discriminate.
  - reflexivity.
  - split; [exact Hnew|]. apply Hold.
    + discriminate.
    + vm_compute. lia.
Defined.

Lemma free_vginfo_promotes_next_sample :
  let res := _free_vginfo Sample.id_len 2%nat Sample.cache_two_vg1 in
  fst res = true
  /\ lvmcache_vginfo_from_vgname Sample.id_len (Some "vg1"%string) None
       (snd res) = Some 5%nat
  /\ vginfo_store (snd res) !! 2%nat = None
  /\ 2%nat ∉ _vginfos (snd res).
Proof.
  apply (free_vginfo_promotes_next Sample.id_len 2%nat 5%nat []
           (Sample.vg1 None false) Sample.cache_two_vg1).
  - reflexivity.
  - reflexivity.
  - reflexivity.
Defined.

Lemma drop_vginfo_keeps_iff_sample :
  ~ is_Some
      (vginfo_store
         (snd (_drop_vginfo Sample.id_len Sample.orphan_vg (Some 1%nat)
                 (Some 2%nat) (Sample.cache [] 0 None false))) !! 2%nat).
Proof.
  intros Hkept.
  apply (drop_vginfo_keeps_iff Sample.id_len Sample.orphan_vg (Some 1%nat)
           2%nat (Sample.vg1 None false) (Sample.cache [] 0 None false))
    in Hkept.
  - destruct Hkept as [Horphan|(q & Hq & Hne)]; [discriminate|].
    apply list_elem_of_singleton in Hq. subst q. apply Hne. reflexivity.
  - reflexivity.
Defined.

Lemma lvmcache_del_unlinks_sample :
  let st := Sample.cache [] 0 None false in
  let st' := lvmcache_del Sample.id_len Sample.orphan_vg 1%nat st in
  info_store st' !! 1%nat = None
  /\ lvmcache_info_from_pvid Sample.id_len Sample.vg_orphans Sample.orphan_vg
       (Some "pvA"%string) false st' = None.
Proof.
  destruct (lvmcache_del_unlinks Sample.id_len Sample.vg_orphans
              Sample.orphan_vg 1%nat (Sample.pv_a 0)
              (Sample.cache [] 0 None false))
    as (Hgone & _ & Hpvid).
  - reflexivity.
  - split; [exact Hgone|]. apply Hpvid.
    + discriminate.
    + vm_compute. lia.
Defined.

Lemma is_orphan_follows_membership_sample :
  let st := Sample.cache_with_pv_b in
  let st1 := _vginfo_attach_info (Some 2%nat) 4%nat st in
  let st2 := _vginfo_detach_info 4%nat st1 in
  (exists r1, info_store st1 !! 4%nat = Some r1
     /\ lvmcache_is_orphan Sample.orphan_vg r1 st1 = Sample.orphan_vg "vg1")
  /\ (exists r2, info_store st2 !! 4%nat = Some r2
        /\ lvmcache_is_orphan Sample.orphan_vg r2 st2 = true).
Proof.
  apply (is_orphan_follows_membership Sample.orphan_vg 2%nat 4%nat
           Sample.pv_b (Sample.vg1 None false) Sample.cache_with_pv_b).
  - reflexivity.
  - reflexivity.
Defined.

Lemma pvs_follow_the_lock_of_their_vg_sample :
  let st := Sample.cache [] 0 None false in
  lvmcache_pvid_is_locked Sample.id_len Sample.vg_orphans Sample.orphan_vg
    (Some "pvA"%string)
    (lvmcache_lock_vgname Sample.id_len Sample.vg_global Sample.vg_orphans
       Sample.orphan_vg "vg1" st) = true
  /\ lvmcache_pvid_is_locked Sample.id_len Sample.vg_orphans Sample.orphan_vg
       (Some "pvA"%string)
       (snd (lvmcache_unlock_vgname Sample.id_len Sample.vg_global
               Sample.vg_orphans Sample.orphan_vg "vg1" st)) = false.
Proof.
  apply (pvs_follow_the_lock_of_their_vg Sample.id_len Sample.vg_global
           Sample.vg_orphans Sample.orphan_vg "pvA" 1%nat 2%nat
           (Sample.pv_a 0) (Sample.vg1 None false)
           (Sample.cache [] 0 None false)).
  - eexists. reflexivity.
  - reflexivity.
  - reflexivity.
  - reflexivity.
  - reflexivity.
  - reflexivity.
  - reflexivity.
Defined.

Lemma lvmcache_add_keeps_locks_sample :
  let st := Sample.cache ["vg1"%string] 0 None false in
  exists res st',
    lvmcache_add Sample.id_len Sample.exported_vg Sample.vg_global
      Sample.vg_orphans Sample.orphan_vg Sample.env Sample.text_labeller
      "pvB" 2%nat (Some "vg1"%string) (Some "idvg1"%string) 0 st
    = Some (res, st')
    /\ _lock_hash st' = _lock_hash st.
Proof.
  cbv zeta.
  destruct (lvmcache_add Sample.id_len Sample.exported_vg Sample.vg_global
              Sample.vg_orphans Sample.orphan_vg Sample.env
              Sample.text_labeller "pvB" 2%nat (Some "vg1"%string)
              (Some "idvg1"%string) 0
              (Sample.cache ["vg1"%string] 0 None false))
    as [[res st']|] eqn:Hadd.
  - exists res, st'. split; [reflexivity|].
    refine (proj1 (lvmcache_add_keeps_locks Sample.id_len Sample.exported_vg
                     Sample.vg_global Sample.vg_orphans Sample.orphan_vg
                     Sample.env Sample.text_labeller "pvB" 2%nat
                     (Some "vg1"%string) (Some "idvg1"%string) 0
                     (Sample.cache ["vg1"%string] 0 None false) res st'
                     _ Hadd)).
    eexists. reflexivity.
  - vm_compute in Hadd. discriminate.
Defined.

Lemma lvmcache_add_indexes_the_record_sample :
  let st := Sample.cache [] 0 None false in
  exists info st',
    lvmcache_add Sample.id_len Sample.exported_vg Sample.vg_global
      Sample.vg_orphans Sample.orphan_vg Sample.env Sample.text_labeller
      "pvB" 2%nat (Some "vg1"%string) (Some "idvg1"%string) 0 st
    = Some (Some info, st')
    /\ lvmcache_info_from_pvid Sample.id_len Sample.vg_orphans
         Sample.orphan_vg (Some "pvB"%string) false st' = Some info.
Proof.
  cbv zeta.
  destruct (lvmcache_add Sample.id_len Sample.exported_vg Sample.vg_global
              Sample.vg_orphans Sample.orphan_vg Sample.env
              Sample.text_labeller "pvB" 2%nat (Some "vg1"%string)
              (Some "idvg1"%string) 0 (Sample.cache [] 0 None false))
    as [[[info|] st']|] eqn:Hadd.
  - exists info, st'. split; [reflexivity|].
    refine (proj1 (lvmcache_add_indexes_the_record Sample.id_len
                     Sample.exported_vg Sample.vg_global Sample.vg_orphans
                     Sample.orphan_vg Sample.env Sample.text_labeller "pvB"
                     2%nat (Some "vg1"%string) (Some "idvg1"%string) 0
                     (Sample.cache [] 0 None false) info st' _ _ Hadd)).
    + eexists. reflexivity.
    + eexists. reflexivity.
  - vm_compute in Hadd. discriminate.
  - vm_compute in Hadd. discriminate.
Defined.

Lemma update_vgstatus_records_sanlock_sample :
  let res :=
    _lvmcache_update_vgstatus (Some 1%nat) 2 (Some "here"%string)
      (Some "sanlock"%string) (Sample.cache [] 0 None false) in
  lvmcache_contains_lock_type_sanlock (snd res) = true
  /\ exists vr',
       vginfo_store (snd res) !! 2%nat = Some vr'
       /\ vginfo_status vr' = 2
       /\ vginfo_lock_type vr' = Some "sanlock"%string
       /\ (forall host, Some "here"%string = Some host ->
                        vginfo_creation_host vr' = Some host).
Proof.
  apply (update_vgstatus_records_sanlock 1%nat 2%nat (Sample.pv_a 0)
           (Sample.vg1 None false) 2 (Some "here"%string)
           (Sample.cache [] 0 None false)).
  - reflexivity.
  - reflexivity.
  - reflexivity.
  - cbn. left.
  - reflexivity.
Defined.

Lemma update_vgname_joins_the_vg_sample :
  exists st',
    _lvmcache_update_vgname Sample.id_len Sample.exported_vg Sample.vg_global
      Sample.vg_orphans Sample.orphan_vg Sample.env (Some 4%nat)
      (Some "vg1"%string) "idvg1" 0 None (Some Sample.text_format)
      Sample.cache_with_pv_b = Some (true, st')
    /\ exists r' vr',
         info_store st' !! 4%nat = Some r'
         /\ info_vginfo r' = Some 2%nat
         /\ info_dev r' = info_dev Sample.pv_b
         /\ vginfo_store st' !! 2%nat = Some vr'
         /\ 4%nat ∈ vginfo_infos vr'
         /\ vginfo_fmt vr' = Some Sample.text_format
         /\ vginfo_vgname vr' = vginfo_vgname (Sample.vg1 None false).
Proof.
  apply (update_vgname_joins_the_vg Sample.id_len Sample.exported_vg
           Sample.vg_global Sample.vg_orphans Sample.orphan_vg Sample.env
           4%nat 2%nat Sample.pv_b (Sample.vg1 None false) "vg1" "idvg1" 0
           None (Some Sample.text_format) Sample.cache_with_pv_b).
  - reflexivity.
  - reflexivity.
  - reflexivity.
  - reflexivity.
Defined.
